(** * bplist.c: the binary property list codec of bpylist2

    A shallow embedding of [src/bplist.c] (parser and generator of Apple's
    [bplist00] format, written as a CPython extension) and the properties
    of it stated by the specification.

    Conventions of the embedding.
    - A byte is a [Z] in [0, 256); a buffer is a [list Z].
    - A C pointer into the input (or output) buffer is the byte offset from
      the buffer's first byte, a [Z]; pointer arithmetic is exact, the
      fixed-width integers ([size_t], [ssize_t], [uint32_t], ...) wrap as
      their C types do.
    - The host is little-endian (the first branch of the [#if] at the top
      of the source): [uintN_t] loads and stores are little-endian and the
      [Swap...] macros really swap.
    - A C function that can fail returns an [outcome]; reads and writes
      outside the buffer are [Fault]s, never silently absorbed.
    - Allocation ([malloc], [realloc], [_PyBytes_Resize], object creation)
      is assumed to succeed. *)

From Stdlib Require Import ZArith List Lia Bool.
From Stdlib Require Import Floats.SpecFloat.
Import ListNotations.
Local Open Scope Z_scope.
Set Warnings "-register-all".

(** ** Fixed-width integers *)

Definition u8 (x : Z) : Z := x mod 2 ^ 8.
Definition u16 (x : Z) : Z := x mod 2 ^ 16.
Definition u32 (x : Z) : Z := x mod 2 ^ 32.
Definition u64 (x : Z) : Z := x mod 2 ^ 64.

(** [(int64_t) x] for a 64-bit pattern [x]. *)
Definition i64 (x : Z) : Z :=
  let r := x mod 2 ^ 64 in if r <? 2 ^ 63 then r else r - 2 ^ 64.

(** ** Host memory: little-endian loads and stores *)

Fixpoint le_bytes (n : nat) (x : Z) : list Z :=
  match n with
  | O => []
  | S n' => x mod 256 :: le_bytes n' (x / 256)
  end.

Fixpoint le_value (bs : list Z) : Z :=
  match bs with
  | [] => 0
  | b :: r => b + 256 * le_value r
  end.

(** Big-endian counterparts: what the file format stores. *)
Definition be_bytes (n : nat) (x : Z) : list Z := rev (le_bytes n x).
Definition be_value (bs : list Z) : Z := le_value (rev bs).

(** ** The endian swaps of the source *)

(** [#define SwapBigToHost16(x) ((x & 0x00FF) << 8) | ((x & 0xFF00) >> 8)] *)
Definition SwapBigToHost16 (x : Z) : Z :=
  Z.lor (Z.shiftl (Z.land x 0x00FF) 8) (Z.shiftr (Z.land x 0xFF00) 8).

(** [__builtin_bswap32], [__builtin_bswap64]: the argument is converted to
    the builtin's parameter type, then its bytes are reversed. *)
Definition SwapBigToHost32 (x : Z) : Z := le_value (rev (le_bytes 4 (u32 x))).
Definition SwapBigToHost64 (x : Z) : Z := le_value (rev (le_bytes 8 (u64 x))).

Definition SwapHostToBig16 := SwapBigToHost16.
Definition SwapHostToBig32 := SwapBigToHost32.
Definition SwapHostToBig64 := SwapBigToHost64.

(** [__builtin_clzll]: the number of leading zero bits of a 64-bit value.
    GCC leaves the result at 0 undefined; the count of all 64 bits is what
    the generic implementation and [lzcnt] give.  No theorem below applies
    it to 0. *)
Fixpoint clz_from (k : nat) (x : Z) : Z :=
  match k with
  | O => 0
  | S k' => if Z.testbit x (Z.of_nat k') then 0 else 1 + clz_from k' x
  end.

Definition __builtin_clzll (x : Z) : Z := clz_from 64 (u64 x).

(** ** Results of C functions *)

Inductive py_error : Type :=
| InvalidHeader                     (* "invalid header for bplist" *)
| TooShort                          (* "bplist is too short to be valid" *)
| InvalidWidth (offset_not_ref : bool) (width : Z)
                                    (* "bplist parser found invalid %s: %d" *)
| OffsetTableOutOfBounds            (* "bplist offset_table is out of bounds ..." *)
| InvalidObjectIndex (index : Z)    (* "... hit an invalid object index: %zd" *)
| ObjectOutOfBounds (index : Z)     (* "... hit object out of bounds of input bytes ..." *)
| UnknownType (object_type : Z)     (* "... hit an unknown type: 0x%x" *)
| InvalidDataLength (length : Z)    (* "... hit an invalid data length: %zd" *)
| InvalidAsciiLength (length : Z)
| InvalidUtf16Length (length : Z)
| InvalidArrayLength (length : Z)
| InvalidDictLength (length : Z)
| UnsupportedObject                 (* "bplist generation does not support serializing ..." *)
| ObjectSpaceOverflow (length : Z)  (* "bplist generation object space overflow: ..." *)
| UnicodeDecodeError                (* raised by PyUnicode_DecodeASCII / DecodeUTF16 *)
| UnicodeEncodeError                (* raised by PyUnicode_AsASCIIString / the utf-16be encoder *)
| SystemError                       (* negative size passed to a CPython constructor *)
| MemoryError                       (* PyList_New beyond PY_SSIZE_T_MAX / sizeof(PyObject* ) *)
| TypeError.                        (* unhashable dict key, wrong argument type *)

Inductive outcome (A : Type) : Type :=
| Done (a : A)          (* normal return *)
| Raise (e : py_error)  (* NULL or -1, with a Python exception set *)
| Retry                 (* generate_plist_object's result 1 *)
| Abort                 (* abort() was called *)
| Fault                 (* access outside the buffer: undefined behaviour *)
| Starved.              (* the model's fuel ran out (unbounded recursion) *)

Arguments Done {A} a.
Arguments Raise {A} e.
Arguments Retry {A}.
Arguments Abort {A}.
Arguments Fault {A}.
Arguments Starved {A}.

Definition bind {A B : Type} (m : outcome A) (f : A -> outcome B) : outcome B :=
  match m with
  | Done a => f a
  | Raise e => Raise e
  | Retry => Retry
  | Abort => Abort
  | Fault => Fault
  | Starved => Starved
  end.

Declare Scope outcome_scope.
Delimit Scope outcome_scope with outcome.
Notation "x <- m ;; k" := (bind m (fun x => k))
  (at level 61, m at next level, right associativity) : outcome_scope.
Notation "' p <- m ;; k" := (bind m (fun x => match x with p => k end))
  (at level 61, p pattern, m at next level, right associativity) : outcome_scope.
Local Open Scope outcome_scope.

Definition is_done {A : Type} (m : outcome A) : bool :=
  match m with Done _ => true | _ => false end.

(** ** Reading the input buffer *)

Definition byte_at (mem : list Z) (p : Z) : option Z :=
  if p <? 0 then None else nth_error mem (Z.to_nat p).

Fixpoint read_bytes (mem : list Z) (p : Z) (n : nat) : option (list Z) :=
  match n with
  | O => Some []
  | S n' =>
      match byte_at mem p, read_bytes mem (p + 1) n' with
      | Some b, Some r => Some (b :: r)
      | _, _ => None
      end
  end.

(** [*(uintN_t* )p] on the host, [N = 8 * n]. *)
Definition load (mem : list Z) (n : nat) (p : Z) : outcome Z :=
  match read_bytes mem p n with
  | Some bs => Done (le_value bs)
  | None => Fault
  end.

(** ** IEEE-754 doubles

    A C [double] is kept as its 64-bit pattern; arithmetic goes through
    the Standard Library's executable specification of binary floats. *)

Module F64.

Definition prec : Z := 53.
Definition emax : Z := 1024.

Definition sign_bit (s : bool) : Z := if s then 2 ^ 63 else 0.

Definition of_bits (b : Z) : spec_float :=
  let s := Z.testbit b 63 in
  let e := (b / 2 ^ 52) mod 2 ^ 11 in
  let m := b mod 2 ^ 52 in
  if e =? 0 then
    if m =? 0 then S754_zero s else S754_finite s (Z.to_pos m) (-1074)
  else if e =? 2047 then
    if m =? 0 then S754_infinity s else S754_nan
  else S754_finite s (Z.to_pos (m + 2 ^ 52)) (e - 1075).

(** Inverse of [of_bits] on canonical values; a NaN gets the default
    quiet pattern. *)
Definition to_bits (f : spec_float) : Z :=
  match f with
  | S754_zero s => sign_bit s
  | S754_infinity s => sign_bit s + 2047 * 2 ^ 52
  | S754_nan => 0x7FF8000000000000
  | S754_finite s m e =>
      let m := Z.pos m in
      sign_bit s + (if m <? 2 ^ 52 then m else (e + 1075) * 2 ^ 52 + (m - 2 ^ 52))
  end.

Definition add (x y : spec_float) : spec_float := SFadd prec emax x y.
Definition sub (x y : spec_float) : spec_float := SFsub prec emax x y.

(** [(double) n] for an unsigned 64-bit [n], round to nearest even. *)
Definition of_u64 (n : Z) : spec_float := binary_normalize prec emax n 0 false.

(** [(uint64_t) x]: truncation toward zero; C leaves it undefined when
    the truncated value is not representable. *)
Definition to_u64 (f : spec_float) : option Z :=
  match f with
  | S754_zero _ => Some 0
  | S754_finite s m e =>
      let mag := if 0 <=? e then Z.pos m * 2 ^ e else Z.pos m / 2 ^ (- e) in
      if s then (if mag =? 0 then Some 0 else None)
      else if mag <? 2 ^ 64 then Some mag else None
  | _ => None
  end.

(** [(double) f] for a C [float] given by its 32-bit pattern: exact. *)
Definition of_float32_bits (b : Z) : spec_float :=
  let s := Z.testbit b 31 in
  let e := (b / 2 ^ 23) mod 2 ^ 8 in
  let m := b mod 2 ^ 23 in
  if e =? 0 then
    if m =? 0 then S754_zero s
    else binary_normalize prec emax (if s then - m else m) (-149) s
  else if e =? 255 then
    if m =? 0 then S754_infinity s else S754_nan
  else binary_normalize prec emax (if s then - (m + 2 ^ 23) else m + 2 ^ 23) (e - 150) s.

(** Exact comparison of a double with an integer, as Python's [==] does. *)
Definition eq_int (f : spec_float) (z : Z) : bool :=
  match f with
  | S754_zero _ => z =? 0
  | S754_finite s m e =>
      let v := if s then Z.neg m else Z.pos m in
      if 0 <=? e then z =? v * 2 ^ e
      else (v mod 2 ^ (- e) =? 0) && (z =? v / 2 ^ (- e))
  | _ => false
  end.

Definition eqb (x y : spec_float) : bool := SFeqb x y.

End F64.

(** [static const double unix2apple_epoch_delta = 978307200.0;] *)
Definition unix2apple_epoch_delta : spec_float := F64.of_u64 978307200.

(** ** Python objects

    The part of CPython's object model the codec touches.  [uid] and
    [timestamp] are the classes of [bpylist.archive_types], which the
    module looks up when it is initialised: [uid] subclasses [int],
    [timestamp] subclasses [float] (as the source's comment in
    [generate_plist_object] says); in CPython [bool] subclasses [int]. *)

Inductive PyTypeObject : Type :=
| PyBool_Type | PyLong_Type | uid_class
| PyFloat_Type | ts_class
| PyUnicode_Type | PyBytes_Type | PyByteArray_Type
| PyList_Type | PyDict_Type | PyNone_Type.

Inductive pyobj : Type :=
| PyBool (b : bool)
| PyLong (z : Z)                       (* int: unbounded *)
| PyUid (n : Z)                        (* uid(n) *)
| PyFloat (bits : Z)                   (* float, by its binary64 pattern *)
| PyTimestamp (bits : Z)               (* timestamp(x), x by its pattern *)
| PyUnicode (code_points : list Z)     (* str *)
| PyBytes (bs : list Z)
| PyByteArray (bs : list Z)
| PyList (items : list pyobj)
| PyDict (items : list (pyobj * pyobj)) (* entries in insertion order *)
| PyNone.

Definition Py_TYPE (o : pyobj) : PyTypeObject :=
  match o with
  | PyBool _ => PyBool_Type
  | PyLong _ => PyLong_Type
  | PyUid _ => uid_class
  | PyFloat _ => PyFloat_Type
  | PyTimestamp _ => ts_class
  | PyUnicode _ => PyUnicode_Type
  | PyBytes _ => PyBytes_Type
  | PyByteArray _ => PyByteArray_Type
  | PyList _ => PyList_Type
  | PyDict _ => PyDict_Type
  | PyNone => PyNone_Type
  end.

Definition type_eqb (a b : PyTypeObject) : bool :=
  match a, b with
  | PyBool_Type, PyBool_Type | PyLong_Type, PyLong_Type
  | uid_class, uid_class | PyFloat_Type, PyFloat_Type
  | ts_class, ts_class | PyUnicode_Type, PyUnicode_Type
  | PyBytes_Type, PyBytes_Type | PyByteArray_Type, PyByteArray_Type
  | PyList_Type, PyList_Type | PyDict_Type, PyDict_Type
  | PyNone_Type, PyNone_Type => true
  | _, _ => false
  end.

(** [PyType_IsSubtype]: reflexive, plus the three subclass edges. *)
Definition PyType_IsSubtype (a b : PyTypeObject) : bool :=
  type_eqb a b ||
  match a, b with
  | PyBool_Type, PyLong_Type | uid_class, PyLong_Type
  | ts_class, PyFloat_Type => true
  | _, _ => false
  end.

Definition PyLong_Check (o : pyobj) : bool := PyType_IsSubtype (Py_TYPE o) PyLong_Type.
Definition PyFloat_Check (o : pyobj) : bool := PyType_IsSubtype (Py_TYPE o) PyFloat_Type.
Definition PyUnicode_Check (o : pyobj) : bool := PyType_IsSubtype (Py_TYPE o) PyUnicode_Type.
Definition PyBytes_Check (o : pyobj) : bool := PyType_IsSubtype (Py_TYPE o) PyBytes_Type.
Definition PyDict_Check (o : pyobj) : bool := PyType_IsSubtype (Py_TYPE o) PyDict_Type.
Definition PyList_Check (o : pyobj) : bool := PyType_IsSubtype (Py_TYPE o) PyList_Type.

Definition PY_SSIZE_T_MAX : Z := 2 ^ 63 - 1.

(** The integer value of an [int] (or subclass) object. *)
Definition long_value (o : pyobj) : option Z :=
  match o with
  | PyBool b => Some (if b then 1 else 0)
  | PyLong z => Some z
  | PyUid n => Some n
  | _ => None
  end.

(** [PyLong_AsSsize_t], [PyLong_AsSize_t]: -1 (with an exception the
    source never looks at) when the value does not fit or the object is
    no [int]. *)
Definition PyLong_AsSsize_t (o : pyobj) : Z :=
  match long_value o with
  | Some z => if (- 2 ^ 63 <=? z) && (z <? 2 ^ 63) then z else -1
  | None => -1
  end.

Definition PyLong_AsSize_t (o : pyobj) : Z :=
  match long_value o with
  | Some z => if (0 <=? z) && (z <? 2 ^ 64) then z else 2 ^ 64 - 1
  | None => 2 ^ 64 - 1
  end.

(** [PyFloat_AsDouble], as a bit pattern. *)
Definition PyFloat_AsDouble (o : pyobj) : Z :=
  match o with
  | PyFloat b | PyTimestamp b => b
  | _ => F64.to_bits (S754_finite true 4503599627370496 (-52)) (* -1.0 *)
  end.

(** [PyUnicode_KIND]: the width of the widest code point. *)
Inductive unicode_kind : Type :=
| PyUnicode_1BYTE_KIND | PyUnicode_2BYTE_KIND | PyUnicode_4BYTE_KIND.

Definition max_code_point (s : list Z) : Z := fold_right Z.max 0 s.

Definition PyUnicode_KIND (o : pyobj) : unicode_kind :=
  match o with
  | PyUnicode s =>
      let m := max_code_point s in
      if m <? 256 then PyUnicode_1BYTE_KIND
      else if m <? 65536 then PyUnicode_2BYTE_KIND
      else PyUnicode_4BYTE_KIND
  | _ => PyUnicode_1BYTE_KIND
  end.

(** [PyUnicode_AsASCIIString]: strict. *)
Definition PyUnicode_AsASCIIString (o : pyobj) : outcome pyobj :=
  match o with
  | PyUnicode s =>
      if forallb (fun c => c <? 128) s then Done (PyBytes s)
      else Raise UnicodeEncodeError
  | _ => Raise TypeError
  end.

(** The [utf-16be] codec, strict: surrogate code points are refused. *)
Definition is_high_surrogate (u : Z) : bool := (0xD800 <=? u) && (u <=? 0xDBFF).
Definition is_low_surrogate (u : Z) : bool := (0xDC00 <=? u) && (u <=? 0xDFFF).

Fixpoint utf16_units (s : list Z) : option (list Z) :=
  match s with
  | [] => Some []
  | c :: r =>
      match utf16_units r with
      | None => None
      | Some us =>
          if is_high_surrogate c || is_low_surrogate c then None
          else if c <? 0x10000 then Some (c :: us)
          else Some (0xD800 + (c - 0x10000) / 0x400
                     :: 0xDC00 + (c - 0x10000) mod 0x400 :: us)
      end
  end.

Definition utf16be_encode (o : pyobj) : outcome pyobj :=
  match o with
  | PyUnicode s =>
      match utf16_units s with
      | Some us => Done (PyBytes (flat_map (be_bytes 2) us))
      | None => Raise UnicodeEncodeError
      end
  | _ => Raise TypeError
  end.

Fixpoint utf16_code_points (us : list Z) : option (list Z) :=
  match us with
  | [] => Some []
  | u :: r =>
      if is_high_surrogate u then
        match r with
        | l :: r' =>
            if is_low_surrogate l then
              option_map (cons (0x10000 + (u - 0xD800) * 0x400 + (l - 0xDC00)))
                         (utf16_code_points r')
            else None
        | [] => None
        end
      else if is_low_surrogate u then None
      else option_map (cons u) (utf16_code_points r)
  end.

Fixpoint be_units (bs : list Z) : list Z :=
  match bs with
  | hi :: lo :: r => hi * 256 + lo :: be_units r
  | _ => []
  end.

(** [PyBytes_AsStringAndSize]. *)
Definition PyBytes_AsStringAndSize (o : pyobj) : outcome (list Z) :=
  match o with
  | PyBytes bs => Done bs
  | _ => Raise TypeError
  end.

(** The constructors the parser calls on a span [[p, p + size)] of the
    input; a negative size is refused by each of them. *)
Definition read_span (mem : list Z) (p size : Z) : outcome (list Z) :=
  if size <? 0 then Raise SystemError
  else match read_bytes mem p (Z.to_nat size) with
       | Some bs => Done bs
       | None => Fault
       end.

Definition PyByteArray_FromStringAndSize (mem : list Z) (p size : Z) : outcome pyobj :=
  bs <- read_span mem p size ;; Done (PyByteArray bs).

Definition PyUnicode_DecodeASCII (mem : list Z) (p size : Z) : outcome pyobj :=
  bs <- read_span mem p size ;;
  if forallb (fun c => c <? 128) bs then Done (PyUnicode bs)
  else Raise UnicodeDecodeError.

Definition PyUnicode_DecodeUTF16 (mem : list Z) (p size : Z) : outcome pyobj :=
  bs <- read_span mem p size ;;
  match utf16_code_points (be_units bs) with
  | Some s => Done (PyUnicode s)
  | None => Raise UnicodeDecodeError
  end.

(** Dict keys.  The parser only ever builds keys that are numbers,
    strings, bytearrays, lists or dicts; the last three are unhashable.
    Two keys are the same entry when Python's [==] holds: numbers compare
    by value across [bool], [int], [uid], [float] and [timestamp]. *)
Definition hashable (o : pyobj) : bool :=
  match o with
  | PyByteArray _ | PyList _ | PyDict _ => false
  | _ => true
  end.

Definition key_eqb (a b : pyobj) : bool :=
  match a, b with
  | PyUnicode s, PyUnicode t => if list_eq_dec Z.eq_dec s t then true else false
  | PyBytes s, PyBytes t => if list_eq_dec Z.eq_dec s t then true else false
  | PyNone, PyNone => true
  | (PyFloat x | PyTimestamp x), (PyFloat y | PyTimestamp y) =>
      F64.eqb (F64.of_bits x) (F64.of_bits y)
  | (PyFloat x | PyTimestamp x), _ =>
      match long_value b with Some z => F64.eq_int (F64.of_bits x) z | None => false end
  | _, (PyFloat y | PyTimestamp y) =>
      match long_value a with Some z => F64.eq_int (F64.of_bits y) z | None => false end
  | _, _ =>
      match long_value a, long_value b with
      | Some x, Some y => x =? y
      | _, _ => false
      end
  end.

(** [PyDict_SetItem] on the entry list: an equal key keeps its place and
    takes the new value, a new key goes last. *)
Fixpoint dict_set (d : list (pyobj * pyobj)) (k v : pyobj) : list (pyobj * pyobj) :=
  match d with
  | [] => [(k, v)]
  | (k', v') :: r => if key_eqb k' k then (k', v) :: r else (k', v') :: dict_set r k v
  end.

Definition PyDict_SetItem (d : list (pyobj * pyobj)) (k v : pyobj)
  : outcome (list (pyobj * pyobj)) :=
  if hashable k then Done (dict_set d k v) else Raise TypeError.

(** ** The layout definitions of the source *)

(** [static const char* const bplist_header = "bplist00";] *)
Definition bplist_header : list Z := [0x62; 0x70; 0x6C; 0x69; 0x73; 0x74; 0x30; 0x30].
Definition bplist_header_length : Z := 8.

Module Trailer.
Record bplist_trailer : Type := {
  offset_size : Z;           (* uint8_t, after uint8_t padding[6] *)
  ref_size : Z;              (* uint8_t *)
  num_objects : Z;           (* uint64_t *)
  top_object : Z;            (* uint64_t *)
  offset_table_offset : Z    (* uint64_t *)
}.
Definition sizeof : Z := 32.
End Trailer.

Record bplist_parse_state : Type := {
  mem : list Z;              (* the bytes [data] points to *)
  data : Z;
  data_end : Z;
  ref_size : Z;
  offset_size : Z;
  object_count : Z;
  offset_table : Z
}.

(** [enum plist_type] *)
Definition plist_type_primitive : Z := 0x00.
Definition plist_type_false : Z := 0x08.
Definition plist_type_true : Z := 0x09.
Definition plist_type_int : Z := 0x10.
Definition plist_type_int8 : Z := 0x10.
Definition plist_type_int16 : Z := 0x11.
Definition plist_type_int32 : Z := 0x12.
Definition plist_type_int64 : Z := 0x13.
Definition plist_type_float : Z := 0x20.
Definition plist_type_float32 : Z := 0x22.
Definition plist_type_float64 : Z := 0x23.
Definition plist_type_date : Z := 0x30.
Definition plist_type_data : Z := 0x40.
Definition plist_type_ascii_string : Z := 0x50.
Definition plist_type_utf16_string : Z := 0x60.
Definition plist_type_uid : Z := 0x80.
Definition plist_type_array : Z := 0xA0.
Definition plist_type_dict : Z := 0xD0.

(** ** Parser *)

Definition unpack_int (mem : list Z) (int_width : Z) (int_ptr : Z) : outcome Z :=
  if int_width =? plist_type_int32 then
    x <- load mem 4 int_ptr ;; Done (i64 (SwapBigToHost32 x))
  else if int_width =? plist_type_int16 then
    x <- load mem 2 int_ptr ;; Done (i64 (SwapBigToHost16 x))
  else if int_width =? plist_type_int8 then
    x <- load mem 1 int_ptr ;; Done (i64 x)
  else (* case plist_type_int64, default *)
    x <- load mem 8 int_ptr ;; Done (i64 (SwapBigToHost64 x)).

Definition unpack_uint (mem : list Z) (int_width : Z) (int_ptr : Z) : outcome Z :=
  if int_width =? 4 then
    x <- load mem 4 int_ptr ;; Done (u64 (SwapBigToHost32 x))
  else if int_width =? 2 then
    x <- load mem 2 int_ptr ;; Done (u64 (SwapBigToHost16 x))
  else if int_width =? 1 then
    x <- load mem 1 int_ptr ;; Done (u64 x)
  else (* case 8, default *)
    x <- load mem 8 int_ptr ;; Done (u64 (SwapBigToHost64 x)).

Definition parse_int (mem : list Z) (type : Z) (object : Z) : outcome pyobj :=
  raw_int <- unpack_int mem type object ;;
  Done (PyLong raw_int).

Definition parse_uid (mem : list Z) (type : Z) (object : Z) : outcome pyobj :=
  let width := Z.land type 0xF + 1 in
  raw_int <- unpack_uint mem width object ;;
  Done (PyUid raw_int).

Definition parse_float32 (mem : list Z) (object : Z) : outcome pyobj :=
  x <- load mem 4 object ;;
  Done (PyFloat (F64.to_bits (F64.of_float32_bits (SwapBigToHost32 x)))).

Definition parse_float64 (mem : list Z) (object : Z) : outcome pyobj :=
  x <- load mem 8 object ;;
  Done (PyFloat (SwapBigToHost64 x)).

Definition parse_date (mem : list Z) (object : Z) : outcome pyobj :=
  x <- load mem 8 object ;;
  let float_date :=
    F64.add unix2apple_epoch_delta (F64.of_bits (SwapBigToHost64 x)) in
  Done (PyTimestamp (F64.to_bits float_date)).

(** Returns the length and the advanced [object] pointer. *)
Definition unpack_length (mem : list Z) (type : Z) (object : Z) : outcome (Z * Z) :=
  let length := Z.land type 0x0F in
  if length =? 0x0F then
    int_type <- load mem 1 object ;;
    let object := object + 1 in
    let int_width := Z.shiftl 1 (Z.land int_type 0x0F) in
    length <- unpack_int mem int_type object ;;
    Done (length, object + int_width)
  else Done (length, object).

Definition parse_data (mem : list Z) (type : Z) (object object_end : Z) : outcome pyobj :=
  '(length, object) <- unpack_length mem type object ;;
  if object + length <? object_end then
    PyByteArray_FromStringAndSize mem object length
  else Raise (InvalidDataLength length).

Definition parse_ascii_string (mem : list Z) (type : Z) (object object_end : Z)
  : outcome pyobj :=
  '(length, object) <- unpack_length mem type object ;;
  if object + length <? object_end then
    PyUnicode_DecodeASCII mem object length
  else Raise (InvalidAsciiLength length).

Definition parse_utf16_string (mem : list Z) (type : Z) (object object_end : Z)
  : outcome pyobj :=
  '(length, object) <- unpack_length mem type object ;;
  let length := i64 (length * 2) in
  if object + length <? object_end then
    PyUnicode_DecodeUTF16 mem object length
  else Raise (InvalidUtf16Length length).

(** [PyList_New]: CPython refuses a negative size and one whose item
    array cannot be addressed. *)
Definition PyList_New (size : Z) : outcome (list pyobj) :=
  if size <? 0 then Raise SystemError
  else if size >? PY_SSIZE_T_MAX / 8 then Raise MemoryError
  else Done [].

Section Containers.

(** The forward declaration of [parse_plist_object]. *)
Variable parse_plist_object : bplist_parse_state -> Z -> outcome pyobj.

(** The [for] loop of [parse_array]; [n] bounds the iterations left. *)
Fixpoint parse_array_loop (n : nat) (state : bplist_parse_state)
    (i length object : Z) (lst : list pyobj) : outcome (list pyobj) :=
  if i <? length then
    match n with
    | O => Starved
    | S n' =>
        list_obj_index <- unpack_uint (mem state) (ref_size state) object ;;
        let object := object + ref_size state in
        list_obj <- parse_plist_object state list_obj_index ;;
        parse_array_loop n' state (i + 1) length object (lst ++ [list_obj])
    end
  else Done lst.

Definition parse_array (n : nat) (state : bplist_parse_state)
    (type : Z) (object object_end : Z) : outcome pyobj :=
  '(slength, object) <- unpack_length (mem state) type object ;;
  let ref_sz := ref_size state in
  if object + u64 (slength * ref_sz) >? object_end then
    Raise (InvalidArrayLength slength)
  else
    lst <- PyList_New slength ;;
    let length := u64 slength in
    lst <- parse_array_loop n state 0 length object lst ;;
    Done (PyList lst).

(** The [for] loop of [parse_dict].  Both children are parsed before
    either result is looked at; when both fail, the exception left is the
    one set last. *)
Fixpoint parse_dict_loop (n : nat) (state : bplist_parse_state)
    (i length key_object val_object : Z) (dict : list (pyobj * pyobj))
  : outcome (list (pyobj * pyobj)) :=
  if i <? length then
    match n with
    | O => Starved
    | S n' =>
        key_obj_index <- unpack_uint (mem state) (ref_size state) key_object ;;
        val_obj_index <- unpack_uint (mem state) (ref_size state) val_object ;;
        let key_object := key_object + ref_size state in
        let val_object := val_object + ref_size state in
        match parse_plist_object state key_obj_index with
        | Done key_obj =>
            val_obj <- parse_plist_object state val_obj_index ;;
            dict <- PyDict_SetItem dict key_obj val_obj ;;
            parse_dict_loop n' state (i + 1) length key_object val_object dict
        | Raise e =>
            _ <- parse_plist_object state val_obj_index ;; Raise e
        | Retry => Retry
        | Abort => Abort
        | Fault => Fault
        | Starved => Starved
        end
    end
  else Done dict.

Definition parse_dict (n : nat) (state : bplist_parse_state)
    (type : Z) (object object_end : Z) : outcome pyobj :=
  '(length, object) <- unpack_length (mem state) type object ;;
  let length := u64 length in
  let ref_sz := ref_size state in
  if object + u64 (length * ref_sz * 2) >? object_end then
    Raise (InvalidDictLength length)
  else
    let dict := [] in
    let key_object := object in
    let val_object := object + u64 (length * ref_size state) in
    dict <- parse_dict_loop n state 0 length key_object val_object dict ;;
    Done (PyDict dict).

(** The body of [parse_plist_object]; [n] is handed to the container
    loops. *)
Definition parse_plist_object_body (n : nat) (state : bplist_parse_state)
    (object_index : Z) : outcome pyobj :=
  let object_ref :=
    offset_table state + u64 (object_index * offset_size state) in
  if (object_ref <=? data state) || (object_ref >=? data_end state) then
    Raise (InvalidObjectIndex object_index)
  else
    off <- unpack_uint (mem state) (offset_size state) object_ref ;;
    let object := data state + off in
    if (object <=? data state) || (object >=? data_end state) then
      Raise (ObjectOutOfBounds object_index)
    else
      object_type <- load (mem state) 1 object ;;
      let object := object + 1 in
      let tag := Z.land object_type 0xF0 in
      if tag =? plist_type_int then
        parse_int (mem state) object_type object
      else if tag =? plist_type_uid then
        parse_uid (mem state) object_type object
      else if tag =? plist_type_ascii_string then
        parse_ascii_string (mem state) object_type object (data_end state)
      else if tag =? plist_type_utf16_string then
        parse_utf16_string (mem state) object_type object (data_end state)
      else if tag =? plist_type_data then
        parse_data (mem state) object_type object (data_end state)
      else if tag =? plist_type_dict then
        parse_dict n state object_type object (data_end state)
      else if tag =? plist_type_array then
        parse_array n state object_type object (data_end state)
      else if tag =? plist_type_primitive then
        if object_type =? plist_type_false then Done (PyBool false)
        else if object_type =? plist_type_true then Done (PyBool true)
        else Raise (UnknownType object_type)
      else if tag =? plist_type_float then
        if object_type =? 0x23 then parse_float64 (mem state) object
        else if object_type =? 0x22 then parse_float32 (mem state) object
        else Raise (UnknownType object_type)
      else if tag =? plist_type_date then
        parse_date (mem state) object
      else Raise (UnknownType object_type).

End Containers.

(** [parse_plist_object].  The C function recurses without any bound (a
    file whose references form a cycle never returns); [fuel] bounds the
    nesting depth and the length of each container loop. *)
Fixpoint parse_plist_object (fuel : nat) (state : bplist_parse_state)
    (object_index : Z) {struct fuel} : outcome pyobj :=
  match fuel with
  | O => Starved
  | S fuel' =>
      parse_plist_object_body (parse_plist_object fuel') fuel' state object_index
  end.

Definition check_int_width (width : Z) (is_offset_size : bool) : outcome unit :=
  if negb (width =? 1) && negb (width =? 2) && negb (width =? 4) && negb (width =? 8)
  then Raise (InvalidWidth is_offset_size width)
  else Done tt.

Definition parse_plist (fuel : nat) (plist_data : pyobj) : outcome pyobj :=
  signed_data <- PyBytes_AsStringAndSize plist_data ;;
  if negb (if list_eq_dec Z.eq_dec (firstn 8 signed_data) bplist_header
           then true else false)
  then Raise InvalidHeader
  else
    let data_len := Z.of_nat (length signed_data) in
    if data_len <? bplist_header_length + Trailer.sizeof then Raise TooShort
    else
      let data_ptr := 0 in
      let data_end_ptr := data_ptr + data_len in
      let trailer := data_end_ptr - Trailer.sizeof in
      t_offset_size <- load signed_data 1 (trailer + 6) ;;
      t_ref_size <- load signed_data 1 (trailer + 7) ;;
      t_num_objects <- load signed_data 8 (trailer + 8) ;;
      t_top_object <- load signed_data 8 (trailer + 16) ;;
      t_offset_table_offset <- load signed_data 8 (trailer + 24) ;;
      let state := {|
        mem := signed_data;
        data := data_ptr;
        data_end := trailer; (* minor lie *)
        ref_size := t_ref_size;
        offset_size := t_offset_size;
        object_count := SwapBigToHost64 t_num_objects;
        offset_table := data_ptr + SwapBigToHost64 t_offset_table_offset
      |} in
      _ <- check_int_width (offset_size state) true ;;
      _ <- check_int_width (ref_size state) false ;;
      if offset_table state >? data_end state then Raise OffsetTableOutOfBounds
      else
        let top_object_index := SwapBigToHost64 t_top_object in
        parse_plist_object fuel state top_object_index.

(** ** Generator *)

(** The two growing buffers are kept as what has been written so far:
    [objects] holds the bytes of [[objects, current_object)], [offsets]
    the entries of [[offsets, current_offset)]; [objects_len] and
    [offsets_len] are the allocated lengths, [objects_end - objects] and
    [offsets_end - offsets].  [state->plist] is the bytes object that owns
    [objects]. *)
Record bplist_generate_state : Type := {
  offsets : list Z;
  offsets_len : Z;
  objects : list Z;
  objects_len : Z;
  trailer : Trailer.bplist_trailer
}.

Definition current_object (state : bplist_generate_state) : Z :=
  Z.of_nat (length (objects state)).

Definition current_offset (state : bplist_generate_state) : Z :=
  Z.of_nat (length (offsets state)).

Definition set_objects (state : bplist_generate_state) (o : list Z) :=
  {| offsets := offsets state; offsets_len := offsets_len state;
     objects := o; objects_len := objects_len state; trailer := trailer state |}.

Definition set_objects_len (state : bplist_generate_state) (n : Z) :=
  {| offsets := offsets state; offsets_len := offsets_len state;
     objects := objects state; objects_len := n; trailer := trailer state |}.

Definition set_offsets (state : bplist_generate_state) (o : list Z) (n : Z) :=
  {| offsets := o; offsets_len := n;
     objects := objects state; objects_len := objects_len state;
     trailer := trailer state |}.

Definition set_trailer (state : bplist_generate_state) (t : Trailer.bplist_trailer) :=
  {| offsets := offsets state; offsets_len := offsets_len state;
     objects := objects state; objects_len := objects_len state; trailer := t |}.

Definition set_num_objects (t : Trailer.bplist_trailer) (n : Z) :=
  {| Trailer.offset_size := Trailer.offset_size t;
     Trailer.ref_size := Trailer.ref_size t;
     Trailer.num_objects := n;
     Trailer.top_object := Trailer.top_object t;
     Trailer.offset_table_offset := Trailer.offset_table_offset t |}.

Definition set_offset_size (t : Trailer.bplist_trailer) (n : Z) :=
  {| Trailer.offset_size := n;
     Trailer.ref_size := Trailer.ref_size t;
     Trailer.num_objects := Trailer.num_objects t;
     Trailer.top_object := Trailer.top_object t;
     Trailer.offset_table_offset := Trailer.offset_table_offset t |}.

Definition set_offset_table_offset (t : Trailer.bplist_trailer) (n : Z) :=
  {| Trailer.offset_size := Trailer.offset_size t;
     Trailer.ref_size := Trailer.ref_size t;
     Trailer.num_objects := Trailer.num_objects t;
     Trailer.top_object := Trailer.top_object t;
     Trailer.offset_table_offset := n |}.

Definition len (bs : list Z) : Z := Z.of_nat (length bs).

(** Stores through [state->current_object], which then advances past
    them.  Nothing in the C code checks the space left: a store beyond
    [objects_end] is a heap overflow. *)
Definition emit (state : bplist_generate_state) (bs : list Z)
  : outcome bplist_generate_state :=
  if current_object state + len bs <=? objects_len state
  then Done (set_objects state (objects state ++ bs))
  else Fault.

(** [state->current_object += n]: the bytes stepped over are not
    written (they read as 0 here until a later store fills them). *)
Definition reserve (state : bplist_generate_state) (n : Z)
  : outcome bplist_generate_state :=
  emit state (repeat 0 (Z.to_nat n)).

(** A store at [state->objects + p], behind [current_object]. *)
Definition poke (state : bplist_generate_state) (p : Z) (bs : list Z)
  : outcome bplist_generate_state :=
  if (0 <=? p) && (p + len bs <=? current_object state)
  then Done (set_objects state
               (firstn (Z.to_nat p) (objects state) ++ bs
                ++ skipn (Z.to_nat p + length bs) (objects state)))
  else Fault.

Definition pack_int (state : bplist_generate_state) (int_val : Z)
  : outcome bplist_generate_state :=
  let swappy := u64 int_val in
  let int_width := if swappy =? 0 then 64 else __builtin_clzll swappy in
  if (0 <=? int_width) && (int_width <=? 31) then
    emit state (plist_type_int64 :: le_bytes 8 (SwapHostToBig64 swappy))
  else if (32 <=? int_width) && (int_width <=? 47) then
    emit state (plist_type_int32 :: le_bytes 4 (SwapHostToBig32 swappy))
  else if (48 <=? int_width) && (int_width <=? 55) then
    emit state (plist_type_int16 :: le_bytes 2 (SwapHostToBig16 swappy))
  else
    emit state [plist_type_int8; u8 swappy].

(** [pack_uint]: the bytes it stores at the pointer it is given. *)
Definition pack_uint (int_width : Z) (int_val : Z) : outcome (list Z) :=
  if int_width =? 1 then Done [u8 int_val]
  else if int_width =? 2 then Done (le_bytes 2 (SwapBigToHost16 int_val))
  else if int_width =? 4 then Done (le_bytes 4 (SwapBigToHost32 int_val))
  else if int_width =? 8 then Done (le_bytes 8 (SwapBigToHost64 int_val))
  else Abort. (* this is unreachable *)

Definition generate_int (state : bplist_generate_state) (py_obj : pyobj)
  : outcome bplist_generate_state :=
  pack_int state (PyLong_AsSsize_t py_obj).

Definition generate_uid (state : bplist_generate_state) (py_obj : pyobj)
  : outcome bplist_generate_state :=
  let uid_val := PyLong_AsSize_t py_obj in
  let int_width := __builtin_clzll uid_val in
  if (0 <=? int_width) && (int_width <=? 31) then
    emit state (Z.lor plist_type_uid 0x7 :: le_bytes 8 (SwapHostToBig64 uid_val))
  else if (32 <=? int_width) && (int_width <=? 47) then
    emit state (Z.lor plist_type_uid 0x3 :: le_bytes 4 (SwapHostToBig32 uid_val))
  else if (48 <=? int_width) && (int_width <=? 55) then
    emit state (Z.lor plist_type_uid 0x1 :: le_bytes 2 (SwapHostToBig16 uid_val))
  else
    emit state [Z.lor plist_type_uid 0x0; u8 uid_val].

Definition generate_float (state : bplist_generate_state) (py_obj : pyobj)
  : outcome bplist_generate_state :=
  let what_we_want := PyFloat_AsDouble py_obj in
  emit state (plist_type_float64 :: le_bytes 8 (SwapBigToHost64 what_we_want)).

(** [generate_date] subtracts the epoch delta from [what_we_want], the
    [uint64_t] member of the union: the bit pattern is converted to
    [double], the difference is taken in [double], and the result is
    converted back to the [uint64_t] that [__builtin_bswap64] takes. *)
Definition generate_date (state : bplist_generate_state) (py_obj : pyobj)
  : outcome bplist_generate_state :=
  let what_we_want := PyFloat_AsDouble py_obj in
  match F64.to_u64 (F64.sub (F64.of_u64 what_we_want) unix2apple_epoch_delta) with
  | Some x => emit state (plist_type_date :: le_bytes 8 (SwapBigToHost64 x))
  | None => Fault
  end.

Definition pack_type_and_length (state : bplist_generate_state) (type length : Z)
  : outcome bplist_generate_state :=
  if length <? 0x0F then emit state [u8 (Z.lor type length)]
  else
    state <- emit state [Z.lor type 0x0F] ;;
    pack_int state length.

(** [_PyBytes_Resize] keeps the contents; a pointer past the new end
    would be dangling. *)
Definition resize_plist_buffer (state : bplist_generate_state) (new_length : Z)
  : outcome bplist_generate_state :=
  if new_length <? current_object state then Fault
  else Done (set_objects_len state new_length).

Definition resize_plist_if_needed (state : bplist_generate_state) (required_space : Z)
  : outcome bplist_generate_state :=
  let remaining_space := u64 (objects_len state - current_object state) in
  if remaining_space <? required_space then
    let new_length := u64 (objects_len state * 2) in
    resize_plist_buffer state new_length
  else Done state.

Definition grow_offset_table_buffer_if_needed (state : bplist_generate_state)
  : outcome bplist_generate_state :=
  let remaining_space := u64 (offsets_len state - current_offset state) in
  if remaining_space >=? Trailer.offset_size (trailer state) then Done state
  else
    let new_length := u64 (offsets_len state * 2) in
    Done (set_offsets state (offsets state) new_length).

Definition pack_data (state : bplist_generate_state) (py_obj : pyobj) (type : Z)
  : outcome bplist_generate_state :=
  bytes <- PyBytes_AsStringAndSize py_obj ;;
  let bytes_length := len bytes in
  state <- pack_type_and_length state type bytes_length ;;
  let length := bytes_length in
  state <- resize_plist_if_needed state length ;;
  emit state bytes.

Definition generate_data (state : bplist_generate_state) (py_obj : pyobj)
  : outcome bplist_generate_state :=
  pack_data state py_obj plist_type_data.

Definition generate_ascii (state : bplist_generate_state) (py_obj : pyobj)
  : outcome bplist_generate_state :=
  str_bytes <- PyUnicode_AsASCIIString py_obj ;;
  pack_data state str_bytes plist_type_ascii_string.

Definition generate_utf16 (state : bplist_generate_state) (py_obj : pyobj)
  : outcome bplist_generate_state :=
  str_bytes <- utf16be_encode py_obj ;;
  bytes <- PyBytes_AsStringAndSize str_bytes ;;
  let length := len bytes in
  state <- pack_type_and_length state plist_type_utf16_string (length / 2) ;;
  state <- resize_plist_if_needed state length ;;
  emit state bytes.

Definition generate_string (state : bplist_generate_state) (py_obj : pyobj)
  : outcome bplist_generate_state :=
  match PyUnicode_KIND py_obj with
  | PyUnicode_1BYTE_KIND => generate_ascii state py_obj
  | _ => generate_utf16 state py_obj
  end.

Section GenerateContainers.

(** The forward declaration of [generate_plist_object]. *)
Variable generate_plist_object :
  bplist_generate_state -> pyobj -> outcome bplist_generate_state.

(** The [for] loop of [generate_array] over the items of the list. *)
Fixpoint generate_array_loop (state : bplist_generate_state)
    (ref_sz current_object_offset : Z) (items : list pyobj)
  : outcome bplist_generate_state :=
  match items with
  | [] => Done state
  | list_obj :: rest =>
      bs <- pack_uint ref_sz (Trailer.num_objects (trailer state)) ;;
      state <- poke state current_object_offset bs ;;
      let current_object_offset := current_object_offset + ref_sz in
      state <- generate_plist_object state list_obj ;;
      generate_array_loop state ref_sz current_object_offset rest
  end.

Definition generate_array (state : bplist_generate_state) (items : list pyobj)
  : outcome bplist_generate_state :=
  let length := Z.of_nat (length items) in
  state <- pack_type_and_length state plist_type_array length ;;
  let ref_sz := Trailer.ref_size (trailer state) in
  let ref_length := u64 (ref_sz * length) in
  state <- resize_plist_if_needed state ref_length ;;
  let current_object_offset := current_object state in
  state <- reserve state ref_length ;;
  generate_array_loop state ref_sz current_object_offset items.

(** The [while (PyDict_Next ...)] loop of [generate_dict]. *)
Fixpoint generate_dict_loop (state : bplist_generate_state)
    (ref_sz key_ref_offset val_ref_offset : Z) (items : list (pyobj * pyobj))
  : outcome bplist_generate_state :=
  match items with
  | [] => Done state
  | (key, val) :: rest =>
      bs <- pack_uint ref_sz (Trailer.num_objects (trailer state)) ;;
      state <- poke state key_ref_offset bs ;;
      let key_ref_offset := key_ref_offset + ref_sz in
      state <- generate_plist_object state key ;;
      bs <- pack_uint ref_sz (Trailer.num_objects (trailer state)) ;;
      state <- poke state val_ref_offset bs ;;
      let val_ref_offset := val_ref_offset + ref_sz in
      state <- generate_plist_object state val ;;
      generate_dict_loop state ref_sz key_ref_offset val_ref_offset rest
  end.

Definition generate_dict (state : bplist_generate_state) (items : list (pyobj * pyobj))
  : outcome bplist_generate_state :=
  let length := Z.of_nat (length items) in
  state <- pack_type_and_length state plist_type_dict length ;;
  let ref_sz := Trailer.ref_size (trailer state) in
  let ref_length := u64 (ref_sz * length) in
  state <- resize_plist_if_needed state (u64 (ref_length * 2)) ;;
  let key_ref_offset := current_object state in
  let val_ref_offset := key_ref_offset + ref_length in
  state <- reserve state (u64 (ref_length * 2)) ;;
  generate_dict_loop state ref_sz key_ref_offset val_ref_offset items.

End GenerateContainers.

Definition push_offset (state : bplist_generate_state) (v : Z)
  : outcome bplist_generate_state :=
  if current_offset state <? offsets_len state
  then Done (set_offsets state (offsets state ++ [u32 v]) (offsets_len state))
  else Fault.

(** The statements of [generate_plist_object] before its type dispatch:
    the object's offset is recorded, the object counted, and room made
    for a fixed-width object. *)
Definition generate_plist_object_prologue (state : bplist_generate_state)
  : outcome bplist_generate_state :=
  state <- grow_offset_table_buffer_if_needed state ;;
  state <- push_offset state (current_object state) ;;
  let state :=
    set_trailer state
      (set_num_objects (trailer state)
         (u64 (Trailer.num_objects (trailer state) + 1))) in
  if Trailer.num_objects (trailer state) =? Z.shiftl 1 16 - 1 then Retry
  else
    (* arbitrarily deciding that 32 bytes is the maximum number of bytes
       we need for a single fixed width object *)
    resize_plist_if_needed state 32.

Fixpoint generate_plist_object (state : bplist_generate_state) (py_obj : pyobj)
    {struct py_obj} : outcome bplist_generate_state :=
  state <- generate_plist_object_prologue state ;;
  let type := Py_TYPE py_obj in
  if type_eqb type uid_class then generate_uid state py_obj
  else if PyLong_Check py_obj then generate_int state py_obj
  else if PyUnicode_Check py_obj then generate_string state py_obj
  else if PyBytes_Check py_obj then generate_data state py_obj
  else if PyDict_Check py_obj then
    match py_obj with
    | PyDict items => generate_dict generate_plist_object state items
    | _ => Raise TypeError
    end
  else if PyList_Check py_obj then
    match py_obj with
    | PyList items => generate_array generate_plist_object state items
    | _ => Raise TypeError
    end
  else if type_eqb type PyBool_Type then
    emit state [match py_obj with
                | PyBool true => plist_type_true
                | _ => plist_type_false
                end]
  else if type_eqb type ts_class then generate_date state py_obj
  else if PyFloat_Check py_obj then generate_float state py_obj
  else Raise UnsupportedObject.

(** The bytes of the trailer struct as [memcpy] copies them. *)
Definition trailer_bytes (t : Trailer.bplist_trailer) : list Z :=
  repeat 0 6
  ++ [u8 (Trailer.offset_size t); u8 (Trailer.ref_size t)]
  ++ le_bytes 8 (Trailer.num_objects t)
  ++ le_bytes 8 (Trailer.top_object t)
  ++ le_bytes 8 (Trailer.offset_table_offset t).

(** The [for] loop writing the offset table. *)
Fixpoint write_offset_table (state : bplist_generate_state) (offset_sz : Z)
    (entries : list Z) : outcome bplist_generate_state :=
  match entries with
  | [] => Done state
  | offset :: rest =>
      bs <- pack_uint offset_sz offset ;;
      state <- emit state bs ;;
      write_offset_table state offset_sz rest
  end.

Definition generate_plist_offset_table_and_trailer (state : bplist_generate_state)
  : outcome bplist_generate_state :=
  let objects_length := current_object state in
  new_offset_size <-
    (if objects_length <=? 0xFF then Done 1
     else if objects_length <=? 0xFFFF then Done 2
     else if objects_length <=? 0xFFFFFFFF then Done 4
     else Raise (ObjectSpaceOverflow objects_length)) ;;
  let state := set_trailer state (set_offset_size (trailer state) new_offset_size) in
  let num_objects := Trailer.num_objects (trailer state) in
  let offset_sz := Trailer.offset_size (trailer state) in
  let offset_table_length := u64 (num_objects * offset_sz) in
  let trailer_length := Trailer.sizeof in
  let final_size := u64 (objects_length + offset_table_length + trailer_length) in
  state <- resize_plist_buffer state final_size ;;
  let state :=
    set_trailer state (set_offset_table_offset (trailer state) (current_object state)) in
  state <- write_offset_table state offset_sz
             (firstn (Z.to_nat num_objects) (offsets state)) ;;
  let state :=
    set_trailer state (set_num_objects (trailer state) (SwapHostToBig64 num_objects)) in
  let state :=
    set_trailer state
      (set_offset_table_offset (trailer state)
         (SwapHostToBig64 (Trailer.offset_table_offset (trailer state)))) in
  (* memcpy of the trailer; current_object is left where it is *)
  emit state (trailer_bytes (trailer state)).

Definition initial_offset_table_length : Z := 4096.
Definition initial_objects_buffer_length : Z := 4096.

Definition generate_plist (py_obj : pyobj) : outcome pyobj :=
  let state := {|
    offsets := [];
    offsets_len := initial_offset_table_length / 4;
    objects := [];
    objects_len := initial_objects_buffer_length;
    trailer := {| Trailer.offset_size := 4;
                  Trailer.ref_size := 2;
                  Trailer.num_objects := 0;
                  Trailer.top_object := 0;
                  Trailer.offset_table_offset := 0 |}
  |} in
  (* start off by adding the plist header *)
  state <- emit state bplist_header ;;
  (* and then the rest of the plist *)
  match generate_plist_object state py_obj with
  | Done state =>
      state <- generate_plist_offset_table_and_trailer state ;;
      Done (PyBytes (objects state))
  | Retry => Abort (* retry with larger ref_size *)
  | Raise e => Raise e
  | Abort => Abort
  | Fault => Fault
  | Starved => Starved
  end.

(* ================================================================== *)
(** * The encoding the specification describes

    Definitions written from the specification's words, for comparison
    with the embedded code. *)

(** Spec 4.1, [pack_int]: eight bytes when a bit of the high 32 bits is
    set, else the smallest of 1, 2 and 4 bytes that holds the value. *)
Definition int_object (v : Z) : list Z :=
  let x := u64 v in
  if Z.shiftr x 32 =? 0 then
    if x <=? 255 then 0x10 :: be_bytes 1 x
    else if x <=? 65535 then 0x11 :: be_bytes 2 x
    else 0x12 :: be_bytes 4 x
  else 0x13 :: be_bytes 8 x.

(** The trailer the finalizer copies out: counts and offsets big-endian. *)
Definition final_trailer (state : bplist_generate_state) (offset_sz : Z)
  : Trailer.bplist_trailer :=
  {| Trailer.offset_size := offset_sz;
     Trailer.ref_size := Trailer.ref_size (trailer state);
     Trailer.num_objects := SwapHostToBig64 (Trailer.num_objects (trailer state));
     Trailer.top_object := Trailer.top_object (trailer state);
     Trailer.offset_table_offset := SwapHostToBig64 (current_object state) |}.

(** Spec 3, file layout: the trailer a file ends with. *)
Definition read_trailer (file : list Z) : Trailer.bplist_trailer :=
  let t := skipn (length file - 32) file in
  {| Trailer.offset_size := nth 6 t 0;
     Trailer.ref_size := nth 7 t 0;
     Trailer.num_objects := be_value (firstn 8 (skipn 8 t));
     Trailer.top_object := be_value (firstn 8 (skipn 16 t));
     Trailer.offset_table_offset := be_value (firstn 8 (skipn 24 t)) |}.


(** The window the parser checks the address of a table entry against. *)
Definition entry_in_window (state : bplist_parse_state) (object_index : Z) : Prop :=
  data state
  < offset_table state + u64 (object_index * offset_size state)
  < data_end state.

(** Spec 3, per-object layout and 4.3: the bytes of one value and of the
    values below it, when the value is object number [n].  A container
    holds the numbers of its children, two bytes each ([ref_size] is 2),
    and the children follow it in the order they are numbered. *)

Definition uid_object (u : Z) : list Z :=
  if u <? 2 ^ 8 then [0x80; u]
  else if u <? 2 ^ 16 then 0x81 :: be_bytes 2 u
  else if u <? 2 ^ 32 then 0x83 :: be_bytes 4 u
  else 0x87 :: be_bytes 8 u.

(** Spec 4.1, [pack_type_and_length]. *)
Definition type_and_length (type n : Z) : list Z :=
  if n <? 15 then [Z.lor type n] else Z.lor type 0x0F :: int_object n.

Definition sumZ (l : list Z) : Z := fold_right Z.add 0 l.

Section Sequences.
Context {A : Type}.
Variable enc : Z -> A -> list Z.
Variable step : A -> Z.

(** The items of a sequence laid out one after the other, the first at
    [n] and each next one [step] further. *)
Fixpoint encode_seq (l : list A) (n : Z) : list Z :=
  match l with
  | [] => []
  | c :: r => enc n c ++ encode_seq r (n + step c)
  end.
End Sequences.

Definition is_ascii (s : list Z) : bool := forallb (fun c => (0 <=? c) && (c <? 128)) s.

(** The number of objects a value is written as. *)
Fixpoint count (v : pyobj) : Z :=
  match v with
  | PyList items => 1 + sumZ (map count items)
  | PyDict items => 1 + sumZ (map (fun '(k, x) => count k + count x) items)
  | _ => 1
  end.

Definition string_object (s : list Z) : list Z :=
  if is_ascii s then type_and_length 0x50 (len s) ++ s
  else match utf16_units s with
       | Some us => type_and_length 0x60 (len us) ++ flat_map (be_bytes 2) us
       | None => []
       end.

(** The length in bytes of a value's encoding. *)
Fixpoint size (v : pyobj) : Z :=
  match v with
  | PyBool b => len (int_object (if b then 1 else 0))
  | PyLong z => len (int_object z)
  | PyUid u => len (uid_object u)
  | PyFloat _ => 9
  | PyUnicode s => len (string_object s)
  | PyBytes bs => len (type_and_length 0x40 (len bs)) + len bs
  | PyList items =>
      len (type_and_length 0xA0 (Z.of_nat (length items)))
      + 2 * Z.of_nat (length items) + sumZ (map size items)
  | PyDict items =>
      len (type_and_length 0xD0 (Z.of_nat (length items)))
      + 4 * Z.of_nat (length items)
      + sumZ (map (fun '(k, x) => size k + size x) items)
  | _ => 0
  end.

Fixpoint encode (n : Z) (v : pyobj) {struct v} : list Z :=
  match v with
  | PyBool b => int_object (if b then 1 else 0)
  | PyLong z => int_object z
  | PyUid u => uid_object u
  | PyFloat b => 0x23 :: be_bytes 8 b
  | PyUnicode s => string_object s
  | PyBytes bs => type_and_length 0x40 (len bs) ++ bs
  | PyList items =>
      type_and_length 0xA0 (Z.of_nat (length items))
      ++ encode_seq (fun i _ => be_bytes 2 i) count items (n + 1)
      ++ encode_seq encode count items (n + 1)
  | PyDict items =>
      type_and_length 0xD0 (Z.of_nat (length items))
      ++ encode_seq (fun i _ => be_bytes 2 i)
           (fun '(k, x) => count k + count x) items (n + 1)
      ++ encode_seq (fun i '(k, _) => be_bytes 2 (i + count k))
           (fun '(k, x) => count k + count x) items (n + 1)
      ++ encode_seq (fun i '(k, x) => encode i k ++ encode (i + count k) x)
           (fun '(k, x) => count k + count x) items (n + 1)
  | _ => []
  end.

(** The offset-table entries of a value placed at [pos] and of the
    values below it, in the order they are numbered. *)
Fixpoint offsets_of (pos : Z) (v : pyobj) {struct v} : list Z :=
  match v with
  | PyList items =>
      pos :: encode_seq offsets_of size items
               (pos + len (type_and_length 0xA0 (Z.of_nat (length items)))
                + 2 * Z.of_nat (length items))
  | PyDict items =>
      pos :: encode_seq (fun p '(k, x) => offsets_of p k ++ offsets_of (p + size k) x)
               (fun '(k, x) => size k + size x) items
               (pos + len (type_and_length 0xD0 (Z.of_nat (length items)))
                + 4 * Z.of_nat (length items))
  | _ => [pos]
  end.

(** What the parser builds for a generated value: a data object comes
    back as a [bytearray] (which Python's [==] identifies with the
    [bytes] of the same content), everything else as it was. *)
Fixpoint as_parsed (v : pyobj) : pyobj :=
  match v with
  | PyBytes bs => PyByteArray bs
  | PyList items => PyList (map as_parsed items)
  | PyDict items => PyDict (map (fun '(k, x) => (as_parsed k, as_parsed x)) items)
  | _ => v
  end.

Fixpoint distinct_keys (ks : list pyobj) : bool :=
  match ks with
  | [] => true
  | k :: r => forallb (fun k' => negb (key_eqb k k')) r && distinct_keys r
  end.

Definition is_key (k : pyobj) : bool :=
  match k with
  | PyLong _ | PyUid _ | PyFloat _ | PyUnicode _ => true
  | _ => false
  end.

(** The values the generator and the parser agree on.  Integers are
    64-bit, uids are positive and fit 64 bits, a float is any bit
    pattern; a string is ASCII, or has a code point above 0xFF and no
    surrogate code point; payloads are at most 4096 bytes, lists have at
    most 2048 items and dicts 1024 entries (what one doubling of the
    output buffer is sure to hold); dict keys are numbers or strings,
    pairwise different. *)
Fixpoint supported (v : pyobj) : bool :=
  match v with
  | PyLong z => (- 2 ^ 63 <=? z) && (z <? 2 ^ 63)
  | PyUid u => (1 <=? u) && (u <? 2 ^ 64)
  | PyFloat b => (0 <=? b) && (b <? 2 ^ 64)
  | PyUnicode s =>
      if is_ascii s then len s <=? 4096
      else (256 <=? max_code_point s)
           && forallb (fun c => (0 <=? c) && (c <=? 0x10FFFF)) s
           && match utf16_units s with
              | Some us => len us <=? 2048
              | None => false
              end
  | PyBytes bs => forallb (fun b => (0 <=? b) && (b <? 256)) bs && (len bs <=? 4096)
  | PyList items =>
      (Z.of_nat (length items) <=? 2048) && forallb supported items
  | PyDict items =>
      (Z.of_nat (length items) <=? 1024)
      && forallb (fun '(k, x) => supported k && is_key k && supported x) items
      && distinct_keys (map fst items)
  | _ => false
  end.

(** Spec 3, file layout: header, object region, offset table, trailer. *)
Definition plist_file (v : pyobj) : list Z :=
  let object_region := bplist_header ++ encode 0 v in
  let objects_length := len object_region in
  let offset_sz :=
    if objects_length <=? 0xFF then 1
    else if objects_length <=? 0xFFFF then 2 else 4 in
  object_region
  ++ flat_map (be_bytes (Z.to_nat offset_sz)) (offsets_of 8 v)
  ++ (repeat 0 6 ++ [offset_sz; 2]
      ++ be_bytes 8 (count v) ++ be_bytes 8 0 ++ be_bytes 8 objects_length).

(** ** Invariant of the generator state

    Between two objects: one offset per counted object, fewer than
    [0xFFFF] objects, the header in place, at most 4106 bytes per object
    written ([slack] bytes of the current object's share still unused),
    both buffers within their allocated lengths, which are at least the
    initial ones and at most about twice what is in use. *)
Definition gen_inv (slack : Z) (state : bplist_generate_state) : Prop :=
  let n := Trailer.num_objects (trailer state) in
  current_offset state = n
  /\ 0 <= n < 65535
  /\ 1024 <= offsets_len state <= 2 ^ 18
  /\ current_offset state <= offsets_len state
  /\ 8 <= current_object state
  /\ current_object state + slack <= 8 + 4106 * n
  /\ 4096 <= objects_len state
  /\ current_object state <= objects_len state <= 2 * current_object state + 8192
  /\ Trailer.offset_size (trailer state) = 4
  /\ Trailer.ref_size (trailer state) = 2
  /\ Trailer.top_object (trailer state) = 0.

(** [state'] is [state] with [bs] appended to the object region (the
    allocated length may have grown). *)
Definition emitted (state state' : bplist_generate_state) (bs : list Z) : Prop :=
  objects state' = objects state ++ bs
  /\ offsets state' = offsets state
  /\ offsets_len state' = offsets_len state
  /\ trailer state' = trailer state
  /\ objects_len state <= objects_len state'.

(** [state'] is [state] after the value [v] and everything below it was
    written. *)
Definition generated (state state' : bplist_generate_state) (v : pyobj) : Prop :=
  objects state' = objects state ++ encode (Trailer.num_objects (trailer state)) v
  /\ offsets state' = offsets state ++ offsets_of (current_object state) v
  /\ Trailer.num_objects (trailer state')
     = Trailer.num_objects (trailer state) + count v
  /\ gen_inv 0 state'.

(** What [generate_plist_object] does with [v] from any state between
    two objects: it writes the encoding, unless the object count reaches
    [0xFFFF] on the way. *)
Definition generates (v : pyobj) : Prop :=
  forall state, gen_inv 0 state ->
    (Trailer.num_objects (trailer state) + count v < 65535 ->
     exists state', generate_plist_object state v = Done state'
                    /\ generated state state' v)
    /\ (65535 <= Trailer.num_objects (trailer state) + count v ->
        generate_plist_object state v = Retry).

(** [xs] occurs in [l] at index [i]. *)
Definition sub_at {A : Type} (l : list A) (i : Z) (xs : list A) : Prop :=
  exists pre post, l = pre ++ xs ++ post /\ Z.of_nat (length pre) = i.

(** The offset table of the parser state [st] holds the entries [O]:
    entry [idx] passes the parser's address check and reads as
    [O[idx]]. *)
Definition table_ok (st : bplist_parse_state) (O : list Z) : Prop :=
  forall idx p,
    sub_at O idx [p] ->
    entry_in_window st idx
    /\ unpack_uint (mem st) (offset_size st)
         (offset_table st + u64 (idx * offset_size st)) = Done p.

(** The parser reads [v] back wherever its encoding and its table
    entries are found. *)
Definition parses (st : bplist_parse_state) (O : list Z) (v : pyobj) : Prop :=
  forall n pos fuel,
    sub_at (mem st) pos (encode n v) ->
    sub_at O n (offsets_of pos v) ->
    0 < pos -> pos + size v < data_end st ->
    count v <= Z.of_nat fuel ->
    parse_plist_object fuel st n = Done (as_parsed v).

(** ** What every run of the generator keeps

    These hold for every value, whatever its type and size.

    [ascending lo hi l]: the entries of [l] are strictly increasing and
    lie in [[lo, hi)]. *)
Fixpoint ascending (lo hi : Z) (l : list Z) : Prop :=
  match l with
  | [] => True
  | c :: r => lo <= c < hi /\ ascending (c + 1) hi r
  end.

(** Between two stores: the header is in place, the offset table holds
    the (truncated) offsets [cs] of the objects begun so far, all below
    [bound], the trailer counts them, and there are fewer than [0xFFFF]. *)
Definition framed (cs : list Z) (bound : Z) (state : bplist_generate_state) : Prop :=
  firstn 8 (objects state) = bplist_header
  /\ offsets state = map u32 cs
  /\ ascending 8 bound cs
  /\ Trailer.num_objects (trailer state) = len cs
  /\ len cs < 65535
  /\ Trailer.ref_size (trailer state) = 2
  /\ Trailer.top_object (trailer state) = 0.

(** [state'] is [state] after stores that leave the first eight bytes,
    the offset table and the trailer alone and move [current_object] at
    least [k] bytes on. *)
Definition advances (k : Z) (state state' : bplist_generate_state) : Prop :=
  offsets state' = offsets state
  /\ trailer state' = trailer state
  /\ firstn 8 (objects state') = firstn 8 (objects state)
  /\ current_object state + k <= current_object state'.

(** The values with a branch in [generate_plist_object], all the way
    down: [None] and [bytearray] stand for the types without one. *)
Fixpoint serializable (v : pyobj) : bool :=
  match v with
  | PyNone | PyByteArray _ => false
  | PyList items => forallb serializable items
  | PyDict items => forallb (fun '(k, x) => serializable k && serializable x) items
  | _ => true
  end.

(** What one call of [generate_plist_object] adds: the offset it starts
    at, then those of the objects below it. *)
Definition frames (v : pyobj) : Prop :=
  forall state state' cs,
    framed cs (current_object state) state ->
    generate_plist_object state v = Done state' ->
    exists rest,
      framed (cs ++ current_object state :: rest) (current_object state') state'
      /\ current_object state < current_object state'.

(** [generate_plist_object] returns only for serializable values. *)
Definition serializes (v : pyobj) : Prop :=
  forall state state',
    generate_plist_object state v = Done state' -> serializable v = true.

(** ** Reads of the parser

    The result is no out-of-bounds access. *)
Definition no_fault {A : Type} (m : outcome A) : Prop := m <> Fault.

(** ** Values of any size

    [supported] without its limits on lengths: the values both
    directions agree on, however large. *)
Fixpoint exchangeable (v : pyobj) : bool :=
  match v with
  | PyLong z => (- 2 ^ 63 <=? z) && (z <? 2 ^ 63)
  | PyUid u => (1 <=? u) && (u <? 2 ^ 64)
  | PyFloat b => (0 <=? b) && (b <? 2 ^ 64)
  | PyUnicode s =>
      if is_ascii s then true
      else (256 <=? max_code_point s)
           && forallb (fun c => (0 <=? c) && (c <=? 0x10FFFF)) s
           && match utf16_units s with
              | Some _ => true
              | None => false
              end
  | PyBytes bs => forallb (fun b => (0 <=? b) && (b <? 256)) bs
  | PyList items => forallb exchangeable items
  | PyDict items =>
      forallb (fun '(k, x) => exchangeable k && is_key k && exchangeable x) items
      && distinct_keys (map fst items)
  | _ => false
  end.

(** [state'] is [state] with [bs] appended to the object region; the
    offset table and the trailer are as they were. *)
Definition appended (state state' : bplist_generate_state) (bs : list Z) : Prop :=
  objects state' = objects state ++ bs
  /\ offsets state' = offsets state
  /\ trailer state' = trailer state.

(** [state'] is [state] after the value [v] and everything below it was
    written: the encoding, the (truncated) offsets and the count. *)
Definition written (state state' : bplist_generate_state) (v : pyobj) : Prop :=
  let n := Trailer.num_objects (trailer state) in
  objects state' = objects state ++ encode n v
  /\ offsets state' = offsets state ++ map u32 (offsets_of (current_object state) v)
  /\ trailer state' = set_num_objects (trailer state) (n + count v)
  /\ n + count v < 65535.

(** Whenever [generate_plist_object] returns for [v], it has written
    [v]; nothing is assumed about the room in the buffers. *)
Definition writes (v : pyobj) : Prop :=
  forall state state',
    0 <= Trailer.num_objects (trailer state) < 65535 ->
    Trailer.ref_size (trailer state) = 2 ->
    generate_plist_object state v = Done state' ->
    written state state' v.

(** ** Strings without an encoding

    [generate_string] has two encoders: the strict ASCII one for strings
    of the one-byte kind, and UTF-16 for the others.  A string whose
    highest code point is in 0x80-0xFF, or one of a wider kind that holds
    a surrogate code point, has no encoding. *)
Definition has_surrogate (s : list Z) : bool :=
  existsb (fun c => is_high_surrogate c || is_low_surrogate c) s.

Definition refused_string (s : list Z) : bool :=
  ((128 <=? max_code_point s) && (max_code_point s <=? 255))
  || ((256 <=? max_code_point s) && has_surrogate s).

(** Such a string, anywhere in a value. *)
Fixpoint holds_refused_string (v : pyobj) : bool :=
  match v with
  | PyUnicode s => refused_string s
  | PyList items => existsb holds_refused_string items
  | PyDict items =>
      existsb (fun '(k, x) => holds_refused_string k || holds_refused_string x) items
  | _ => false
  end.

(** [generate_plist_object] returns only for values without such a
    string. *)
Definition encodes_strings (v : pyobj) : Prop :=
  forall state state',
    generate_plist_object state v = Done state' -> holds_refused_string v = false.

(** ** What the parser can build

    [parse_result v]: integers are 64-bit signed, uids 64-bit unsigned,
    data objects are [bytearray]s, dict keys are hashable; there is no
    [bytes] object and no [None], at any depth. *)
Fixpoint parse_result (v : pyobj) : bool :=
  match v with
  | PyBool _ | PyFloat _ | PyTimestamp _ | PyUnicode _ | PyByteArray _ => true
  | PyLong z => (- 2 ^ 63 <=? z) && (z <? 2 ^ 63)
  | PyUid n => (0 <=? n) && (n <? 2 ^ 64)
  | PyList items => forallb parse_result items
  | PyDict items =>
      forallb (fun '(k, x) => hashable k && parse_result k && parse_result x) items
  | PyBytes _ | PyNone => false
  end.

(** Every value the computation [m] can return is such a value. *)
Definition shaped (m : outcome pyobj) : Prop :=
  forall v, m = Done v -> parse_result v = true.

(* ================================================================== *)
(** * Properties *)

(** ** Bytes and endianness *)

Definition is_byte (b : Z) : Prop := 0 <= b < 256.

Lemma le_bytes_length n x : length (le_bytes n x) = n.
Proof. revert x; induction n; intros; simpl; auto. Qed.

Lemma be_bytes_length n x : length (be_bytes n x) = n.
Proof. unfold be_bytes. rewrite length_rev. apply le_bytes_length. Qed.

Lemma le_bytes_is_byte n x : Forall is_byte (le_bytes n x).
Proof.
  revert x; induction n; intros; simpl; constructor; auto.
  unfold is_byte. apply Z.mod_pos_bound. lia.
Qed.

Lemma be_bytes_is_byte n x : Forall is_byte (be_bytes n x).
Proof. unfold be_bytes. apply Forall_rev, le_bytes_is_byte. Qed.

Lemma le_value_bound bs :
  Forall is_byte bs -> 0 <= le_value bs < 256 ^ Z.of_nat (length bs).
Proof.
  induction 1 as [|b r Hb Hr IH]; cbn [length le_value].
  - simpl. lia.
  - rewrite Nat2Z.inj_succ, Z.pow_succ_r by lia. unfold is_byte in Hb. lia.
Qed.

Lemma byte_split b q :
  0 <= b < 256 -> (b + 256 * q) mod 256 = b /\ (b + 256 * q) / 256 = q.
Proof.
  intros Hb. split; symmetry.
  - apply Z.mod_unique with q; lia.
  - apply Z.div_unique with b; lia.
Qed.

Lemma le_bytes_le_value bs :
  Forall is_byte bs -> le_bytes (length bs) (le_value bs) = bs.
Proof.
  induction 1 as [|b r Hb Hr IH]; cbn [length le_value le_bytes]; auto.
  destruct (byte_split b (le_value r) Hb) as [H1 H2].
  rewrite H1, H2, IH. reflexivity.
Qed.

Lemma le_value_le_bytes n x : le_value (le_bytes n x) = x mod 256 ^ Z.of_nat n.
Proof.
  revert x; induction n; intros x.
  - simpl. rewrite Z.mod_1_r. reflexivity.
  - cbn [le_bytes le_value]. rewrite IHn, Nat2Z.inj_succ, Z.pow_succ_r by lia.
    rewrite (Z.rem_mul_r x 256 (256 ^ Z.of_nat n)) by lia. reflexivity.
Qed.

Lemma le_bytes_mod n x : le_bytes n (x mod 256 ^ Z.of_nat n) = le_bytes n x.
Proof.
  rewrite <- le_value_le_bytes.
  rewrite <- (le_bytes_length n x) at 1.
  apply le_bytes_le_value, le_bytes_is_byte.
Qed.

Lemma le_bytes_small_inj n x y :
  0 <= x < 256 ^ Z.of_nat n -> 0 <= y < 256 ^ Z.of_nat n ->
  le_bytes n x = le_bytes n y -> x = y.
Proof.
  intros Hx Hy H. apply (f_equal le_value) in H.
  rewrite !le_value_le_bytes, !Z.mod_small in H by lia. exact H.
Qed.

Lemma be_value_be_bytes n x :
  0 <= x < 256 ^ Z.of_nat n -> be_value (be_bytes n x) = x.
Proof.
  intros H. unfold be_value, be_bytes.
  rewrite rev_involutive, le_value_le_bytes. apply Z.mod_small; lia.
Qed.

(** The swap followed by a host store writes big-endian bytes; a host
    load followed by the swap reads them. *)

Lemma store_swap64 x : le_bytes 8 (SwapBigToHost64 x) = be_bytes 8 x.
Proof.
  unfold SwapBigToHost64, be_bytes, u64.
  change (2 ^ 64) with (256 ^ Z.of_nat 8). rewrite le_bytes_mod.
  rewrite <- (le_bytes_length 8 x) at 1. rewrite <- length_rev.
  apply le_bytes_le_value, Forall_rev, le_bytes_is_byte.
Qed.

Lemma store_swap32 x : le_bytes 4 (SwapBigToHost32 x) = be_bytes 4 x.
Proof.
  unfold SwapBigToHost32, be_bytes, u32.
  change (2 ^ 32) with (256 ^ Z.of_nat 4). rewrite le_bytes_mod.
  rewrite <- (le_bytes_length 4 x) at 1. rewrite <- length_rev.
  apply le_bytes_le_value, Forall_rev, le_bytes_is_byte.
Qed.

Lemma load_swap64 bs :
  Forall is_byte bs -> length bs = 8%nat ->
  SwapBigToHost64 (le_value bs) = be_value bs.
Proof.
  intros Hb Hl. unfold SwapBigToHost64, be_value, u64.
  pose proof (le_value_bound bs Hb) as B. rewrite Hl in B.
  change (256 ^ Z.of_nat 8) with (2 ^ 64) in B.
  rewrite Z.mod_small by lia. rewrite <- Hl, le_bytes_le_value by assumption.
  reflexivity.
Qed.

Lemma load_swap32 bs :
  Forall is_byte bs -> length bs = 4%nat ->
  SwapBigToHost32 (le_value bs) = be_value bs.
Proof.
  intros Hb Hl. unfold SwapBigToHost32, be_value, u32.
  pose proof (le_value_bound bs Hb) as B. rewrite Hl in B.
  change (256 ^ Z.of_nat 4) with (2 ^ 32) in B.
  rewrite Z.mod_small by lia. rewrite <- Hl, le_bytes_le_value by assumption.
  reflexivity.
Qed.

Lemma land_shiftl_low a b n :
  0 <= n -> 0 <= b < 2 ^ n -> Z.land (Z.shiftl a n) b = 0.
Proof.
  intros Hn Hb. apply Z.bits_inj'. intros i Hi.
  rewrite Z.land_spec, Z.bits_0.
  destruct (Z.ltb_spec i n).
  - rewrite Z.shiftl_spec_low by lia. reflexivity.
  - destruct (Z.eq_dec b 0) as [->|Hz].
    + rewrite Z.bits_0. apply andb_false_r.
    + rewrite (Z.bits_above_log2 b i); [apply andb_false_r | lia |].
      apply Z.log2_lt_pow2; try lia.
      apply Z.lt_le_trans with (2 ^ n); [lia | apply Z.pow_le_mono_r; lia].
Qed.

Lemma lor_shiftl_add a b n :
  0 <= n -> 0 <= b < 2 ^ n -> Z.lor (Z.shiftl a n) b = a * 2 ^ n + b.
Proof.
  intros Hn Hb.
  pose proof (land_shiftl_low a b n Hn Hb) as H0.
  rewrite <- Z.lxor_lor by assumption.
  rewrite <- Z.add_nocarry_lxor by assumption.
  rewrite Z.shiftl_mul_pow2 by lia. reflexivity.
Qed.

Lemma swap16_value x :
  SwapBigToHost16 x = (x mod 256) * 256 + (x / 256) mod 256.
Proof.
  unfold SwapBigToHost16.
  change 0x00FF with (Z.ones 8). rewrite Z.land_ones by lia.
  rewrite Z.shiftr_land. change (Z.shiftr 0xFF00 8) with (Z.ones 8).
  rewrite Z.land_ones, Z.shiftr_div_pow2 by lia.
  change (2 ^ 8) with 256.
  rewrite lor_shiftl_add; [reflexivity | lia |].
  change (2 ^ 8) with 256. apply Z.mod_pos_bound. lia.
Qed.

Lemma store_swap16 x : le_bytes 2 (SwapBigToHost16 x) = be_bytes 2 x.
Proof.
  rewrite swap16_value. unfold be_bytes. cbn [le_bytes rev app].
  pose proof (Z.mod_pos_bound x 256) as A.
  pose proof (Z.mod_pos_bound (x / 256) 256) as B.
  rewrite (Z.add_comm (x mod 256 * 256)), (Z.mul_comm (x mod 256)).
  destruct (byte_split ((x / 256) mod 256) (x mod 256)) as [H1 H2]; [lia |].
  rewrite H1, H2. rewrite (Z.mod_small (x mod 256)) by lia. reflexivity.
Qed.

Lemma load_swap16 bs :
  Forall is_byte bs -> length bs = 2%nat ->
  SwapBigToHost16 (le_value bs) = be_value bs.
Proof.
  intros Hb Hl.
  destruct bs as [|a [|b [|c r]]]; try discriminate.
  inversion Hb as [|? ? Ha Hb']; subst. inversion Hb' as [|? ? Hb2 _]; subst.
  unfold is_byte in *. rewrite swap16_value. unfold be_value. cbn [rev app le_value].
  destruct (byte_split a (b + 256 * 0) Ha) as [H1 H2].
  rewrite H1, H2. rewrite (Z.mod_small (b + 256 * 0)) by lia. lia.
Qed.
(** ** Leading zeros *)

Lemma testbit_top k x :
  0 <= k -> 0 <= x < 2 ^ (k + 1) -> Z.testbit x k = (2 ^ k <=? x).
Proof.
  intros Hk Hx.
  rewrite Z.pow_add_r, Z.pow_1_r in Hx by lia.
  assert (P : 0 < 2 ^ k) by (apply Z.pow_pos_nonneg; lia).
  rewrite Z.testbit_eqb by lia.
  destruct (Z.leb_spec (2 ^ k) x).
  - assert (E : x / 2 ^ k = 1).
    { symmetry. apply Z.div_unique with (x - 2 ^ k); lia. }
    rewrite E. reflexivity.
  - rewrite Z.div_small by lia. reflexivity.
Qed.

Lemma clz_from_range k x : 0 <= clz_from k x <= Z.of_nat k.
Proof.
  induction k; cbn [clz_from]; [lia|].
  destruct (Z.testbit x (Z.of_nat k)); lia.
Qed.

Lemma clz_from_ge k x j :
  0 <= x < 2 ^ Z.of_nat k -> 0 <= j <= Z.of_nat k ->
  (j <= clz_from k x <-> x < 2 ^ (Z.of_nat k - j)).
Proof.
  revert j. induction k; intros j Hx Hj.
  - cbn [clz_from]. simpl in *. replace j with 0 by lia. simpl. lia.
  - cbn [clz_from]. rewrite Nat2Z.inj_succ in *.
    rewrite testbit_top by lia.
    destruct (Z.leb_spec (2 ^ Z.of_nat k) x) as [Hge|Hlt].
    + split; intros H.
      * replace j with 0 by lia. rewrite Z.sub_0_r. lia.
      * destruct (Z.eq_dec j 0); [lia|].
        assert (2 ^ (Z.succ (Z.of_nat k) - j) <= 2 ^ Z.of_nat k)
          by (apply Z.pow_le_mono_r; lia).
        lia.
    + destruct (Z.eq_dec j 0) as [->|Hj0].
      * pose proof (clz_from_range k x). rewrite Z.sub_0_r. lia.
      * specialize (IHk (j - 1)).
        replace (Z.of_nat k - (j - 1)) with (Z.succ (Z.of_nat k) - j) in IHk by lia.
        rewrite <- IHk by lia. lia.
Qed.

Lemma clzll_ge x j :
  0 <= x < 2 ^ 64 -> 0 <= j <= 64 ->
  (j <= __builtin_clzll x <-> x < 2 ^ (64 - j)).
Proof.
  intros Hx Hj. unfold __builtin_clzll, u64. rewrite Z.mod_small by lia.
  apply (clz_from_ge 64 x j); simpl; lia.
Qed.

Lemma clzll_range x : 0 <= __builtin_clzll x <= 64.
Proof. unfold __builtin_clzll. apply (clz_from_range 64). Qed.

(** ** [pack_int] *)

Lemma pack_int_int_object state int_val :
  pack_int state int_val = emit state (int_object int_val).
Proof.
  unfold pack_int, int_object.
  set (x := u64 int_val).
  assert (Hx : 0 <= x < 2 ^ 64) by (apply Z.mod_pos_bound; lia).
  assert (W : (if x =? 0 then 64 else __builtin_clzll x) = __builtin_clzll x).
  { destruct (Z.eqb_spec x 0) as [->|]; reflexivity. }
  rewrite W. clear W.
  pose proof (clzll_range x) as R.
  pose proof (clzll_ge x 32 Hx ltac:(lia)) as G32.
  pose proof (clzll_ge x 48 Hx ltac:(lia)) as G48.
  pose proof (clzll_ge x 56 Hx ltac:(lia)) as G56.
  change (2 ^ (64 - 32)) with 4294967296 in G32.
  change (2 ^ (64 - 48)) with 65536 in G48.
  change (2 ^ (64 - 56)) with 256 in G56.
  rewrite Z.shiftr_div_pow2 by lia. change (2 ^ 32) with 4294967296.
  assert (D : x / 4294967296 = 0 <-> x < 4294967296).
  { split; intros H.
    - pose proof (Z.div_mod x 4294967296 ltac:(lia)).
      pose proof (Z.mod_pos_bound x 4294967296 ltac:(lia)). lia.
    - apply Z.div_small. lia. }
  unfold SwapHostToBig64, SwapHostToBig32, SwapHostToBig16.
  rewrite store_swap64, store_swap32, store_swap16.
  destruct (Z.eqb_spec (x / 4294967296) 0) as [E|E].
  - replace ((0 <=? __builtin_clzll x) && (__builtin_clzll x <=? 31)) with false
      by (symmetry; apply andb_false_iff; right; apply Z.leb_gt; lia).
    destruct (Z.leb_spec x 255).
    + replace ((32 <=? __builtin_clzll x) && (__builtin_clzll x <=? 47)) with false
        by (symmetry; apply andb_false_iff; right; apply Z.leb_gt; lia).
      replace ((48 <=? __builtin_clzll x) && (__builtin_clzll x <=? 55)) with false
        by (symmetry; apply andb_false_iff; right; apply Z.leb_gt; lia).
      reflexivity.
    + destruct (Z.leb_spec x 65535).
      * replace ((32 <=? __builtin_clzll x) && (__builtin_clzll x <=? 47)) with false
          by (symmetry; apply andb_false_iff; right; apply Z.leb_gt; lia).
        replace ((48 <=? __builtin_clzll x) && (__builtin_clzll x <=? 55)) with true
          by (symmetry; apply andb_true_iff; split; apply Z.leb_le; lia).
        reflexivity.
      * replace ((32 <=? __builtin_clzll x) && (__builtin_clzll x <=? 47)) with true
          by (symmetry; apply andb_true_iff; split; apply Z.leb_le; lia).
        reflexivity.
  - replace ((0 <=? __builtin_clzll x) && (__builtin_clzll x <=? 31)) with true
      by (symmetry; apply andb_true_iff; split; apply Z.leb_le; lia).
    reflexivity.
Qed.



(** ** The generator's stores *)

Lemma len_app a b : len (a ++ b) = len a + len b.
Proof. unfold len. rewrite length_app. lia. Qed.

Lemma len_nonneg a : 0 <= len a.
Proof. unfold len. lia. Qed.

Lemma emit_done state bs :
  current_object state + len bs <= objects_len state ->
  emit state bs = Done (set_objects state (objects state ++ bs)).
Proof.
  intros H. unfold emit. destruct (Z.leb_spec (current_object state + len bs)
                                              (objects_len state)); [reflexivity | lia].
Qed.

Lemma pack_uint_be w x :
  In w [1; 2; 4; 8] -> pack_uint w x = Done (be_bytes (Z.to_nat w) x).
Proof.
  intros [<-|[<-|[<-|[<-|[]]]]]; unfold pack_uint; simpl Z.eqb; cbv iota.
  - reflexivity.
  - rewrite store_swap16. reflexivity.
  - rewrite store_swap32. reflexivity.
  - rewrite store_swap64. reflexivity.
Qed.

(** The offset table as the format defines it. *)
Lemma write_offset_table_done w entries : forall state,
  In w [1; 2; 4; 8] ->
  current_object state + w * len entries <= objects_len state ->
  write_offset_table state w entries =
  Done (set_objects state
          (objects state ++ flat_map (be_bytes (Z.to_nat w)) entries)).
Proof.
  induction entries as [|e r IH]; intros state Hw Hc.
  - cbn [write_offset_table flat_map]. rewrite app_nil_r.
    destruct state; reflexivity.
  - cbn [write_offset_table flat_map].
    rewrite pack_uint_be by assumption. cbn [bind].
    assert (Lw : len (be_bytes (Z.to_nat w) e) = w).
    { unfold len. rewrite be_bytes_length. destruct Hw as [<-|[<-|[<-|[<-|[]]]]]; reflexivity. }
    assert (Lr : len (e :: r) = 1 + len r) by (unfold len; cbn [length]; lia).
    pose proof (len_nonneg r).
    assert (Bw : 1 <= w <= 8) by (destruct Hw as [<-|[<-|[<-|[<-|[]]]]]; lia).
    rewrite emit_done by (rewrite Lw; nia).
    cbn [bind]. rewrite IH; [| assumption |].
    + cbn [set_objects objects]. rewrite <- app_assoc. reflexivity.
    + unfold current_object in *. cbn [set_objects objects objects_len].
      fold (len (objects state ++ be_bytes (Z.to_nat w) e)).
      fold (len (objects state)) in Hc.
      rewrite len_app, Lw. nia.
Qed.

(** ** The finalizer *)

Lemma trailer_bytes_len t : len (trailer_bytes t) = 32.
Proof.
  unfold trailer_bytes, len. rewrite !length_app, !le_bytes_length. reflexivity.
Qed.

Lemma finalizer_done state offset_sz :
  0 <= Trailer.num_objects (trailer state) < 2 ^ 32 ->
  current_object state <= 0xFFFFFFFF ->
  offset_sz = (if current_object state <=? 0xFF then 1
               else if current_object state <=? 0xFFFF then 2 else 4) ->
  generate_plist_offset_table_and_trailer state =
  Done {| offsets := offsets state;
          offsets_len := offsets_len state;
          objects :=
            objects state
            ++ flat_map (be_bytes (Z.to_nat offset_sz))
                 (firstn (Z.to_nat (Trailer.num_objects (trailer state)))
                         (offsets state))
            ++ trailer_bytes (final_trailer state offset_sz);
          objects_len :=
            current_object state
            + Trailer.num_objects (trailer state) * offset_sz + 32;
          trailer := final_trailer state offset_sz |}.
Proof.
  intros HN HL Hos.
  unfold generate_plist_offset_table_and_trailer.
  set (L := current_object state) in *.
  set (N := Trailer.num_objects (trailer state)) in *.
  assert (Los : In offset_sz [1; 2; 4]).
  { subst offset_sz. destruct (L <=? 0xFF); [simpl; auto|].
    destruct (L <=? 0xFFFF); simpl; auto. }
  assert (Bos : 1 <= offset_sz <= 4) by (destruct Los as [<-|[<-|[<-|[]]]]; lia).
  assert (L0 : 0 <= L) by (unfold L, current_object; lia).
  replace (if L <=? 255 then Done 1
           else if L <=? 65535 then Done 2
           else if L <=? 4294967295 then Done 4
           else Raise (ObjectSpaceOverflow L)) with (@Done Z offset_sz).
  2:{ subst offset_sz. destruct (L <=? 255); [reflexivity|].
      destruct (L <=? 65535); [reflexivity|].
      destruct (Z.leb_spec L 4294967295); [reflexivity|lia]. }
  cbn [bind].
  assert (E1 : u64 (N * offset_sz) = N * offset_sz)
    by (unfold u64; apply Z.mod_small; nia).
  assert (E2 : u64 (L + N * offset_sz + Trailer.sizeof) = L + N * offset_sz + 32)
    by (unfold u64, Trailer.sizeof; apply Z.mod_small; nia).
  assert (Le : 0 <= len (firstn (Z.to_nat N) (offsets state)) <= N).
  { unfold len. rewrite length_firstn. lia. }
  unfold resize_plist_buffer, final_trailer.
  destruct state as [ofs ofl obj obl tr].
  unfold set_trailer, set_offset_size, set_objects_len, set_offset_table_offset,
    set_num_objects, current_object in *.
  cbn [offsets offsets_len objects objects_len trailer
       Trailer.num_objects Trailer.offset_size Trailer.ref_size Trailer.top_object
       Trailer.offset_table_offset] in *.
  fold N. rewrite E1, E2.
  destruct (Z.ltb_spec (L + N * offset_sz + 32) (Z.of_nat (length obj))); [nia|].
  cbn [bind offsets offsets_len objects objects_len trailer
       Trailer.num_objects Trailer.offset_size Trailer.ref_size Trailer.top_object
       Trailer.offset_table_offset].
  set (entries := firstn (Z.to_nat N) ofs) in *.
  rewrite write_offset_table_done.
  2:{ destruct Los as [<-|[<-|[<-|[]]]]; simpl; auto. }
  2:{ unfold current_object. cbn [objects objects_len]. nia. }
  unfold set_objects.
  cbn [bind offsets offsets_len objects objects_len trailer
       Trailer.num_objects Trailer.offset_size Trailer.ref_size Trailer.top_object
       Trailer.offset_table_offset].
  rewrite emit_done.
  2:{ rewrite trailer_bytes_len. unfold current_object. cbn [objects objects_len].
      fold (len (obj ++ flat_map (be_bytes (Z.to_nat offset_sz)) entries)).
      rewrite len_app.
      assert (len (flat_map (be_bytes (Z.to_nat offset_sz)) entries)
              = offset_sz * len entries).
      { clear - Bos. induction entries as [|e r IH]; cbn [flat_map].
        - unfold len; simpl; lia.
        - rewrite len_app, IH. unfold len at 1. rewrite be_bytes_length.
          unfold len. cbn [length]. lia. }
      unfold len in *. nia. }
  unfold set_objects.
  cbn [offsets offsets_len objects objects_len trailer].
  rewrite <- app_assoc. reflexivity.
Qed.

(** C6, as the code has it: the finalizer picks the least of 1, 2 and 4
    whose width holds [objects_length]; a choice above 1 means the next
    smaller width (half of it) was too narrow; beyond [2^32 - 1] it fails
    and so does [generate_plist]. *)
Theorem C6_offset_size_least_class (state : bplist_generate_state) :
  0 <= Trailer.num_objects (trailer state) < 2 ^ 32 ->
  let objects_length := current_object state in
  (objects_length <= 2 ^ 32 - 1 ->
   exists state',
     generate_plist_offset_table_and_trailer state = Done state'
     /\ let offset_sz := Trailer.offset_size (trailer state') in
        In offset_sz [1; 2; 4]
        /\ objects_length <= 2 ^ (8 * offset_sz) - 1
        /\ (forall w, In w [1; 2; 4] -> objects_length <= 2 ^ (8 * w) - 1 ->
                      offset_sz <= w)
        /\ (offset_sz > 1 -> objects_length > 2 ^ (8 * (offset_sz / 2)) - 1))
  /\ (objects_length > 2 ^ 32 - 1 ->
      generate_plist_offset_table_and_trailer state
      = Raise (ObjectSpaceOverflow objects_length)).
Proof.
  intros HN L. split; intros HL.
  - eexists. split.
    + apply finalizer_done; [assumption | fold L; lia | reflexivity].
    + cbn [trailer final_trailer Trailer.offset_size]. fold L.
      destruct (Z.leb_spec L 255); [|destruct (Z.leb_spec L 65535)].
      * repeat split; [simpl; auto | simpl; lia | | lia].
        intros w [<-|[<-|[<-|[]]]]; simpl; lia.
      * repeat split; [simpl; auto | simpl; lia | | simpl; lia].
        intros w [<-|[<-|[<-|[]]]]; simpl; lia.
      * repeat split; [simpl; auto | simpl; lia | | simpl; lia].
        intros w [<-|[<-|[<-|[]]]]; simpl; lia.
  - unfold generate_plist_offset_table_and_trailer. fold L.
    destruct (Z.leb_spec L 255); [lia|].
    destruct (Z.leb_spec L 65535); [lia|].
    destruct (Z.leb_spec L 4294967295); [lia|]. reflexivity.
Qed.

Lemma C6_offset_size_witness :
  let state := {| offsets := [8]; offsets_len := 1024;
                  objects := bplist_header ++ repeat 0 300;
                  objects_len := 4096;
                  trailer := {| Trailer.offset_size := 4; Trailer.ref_size := 2;
                                Trailer.num_objects := 1; Trailer.top_object := 0;
                                Trailer.offset_table_offset := 0 |} |} in
  exists state',
    generate_plist_offset_table_and_trailer state = Done state'
    /\ Trailer.offset_size (trailer state') = 2.
Proof.
  intros state.
  destruct (C6_offset_size_least_class state) as [H _]; [simpl; lia|].
  destruct H as [state' [E P]]; [vm_compute; discriminate|].
  exists state'. split; [exact E|].
  cbv zeta in P. destruct P as [Hin [Hfit [Hmin Hprev]]].
  assert (E' : generate_plist_offset_table_and_trailer state
               = Done state') by exact E.
  vm_compute in E'. injection E' as <-. reflexivity.
Defined.

(** The minimality formula of the specification, with [offset_size - 1]
    as the exponent, fails for a 4-byte [offset_size]: twenty-two byte
    strings of 3000 bytes need it, and are far shorter than [2^24]. *)
Lemma C6_counterexample :
  match generate_plist (PyList (repeat (PyBytes (repeat 0 3000)) 22)) with
  | Done (PyBytes file) =>
      let t := read_trailer file in
      Trailer.offset_size t = 4
      /\ Trailer.offset_table_offset t = 66143
      /\ ~ (Trailer.offset_table_offset t
            > 2 ^ (8 * (Trailer.offset_size t - 1)) - 1)
  | _ => False
  end.
Proof.
  vm_compute. split; [reflexivity | split; [reflexivity | intros H; discriminate H]].
Qed.

(** ** The parser's checks on offsets and references *)

Lemma bind_done_inv {A B} (m : outcome A) (f : A -> outcome B) b :
  bind m f = Done b -> exists a, m = Done a /\ f a = Done b.
Proof. destruct m; cbn [bind]; try discriminate. eauto. Qed.

(** C2 at its failing input.  [PyLong_Check] holds for a [bool], so the
    generator writes [False] as the integer 0 (marker 0x10 and one payload
    byte), and the parser returns the integer.  The branch of
    [generate_plist_object] that writes 0x08 or 0x09 is never reached. *)
Theorem C2_false_is_written_as_int :
  generate_plist (PyBool false)
  = Done (PyBytes
      [0x62; 0x70; 0x6C; 0x69; 0x73; 0x74; 0x30; 0x30;
       0x10; 0x00;
       0x08;
       0; 0; 0; 0; 0; 0; 1; 2;
       0; 0; 0; 0; 0; 0; 0; 1;
       0; 0; 0; 0; 0; 0; 0; 0;
       0; 0; 0; 0; 0; 0; 0; 10])
  /\ (forall bytes, generate_plist (PyBool false) = Done bytes ->
      parse_plist 1 bytes = Done (PyLong 0))
  /\ (forall state b,
        generate_plist_object state (PyBool b)
        = generate_plist_object state (PyLong (if b then 1 else 0))).
Proof.
  split; [vm_compute; reflexivity|]. split.
  - intros bytes H. vm_compute in H. injection H as <-. vm_compute. reflexivity.
  - intros state b. cbn [generate_plist_object].
    destruct b; reflexivity.
Qed.

(** C3, as the code has it.  The offset read from the table is only
    required to lie strictly between [data] (the first byte of the file)
    and [data_end] (the first byte of the trailer): when
    [parse_plist_object] returns an object, its offset was in that window,
    and an offset outside it is refused with the out-of-bounds error. *)
Theorem C3_object_offset_window (fuel : nat) (state : bplist_parse_state)
    (object_index : Z) :
  let object_ref :=
    offset_table state + u64 (object_index * offset_size state) in
  (forall v,
     parse_plist_object fuel state object_index = Done v ->
     exists off,
       unpack_uint (mem state) (offset_size state) object_ref = Done off
       /\ data state < data state + off < data_end state)
  /\ (forall off,
        data state < object_ref < data_end state ->
        unpack_uint (mem state) (offset_size state) object_ref = Done off ->
        ~ (data state < data state + off < data_end state) ->
        parse_plist_object (S fuel) state object_index
        = Raise (ObjectOutOfBounds object_index)).
Proof.
  intros object_ref. split.
  - intros v H. destruct fuel as [|fuel]; [discriminate|].
    cbn [parse_plist_object] in H. unfold parse_plist_object_body in H.
    fold object_ref in H.
    destruct ((object_ref <=? data state) || (object_ref >=? data_end state));
      [discriminate|].
    apply bind_done_inv in H. destruct H as [off [Hoff H]].
    exists off. split; [exact Hoff|].
    destruct (Z.leb_spec (data state + off) (data state)); [discriminate|].
    destruct (Z.geb_spec (data state + off) (data_end state)); [discriminate|].
    lia.
  - intros off Href Hoff Hout.
    cbn [parse_plist_object]. unfold parse_plist_object_body.
    fold object_ref.
    destruct (Z.leb_spec object_ref (data state)); [lia|].
    destruct (Z.geb_spec object_ref (data_end state)); [lia|].
    cbn [orb]. rewrite Hoff. cbn [bind].
    destruct (Z.leb_spec (data state + off) (data state)); [reflexivity|].
    destruct (Z.geb_spec (data state + off) (data_end state)); [reflexivity|].
    lia.
Qed.

(** Offsets below 8 and offsets inside the offset table are accepted.
    In the first file the only table entry is 7: the object starts in
    the header, at its last byte 0x30, and parses as a date.  In the
    second the entry is 9, the offset of the table itself: the entry
    byte 0x09 is read back as the object [True]. *)
Lemma C3_counterexample :
  (let file := [0x62; 0x70; 0x6C; 0x69; 0x73; 0x74; 0x30; 0x30;
                0x08;
                0x07;
                0; 0; 0; 0; 0; 0; 1; 2;
                0; 0; 0; 0; 0; 0; 0; 1;
                0; 0; 0; 0; 0; 0; 0; 0;
                0; 0; 0; 0; 0; 0; 0; 9] in
   unpack_uint file 1 9 = Done 7
   /\ is_done (parse_plist 1 (PyBytes file)) = true)
  /\
  (let file := [0x62; 0x70; 0x6C; 0x69; 0x73; 0x74; 0x30; 0x30;
                0x08;
                0x09;
                0; 0; 0; 0; 0; 0; 1; 2;
                0; 0; 0; 0; 0; 0; 0; 1;
                0; 0; 0; 0; 0; 0; 0; 0;
                0; 0; 0; 0; 0; 0; 0; 9] in
   unpack_uint file 1 9 = Done 9
   /\ Trailer.offset_table_offset (read_trailer file) = 9
   /\ parse_plist 1 (PyBytes file) = Done (PyBool true)).
Proof. vm_compute. repeat split. Qed.

Lemma C3_object_offset_witness :
  let state := {| mem := [0x62; 0x70; 0x6C; 0x69; 0x73; 0x74; 0x30; 0x30;
                          0x08; 0x00;
                          0; 0; 0; 0; 0; 0; 1; 2;
                          0; 0; 0; 0; 0; 0; 0; 1;
                          0; 0; 0; 0; 0; 0; 0; 0;
                          0; 0; 0; 0; 0; 0; 0; 9];
                  data := 0; data_end := 10; ref_size := 2; offset_size := 1;
                  object_count := 1; offset_table := 9 |} in
  parse_plist_object 1 state 0 = Raise (ObjectOutOfBounds 0).
Proof.
  intros state.
  apply (proj2 (C3_object_offset_window 0 state 0) 0).
  - vm_compute. split; reflexivity.
  - reflexivity.
  - vm_compute. intros [H _]. discriminate H.
Defined.










(** ** Lengths of data and strings *)

(** C8: for data, ASCII and UTF-16 objects the payload must end strictly
    before [object_end] (the start of the trailer).  A payload that ends
    exactly there, or later, is refused with the object's length error;
    whenever one of the three parsers returns an object, the strict bound
    held.  [payload] is where the payload starts, after the marker and
    the length; for UTF-16 the length in bytes is twice the count. *)
Theorem C8_strict_payload_bound (mem : list Z) (type object object_end length payload : Z) :
  unpack_length mem type object = Done (length, payload) ->
  (payload + length >= object_end ->
     parse_data mem type object object_end = Raise (InvalidDataLength length)
     /\ parse_ascii_string mem type object object_end
        = Raise (InvalidAsciiLength length))
  /\ (payload + i64 (length * 2) >= object_end ->
      parse_utf16_string mem type object object_end
      = Raise (InvalidUtf16Length (i64 (length * 2))))
  /\ (forall v, parse_data mem type object object_end = Done v ->
                payload + length < object_end)
  /\ (forall v, parse_ascii_string mem type object object_end = Done v ->
                payload + length < object_end)
  /\ (forall v, parse_utf16_string mem type object object_end = Done v ->
                payload + i64 (length * 2) < object_end).
Proof.
  intros HL. unfold parse_data, parse_ascii_string, parse_utf16_string.
  rewrite HL. cbn [bind].
  repeat split.
  - destruct (Z.ltb_spec (payload + length) object_end); [lia | reflexivity].
  - destruct (Z.ltb_spec (payload + length) object_end); [lia | reflexivity].
  - intros H.
    destruct (Z.ltb_spec (payload + i64 (length * 2)) object_end); [lia | reflexivity].
  - intros v H.
    destruct (Z.ltb_spec (payload + length) object_end); [assumption | discriminate].
  - intros v H.
    destruct (Z.ltb_spec (payload + length) object_end); [assumption | discriminate].
  - intros v H.
    destruct (Z.ltb_spec (payload + i64 (length * 2)) object_end);
      [assumption | discriminate].
Qed.

(** A one-byte data object whose payload is the last byte before the
    trailer: the file is refused. *)
Lemma C8_strict_payload_witness :
  let file := [0x62; 0x70; 0x6C; 0x69; 0x73; 0x74; 0x30; 0x30;
               0x09;
               0x41; 0xAA;
               0; 0; 0; 0; 0; 0; 1; 2;
               0; 0; 0; 0; 0; 0; 0; 1;
               0; 0; 0; 0; 0; 0; 0; 0;
               0; 0; 0; 0; 0; 0; 0; 8] in
  unpack_length file 0x41 10 = Done (1, 10)
  /\ parse_data file 0x41 10 11 = Raise (InvalidDataLength 1)
  /\ parse_plist 1 (PyBytes file) = Raise (InvalidDataLength 1).
Proof.
  intros file. split; [reflexivity|]. split.
  - apply (C8_strict_payload_bound file 0x41 10 11 1 10); [reflexivity | lia].
  - vm_compute. reflexivity.
Defined.

(** ** uid markers *)

Lemma read_bytes_length mem n : forall p bs,
  read_bytes mem p n = Some bs -> length bs = n.
Proof.
  induction n as [|n IH]; intros p bs H; cbn [read_bytes] in H.
  - injection H as <-. reflexivity.
  - destruct (byte_at mem p); [|discriminate].
    destruct (read_bytes mem (p + 1) n) eqn:E; [|discriminate].
    injection H as <-. cbn [length]. f_equal. eapply IH; eassumption.
Qed.

Lemma byte_at_is_byte mem p b :
  Forall is_byte mem -> byte_at mem p = Some b -> is_byte b.
Proof.
  intros Hm H. unfold byte_at in H. destruct (p <? 0); [discriminate|].
  apply nth_error_In in H. rewrite Forall_forall in Hm. auto.
Qed.

Lemma read_bytes_is_byte mem n : forall p bs,
  Forall is_byte mem -> read_bytes mem p n = Some bs -> Forall is_byte bs.
Proof.
  induction n as [|n IH]; intros p bs Hm H; cbn [read_bytes] in H.
  - injection H as <-. constructor.
  - destruct (byte_at mem p) eqn:B; [|discriminate].
    destruct (read_bytes mem (p + 1) n) eqn:E; [|discriminate].
    injection H as <-. constructor; [eapply byte_at_is_byte | eapply IH]; eassumption.
Qed.

(** C10: a marker with high nibble 8 always goes to [parse_uid], which
    has no unknown-type error.  Its width is the low nibble plus one, and
    every width other than 1, 2 and 4 (markers 0x82 and 0x84 to 0x8F)
    falls into the default case of [unpack_uint]: exactly eight bytes are
    read and taken big-endian. *)
Theorem C10_uid_marker_widths (buf : list Z) (type object : Z) :
  0x80 <= type <= 0x8F ->
  let width := Z.land type 0xF + 1 in
  Z.land type 0xF0 = plist_type_uid
  /\ width = type - 0x80 + 1
  /\ (forall t, parse_uid buf type object <> Raise (UnknownType t))
  /\ (forall fuel state object_index off,
        entry_in_window state object_index ->
        unpack_uint (mem state) (offset_size state)
          (offset_table state + u64 (object_index * offset_size state)) = Done off ->
        data state < data state + off < data_end state ->
        load (mem state) 1 (data state + off) = Done type ->
        parse_plist_object (S fuel) state object_index
        = parse_uid (mem state) type (data state + off + 1))
  /\ (width <> 1 -> width <> 2 -> width <> 4 ->
      parse_uid buf type object
      = match read_bytes buf object 8 with
        | Some bs => Done (PyUid (u64 (SwapBigToHost64 (le_value bs))))
        | None => Fault
        end
      /\ (Forall is_byte buf ->
          forall bs, read_bytes buf object 8 = Some bs ->
                     parse_uid buf type object = Done (PyUid (be_value bs)))).
Proof.
  intros Ht width.
  assert (Cases : In type [0x80; 0x81; 0x82; 0x83; 0x84; 0x85; 0x86; 0x87;
                           0x88; 0x89; 0x8A; 0x8B; 0x8C; 0x8D; 0x8E; 0x8F]).
  { cbn [In]. lia. }
  assert (Tag : Z.land type 0xF0 = plist_type_uid).
  { cbn [In] in Cases.
    repeat (destruct Cases as [<-|Cases]; [reflexivity|]). contradiction. }
  assert (Wd : width = type - 0x80 + 1).
  { subst width. cbn [In] in Cases.
    repeat (destruct Cases as [<-|Cases]; [reflexivity|]). contradiction. }
  split; [exact Tag|]. split; [exact Wd|]. split; [|split].
  - intros t. unfold parse_uid, unpack_uint, load.
    repeat match goal with
           | |- context [if ?c then _ else _] => destruct c
           | |- context [read_bytes ?m ?p ?n] => destruct (read_bytes m p n)
           end; cbn [bind]; discriminate.
  - intros fuel state object_index off Hwin Hoff Hobj Hload.
    unfold entry_in_window in Hwin.
    cbn [parse_plist_object]. unfold parse_plist_object_body.
    set (object_ref := offset_table state + u64 (object_index * offset_size state)) in *.
    destruct (Z.leb_spec object_ref (data state)); [lia|].
    destruct (Z.geb_spec object_ref (data_end state)); [lia|].
    cbn [orb]. rewrite Hoff. cbn [bind].
    destruct (Z.leb_spec (data state + off) (data state)); [lia|].
    destruct (Z.geb_spec (data state + off) (data_end state)); [lia|].
    cbn [orb]. rewrite Hload. cbn [bind]. rewrite Tag. reflexivity.
  - intros W1 W2 W4.
    assert (E : parse_uid buf type object
                = match read_bytes buf object 8 with
                  | Some bs => Done (PyUid (u64 (SwapBigToHost64 (le_value bs))))
                  | None => Fault
                  end).
    { unfold parse_uid, unpack_uint. fold width.
      destruct (Z.eqb_spec width 4); [contradiction|].
      destruct (Z.eqb_spec width 2); [contradiction|].
      destruct (Z.eqb_spec width 1); [contradiction|].
      unfold load. destruct (read_bytes buf object 8); reflexivity. }
    split; [exact E|].
    intros Hm bs Hbs. rewrite E, Hbs.
    rewrite load_swap64.
    + unfold u64. rewrite Z.mod_small; [reflexivity|].
      unfold be_value.
      pose proof (le_value_bound (rev bs)) as B.
      rewrite length_rev, (read_bytes_length _ _ _ _ Hbs) in B.
      apply B, Forall_rev. eapply read_bytes_is_byte; eassumption.
    + eapply read_bytes_is_byte; eassumption.
    + eapply read_bytes_length; eassumption.
Qed.

(** Marker 0x82 (width 3) in front of eight bytes. *)
Lemma C10_uid_marker_witness :
  parse_uid [0x82; 1; 2; 3; 4; 5; 6; 7; 8] 0x82 1
  = Done (PyUid 0x0102030405060708).
Proof.
  destruct (C10_uid_marker_widths [0x82; 1; 2; 3; 4; 5; 6; 7; 8] 0x82 1)
    as [_ [_ [_ [_ H]]]]; [lia|].
  destruct H as [_ H]; [vm_compute; discriminate ..|].
  apply (H ltac:(repeat constructor; unfold is_byte; lia)
           [1; 2; 3; 4; 5; 6; 7; 8]).
  reflexivity.
Defined.

(** ** The generator refines the encoding of the specification *)

Lemma u64_small x : 0 <= x < 2 ^ 64 -> u64 x = x.
Proof. intros H. unfold u64. apply Z.mod_small. exact H. Qed.

Lemma u32_small x : 0 <= x < 2 ^ 32 -> u32 x = x.
Proof. intros H. unfold u32. apply Z.mod_small. exact H. Qed.

Lemma u8_small x : 0 <= x < 256 -> u8 x = x.
Proof. intros H. unfold u8. apply Z.mod_small. simpl. exact H. Qed.

Ltac zcases :=
  repeat match goal with
         | |- context [Z.ltb ?a ?b] => destruct (Z.ltb_spec a b)
         | |- context [Z.leb ?a ?b] => destruct (Z.leb_spec a b)
         | |- context [Z.geb ?a ?b] => destruct (Z.geb_spec a b)
         | |- context [Z.gtb ?a ?b] => destruct (Z.gtb_spec a b)
         | |- context [Z.eqb ?a ?b] => destruct (Z.eqb_spec a b)
         end.

Lemma resize_plist_if_needed_done state required_space :
  4096 <= objects_len state ->
  current_object state <= objects_len state <= 2 * current_object state + 8192 ->
  current_object state < 2 ^ 40 ->
  0 <= required_space <= 4096 ->
  exists new_len,
    resize_plist_if_needed state required_space
    = Done (set_objects_len state new_len)
    /\ current_object state + required_space <= new_len
    /\ objects_len state <= new_len <= 2 * current_object state + 8192.
Proof.
  intros Hmin Hcap Hcur Hreq.
  unfold resize_plist_if_needed, resize_plist_buffer.
  assert (0 <= current_object state) by (unfold current_object; lia).
  rewrite !u64_small by lia.
  destruct (Z.ltb_spec (objects_len state - current_object state) required_space).
  - destruct (Z.ltb_spec (objects_len state * 2) (current_object state)); [lia|].
    exists (objects_len state * 2). repeat split; lia.
  - exists (objects_len state). repeat split; try lia.
    destruct state; reflexivity.
Qed.

Lemma gen_inv_bounds slack state :
  gen_inv slack state -> 0 <= slack ->
  current_object state < 2 ^ 40 /\ 0 <= current_object state.
Proof.
  unfold gen_inv. intros H Hs. cbv zeta in H. lia.
Qed.

Ltac gen_simpl :=
  cbn [bind set_objects set_objects_len set_offsets set_trailer set_num_objects
       set_offset_size set_offset_table_offset
       offsets offsets_len objects objects_len trailer
       Trailer.num_objects Trailer.offset_size Trailer.ref_size Trailer.top_object
       Trailer.offset_table_offset] in *.

Lemma prologue_spec state :
  gen_inv 0 state ->
  let n := Trailer.num_objects (trailer state) in
  (n + 1 = 65535 -> generate_plist_object_prologue state = Retry)
  /\ (n + 1 < 65535 ->
      exists state1,
        generate_plist_object_prologue state = Done state1
        /\ objects state1 = objects state
        /\ offsets state1 = offsets state ++ [current_object state]
        /\ Trailer.num_objects (trailer state1) = n + 1
        /\ gen_inv 4106 state1
        /\ current_object state1 + 32 <= objects_len state1).
Proof.
  destruct state as [ofs ofl obj obl [os rs no top oto]].
  unfold gen_inv, current_offset, current_object. gen_simpl. cbv zeta.
  intros (Hco & Hn & Hol & Hcol & Hcur & Hsz & Hmin & Hcap & Hos & Hrs & Htop).
  subst os rs top.
  unfold generate_plist_object_prologue, grow_offset_table_buffer_if_needed,
    push_offset, current_offset, current_object.
  gen_simpl.
  rewrite !u64_small by lia.
  change (Z.shiftl 1 16 - 1) with 65535.
  split; intros Hn1.
  - destruct (Z.geb_spec (ofl - Z.of_nat (length ofs)) 4); gen_simpl.
    + destruct (Z.ltb_spec (Z.of_nat (length ofs)) ofl); [|lia]. gen_simpl.
      rewrite !u64_small by lia.
      destruct (Z.eqb_spec (no + 1) 65535); [reflexivity | lia].
    + destruct (Z.ltb_spec (Z.of_nat (length ofs)) (ofl * 2)); [|lia]. gen_simpl.
      rewrite !u64_small by lia.
      destruct (Z.eqb_spec (no + 1) 65535); [reflexivity | lia].
  - set (ofl' := if ofl - Z.of_nat (length ofs) >=? 4 then ofl else ofl * 2).
    assert (Hofl' : 1024 <= ofl' <= 2 ^ 18 /\ Z.of_nat (length ofs) < ofl').
    { subst ofl'. destruct (Z.geb_spec (ofl - Z.of_nat (length ofs)) 4); lia. }
    set (st1 := {| offsets := ofs ++ [Z.of_nat (length obj)]; offsets_len := ofl';
                   objects := obj; objects_len := obl;
                   trailer := {| Trailer.offset_size := 4; Trailer.ref_size := 2;
                                 Trailer.num_objects := no + 1;
                                 Trailer.top_object := 0;
                                 Trailer.offset_table_offset := oto |} |}).
    destruct (resize_plist_if_needed_done st1 32) as [nl [E [R1 R2]]];
      unfold st1, current_object; gen_simpl; try lia.
    exists (set_objects_len st1 nl).
    split.
    + rewrite <- E. subst ofl' st1.
      destruct (Z.geb_spec (ofl - Z.of_nat (length ofs)) 4); gen_simpl.
      * destruct (Z.ltb_spec (Z.of_nat (length ofs)) ofl); [|lia]. gen_simpl.
        rewrite u64_small, u32_small by lia.
        destruct (Z.eqb_spec (no + 1) 65535); [lia | reflexivity].
      * destruct (Z.ltb_spec (Z.of_nat (length ofs)) (ofl * 2)); [|lia]. gen_simpl.
        rewrite u64_small, u32_small by lia.
        destruct (Z.eqb_spec (no + 1) 65535); [lia | reflexivity].
    + unfold st1, current_object in *. gen_simpl.
      rewrite length_app. cbn [length].
      repeat split; try reflexivity; try lia.
Qed.

Lemma emitted_trans s1 s2 s3 a b :
  emitted s1 s2 a -> emitted s2 s3 b -> emitted s1 s3 (a ++ b).
Proof.
  unfold emitted. intros (A1 & A2 & A3 & A4 & A5) (B1 & B2 & B3 & B4 & B5).
  rewrite B1, A1, app_assoc. repeat split; try congruence. lia.
Qed.

Lemma emitted_current s s' bs :
  emitted s s' bs -> current_object s' = current_object s + len bs.
Proof.
  intros (A & _). unfold current_object, len. rewrite A, length_app. lia.
Qed.

Lemma gen_inv_weaken k k' s : gen_inv k s -> k' <= k -> gen_inv k' s.
Proof. unfold gen_inv. cbv zeta. intros H Hk. repeat split; try apply H; lia. Qed.

Lemma emit_spec k s bs :
  gen_inv k s -> len bs <= k ->
  current_object s + len bs <= objects_len s ->
  exists s', emit s bs = Done s' /\ emitted s s' bs
             /\ gen_inv (k - len bs) s' /\ objects_len s' = objects_len s.
Proof.
  intros Hinv Hk Hroom. rewrite emit_done by assumption.
  eexists. split; [reflexivity|].
  pose proof (len_nonneg bs).
  destruct s as [ofs ofl obj obl tr].
  unfold emitted, gen_inv, current_object, current_offset, len in *. gen_simpl.
  cbv zeta in *. rewrite length_app.
  repeat split; try reflexivity; try lia; try apply Hinv.
Qed.

Lemma resize_spec k s required_space :
  gen_inv k s -> 0 <= k -> 0 <= required_space <= 4096 ->
  exists s', resize_plist_if_needed s required_space = Done s'
             /\ emitted s s' [] /\ gen_inv k s'
             /\ current_object s' + required_space <= objects_len s'.
Proof.
  intros Hinv Hk Hreq.
  destruct (gen_inv_bounds k s Hinv Hk) as [B1 B2].
  destruct (resize_plist_if_needed_done s required_space) as [nl [E [R1 R2]]];
    try assumption; try (unfold gen_inv in Hinv; cbv zeta in Hinv; lia).
  exists (set_objects_len s nl). split; [exact E|].
  destruct s as [ofs ofl obj obl tr].
  unfold emitted, gen_inv, current_object, current_offset in *. gen_simpl.
  cbv zeta in *. rewrite app_nil_r.
  repeat split; try reflexivity; try lia; try apply Hinv.
Qed.

Lemma int_object_len v : 2 <= len (int_object v) <= 9.
Proof.
  unfold int_object.
  destruct (Z.shiftr (u64 v) 32 =? 0);
    [destruct (u64 v <=? 255); [|destruct (u64 v <=? 65535)]|];
    unfold len; cbn [length]; rewrite be_bytes_length; simpl; lia.
Qed.

Lemma lor_type_length type n :
  In type [0x40; 0x50; 0x60; 0xA0; 0xD0] -> 0 <= n <= 15 ->
  Z.lor type n = type + n.
Proof.
  intros Ht Hn.
  assert (Hn' : In n [0; 1; 2; 3; 4; 5; 6; 7; 8; 9; 10; 11; 12; 13; 14; 15])
    by (cbn [In]; lia).
  cbn [In] in Ht, Hn'.
  repeat (destruct Ht as [<-|Ht];
          [repeat (destruct Hn' as [<-|Hn']; [reflexivity|]); contradiction|]).
  contradiction.
Qed.

Lemma type_and_length_len type n : 1 <= len (type_and_length type n) <= 10.
Proof.
  unfold type_and_length. destruct (n <? 15).
  - unfold len. simpl. lia.
  - pose proof (int_object_len n). unfold len in *. cbn [length]. lia.
Qed.

Lemma pack_type_and_length_spec k s type n :
  gen_inv k s -> 10 <= k -> current_object s + 10 <= objects_len s ->
  In type [0x40; 0x50; 0x60; 0xA0; 0xD0] -> 0 <= n ->
  exists s', pack_type_and_length s type n = Done s'
             /\ emitted s s' (type_and_length type n)
             /\ gen_inv (k - len (type_and_length type n)) s'
             /\ objects_len s' = objects_len s.
Proof.
  intros Hinv Hk Hroom Ht Hn.
  pose proof (type_and_length_len type n) as HL.
  unfold pack_type_and_length, type_and_length in *.
  destruct (Z.ltb_spec n 15).
  - rewrite u8_small.
    + apply emit_spec; [assumption| lia | lia].
    + rewrite lor_type_length by (assumption || lia).
      cbn [In] in Ht. lia.
  - destruct (emit_spec k s [Z.lor type 15]) as (s1 & E1 & M1 & I1 & C1);
      [assumption | unfold len; simpl; lia | unfold len; simpl; lia |].
    rewrite E1. cbn [bind]. rewrite pack_int_int_object.
    pose proof (int_object_len n) as HI.
    pose proof (emitted_current _ _ _ M1) as Hc1.
    change (len [Z.lor type 15]) with 1 in *.
    destruct (emit_spec (k - 1) s1 (int_object n)) as (s2 & E2 & M2 & I2 & C2);
      [assumption | lia | lia |].
    exists s2. split; [exact E2|]. split; [|split].
    + apply (emitted_trans s s1 s2 [Z.lor type 15] (int_object n)); assumption.
    + replace (k - len (Z.lor type 15 :: int_object n)) with (k - 1 - len (int_object n)).
      * exact I2.
      * unfold len. cbn [length]. lia.
    + lia.
Qed.

Lemma generate_uid_uid_object state u :
  1 <= u < 2 ^ 64 -> generate_uid state (PyUid u) = emit state (uid_object u).
Proof.
  intros Hu. unfold generate_uid, uid_object, PyLong_AsSize_t. cbn [long_value].
  destruct (Z.leb_spec 0 u); [|lia]. destruct (Z.ltb_spec u (2 ^ 64)); [|lia].
  cbn [andb].
  pose proof (clzll_range u) as R.
  pose proof (clzll_ge u 32 ltac:(lia) ltac:(lia)) as G32.
  pose proof (clzll_ge u 48 ltac:(lia) ltac:(lia)) as G48.
  pose proof (clzll_ge u 56 ltac:(lia) ltac:(lia)) as G56.
  change (2 ^ (64 - 32)) with (2 ^ 32) in G32.
  change (2 ^ (64 - 48)) with (2 ^ 16) in G48.
  change (2 ^ (64 - 56)) with (2 ^ 8) in G56.
  unfold SwapHostToBig64, SwapHostToBig32, SwapHostToBig16.
  rewrite store_swap64, store_swap32, store_swap16.
  change (Z.lor plist_type_uid 7) with 0x87.
  change (Z.lor plist_type_uid 3) with 0x83.
  change (Z.lor plist_type_uid 1) with 0x81.
  change (Z.lor plist_type_uid 0) with 0x80.
  destruct (Z.ltb_spec u (2 ^ 8)).
  - replace ((0 <=? __builtin_clzll u) && (__builtin_clzll u <=? 31)) with false
      by (symmetry; apply andb_false_iff; right; apply Z.leb_gt; lia).
    replace ((32 <=? __builtin_clzll u) && (__builtin_clzll u <=? 47)) with false
      by (symmetry; apply andb_false_iff; right; apply Z.leb_gt; lia).
    replace ((48 <=? __builtin_clzll u) && (__builtin_clzll u <=? 55)) with false
      by (symmetry; apply andb_false_iff; right; apply Z.leb_gt; lia).
    rewrite u8_small by (simpl in *; lia). reflexivity.
  - destruct (Z.ltb_spec u (2 ^ 16)).
    + replace ((0 <=? __builtin_clzll u) && (__builtin_clzll u <=? 31)) with false
        by (symmetry; apply andb_false_iff; right; apply Z.leb_gt; lia).
      replace ((32 <=? __builtin_clzll u) && (__builtin_clzll u <=? 47)) with false
        by (symmetry; apply andb_false_iff; right; apply Z.leb_gt; lia).
      replace ((48 <=? __builtin_clzll u) && (__builtin_clzll u <=? 55)) with true
        by (symmetry; apply andb_true_iff; split; apply Z.leb_le; lia).
      reflexivity.
    + destruct (Z.ltb_spec u (2 ^ 32)).
      * replace ((0 <=? __builtin_clzll u) && (__builtin_clzll u <=? 31)) with false
          by (symmetry; apply andb_false_iff; right; apply Z.leb_gt; lia).
        replace ((32 <=? __builtin_clzll u) && (__builtin_clzll u <=? 47)) with true
          by (symmetry; apply andb_true_iff; split; apply Z.leb_le; lia).
        reflexivity.
      * replace ((0 <=? __builtin_clzll u) && (__builtin_clzll u <=? 31)) with true
          by (symmetry; apply andb_true_iff; split; apply Z.leb_le; lia).
        reflexivity.
Qed.

Lemma uid_object_len u : 2 <= len (uid_object u) <= 9.
Proof.
  unfold uid_object.
  destruct (u <? 2 ^ 8); [|destruct (u <? 2 ^ 16); [|destruct (u <? 2 ^ 32)]];
    unfold len; cbn [length]; rewrite ?be_bytes_length; simpl; lia.
Qed.

(** A value written as a single object. *)
Lemma generates_leaf v body bs :
  count v = 1 ->
  (forall pos, offsets_of pos v = [pos]) ->
  (forall n, encode n v = bs) ->
  (forall state,
     generate_plist_object state v
     = bind (generate_plist_object_prologue state) body) ->
  (forall state1,
     gen_inv 4106 state1 -> current_object state1 + 32 <= objects_len state1 ->
     exists state', body state1 = Done state' /\ emitted state1 state' bs
                    /\ gen_inv 0 state') ->
  generates v.
Proof.
  intros Hc Ho He Hg Hb state Hinv.
  destruct (prologue_spec state Hinv) as [PR PD]. cbv zeta in PR, PD.
  pose proof Hinv as Hinv'. unfold gen_inv in Hinv'. cbv zeta in Hinv'.
  rewrite Hg, Hc. split; intros Hn.
  - destruct PD as (s1 & E1 & O1 & F1 & N1 & I1 & R1); [lia|].
    rewrite E1. cbn [bind].
    destruct (Hb s1 I1 R1) as (s' & E' & (M1 & M2 & M3 & M4 & M5) & I').
    exists s'. split; [exact E'|].
    unfold generated. rewrite He, Ho, Hc, M1, M2, M4, O1, F1, N1.
    split; [reflexivity|]. split; [reflexivity|]. split; [reflexivity|]. exact I'.
  - rewrite PR by lia. reflexivity.
Qed.

Lemma generates_long z : supported (PyLong z) = true -> generates (PyLong z).
Proof.
  cbn [supported]. intros Hz. apply andb_true_iff in Hz. destruct Hz as [Z1 Z2].
  apply Z.leb_le in Z1. apply Z.ltb_lt in Z2.
  apply (generates_leaf _ (fun s => generate_int s (PyLong z)) (int_object z));
    try reflexivity.
  intros s1 I1 R1. unfold generate_int, PyLong_AsSsize_t. cbn [long_value].
  destruct (Z.leb_spec (- 2 ^ 63) z); [|lia]. destruct (Z.ltb_spec z (2 ^ 63)); [|lia].
  cbn [andb]. rewrite pack_int_int_object.
  pose proof (int_object_len z).
  destruct (emit_spec 4106 s1 (int_object z)) as (s' & E & M & I & C);
    [assumption | lia | lia |].
  exists s'. split; [exact E|]. split; [exact M|].
  eapply gen_inv_weaken; [exact I | lia].
Qed.

Lemma generates_uid u : supported (PyUid u) = true -> generates (PyUid u).
Proof.
  cbn [supported]. intros Hz. apply andb_true_iff in Hz. destruct Hz as [Z1 Z2].
  apply Z.leb_le in Z1. apply Z.ltb_lt in Z2.
  apply (generates_leaf _ (fun s => generate_uid s (PyUid u)) (uid_object u));
    try reflexivity.
  intros s1 I1 R1. rewrite generate_uid_uid_object by lia.
  pose proof (uid_object_len u).
  destruct (emit_spec 4106 s1 (uid_object u)) as (s' & E & M & I & C);
    [assumption | lia | lia |].
  exists s'. split; [exact E|]. split; [exact M|].
  eapply gen_inv_weaken; [exact I | lia].
Qed.

Lemma generates_float b : generates (PyFloat b).
Proof.
  apply (generates_leaf _ (fun s => generate_float s (PyFloat b))
           (0x23 :: be_bytes 8 b)); try reflexivity.
  intros s1 I1 R1. unfold generate_float. cbn [PyFloat_AsDouble].
  rewrite store_swap64.
  assert (L : len (plist_type_float64 :: be_bytes 8 b) = 9)
    by (unfold len; cbn [length]; rewrite be_bytes_length; reflexivity).
  destruct (emit_spec 4106 s1 (plist_type_float64 :: be_bytes 8 b))
    as (s' & E & M & I & C); [assumption | lia | lia |].
  exists s'. split; [exact E|]. split; [exact M|].
  eapply gen_inv_weaken; [exact I | lia].
Qed.

Lemma payload_spec s type n payload :
  gen_inv 4106 s -> current_object s + 32 <= objects_len s ->
  In type [0x40; 0x50; 0x60; 0xA0; 0xD0] -> 0 <= n ->
  len payload <= 4096 ->
  exists s',
    (s2 <- pack_type_and_length s type n ;;
     s3 <- resize_plist_if_needed s2 (len payload) ;;
     emit s3 payload) = Done s'
    /\ emitted s s' (type_and_length type n ++ payload)
    /\ gen_inv 0 s'.
Proof.
  intros Hinv Hroom Ht Hn Hp.
  pose proof (type_and_length_len type n) as HL.
  pose proof (len_nonneg payload) as HP.
  destruct (pack_type_and_length_spec 4106 s type n) as (s2 & E2 & M2 & I2 & C2);
    [assumption | lia | lia | assumption | assumption |].
  rewrite E2. cbn [bind].
  destruct (resize_spec _ s2 (len payload) I2) as (s3 & E3 & M3 & I3 & R3);
    [lia | lia |].
  rewrite E3. cbn [bind].
  destruct (emit_spec _ s3 payload I3) as (s4 & E4 & M4 & I4 & C4); [lia | lia |].
  exists s4. split; [exact E4|]. split.
  - pose proof (emitted_trans _ _ _ _ _ M2 M3) as M23. rewrite app_nil_r in M23.
    exact (emitted_trans _ _ _ _ _ M23 M4).
  - eapply gen_inv_weaken; [exact I4 | lia].
Qed.

Lemma generates_bytes bs : supported (PyBytes bs) = true -> generates (PyBytes bs).
Proof.
  cbn [supported]. intros H. apply andb_true_iff in H. destruct H as [_ HL].
  apply Z.leb_le in HL.
  apply (generates_leaf _ (fun s => generate_data s (PyBytes bs))
           (type_and_length 0x40 (len bs) ++ bs)); try reflexivity.
  intros s1 I1 R1. unfold generate_data, pack_data. cbn [PyBytes_AsStringAndSize bind].
  apply payload_spec; try assumption; [simpl; auto | apply len_nonneg].
Qed.

Lemma is_ascii_max s : is_ascii s = true -> max_code_point s < 128.
Proof.
  unfold is_ascii, max_code_point. induction s as [|c r IH]; cbn [forallb fold_right].
  - lia.
  - intros H. apply andb_true_iff in H. destruct H as [Hc Hr].
    apply andb_true_iff in Hc. destruct Hc as [_ Hc]. apply Z.ltb_lt in Hc.
    specialize (IH Hr). lia.
Qed.

Lemma is_ascii_strict s : is_ascii s = true -> forallb (fun c => c <? 128) s = true.
Proof.
  unfold is_ascii. induction s as [|c r IH]; cbn [forallb]; [reflexivity|].
  intros H. apply andb_true_iff in H. destruct H as [Hc Hr].
  apply andb_true_iff in Hc. destruct Hc as [_ Hc]. rewrite Hc, IH by assumption.
  reflexivity.
Qed.

Lemma flat_map_be2_len us : len (flat_map (be_bytes 2) us) = 2 * len us.
Proof.
  unfold len. induction us as [|u r IH]; cbn [flat_map length]; [reflexivity|].
  rewrite length_app, be_bytes_length. lia.
Qed.

Lemma generates_unicode s : supported (PyUnicode s) = true -> generates (PyUnicode s).
Proof.
  cbn [supported]. intros H.
  apply (generates_leaf _ (fun st => generate_string st (PyUnicode s))
           (string_object s)); try reflexivity.
  intros s1 I1 R1. unfold generate_string, string_object. cbn [PyUnicode_KIND].
  destruct (is_ascii s) eqn:A.
  - apply Z.leb_le in H.
    pose proof (is_ascii_max s A).
    destruct (Z.ltb_spec (max_code_point s) 256); [|lia].
    unfold generate_ascii. cbn [PyUnicode_AsASCIIString].
    rewrite (is_ascii_strict s A). cbn [bind].
    unfold pack_data. cbn [PyBytes_AsStringAndSize bind].
    apply payload_spec; try assumption; [simpl; auto | apply len_nonneg].
  - apply andb_true_iff in H. destruct H as [H Hu].
    apply andb_true_iff in H. destruct H as [Hm _]. apply Z.leb_le in Hm.
    destruct (utf16_units s) as [us|] eqn:U; [|discriminate].
    apply Z.leb_le in Hu.
    assert (G : generate_utf16 s1 (PyUnicode s)
                = (s2 <- pack_type_and_length s1 0x60 (len us) ;;
                   s3 <- resize_plist_if_needed s2 (len (flat_map (be_bytes 2) us)) ;;
                   emit s3 (flat_map (be_bytes 2) us))).
    { unfold generate_utf16. cbn [utf16be_encode]. rewrite U.
      cbn [bind PyBytes_AsStringAndSize]. rewrite flat_map_be2_len.
      replace (2 * len us / 2) with (len us)
        by (rewrite Z.mul_comm, Z.div_mul by lia; reflexivity).
      reflexivity. }
    destruct (Z.ltb_spec (max_code_point s) 256); [lia|].
    destruct (max_code_point s <? 65536); rewrite G;
      (apply payload_spec; try assumption;
       [simpl; auto | apply len_nonneg | rewrite flat_map_be2_len; lia]).
Qed.

(** Induction on values: the items of a list and the keys and values of
    a dict are smaller. *)
Lemma pyobj_induction (P : pyobj -> Prop) :
  (forall v, match v with PyList _ | PyDict _ => False | _ => True end -> P v) ->
  (forall items, Forall P items -> P (PyList items)) ->
  (forall items, Forall (fun kv => P (fst kv) /\ P (snd kv)) items ->
                 P (PyDict items)) ->
  forall v, P v.
Proof.
  intros Hleaf Hlist Hdict. fix IH 1. intros v.
  destruct v as [b|z|n|bits|bits|s|bs|bs|items|items|];
    try (apply Hleaf; exact I).
  - apply Hlist. induction items as [|c r IHr]; constructor; [apply IH | exact IHr].
  - apply Hdict. induction items as [|[k x] r IHr]; constructor;
      [split; apply IH | exact IHr].
Qed.

Lemma sumZ_app a b : sumZ (a ++ b) = sumZ a + sumZ b.
Proof. unfold sumZ. induction a; cbn [app fold_right]; lia. Qed.

Lemma encode_seq_refs_len {A} (step : A -> Z) items : forall n,
  len (encode_seq (fun i _ => be_bytes 2 i) step items n)
  = 2 * Z.of_nat (length items).
Proof.
  induction items as [|c r IH]; intros n; cbn [encode_seq length].
  - reflexivity.
  - rewrite len_app, IH. unfold len. rewrite be_bytes_length. lia.
Qed.

Lemma encode_seq_val_refs_len step (items : list (pyobj * pyobj)) : forall n,
  len (encode_seq (fun i '(k, _) => be_bytes 2 (i + count k)) step items n)
  = 2 * Z.of_nat (length items).
Proof.
  induction items as [|[k x] r IH]; intros n; cbn [encode_seq length].
  - reflexivity.
  - rewrite len_app, IH. unfold len. rewrite be_bytes_length. lia.
Qed.

Lemma encode_len : forall v n, len (encode n v) = size v.
Proof.
  intros v. induction v as [v Hv|items IH|items IH] using pyobj_induction; intros n.
  - destruct v; try contradiction; try reflexivity; cbn [encode size].
    rewrite len_app. reflexivity.
  - cbn [encode size]. rewrite !len_app.
    assert (E1 : len (encode_seq (fun i _ => be_bytes 2 i) count items (n + 1))
                 = 2 * Z.of_nat (length items)).
    { generalize (n + 1). clear. induction items as [|c r IH]; intros m;
        cbn [encode_seq length]; [reflexivity|].
      rewrite len_app, IH. cbv beta. unfold len. rewrite be_bytes_length. lia. }
    rewrite E1.
    assert (E2 : forall m, len (encode_seq encode count items m) = sumZ (map size items)).
    { clear E1. induction IH as [|c r Hc Hr IHr]; intros m; cbn [encode_seq map];
        [reflexivity|].
      rewrite len_app, Hc, IHr. reflexivity. }
    rewrite E2. lia.
  - cbn [encode size]. rewrite !len_app.
    assert (E1 : forall m,
               len (encode_seq (fun i _ => be_bytes 2 i)
                      (fun '(k, x) => count k + count x) items m)
               = 2 * Z.of_nat (length items)).
    { clear. induction items as [|c r IH]; intros m;
        cbn [encode_seq length]; [reflexivity|].
      rewrite len_app, IH. cbv beta. unfold len. rewrite be_bytes_length. lia. }
    assert (E2 : forall m,
               len (encode_seq (fun i '(k, _) => be_bytes 2 (i + count k))
                      (fun '(k, x) => count k + count x) items m)
               = 2 * Z.of_nat (length items)).
    { clear. induction items as [|[k x] r IH]; intros m;
        cbn [encode_seq length]; [reflexivity|].
      rewrite len_app, IH. cbv beta iota. unfold len. rewrite be_bytes_length. lia. }
    assert (E3 : forall m,
               len (encode_seq (fun i '(k, x) => encode i k ++ encode (i + count k) x)
                      (fun '(k, x) => count k + count x) items m)
               = sumZ (map (fun '(k, x) => size k + size x) items)).
    { clear E1 E2. induction IH as [|[k x] r [Hk Hx] Hr IHr]; intros m;
        cbn [encode_seq map]; [reflexivity|].
      cbn [fst snd] in Hk, Hx.
      rewrite !len_app, Hk, Hx, IHr. unfold sumZ. cbn [fold_right]. lia. }
    rewrite E1, E2, E3. lia.
Qed.

Lemma firstn_exact {A} (a b : list A) : firstn (length a) (a ++ b) = a.
Proof. induction a; cbn [length firstn app]; [destruct b|]; congruence. Qed.

Lemma skipn_exact {A} (a b : list A) : skipn (length a) (a ++ b) = b.
Proof. induction a; cbn [length skipn app]; auto. Qed.

Lemma poke_spec k s pre x rest y :
  gen_inv k s -> objects s = pre ++ x ++ rest -> length x = length y ->
  exists s', poke s (len pre) y = Done s'
             /\ objects s' = pre ++ y ++ rest
             /\ offsets s' = offsets s
             /\ trailer s' = trailer s
             /\ gen_inv k s'
             /\ current_object s' = current_object s.
Proof.
  intros Hinv Hobj Hlen. unfold poke.
  pose proof (len_nonneg pre).
  assert (Hc : len pre + len y <= current_object s).
  { unfold current_object, len. rewrite Hobj, !length_app. lia. }
  destruct (Z.leb_spec 0 (len pre)); [|lia].
  destruct (Z.leb_spec (len pre + len y) (current_object s)); [|lia].
  cbn [andb]. eexists. split; [reflexivity|].
  unfold len. rewrite Nat2Z.id, Hobj, firstn_exact.
  assert (S1 : skipn (length pre + length y) (pre ++ x ++ rest) = rest).
  { rewrite <- Hlen, <- length_app, app_assoc. apply skipn_exact. }
  rewrite S1.
  destruct s as [ofs ofl obj obl tr].
  unfold gen_inv, current_object, current_offset in *. gen_simpl. cbv zeta in *.
  subst obj. rewrite !length_app in *. rewrite <- Hlen.
  repeat split; try reflexivity; try lia; try apply Hinv.
Qed.

Lemma repeat_two_more (m : nat) :
  repeat 0 (2 * S m) = [0; 0] ++ repeat 0 (2 * m).
Proof. replace (2 * S m)%nat with (2 + 2 * m)%nat by lia. reflexivity. Qed.

Lemma sumZ_nonneg l : Forall (fun x => 0 <= x) l -> 0 <= sumZ l.
Proof. unfold sumZ. induction 1; cbn [fold_right]; lia. Qed.

Lemma count_pos : forall v, 1 <= count v.
Proof.
  intros v. induction v as [v Hv|items IH|items IH] using pyobj_induction.
  - destruct v; try contradiction; cbn [count]; lia.
  - cbn [count]. assert (0 <= sumZ (map count items)); [|lia].
    apply sumZ_nonneg. induction IH; cbn [map]; constructor; [lia|assumption].
  - cbn [count].
    assert (0 <= sumZ (map (fun '(k, x) => count k + count x) items)); [|lia].
    apply sumZ_nonneg. induction IH as [|[k x] r [Hk Hx] Hr IHr]; cbn [map];
      constructor; [cbn [fst snd] in *; lia | assumption].
Qed.

Lemma sumZ_nonneg_counts items : 0 <= sumZ (map count items).
Proof.
  apply sumZ_nonneg. induction items; cbn [map]; constructor; [|assumption].
  pose proof (count_pos a). lia.
Qed.

Lemma generate_array_loop_spec items :
  Forall generates items ->
  forall s pre post,
    gen_inv 0 s ->
    objects s = pre ++ repeat 0 (2 * length items) ++ post ->
    let n := Trailer.num_objects (trailer s) in
    (n + sumZ (map count items) < 65535 ->
     exists s',
       generate_array_loop generate_plist_object s 2 (len pre) items = Done s'
       /\ objects s'
          = pre ++ encode_seq (fun i _ => be_bytes 2 i) count items n
            ++ post ++ encode_seq encode count items n
       /\ offsets s'
          = offsets s ++ encode_seq offsets_of size items (current_object s)
       /\ Trailer.num_objects (trailer s') = n + sumZ (map count items)
       /\ gen_inv 0 s')
    /\ (65535 <= n + sumZ (map count items) ->
        generate_array_loop generate_plist_object s 2 (len pre) items = Retry).
Proof.
  induction 1 as [|c r Hc Hr IH]; intros s pre post Hinv Hobj n.
  - cbn [generate_array_loop encode_seq map sumZ fold_right].
    cbn [length Nat.mul repeat app] in Hobj.
    split.
    + intros _. exists s. rewrite !app_nil_r, Z.add_0_r.
      split; [reflexivity|]. split; [exact Hobj|].
      split; [reflexivity|]. split; [reflexivity | assumption].
    + intros Hn. unfold gen_inv in Hinv. cbv zeta in Hinv. fold n in Hinv. lia.
  - cbn [generate_array_loop encode_seq map]. cbn [length] in Hobj.
    rewrite repeat_two_more, <- app_assoc in Hobj.
    assert (Hn : 0 <= n < 65535)
      by (unfold gen_inv in Hinv; cbv zeta in Hinv; fold n in Hinv; lia).
    rewrite pack_uint_be by (simpl; auto). cbn [bind]. fold n.
    change (Z.to_nat 2) with 2%nat.
    destruct (poke_spec 0 s pre [0; 0] (repeat 0 (2 * length r) ++ post)
                (be_bytes 2 n) Hinv Hobj)
      as (s1 & E1 & O1 & F1 & T1 & I1 & C1);
      [rewrite be_bytes_length; reflexivity|].
    rewrite E1. cbn [bind].
    destruct (Hc s1 I1) as [HD HR]. rewrite T1 in HD, HR. fold n in HD, HR.
    assert (SZ : sumZ (map count (c :: r)) = count c + sumZ (map count r))
      by reflexivity.
    change (sumZ (count c :: map count r)) with (sumZ (map count (c :: r))).
    rewrite SZ.
    assert (Lp : len pre + 2 = len (pre ++ be_bytes 2 n)).
    { rewrite len_app. unfold len. rewrite be_bytes_length. lia. }
    destruct (Z.lt_ge_cases (n + count c) 65535) as [Hlt|Hge].
    + destruct (HD Hlt) as (s2 & E2 & G1 & G2 & G3 & G4).
      rewrite E2. cbn [bind]. rewrite T1 in G1, G3. fold n in G1, G3.
      rewrite Lp.
      specialize (IH s2 (pre ++ be_bytes 2 n) (post ++ encode n c) G4).
      rewrite G1, O1 in IH. rewrite <- !app_assoc in IH.
      specialize (IH eq_refl). cbv zeta in IH. rewrite G3 in IH.
      destruct IH as [IHD IHR].
      split; intros Hs.
      * destruct IHD as (s3 & E3 & P1 & P2 & P3 & P4); [lia|].
        exists s3. split; [exact E3|].
        rewrite P1, P2, P3, G2, F1, C1.
        assert (Cur : current_object s2 = current_object s + size c).
        { rewrite <- C1. change (current_object s2) with (len (objects s2)).
          rewrite G1, len_app, encode_len. reflexivity. }
        rewrite Cur, <- !app_assoc.
        split; [reflexivity|]. split; [reflexivity|].
        split; [lia | assumption].
      * apply IHR. lia.
    + split; intros Hs.
      * pose proof (sumZ_nonneg_counts r). lia.
      * rewrite (HR Hge). reflexivity.
Qed.

Lemma len_repeat (x : Z) k : len (repeat x k) = Z.of_nat k.
Proof. unfold len. rewrite repeat_length. reflexivity. Qed.

Lemma len_be_bytes k x : len (be_bytes k x) = Z.of_nat k.
Proof. unfold len. rewrite be_bytes_length. reflexivity. Qed.

Lemma current_object_generated s s' v :
  generated s s' v -> current_object s' = current_object s + size v.
Proof.
  intros (G1 & _). change (current_object s') with (len (objects s')).
  rewrite G1, len_app, encode_len. reflexivity.
Qed.

Lemma generate_dict_loop_spec items :
  Forall (fun kv => generates (fst kv) /\ generates (snd kv)) items ->
  forall s pre mid post,
    gen_inv 0 s ->
    objects s = pre ++ repeat 0 (2 * length items) ++ mid
                ++ repeat 0 (2 * length items) ++ post ->
    let n := Trailer.num_objects (trailer s) in
    let total := sumZ (map (fun '(k, x) => count k + count x) items) in
    (n + total < 65535 ->
     exists s',
       generate_dict_loop generate_plist_object s 2 (len pre)
         (len pre + 2 * Z.of_nat (length items) + len mid) items = Done s'
       /\ objects s'
          = pre
            ++ encode_seq (fun i _ => be_bytes 2 i)
                 (fun '(k, x) => count k + count x) items n
            ++ mid
            ++ encode_seq (fun i '(k, _) => be_bytes 2 (i + count k))
                 (fun '(k, x) => count k + count x) items n
            ++ post
            ++ encode_seq (fun i '(k, x) => encode i k ++ encode (i + count k) x)
                 (fun '(k, x) => count k + count x) items n
       /\ offsets s'
          = offsets s
            ++ encode_seq (fun p '(k, x) => offsets_of p k ++ offsets_of (p + size k) x)
                 (fun '(k, x) => size k + size x) items (current_object s)
       /\ Trailer.num_objects (trailer s') = n + total
       /\ gen_inv 0 s')
    /\ (65535 <= n + total ->
        generate_dict_loop generate_plist_object s 2 (len pre)
          (len pre + 2 * Z.of_nat (length items) + len mid) items = Retry).
Proof.
  induction 1 as [|[k x] r [Hk Hx] Hr IH]; intros s pre mid post Hinv Hobj n total.
  - subst total. cbn [generate_dict_loop encode_seq map sumZ fold_right].
    cbn [length Nat.mul repeat app] in Hobj.
    split.
    + intros _. exists s. rewrite !app_nil_r, Z.add_0_r.
      split; [reflexivity|]. split; [exact Hobj|].
      split; [reflexivity|]. split; [reflexivity | assumption].
    + intros Hn. unfold gen_inv in Hinv. cbv zeta in Hinv. fold n in Hinv. lia.
  - cbn [fst snd] in Hk, Hx.
    assert (Tot : total = count k + count x
                          + sumZ (map (fun '(k, x) => count k + count x) r)).
    { subst total. unfold sumZ. cbn [map fold_right]. lia. }
    pose proof (sumZ_nonneg_counts (map fst r)) as _.
    assert (Rest : 0 <= sumZ (map (fun '(k, x) => count k + count x) r)).
    { apply sumZ_nonneg. clear. induction r as [|[a b] r IH]; cbn [map];
        constructor; [|assumption].
      pose proof (count_pos a). pose proof (count_pos b). lia. }
    pose proof (count_pos k) as Ck. pose proof (count_pos x) as Cx.
    rewrite Tot. clear Tot total.
    cbn [generate_dict_loop encode_seq length]. cbv beta iota.
    cbn [length] in Hobj.
    rewrite !repeat_two_more, <- !app_assoc in Hobj.
    assert (Hn : 0 <= n < 65535)
      by (unfold gen_inv in Hinv; cbv zeta in Hinv; fold n in Hinv; lia).
    rewrite pack_uint_be by (simpl; auto). cbn [bind]. fold n.
    change (Z.to_nat 2) with 2%nat.
    destruct (poke_spec 0 s pre [0; 0]
                (repeat 0 (2 * length r) ++ mid ++ [0; 0]
                 ++ repeat 0 (2 * length r) ++ post)
                (be_bytes 2 n) Hinv Hobj)
      as (s1 & E1 & O1 & F1 & T1 & I1 & C1);
      [rewrite be_bytes_length; reflexivity|].
    rewrite E1. cbn [bind].
    destruct (Hk s1 I1) as [HD HR]. rewrite T1 in HD, HR. fold n in HD, HR.
    destruct (Z.lt_ge_cases (n + count k) 65535) as [Hlt|Hge].
    2:{ split; intros Hs; [lia|]. rewrite (HR Hge). reflexivity. }
    destruct (HD Hlt) as (s2 & E2 & G).
    pose proof (current_object_generated _ _ _ G) as Cur2.
    destruct G as (G1 & G2 & G3 & G4).
    rewrite E2. cbn [bind]. rewrite T1 in G1, G3. fold n in G1, G3.
    rewrite pack_uint_be by (simpl; auto). cbn [bind]. rewrite G3.
    change (Z.to_nat 2) with 2%nat.
    assert (O2 : objects s2
                 = (pre ++ be_bytes 2 n ++ repeat 0 (2 * length r) ++ mid)
                   ++ [0; 0]
                   ++ (repeat 0 (2 * length r) ++ post ++ encode n k)).
    { rewrite G1, O1, <- !app_assoc. reflexivity. }
    assert (Lv : len pre + 2 * Z.of_nat (S (length r)) + len mid
                 = len (pre ++ be_bytes 2 n ++ repeat 0 (2 * length r) ++ mid)).
    { rewrite !len_app, len_be_bytes, len_repeat. lia. }
    rewrite Lv.
    destruct (poke_spec 0 s2 _ [0; 0] _ (be_bytes 2 (n + count k)) G4 O2)
      as (s3 & E3 & O3 & F3 & T3 & I3 & C3);
      [rewrite be_bytes_length; reflexivity|].
    rewrite E3. cbn [bind].
    destruct (Hx s3 I3) as [HD' HR']. rewrite T3, G3 in HD', HR'.
    destruct (Z.lt_ge_cases (n + count k + count x) 65535) as [Hlt'|Hge'].
    2:{ split; intros Hs; [lia|]. rewrite (HR' Hge'). reflexivity. }
    destruct (HD' Hlt') as (s4 & E4 & G').
    pose proof (current_object_generated _ _ _ G') as Cur4.
    destruct G' as (G1' & G2' & G3' & G4').
    rewrite E4. cbn [bind]. rewrite T3, G3 in G1', G3'.
    specialize (IH s4 (pre ++ be_bytes 2 n) (mid ++ be_bytes 2 (n + count k))
                  (post ++ encode n k ++ encode (n + count k) x) G4').
    rewrite G1', O3 in IH. rewrite <- !app_assoc in IH.
    specialize (IH eq_refl). cbv zeta in IH. rewrite G3' in IH.
    replace (len (pre ++ be_bytes 2 n)) with (len pre + 2) in IH
      by (rewrite len_app, len_be_bytes; lia).
    replace (len pre + 2 + 2 * Z.of_nat (length r)
             + len (mid ++ be_bytes 2 (n + count k)))
      with (len (pre ++ be_bytes 2 n ++ repeat 0 (2 * length r) ++ mid) + 2) in IH
      by (rewrite !len_app, !len_be_bytes, len_repeat; lia).
    destruct IH as [IHD IHR].
    split; intros Hs.
    + destruct IHD as (s5 & E5 & P1 & P2 & P3 & P4); [lia|].
      exists s5. split; [exact E5|].
      rewrite P1, P2, P3, G2', F3, G2, F1, Cur4, !C3, !Cur2, !C1.
      rewrite <- !app_assoc.
      replace (n + count k + count x) with (n + (count k + count x)) by lia.
      replace (current_object s + size k + size x)
        with (current_object s + (size k + size x)) by lia.
      split; [reflexivity|]. split; [reflexivity|].
      split; [lia | assumption].
    + apply IHR. lia.
Qed.

Lemma generates_list items :
  Z.of_nat (length items) <= 2048 -> Forall generates items ->
  generates (PyList items).
Proof.
  intros Hlen Hitems s Hinv.
  set (n := Trailer.num_objects (trailer s)).
  set (m := Z.of_nat (length items)) in *.
  assert (Hm : 0 <= m) by (subst m; lia).
  destruct (prologue_spec s Hinv) as [PR PD]. cbv zeta in PR, PD. fold n in PR, PD.
  assert (Hn : 0 <= n < 65535)
    by (unfold gen_inv in Hinv; cbv zeta in Hinv; fold n in Hinv; lia).
  pose proof (sumZ_nonneg_counts items) as Hsum.
  assert (G : generate_plist_object s (PyList items)
              = bind (generate_plist_object_prologue s)
                     (fun s1 => generate_array generate_plist_object s1 items))
    by reflexivity.
  rewrite G. clear G. cbn [count].
  destruct (Z.eq_dec (n + 1) 65535) as [Heq|Hne].
  { rewrite PR by assumption. split; intros; [lia | reflexivity]. }
  destruct PD as (s1 & E1 & O1 & F1 & N1 & I1 & R1); [lia|].
  rewrite E1. cbn [bind]. unfold generate_array, plist_type_array. fold m.
  pose proof (type_and_length_len 0xA0 m) as HL.
  destruct (pack_type_and_length_spec 4106 s1 0xA0 m) as (s2 & E2 & M2 & I2 & C2);
    [assumption | lia | lia | cbn [In]; lia | assumption |].
  rewrite E2. cbn [bind].
  assert (RS : Trailer.ref_size (trailer s2) = 2)
    by (unfold gen_inv in I2; cbv zeta in I2; apply I2).
  rewrite RS. rewrite (u64_small (2 * m)) by lia.
  destruct (resize_spec _ s2 (2 * m) I2) as (s3 & E3 & M3 & I3 & R3); [lia | lia |].
  rewrite E3. cbn [bind]. unfold reserve.
  assert (Lz : len (repeat 0 (Z.to_nat (2 * m))) = 2 * m)
    by (rewrite len_repeat; lia).
  destruct (emit_spec _ s3 (repeat 0 (Z.to_nat (2 * m))) I3) as (s4 & E4 & M4 & I4 & C4);
    [lia | lia |].
  rewrite E4. cbn [bind].
  pose proof (emitted_trans _ _ _ _ _ M2 M3) as M23. rewrite app_nil_r in M23.
  pose proof (emitted_current _ _ _ M23) as Cur3.
  pose proof (emitted_trans _ _ _ _ _ M23 M4) as M24.
  pose proof (emitted_current _ _ _ M24) as Cur4.
  destruct M24 as (A1 & A2 & A3 & A4 & A5).
  assert (I4' : gen_inv 0 s4) by (eapply gen_inv_weaken; [exact I4 | lia]).
  assert (Obj4 : objects s4
                 = (objects s ++ type_and_length 0xA0 m)
                   ++ repeat 0 (2 * length items) ++ []).
  { rewrite A1, O1, app_nil_r, <- app_assoc. do 3 f_equal. subst m. lia. }
  assert (Off : current_object s3 = len (objects s ++ type_and_length 0xA0 m)).
  { rewrite Cur3, len_app. unfold current_object, len. rewrite O1. reflexivity. }
  rewrite Off.
  destruct (generate_array_loop_spec items Hitems s4 _ _ I4' Obj4) as [LD LR].
  rewrite A4, N1 in LD, LR.
  split; intros Hc.
  - destruct LD as (s5 & E5 & P1 & P2 & P3 & P4); [lia|].
    exists s5. split; [exact E5|].
    unfold generated. fold n. cbn [encode offsets_of count]. fold m.
    assert (Cur4' : current_object s4
                    = current_object s + len (type_and_length 160 m) + 2 * m).
    { rewrite Cur4, len_app, Lz. unfold current_object. rewrite O1. lia. }
    rewrite P1, P2, P3, A2, F1, Cur4'.
    rewrite <- !app_assoc. cbn [app].
    split; [reflexivity|]. split; [reflexivity|]. split; [lia | assumption].
  - apply LR. lia.
Qed.

Lemma generates_dict items :
  Z.of_nat (length items) <= 1024 ->
  Forall (fun kv => generates (fst kv) /\ generates (snd kv)) items ->
  generates (PyDict items).
Proof.
  intros Hlen Hitems s Hinv.
  set (n := Trailer.num_objects (trailer s)).
  set (m := Z.of_nat (length items)) in *.
  assert (Hm : 0 <= m) by (subst m; lia).
  destruct (prologue_spec s Hinv) as [PR PD]. cbv zeta in PR, PD. fold n in PR, PD.
  assert (Hn : 0 <= n < 65535)
    by (unfold gen_inv in Hinv; cbv zeta in Hinv; fold n in Hinv; lia).
  assert (Hsum : 0 <= sumZ (map (fun '(k, x) => count k + count x) items)).
  { apply sumZ_nonneg. clear. induction items as [|[a b] r IH]; cbn [map];
      constructor; [|assumption].
    pose proof (count_pos a). pose proof (count_pos b). lia. }
  assert (G : generate_plist_object s (PyDict items)
              = bind (generate_plist_object_prologue s)
                     (fun s1 => generate_dict generate_plist_object s1 items))
    by reflexivity.
  rewrite G. clear G. cbn [count].
  destruct (Z.eq_dec (n + 1) 65535) as [Heq|Hne].
  { rewrite PR by assumption. split; intros; [lia | reflexivity]. }
  destruct PD as (s1 & E1 & O1 & F1 & N1 & I1 & R1); [lia|].
  rewrite E1. cbn [bind]. unfold generate_dict, plist_type_dict. fold m.
  pose proof (type_and_length_len 0xD0 m) as HL.
  destruct (pack_type_and_length_spec 4106 s1 0xD0 m) as (s2 & E2 & M2 & I2 & C2);
    [assumption | lia | lia | cbn [In]; lia | assumption |].
  rewrite E2. cbn [bind].
  assert (RS : Trailer.ref_size (trailer s2) = 2)
    by (unfold gen_inv in I2; cbv zeta in I2; apply I2).
  rewrite RS. rewrite (u64_small (2 * m)) by lia.
  rewrite (u64_small (2 * m * 2)) by lia.
  destruct (resize_spec _ s2 (2 * m * 2) I2) as (s3 & E3 & M3 & I3 & R3); [lia | lia |].
  rewrite E3. cbn [bind]. unfold reserve.
  assert (Lz : len (repeat 0 (Z.to_nat (2 * m * 2))) = 4 * m)
    by (rewrite len_repeat; lia).
  destruct (emit_spec _ s3 (repeat 0 (Z.to_nat (2 * m * 2))) I3)
    as (s4 & E4 & M4 & I4 & C4); [lia | lia |].
  rewrite E4. cbn [bind].
  pose proof (emitted_trans _ _ _ _ _ M2 M3) as M23. rewrite app_nil_r in M23.
  pose proof (emitted_current _ _ _ M23) as Cur3.
  pose proof (emitted_trans _ _ _ _ _ M23 M4) as M24.
  pose proof (emitted_current _ _ _ M24) as Cur4.
  destruct M24 as (A1 & A2 & A3 & A4 & A5).
  assert (I4' : gen_inv 0 s4) by (eapply gen_inv_weaken; [exact I4 | lia]).
  assert (Obj4 : objects s4
                 = (objects s ++ type_and_length 0xD0 m)
                   ++ repeat 0 (2 * length items) ++ []
                   ++ repeat 0 (2 * length items) ++ []).
  { rewrite A1, O1, app_nil_r, <- app_assoc. cbn [app]. do 2 f_equal.
    rewrite <- repeat_app. f_equal. subst m. lia. }
  assert (Off : current_object s3 = len (objects s ++ type_and_length 0xD0 m)).
  { rewrite Cur3, len_app. unfold current_object, len. rewrite O1. reflexivity. }
  rewrite Off.
  destruct (generate_dict_loop_spec items Hitems s4 _ _ _ I4' Obj4) as [LD LR].
  cbv zeta in LD, LR. rewrite A4, N1 in LD, LR.
  change (len []) with 0 in LD, LR. rewrite Z.add_0_r in LD, LR. fold m in LD, LR.
  split; intros Hc.
  - destruct LD as (s5 & E5 & P1 & P2 & P3 & P4); [lia|].
    exists s5. split; [exact E5|].
    unfold generated. fold n. cbn [encode offsets_of count]. fold m.
    assert (Cur4' : current_object s4
                    = current_object s + len (type_and_length 208 m) + 4 * m).
    { rewrite Cur4, len_app, Lz. unfold current_object. rewrite O1. lia. }
    rewrite P1, P2, P3, A2, F1, Cur4'.
    rewrite <- !app_assoc. cbn [app].
    split; [reflexivity|]. split; [reflexivity|]. split; [lia | assumption].
  - apply LR. lia.
Qed.

(** The generator writes the specification's encoding of every
    supported value, or runs into the object limit. *)
Lemma generates_supported : forall v, supported v = true -> generates v.
Proof.
  intros v. induction v as [v Hv|items IH|items IH] using pyobj_induction;
    intros Hs.
  - destruct v; try contradiction; try discriminate Hs.
    + apply generates_long; assumption.
    + apply generates_uid; assumption.
    + apply generates_float.
    + apply generates_unicode; assumption.
    + apply generates_bytes; assumption.
  - cbn [supported] in Hs. apply andb_true_iff in Hs. destruct Hs as [HL HF].
    apply Z.leb_le in HL. apply generates_list; [assumption|].
    rewrite forallb_forall in HF. rewrite Forall_forall in *.
    intros c Hc. apply IH; auto.
  - cbn [supported] in Hs. apply andb_true_iff in Hs. destruct Hs as [Hs _].
    apply andb_true_iff in Hs. destruct Hs as [HL HF].
    apply Z.leb_le in HL. apply generates_dict; [assumption|].
    rewrite forallb_forall in HF. rewrite Forall_forall in *.
    intros [k x] Hkx. specialize (IH _ Hkx). specialize (HF _ Hkx).
    cbn [fst snd] in *. cbv beta iota in HF.
    apply andb_true_iff in HF. destruct HF as [HF Hx].
    apply andb_true_iff in HF. destruct HF as [Hk _].
    destruct IH as [IHk IHx]. split; auto.
Qed.

(** [generate_plist] on a supported value: the file of the
    specification, or [abort()] when the value has [0xFFFF] objects or
    more. *)
Lemma generate_plist_supported v :
  supported v = true ->
  (count v < 65535 -> generate_plist v = Done (PyBytes (plist_file v)))
  /\ (65535 <= count v -> generate_plist v = Abort).
Proof.
  intros Hs. unfold generate_plist.
  set (s0 := {| offsets := []; offsets_len := initial_offset_table_length / 4;
                objects := bplist_header;
                objects_len := initial_objects_buffer_length;
                trailer := {| Trailer.offset_size := 4; Trailer.ref_size := 2;
                              Trailer.num_objects := 0; Trailer.top_object := 0;
                              Trailer.offset_table_offset := 0 |} |}).
  match goal with
  | |- context [emit ?s bplist_header] =>
      change (emit s bplist_header) with (Done s0)
  end.
  cbn [bind].
  assert (I0 : gen_inv 0 s0).
  { unfold gen_inv. cbv zeta.
    repeat split; vm_compute; try reflexivity; discriminate. }
  destruct (generates_supported v Hs s0 I0) as [GD GR].
  change (Trailer.num_objects (trailer s0)) with 0 in GD, GR.
  rewrite Z.add_0_l in GD, GR.
  split; intros Hc.
  - destruct (GD Hc) as (s1 & E1 & G1 & G2 & G3 & G4).
    rewrite E1.
    change (objects s0) with bplist_header in G1.
    change (offsets s0) with (@nil Z) in G2. cbn [app] in G2.
    change (current_object s0) with 8 in G2.
    change (Trailer.num_objects (trailer s0)) with 0 in G1, G3.
    rewrite Z.add_0_l in G3.
    pose proof G4 as G4'. unfold gen_inv in G4'. cbv zeta in G4'.
    destruct G4' as (Hco & Hn & _ & _ & Hcur & Hsz & _ & _ & _ & Hrs & Htop).
    rewrite (finalizer_done s1 _ ltac:(lia) ltac:(lia) eq_refl).
    cbn [bind objects]. do 2 f_equal.
    unfold plist_file.
    assert (Hcur1 : current_object s1 = len (bplist_header ++ encode 0 v)).
    { unfold current_object, len. rewrite G1. reflexivity. }
    cbv zeta. rewrite <- Hcur1, G1.
    set (os := if current_object s1 <=? 255 then 1
               else if current_object s1 <=? 65535 then 2 else 4).
    f_equal. f_equal.
    + rewrite <- G2. f_equal. apply firstn_all2. unfold current_offset in Hco. lia.
    + unfold trailer_bytes, final_trailer.
      cbn [Trailer.offset_size Trailer.ref_size Trailer.num_objects
           Trailer.top_object Trailer.offset_table_offset].
      unfold SwapHostToBig64. rewrite !store_swap64, Hrs, Htop, G3.
      assert (Hos : u8 os = os).
      { subst os. destruct (current_object s1 <=? 255); [reflexivity|].
        destruct (current_object s1 <=? 65535); reflexivity. }
      rewrite Hos. reflexivity.
  - rewrite (GR Hc). reflexivity.
Qed.

(** ** Reading what was written *)

Lemma sub_at_app {A} (l : list A) i a b :
  sub_at l i (a ++ b) ->
  sub_at l i a /\ sub_at l (i + Z.of_nat (length a)) b.
Proof.
  intros (pre & post & E & L). split.
  - exists pre, (b ++ post). rewrite <- app_assoc in E. auto.
  - exists (pre ++ a), post. rewrite length_app, <- !app_assoc in *. split; [auto|lia].
Qed.

Lemma sub_at_cons {A} (l : list A) i x xs :
  sub_at l i (x :: xs) -> sub_at l i [x] /\ sub_at l (i + 1) xs.
Proof. intros H. apply (sub_at_app l i [x] xs) in H. exact H. Qed.

Lemma sub_at_nonneg {A} (l : list A) i xs : sub_at l i xs -> 0 <= i.
Proof. intros (pre & post & _ & L). lia. Qed.

Lemma sub_at_bound {A} (l : list A) i xs :
  sub_at l i xs -> i + Z.of_nat (length xs) <= Z.of_nat (length l).
Proof. intros (pre & post & E & L). subst l. rewrite !length_app. lia. Qed.

Lemma sub_at_nth {A} (l : list A) i x :
  sub_at l i [x] -> nth_error l (Z.to_nat i) = Some x.
Proof.
  intros (pre & post & E & L). subst l i. rewrite Nat2Z.id.
  rewrite nth_error_app2 by lia. rewrite Nat.sub_diag. reflexivity.
Qed.

Lemma byte_at_shift pre l p :
  0 <= p -> byte_at (pre ++ l) (Z.of_nat (length pre) + p) = byte_at l p.
Proof.
  intros Hp. unfold byte_at.
  destruct (Z.ltb_spec (Z.of_nat (length pre) + p) 0); [lia|].
  destruct (Z.ltb_spec p 0); [lia|].
  rewrite nth_error_app2 by lia. f_equal. lia.
Qed.

Lemma read_bytes_shift pre l n : forall p,
  0 <= p ->
  read_bytes (pre ++ l) (Z.of_nat (length pre) + p) n = read_bytes l p n.
Proof.
  induction n as [|n IH]; intros p Hp; cbn [read_bytes]; [reflexivity|].
  rewrite byte_at_shift by assumption.
  replace (Z.of_nat (length pre) + p + 1) with (Z.of_nat (length pre) + (p + 1)) by lia.
  rewrite IH by lia. reflexivity.
Qed.

Lemma read_bytes_prefix xs post : read_bytes (xs ++ post) 0 (length xs) = Some xs.
Proof.
  induction xs as [|x r IH]; cbn [length read_bytes app]; [reflexivity|].
  change (byte_at (x :: r ++ post) 0) with (Some x).
  change (read_bytes (x :: r ++ post) (0 + 1) (length r))
    with (read_bytes ([x] ++ (r ++ post)) (Z.of_nat (length [x]) + 0) (length r)).
  rewrite (read_bytes_shift [x] (r ++ post) (length r) 0) by lia.
  rewrite IH. reflexivity.
Qed.

Lemma sub_at_read mem p xs : sub_at mem p xs -> read_bytes mem p (length xs) = Some xs.
Proof.
  intros (pre & post & E & L). subst mem p.
  rewrite <- (Z.add_0_r (Z.of_nat (length pre))).
  rewrite read_bytes_shift by lia. apply read_bytes_prefix.
Qed.

Lemma sub_at_load mem p n xs :
  sub_at mem p xs -> length xs = n -> load mem n p = Done (le_value xs).
Proof.
  intros H L. unfold load. subst n. rewrite (sub_at_read _ _ _ H). reflexivity.
Qed.

(** Big-endian fields read back. *)
Lemma unpack_uint_be mem w p x :
  In w [1; 2; 4; 8] -> 0 <= x < 256 ^ w ->
  sub_at mem p (be_bytes (Z.to_nat w) x) ->
  unpack_uint mem w p = Done x.
Proof.
  intros Hw Hx Hs. unfold unpack_uint.
  assert (Hb := be_bytes_is_byte (Z.to_nat w) x).
  assert (Hl := be_bytes_length (Z.to_nat w) x).
  pose proof (be_value_be_bytes (Z.to_nat w) x) as Hv.
  cbn [In] in Hw.
  destruct Hw as [<-|[<-|[<-|[<-|[]]]]]; cbn [Z.eqb Pos.eqb].
  - change (Z.to_nat 1) with 1%nat in *.
    rewrite (sub_at_load _ _ _ _ Hs Hl). cbn [bind].
    unfold be_bytes in *. cbn [le_bytes rev app le_value] in *.
    rewrite Z.mod_small by lia. rewrite u64_small by lia. f_equal. lia.
  - change (Z.to_nat 2) with 2%nat in *.
    rewrite (sub_at_load _ _ _ _ Hs Hl). cbn [bind].
    rewrite load_swap16, Hv, u64_small by (assumption || lia). reflexivity.
  - change (Z.to_nat 4) with 4%nat in *.
    rewrite (sub_at_load _ _ _ _ Hs Hl). cbn [bind].
    rewrite load_swap32, Hv, u64_small by (assumption || lia). reflexivity.
  - change (Z.to_nat 8) with 8%nat in *.
    rewrite (sub_at_load _ _ _ _ Hs Hl). cbn [bind].
    rewrite load_swap64, Hv, u64_small by (assumption || lia). reflexivity.
Qed.

Lemma i64_small x : 0 <= x < 2 ^ 63 -> i64 x = x.
Proof.
  intros H. unfold i64. rewrite Z.mod_small by lia.
  destruct (Z.ltb_spec x (2 ^ 63)); lia.
Qed.

Lemma i64_u64 v : - 2 ^ 63 <= v < 2 ^ 63 -> i64 (u64 v) = v.
Proof.
  intros H. unfold i64, u64. rewrite Z.mod_mod by lia.
  destruct (Z_lt_le_dec v 0).
  - assert (E : v mod 2 ^ 64 = v + 2 ^ 64)
      by (symmetry; apply Z.mod_unique with (-1); lia).
    rewrite E. destruct (Z.ltb_spec (v + 2 ^ 64) (2 ^ 63)); lia.
  - rewrite Z.mod_small by lia. destruct (Z.ltb_spec v (2 ^ 63)); lia.
Qed.

Lemma u64_nonneg_inv v :
  - 2 ^ 63 <= v < 2 ^ 63 -> u64 v < 2 ^ 63 -> u64 v = v.
Proof.
  intros H Hu. unfold u64 in *.
  destruct (Z_lt_le_dec v 0).
  - assert (E : v mod 2 ^ 64 = v + 2 ^ 64)
      by (symmetry; apply Z.mod_unique with (-1); lia).
    lia.
  - apply Z.mod_small. lia.
Qed.

(** The four shapes of an int object. *)
Lemma int_object_shape v :
  let x := u64 v in
  (x < 2 ^ 8 /\ int_object v = [0x10; x])
  \/ (2 ^ 8 <= x < 2 ^ 16 /\ int_object v = 0x11 :: be_bytes 2 x)
  \/ (2 ^ 16 <= x < 2 ^ 32 /\ int_object v = 0x12 :: be_bytes 4 x)
  \/ (2 ^ 32 <= x < 2 ^ 64 /\ int_object v = 0x13 :: be_bytes 8 x).
Proof.
  intros x. unfold int_object. fold x.
  assert (Hx : 0 <= x < 2 ^ 64) by (apply Z.mod_pos_bound; lia).
  rewrite Z.shiftr_div_pow2 by lia.
  destruct (Z.eqb_spec (x / 2 ^ 32) 0) as [E|E].
  - assert (x < 2 ^ 32).
    { pose proof (Z.div_mod x (2 ^ 32) ltac:(lia)).
      pose proof (Z.mod_pos_bound x (2 ^ 32) ltac:(lia)). lia. }
    destruct (Z.leb_spec x 255); [left|destruct (Z.leb_spec x 65535); [right; left|right; right; left]].
    + split; [lia|]. unfold be_bytes. cbn [le_bytes rev app].
      rewrite Z.mod_small by lia. reflexivity.
    + split; [lia | reflexivity].
    + split; [lia | reflexivity].
  - right; right; right. split; [|reflexivity].
    destruct (Z_lt_le_dec x (2 ^ 32)); [|lia].
    rewrite Z.div_small in E by lia. contradiction.
Qed.

Ltac width_arith :=
  unfold len; cbn [length]; rewrite ?be_bytes_length;
  match goal with
  | |- context [Z.shiftl 1 ?a] =>
      let r := eval vm_compute in (Z.shiftl 1 a) in
      change (Z.shiftl 1 a) with r
  end; lia.

Lemma unpack_int_int_object mem p v :
  - 2 ^ 63 <= v < 2 ^ 63 ->
  sub_at mem p (int_object v) ->
  exists marker,
    load mem 1 p = Done marker
    /\ Z.land marker 0xF0 = plist_type_int
    /\ unpack_int mem marker (p + 1) = Done v
    /\ p + 1 + Z.shiftl 1 (Z.land marker 0x0F) = p + len (int_object v).
Proof.
  intros Hv Hs.
  assert (Hx : 0 <= u64 v < 2 ^ 64) by (apply Z.mod_pos_bound; lia).
  destruct (int_object_shape v) as [[B E]|[[B E]|[[B E]|[B E]]]];
    rewrite E in *; apply sub_at_cons in Hs; destruct Hs as [Hm Hp].
  - exists 0x10. rewrite (sub_at_load _ _ 1 _ Hm eq_refl).
    split; [reflexivity|]. split; [reflexivity|]. split; [|width_arith].
    unfold unpack_int. cbn [Z.eqb Pos.eqb plist_type_int32 plist_type_int16 plist_type_int8].
    rewrite (sub_at_load _ _ 1 _ Hp eq_refl). cbn [bind le_value].
    rewrite i64_small by lia. f_equal.
    pose proof (u64_nonneg_inv v Hv ltac:(lia)). lia.
  - exists 0x11. rewrite (sub_at_load _ _ 1 _ Hm eq_refl).
    split; [reflexivity|]. split; [reflexivity|]. split; [|width_arith].
    unfold unpack_int. cbn [Z.eqb Pos.eqb plist_type_int32 plist_type_int16 plist_type_int8].
    rewrite (sub_at_load _ _ 2 _ Hp (be_bytes_length _ _)). cbn [bind].
    rewrite load_swap16, be_value_be_bytes
      by (try apply be_bytes_is_byte; try apply be_bytes_length; simpl; lia).
    rewrite i64_small by lia. f_equal. apply u64_nonneg_inv; lia.
  - exists 0x12. rewrite (sub_at_load _ _ 1 _ Hm eq_refl).
    split; [reflexivity|]. split; [reflexivity|]. split; [|width_arith].
    unfold unpack_int. cbn [Z.eqb Pos.eqb plist_type_int32 plist_type_int16 plist_type_int8].
    rewrite (sub_at_load _ _ 4 _ Hp (be_bytes_length _ _)). cbn [bind].
    rewrite load_swap32, be_value_be_bytes
      by (try apply be_bytes_is_byte; try apply be_bytes_length; simpl; lia).
    rewrite i64_small by lia. f_equal. apply u64_nonneg_inv; lia.
  - exists 0x13. rewrite (sub_at_load _ _ 1 _ Hm eq_refl).
    split; [reflexivity|]. split; [reflexivity|]. split; [|width_arith].
    unfold unpack_int. cbn [Z.eqb Pos.eqb plist_type_int32 plist_type_int16 plist_type_int8].
    rewrite (sub_at_load _ _ 8 _ Hp (be_bytes_length _ _)). cbn [bind].
    rewrite load_swap64, be_value_be_bytes
      by (try apply be_bytes_is_byte; try apply be_bytes_length; simpl; lia).
    rewrite i64_u64 by lia. reflexivity.
Qed.

Lemma marker_nibbles type n :
  In type [0x40; 0x50; 0x60; 0xA0; 0xD0] -> 0 <= n <= 15 ->
  Z.land (Z.lor type n) 0xF0 = type /\ Z.land (Z.lor type n) 0x0F = n.
Proof.
  intros Ht Hn.
  assert (Hn' : In n [0; 1; 2; 3; 4; 5; 6; 7; 8; 9; 10; 11; 12; 13; 14; 15])
    by (cbn [In]; lia).
  cbn [In] in Ht, Hn'.
  repeat (destruct Ht as [<-|Ht];
          [repeat (destruct Hn' as [<-|Hn']; [split; reflexivity|]); contradiction|]).
  contradiction.
Qed.

Lemma unpack_length_spec mem pos type m :
  In type [0x40; 0x50; 0x60; 0xA0; 0xD0] -> 0 <= m < 2 ^ 63 ->
  sub_at mem pos (type_and_length type m) ->
  exists marker,
    load mem 1 pos = Done marker
    /\ Z.land marker 0xF0 = type
    /\ unpack_length mem marker (pos + 1)
       = Done (m, pos + len (type_and_length type m)).
Proof.
  intros Ht Hm Hs. unfold type_and_length in *.
  destruct (Z.ltb_spec m 15) as [Hlt|Hge].
  - destruct (marker_nibbles type m Ht ltac:(lia)) as [N1 N2].
    exists (Z.lor type m). rewrite (sub_at_load _ _ 1 _ Hs eq_refl).
    cbn [le_value]. rewrite Z.mul_0_r, Z.add_0_r.
    split; [reflexivity|]. split; [exact N1|].
    unfold unpack_length. rewrite N2.
    destruct (Z.eqb_spec m 15); [lia|]. reflexivity.
  - destruct (marker_nibbles type 15 Ht ltac:(lia)) as [N1 N2].
    apply sub_at_cons in Hs. destruct Hs as [Hmk Hint].
    exists (Z.lor type 15). rewrite (sub_at_load _ _ 1 _ Hmk eq_refl).
    cbn [le_value]. rewrite Z.mul_0_r, Z.add_0_r.
    split; [reflexivity|]. split; [exact N1|].
    unfold unpack_length. rewrite N2. cbn [Z.eqb Pos.eqb].
    destruct (unpack_int_int_object mem (pos + 1) m ltac:(lia) Hint)
      as (int_type & L1 & L2 & L3 & L4).
    rewrite L1. cbn [bind]. rewrite L3. cbn [bind].
    do 2 f_equal. unfold len in *. cbn [length]. lia.
Qed.

Lemma uid_object_decode mem p u :
  1 <= u < 2 ^ 64 -> sub_at mem p (uid_object u) ->
  exists marker,
    load mem 1 p = Done marker
    /\ Z.land marker 0xF0 = plist_type_uid
    /\ parse_uid mem marker (p + 1) = Done (PyUid u).
Proof.
  intros Hu Hs. unfold uid_object in Hs.
  destruct (Z.ltb_spec u (2 ^ 8));
    [|destruct (Z.ltb_spec u (2 ^ 16)); [|destruct (Z.ltb_spec u (2 ^ 32))]];
    apply sub_at_cons in Hs; destruct Hs as [Hm Hp].
  - exists 0x80. rewrite (sub_at_load _ _ 1 _ Hm eq_refl).
    split; [reflexivity|]. split; [reflexivity|].
    unfold parse_uid. change (Z.land 128 15 + 1) with 1.
    rewrite (unpack_uint_be mem 1 (p + 1) u); [reflexivity | simpl; auto | simpl; lia |].
    change (be_bytes (Z.to_nat 1) u) with [u mod 256].
    rewrite Z.mod_small by lia. exact Hp.
  - exists 0x81. rewrite (sub_at_load _ _ 1 _ Hm eq_refl).
    split; [reflexivity|]. split; [reflexivity|].
    unfold parse_uid. change (Z.land 129 15 + 1) with 2.
    rewrite (unpack_uint_be mem 2 (p + 1) u);
      [reflexivity | simpl; auto | simpl; lia | exact Hp].
  - exists 0x83. rewrite (sub_at_load _ _ 1 _ Hm eq_refl).
    split; [reflexivity|]. split; [reflexivity|].
    unfold parse_uid. change (Z.land 131 15 + 1) with 4.
    rewrite (unpack_uint_be mem 4 (p + 1) u);
      [reflexivity | simpl; auto | simpl; lia | exact Hp].
  - exists 0x87. rewrite (sub_at_load _ _ 1 _ Hm eq_refl).
    split; [reflexivity|]. split; [reflexivity|].
    unfold parse_uid. change (Z.land 135 15 + 1) with 8.
    rewrite (unpack_uint_be mem 8 (p + 1) u);
      [reflexivity | simpl; auto | simpl; lia | exact Hp].
Qed.

(** *** UTF-16 *)

Lemma be_bytes_2 u : be_bytes 2 u = [(u / 256) mod 256; u mod 256].
Proof. reflexivity. Qed.

Lemma be_units_flat_map us :
  Forall (fun u => 0 <= u < 65536) us ->
  be_units (flat_map (be_bytes 2) us) = us.
Proof.
  induction 1 as [|u r Hu Hr IH]; [reflexivity|].
  cbn [flat_map]. rewrite be_bytes_2. cbn [app be_units]. rewrite IH. f_equal.
  rewrite (Z.mod_small (u / 256)).
  - pose proof (Z.div_mod u 256 ltac:(lia)). lia.
  - split; [apply Z.div_pos; lia | apply Z.div_lt_upper_bound; lia].
Qed.

Lemma utf16_code_points_pair u l r :
  is_high_surrogate u = true -> is_low_surrogate l = true ->
  utf16_code_points (u :: l :: r)
  = option_map (cons (0x10000 + (u - 0xD800) * 0x400 + (l - 0xDC00)))
               (utf16_code_points r).
Proof. intros H1 H2. cbn [utf16_code_points]. rewrite H1, H2. reflexivity. Qed.

Lemma utf16_units_cons c r :
  utf16_units (c :: r)
  = match utf16_units r with
    | None => None
    | Some us =>
        if is_high_surrogate c || is_low_surrogate c then None
        else if c <? 0x10000 then Some (c :: us)
        else Some (0xD800 + (c - 0x10000) / 0x400
                   :: 0xDC00 + (c - 0x10000) mod 0x400 :: us)
    end.
Proof. reflexivity. Qed.

Lemma utf16_round_trip s : forall us,
  forallb (fun c => (0 <=? c) && (c <=? 0x10FFFF)) s = true ->
  utf16_units s = Some us ->
  utf16_code_points us = Some s /\ Forall (fun u => 0 <= u < 65536) us.
Proof.
  induction s as [|c r IH]; intros us Hr Hu.
  - injection Hu as <-. split; [reflexivity | constructor].
  - rewrite utf16_units_cons in Hu. cbn [forallb] in Hr.
    apply andb_true_iff in Hr. destruct Hr as [Hc Hr].
    apply andb_true_iff in Hc. destruct Hc as [C1 C2].
    apply Z.leb_le in C1. apply Z.leb_le in C2.
    destruct (utf16_units r) as [us'|]; [|discriminate].
    destruct (IH us' Hr eq_refl) as [D R].
    destruct (is_high_surrogate c || is_low_surrogate c) eqn:S; [discriminate|].
    apply orb_false_iff in S. destruct S as [S1 S2].
    destruct (Z.ltb_spec c 0x10000).
    + injection Hu as <-. cbn [utf16_code_points]. rewrite S1, S2, D.
      split; [reflexivity|]. constructor; [lia | assumption].
    + assert (Eus : us = 0xD800 + (c - 0x10000) / 0x400
                          :: 0xDC00 + (c - 0x10000) mod 0x400 :: us')
        by congruence.
      clear Hu. subst us.
      set (q := (c - 0x10000) / 0x400). set (m := (c - 0x10000) mod 0x400).
      assert (Hq : 0 <= q < 0x400).
      { subst q. split; [apply Z.div_pos; lia | apply Z.div_lt_upper_bound; lia]. }
      assert (Hm : 0 <= m < 0x400) by (subst m; apply Z.mod_pos_bound; lia).
      assert (Hc : c - 0x10000 = 0x400 * q + m)
        by (subst q m; apply Z.div_mod; lia).
      assert (H1 : is_high_surrogate (0xD800 + q) = true).
      { unfold is_high_surrogate. apply andb_true_iff. split; apply Z.leb_le; lia. }
      assert (H2 : is_low_surrogate (0xDC00 + m) = true).
      { unfold is_low_surrogate. apply andb_true_iff. split; apply Z.leb_le; lia. }
      rewrite utf16_code_points_pair, D by assumption. unfold option_map. split.
      * replace (65536 + (55296 + q - 55296) * 1024 + (56320 + m - 56320))
          with c by lia.
        reflexivity.
      * constructor; [lia|]. constructor; [lia | assumption].
Qed.

Lemma offsets_of_len : forall v pos, len (offsets_of pos v) = count v.
Proof.
  intros v. induction v as [v Hv|items IH|items IH] using pyobj_induction; intros pos.
  - destruct v; try contradiction; reflexivity.
  - cbn [offsets_of count].
    match goal with |- len (pos :: encode_seq _ _ _ ?p) = _ => generalize p end.
    intros p. unfold len. cbn [length]. rewrite Nat2Z.inj_succ.
    fold (len (encode_seq offsets_of size items p)).
    assert (E : forall p, len (encode_seq offsets_of size items p)
                          = sumZ (map count items)).
    { clear p. induction IH as [|c r Hc Hr IHr]; intros p; cbn [encode_seq map];
        [reflexivity|]. rewrite len_app, Hc, IHr. reflexivity. }
    rewrite E. lia.
  - cbn [offsets_of count].
    match goal with |- len (pos :: encode_seq _ _ _ ?p) = _ => generalize p end.
    intros p. unfold len. cbn [length]. rewrite Nat2Z.inj_succ.
    match goal with |- Z.succ (Z.of_nat (length ?l)) = _ => fold (len l) end.
    assert (E : forall p,
               len (encode_seq
                      (fun p '(k, x) => offsets_of p k ++ offsets_of (p + size k) x)
                      (fun '(k, x) => size k + size x) items p)
               = sumZ (map (fun '(k, x) => count k + count x) items)).
    { clear p. induction IH as [|[k x] r [Hk Hx] Hr IHr]; intros p;
        cbn [encode_seq map]; [reflexivity|].
      cbn [fst snd] in Hk, Hx.
      rewrite !len_app, Hk, Hx, IHr. unfold sumZ. cbn [fold_right]. lia. }
    rewrite E. lia.
Qed.

Lemma dict_set_fresh d k v :
  (forall e, In e d -> key_eqb (fst e) k = false) ->
  dict_set d k v = d ++ [(k, v)].
Proof.
  induction d as [|[k' v'] r IH]; intros H; cbn [dict_set app]; [reflexivity|].
  pose proof (H (k', v') (or_introl eq_refl)) as E. cbn [fst] in E.
  rewrite E, IH; [reflexivity|].
  intros e He. apply H. right. exact He.
Qed.

Lemma is_key_parsed k : is_key k = true -> as_parsed k = k /\ hashable k = true.
Proof. destruct k; cbn [is_key]; try discriminate; intros _; split; reflexivity. Qed.

(** *** Objects of a generated file *)

Section ParseGenerated.

Variable st : bplist_parse_state.
Variable O : list Z.
Hypothesis Hdata : data st = 0.
Hypothesis Hrefs : ref_size st = 2.
Hypothesis Htable : table_ok st O.
Hypothesis HlenO : Z.of_nat (length O) <= 65535.

(** Where the type switch of [parse_plist_object] goes for the object
    with index [n], found at [pos] with marker [marker]. *)
Lemma parse_object_at fuel n pos marker :
  sub_at O n [pos] -> 0 < pos < data_end st ->
  load (mem st) 1 pos = Done marker ->
  let tag := Z.land marker 0xF0 in
  (tag = plist_type_int ->
   parse_plist_object (S fuel) st n = parse_int (mem st) marker (pos + 1))
  /\ (tag = plist_type_uid ->
      parse_plist_object (S fuel) st n = parse_uid (mem st) marker (pos + 1))
  /\ (tag = plist_type_ascii_string ->
      parse_plist_object (S fuel) st n
      = parse_ascii_string (mem st) marker (pos + 1) (data_end st))
  /\ (tag = plist_type_utf16_string ->
      parse_plist_object (S fuel) st n
      = parse_utf16_string (mem st) marker (pos + 1) (data_end st))
  /\ (tag = plist_type_data ->
      parse_plist_object (S fuel) st n
      = parse_data (mem st) marker (pos + 1) (data_end st))
  /\ (tag = plist_type_dict ->
      parse_plist_object (S fuel) st n
      = parse_dict (parse_plist_object fuel) fuel st marker (pos + 1) (data_end st))
  /\ (tag = plist_type_array ->
      parse_plist_object (S fuel) st n
      = parse_array (parse_plist_object fuel) fuel st marker (pos + 1) (data_end st))
  /\ (marker = 0x23 ->
      parse_plist_object (S fuel) st n = parse_float64 (mem st) (pos + 1)).
Proof.
  intros Hidx Hpos Hload tag.
  destruct (Htable n pos Hidx) as [W U]. unfold entry_in_window in W.
  assert (E : parse_plist_object (S fuel) st n
              = parse_plist_object_body (parse_plist_object fuel) fuel st n)
    by reflexivity.
  rewrite E. clear E. unfold parse_plist_object_body.
  set (object_ref := offset_table st + u64 (n * offset_size st)) in *.
  destruct (Z.leb_spec object_ref (data st)); [lia|].
  destruct (Z.geb_spec object_ref (data_end st)); [lia|].
  cbn [orb]. rewrite U. cbn [bind]. rewrite Hdata. rewrite Z.add_0_l.
  destruct (Z.leb_spec pos 0); [lia|].
  destruct (Z.geb_spec pos (data_end st)); [lia|].
  cbn [orb]. rewrite Hload. cbn [bind]. fold tag.
  repeat split; intros ->; reflexivity.
Qed.

Lemma parses_long z : supported (PyLong z) = true -> parses st O (PyLong z).
Proof.
  cbn [supported]. intros Hz. apply andb_true_iff in Hz. destruct Hz as [Z1 Z2].
  apply Z.leb_le in Z1. apply Z.ltb_lt in Z2.
  intros n pos fuel Henc Hoff Hpos Hend Hfuel.
  cbn [encode offsets_of size count as_parsed] in *.
  destruct fuel as [|fuel]; [change (Z.of_nat 0) with 0 in Hfuel; lia|].
  pose proof (int_object_len z).
  destruct (unpack_int_int_object _ _ _ (conj Z1 Z2) Henc) as (marker & L1 & L2 & L3 & _).
  destruct (parse_object_at fuel n pos marker Hoff ltac:(lia) L1) as [P _].
  rewrite (P L2). unfold parse_int. rewrite L3. reflexivity.
Qed.

Lemma parses_uid u : supported (PyUid u) = true -> parses st O (PyUid u).
Proof.
  cbn [supported]. intros Hz. apply andb_true_iff in Hz. destruct Hz as [Z1 Z2].
  apply Z.leb_le in Z1. apply Z.ltb_lt in Z2.
  intros n pos fuel Henc Hoff Hpos Hend Hfuel.
  cbn [encode offsets_of size count as_parsed] in *.
  destruct fuel as [|fuel]; [change (Z.of_nat 0) with 0 in Hfuel; lia|].
  pose proof (uid_object_len u).
  destruct (uid_object_decode _ _ _ (conj Z1 Z2) Henc) as (marker & L1 & L2 & L3).
  destruct (parse_object_at fuel n pos marker Hoff ltac:(lia) L1) as (_ & P & _).
  rewrite (P L2). exact L3.
Qed.

Lemma parses_float b : supported (PyFloat b) = true -> parses st O (PyFloat b).
Proof.
  cbn [supported]. intros Hz. apply andb_true_iff in Hz. destruct Hz as [Z1 Z2].
  apply Z.leb_le in Z1. apply Z.ltb_lt in Z2.
  intros n pos fuel Henc Hoff Hpos Hend Hfuel.
  cbn [encode offsets_of size count as_parsed] in *.
  destruct fuel as [|fuel]; [change (Z.of_nat 0) with 0 in Hfuel; lia|].
  apply sub_at_cons in Henc. destruct Henc as [Hm Hp].
  pose proof (sub_at_load _ _ 1 _ Hm eq_refl) as L1. cbn [le_value] in L1.
  destruct (parse_object_at fuel n pos 0x23 Hoff ltac:(lia) L1) as (_&_&_&_&_&_&_& P).
  rewrite (P eq_refl). unfold parse_float64.
  rewrite (sub_at_load _ _ 8 _ Hp (be_bytes_length _ _)). cbn [bind].
  rewrite load_swap64, be_value_be_bytes
    by (try apply be_bytes_is_byte; try apply be_bytes_length; simpl; lia).
  reflexivity.
Qed.

Lemma read_span_sub mem p xs :
  sub_at mem p xs -> read_span mem p (len xs) = Done xs.
Proof.
  intros H. unfold read_span, len.
  destruct (Z.ltb_spec (Z.of_nat (length xs)) 0); [lia|].
  rewrite Nat2Z.id, (sub_at_read _ _ _ H). reflexivity.
Qed.

Lemma parses_bytes bs : supported (PyBytes bs) = true -> parses st O (PyBytes bs).
Proof.
  cbn [supported]. intros H. apply andb_true_iff in H. destruct H as [_ HL].
  apply Z.leb_le in HL.
  intros n pos fuel Henc Hoff Hpos Hend Hfuel.
  cbn [encode offsets_of size count as_parsed] in *.
  destruct fuel as [|fuel]; [change (Z.of_nat 0) with 0 in Hfuel; lia|].
  apply sub_at_app in Henc. destruct Henc as [Hh Hp].
  fold (len (type_and_length 64 (len bs))) in Hp.
  pose proof (type_and_length_len 0x40 (len bs)) as HT.
  pose proof (len_nonneg bs) as HB.
  destruct (unpack_length_spec _ _ 0x40 (len bs) ltac:(cbn [In]; lia) ltac:(lia) Hh)
    as (marker & L1 & L2 & L3).
  destruct (parse_object_at fuel n pos marker Hoff ltac:(lia) L1) as (_&_&_&_& P &_).
  rewrite (P L2). unfold parse_data. rewrite L3. cbn [bind].
  destruct (Z.ltb_spec (pos + len (type_and_length 64 (len bs)) + len bs)
                       (data_end st)); [|lia].
  unfold PyByteArray_FromStringAndSize. rewrite (read_span_sub _ _ _ Hp).
  reflexivity.
Qed.

Lemma parses_unicode s : supported (PyUnicode s) = true -> parses st O (PyUnicode s).
Proof.
  cbn [supported]. intros H.
  intros n pos fuel Henc Hoff Hpos Hend Hfuel.
  cbn [encode offsets_of size count as_parsed] in *.
  destruct fuel as [|fuel]; [change (Z.of_nat 0) with 0 in Hfuel; lia|].
  unfold string_object in *.
  destruct (is_ascii s) eqn:A.
  - apply Z.leb_le in H.
    apply sub_at_app in Henc. destruct Henc as [Hh Hp].
    fold (len (type_and_length 80 (len s))) in Hp.
    rewrite len_app in Hend.
    pose proof (type_and_length_len 0x50 (len s)) as HT.
    pose proof (len_nonneg s) as HB.
    destruct (unpack_length_spec _ _ 0x50 (len s) ltac:(cbn [In]; lia) ltac:(lia) Hh)
      as (marker & L1 & L2 & L3).
    destruct (parse_object_at fuel n pos marker Hoff ltac:(lia) L1) as (_&_& P &_).
    rewrite (P L2). unfold parse_ascii_string. rewrite L3. cbn [bind].
    destruct (Z.ltb_spec (pos + len (type_and_length 80 (len s)) + len s)
                         (data_end st)); [|lia].
    unfold PyUnicode_DecodeASCII. rewrite (read_span_sub _ _ _ Hp). cbn [bind].
    rewrite (is_ascii_strict s A). reflexivity.
  - apply andb_true_iff in H. destruct H as [H Hu].
    apply andb_true_iff in H. destruct H as [_ Hcp].
    destruct (utf16_units s) as [us|] eqn:U; [|discriminate].
    apply Z.leb_le in Hu.
    destruct (utf16_round_trip s us Hcp U) as [RT RU].
    apply sub_at_app in Henc. destruct Henc as [Hh Hp].
    fold (len (type_and_length 96 (len us))) in Hp.
    rewrite len_app, flat_map_be2_len in Hend.
    pose proof (type_and_length_len 0x60 (len us)) as HT.
    pose proof (len_nonneg us) as HB.
    destruct (unpack_length_spec _ _ 0x60 (len us) ltac:(cbn [In]; lia) ltac:(lia) Hh)
      as (marker & L1 & L2 & L3).
    destruct (parse_object_at fuel n pos marker Hoff ltac:(lia) L1) as (_&_&_& P &_).
    rewrite (P L2). unfold parse_utf16_string. rewrite L3. cbn [bind].
    rewrite i64_small by lia.
    destruct (Z.ltb_spec (pos + len (type_and_length 96 (len us)) + len us * 2)
                         (data_end st)); [|lia].
    unfold PyUnicode_DecodeUTF16.
    replace (len us * 2) with (len (flat_map (be_bytes 2) us))
      by (rewrite flat_map_be2_len; lia).
    rewrite (read_span_sub _ _ _ Hp). cbn [bind].
    rewrite be_units_flat_map, RT by assumption. reflexivity.
Qed.

Lemma index_in_table n pos v :
  sub_at O n (offsets_of pos v) -> 0 <= n /\ n + count v <= 65535.
Proof.
  intros H. pose proof (sub_at_nonneg _ _ _ H). pose proof (sub_at_bound _ _ _ H) as B.
  fold (len (offsets_of pos v)) in B. rewrite offsets_of_len in B. lia.
Qed.

Lemma parse_array_loop_spec items :
  Forall (parses st O) items ->
  forall n rp q k i acc fuel,
    sub_at (mem st) rp (encode_seq (fun i _ => be_bytes 2 i) count items n) ->
    sub_at (mem st) q (encode_seq encode count items n) ->
    sub_at O n (encode_seq offsets_of size items q) ->
    0 < q -> q + sumZ (map size items) < data_end st ->
    sumZ (map count items) <= Z.of_nat fuel ->
    Z.of_nat (length items) <= Z.of_nat k ->
    parse_array_loop (parse_plist_object fuel) k st i
      (i + Z.of_nat (length items)) rp acc
    = Done (acc ++ map as_parsed items).
Proof.
  induction 1 as [|c r Hc Hr IH]; intros n rp q k i acc fuel Hrefs' Hbody Hoff Hq Hend Hfuel Hk.
  - cbn [length map]. rewrite Z.add_0_r, app_nil_r.
    destruct k; cbn [parse_array_loop]; rewrite Z.ltb_irrefl; reflexivity.
  - cbn [encode_seq map length] in *.
    destruct k as [|k]; [simpl in Hk; lia|].
    cbn [parse_array_loop].
    destruct (Z.ltb_spec i (i + Z.of_nat (S (length r)))); [|lia].
    apply sub_at_app in Hrefs'. destruct Hrefs' as [R1 R2].
    apply sub_at_app in Hbody. destruct Hbody as [B1 B2].
    apply sub_at_app in Hoff. destruct Hoff as [O1 O2].
    fold (len (encode n c)) in B2. rewrite encode_len in B2.
    fold (len (offsets_of q c)) in O2. rewrite offsets_of_len in O2.
    rewrite be_bytes_length in R2.
    destruct (index_in_table _ _ _ O1) as [N1 N2].
    pose proof (count_pos c) as Cc.
    pose proof (sumZ_nonneg_counts r) as Cr.
    assert (SZc : sumZ (count c :: map count r) = count c + sumZ (map count r))
      by reflexivity.
    assert (SZs : sumZ (size c :: map size r) = size c + sumZ (map size r))
      by reflexivity.
    rewrite SZc in Hfuel. rewrite SZs in Hend.
    assert (Sr : 0 <= sumZ (map size r)).
    { apply sumZ_nonneg. clear. induction r; cbn [map]; constructor; [|assumption].
      rewrite <- (encode_len a 0). apply len_nonneg. }
    rewrite Hrefs.
    rewrite (unpack_uint_be (mem st) 2 rp n); [| simpl; auto | simpl; lia | exact R1].
    cbn [bind].
    rewrite (Hc n q fuel B1 O1 Hq ltac:(lia) ltac:(lia)). cbn [bind].
    replace (i + Z.of_nat (S (length r))) with (i + 1 + Z.of_nat (length r)) by lia.
    rewrite (IH (n + count c) (rp + 2) (q + size c) k (i + 1) (acc ++ [as_parsed c]) fuel);
      try assumption; try lia.
    + rewrite <- app_assoc. reflexivity.
    + pose proof (encode_len c n). pose proof (len_nonneg (encode n c)). lia.
Qed.

Lemma parse_dict_loop_spec items :
  Forall (fun kv => parses st O (fst kv) /\ parses st O (snd kv)) items ->
  forall n kp vp q k i acc fuel,
    sub_at (mem st) kp
      (encode_seq (fun i _ => be_bytes 2 i) (fun '(k, x) => count k + count x) items n) ->
    sub_at (mem st) vp
      (encode_seq (fun i '(k, _) => be_bytes 2 (i + count k))
         (fun '(k, x) => count k + count x) items n) ->
    sub_at (mem st) q
      (encode_seq (fun i '(k, x) => encode i k ++ encode (i + count k) x)
         (fun '(k, x) => count k + count x) items n) ->
    sub_at O n
      (encode_seq (fun p '(k, x) => offsets_of p k ++ offsets_of (p + size k) x)
         (fun '(k, x) => size k + size x) items q) ->
    0 < q ->
    q + sumZ (map (fun '(k, x) => size k + size x) items) < data_end st ->
    sumZ (map (fun '(k, x) => count k + count x) items) <= Z.of_nat fuel ->
    Z.of_nat (length items) <= Z.of_nat k ->
    forallb (fun '(k, x) => is_key k) items = true ->
    distinct_keys (map fst items) = true ->
    (forall e kv, In e acc -> In kv items -> key_eqb (fst e) (fst kv) = false) ->
    parse_dict_loop (parse_plist_object fuel) k st i
      (i + Z.of_nat (length items)) kp vp acc
    = Done (acc ++ map (fun '(k, x) => (as_parsed k, as_parsed x)) items).
Proof.
  induction 1 as [|[key val] r [Hkey Hval] Hr IH];
    intros n kp vp q k i acc fuel Hkr Hvr Hbody Hoff Hq Hend Hfuel Hk Hkeys Hdist Hacc.
  - cbn [length map]. rewrite Z.add_0_r, app_nil_r.
    destruct k; cbn [parse_dict_loop]; rewrite Z.ltb_irrefl; reflexivity.
  - cbn [fst snd] in Hkey, Hval.
    cbn [encode_seq map length forallb distinct_keys fst] in *. cbv beta iota in *.
    destruct k as [|k]; [simpl in Hk; lia|].
    cbn [parse_dict_loop].
    destruct (Z.ltb_spec i (i + Z.of_nat (S (length r)))); [|lia].
    apply andb_true_iff in Hkeys. destruct Hkeys as [Kk Kr].
    apply andb_true_iff in Hdist. destruct Hdist as [Dk Dr].
    destruct (is_key_parsed key Kk) as [Pk Hk'].
    apply sub_at_app in Hkr. destruct Hkr as [R1 R2].
    apply sub_at_app in Hvr. destruct Hvr as [V1 V2].
    apply sub_at_app in Hbody. destruct Hbody as [B1 B2].
    apply sub_at_app in B1. destruct B1 as [Bk Bv].
    apply sub_at_app in Hoff. destruct Hoff as [O1 O2].
    apply sub_at_app in O1. destruct O1 as [Ok Ov].
    rewrite !length_app in B2, O2. rewrite Nat2Z.inj_add in B2, O2.
    fold (len (encode n key)) in Bv, B2. rewrite encode_len in Bv, B2.
    fold (len (encode (n + count key) val)) in B2. rewrite encode_len in B2.
    fold (len (offsets_of q key)) in Ov, O2. rewrite offsets_of_len in Ov, O2.
    fold (len (offsets_of (q + size key) val)) in O2. rewrite offsets_of_len in O2.
    rewrite be_bytes_length in R2, V2.
    destruct (index_in_table _ _ _ Ok) as [N1 N2].
    destruct (index_in_table _ _ _ Ov) as [N3 N4].
    pose proof (count_pos key) as Ck. pose proof (count_pos val) as Cv.
    assert (Sk : 0 <= size key) by (rewrite <- (encode_len key 0); apply len_nonneg).
    assert (Sv : 0 <= size val) by (rewrite <- (encode_len val 0); apply len_nonneg).
    assert (Cr : 0 <= sumZ (map (fun '(k, x) => count k + count x) r)).
    { apply sumZ_nonneg. clear. induction r as [|[a b] r IH]; cbn [map];
        constructor; [|assumption].
      pose proof (count_pos a). pose proof (count_pos b). lia. }
    assert (Sr : 0 <= sumZ (map (fun '(k, x) => size k + size x) r)).
    { apply sumZ_nonneg. clear. induction r as [|[a b] r IH]; cbn [map];
        constructor; [|assumption].
      rewrite <- (encode_len a 0), <- (encode_len b 0).
      pose proof (len_nonneg (encode 0 a)). pose proof (len_nonneg (encode 0 b)). lia. }
    unfold sumZ in Hend, Hfuel. cbn [fold_right] in Hend, Hfuel.
    fold (sumZ (map (fun '(k, x) => size k + size x) r)) in Hend.
    fold (sumZ (map (fun '(k, x) => count k + count x) r)) in Hfuel.
    rewrite Hrefs.
    rewrite (unpack_uint_be (mem st) 2 kp n); [| simpl; auto | simpl; lia | exact R1].
    cbn [bind].
    rewrite (unpack_uint_be (mem st) 2 vp (n + count key));
      [| simpl; auto | simpl; lia | exact V1].
    cbn [bind].
    rewrite (Hkey n q fuel Bk Ok Hq ltac:(lia) ltac:(lia)).
    rewrite (Hval (n + count key) (q + size key) fuel Bv Ov ltac:(lia) ltac:(lia)
               ltac:(lia)).
    cbn [bind]. rewrite Pk. unfold PyDict_SetItem. rewrite Hk'.
    rewrite dict_set_fresh.
    2:{ intros e He. apply (Hacc e (key, val) He). left. reflexivity. }
    cbn [bind].
    replace (i + Z.of_nat (S (length r))) with (i + 1 + Z.of_nat (length r)) by lia.
    rewrite (IH (n + (count key + count val)) (kp + 2) (vp + 2)
               (q + (size key + size val)) k (i + 1)
               (acc ++ [(key, as_parsed val)]) fuel);
      try assumption; try lia.
    + rewrite <- app_assoc. reflexivity.
    + intros e kv He Hkv. apply in_app_or in He. destruct He as [He|[<-|[]]].
      * apply (Hacc e kv He). right. exact Hkv.
      * cbn [fst]. rewrite forallb_forall in Dk.
        specialize (Dk (fst kv) (in_map fst _ _ Hkv)).
        apply negb_true_iff in Dk. exact Dk.
Qed.

Lemma length_le_counts items : Z.of_nat (length items) <= sumZ (map count items).
Proof.
  induction items as [|c r IH]; cbn [length map]; [unfold sumZ; simpl; lia|].
  change (sumZ (count c :: map count r)) with (count c + sumZ (map count r)).
  pose proof (count_pos c). lia.
Qed.

Lemma length_le_entry_counts (items : list (pyobj * pyobj)) :
  Z.of_nat (length items) <= sumZ (map (fun '(k, x) => count k + count x) items).
Proof.
  induction items as [|[k x] r IH]; cbn [length map]; [unfold sumZ; simpl; lia|].
  unfold sumZ in *. cbn [fold_right].
  pose proof (count_pos k). pose proof (count_pos x). lia.
Qed.

Lemma parses_list items :
  Z.of_nat (length items) <= 2048 ->
  Forall (parses st O) items -> parses st O (PyList items).
Proof.
  intros Hlen Hitems n pos fuel Henc Hoff Hpos Hend Hfuel.
  cbn [encode offsets_of size count as_parsed] in *.
  set (m := Z.of_nat (length items)) in *.
  destruct fuel as [|fuel].
  { pose proof (sumZ_nonneg_counts items). change (Z.of_nat 0) with 0 in Hfuel. lia. }
  apply sub_at_app in Henc. destruct Henc as [Hh Henc].
  apply sub_at_app in Henc. destruct Henc as [Hr Hb].
  fold (len (type_and_length 160 m)) in Hr, Hb.
  fold (len (encode_seq (fun i _ => be_bytes 2 i) count items (n + 1))) in Hb.
  rewrite encode_seq_refs_len in Hb. fold m in Hb.
  apply sub_at_cons in Hoff. destruct Hoff as [Hidx Hoffs].
  pose proof (type_and_length_len 0xA0 m) as HT.
  assert (Hm : 0 <= m) by (subst m; lia).
  pose proof (length_le_counts items) as HLC. fold m in HLC.
  assert (Ss : 0 <= sumZ (map size items)).
  { apply sumZ_nonneg. clear. induction items; cbn [map]; constructor; [|assumption].
    rewrite <- (encode_len a 0). apply len_nonneg. }
  destruct (unpack_length_spec _ _ 0xA0 m ltac:(cbn [In]; lia) ltac:(lia) Hh)
    as (marker & L1 & L2 & L3).
  destruct (parse_object_at fuel n pos marker Hidx ltac:(lia) L1) as (_&_&_&_&_&_& P &_).
  rewrite (P L2). unfold parse_array. rewrite L3. cbn [bind]. rewrite Hrefs.
  rewrite (u64_small (m * 2)) by lia.
  destruct (Z.gtb_spec (pos + len (type_and_length 160 m) + m * 2) (data_end st));
    [lia|].
  unfold PyList_New.
  destruct (Z.ltb_spec m 0); [lia|].
  change (PY_SSIZE_T_MAX / 8) with 1152921504606846975.
  destruct (Z.gtb_spec m 1152921504606846975); [lia|].
  cbn [bind]. rewrite (u64_small m) by lia.
  change (parse_array_loop (parse_plist_object fuel) fuel st 0 m
            (pos + len (type_and_length 160 m)) [])
    with (parse_array_loop (parse_plist_object fuel) fuel st 0
            (0 + Z.of_nat (length items))
            (pos + len (type_and_length 160 m)) []).
  rewrite (parse_array_loop_spec items Hitems (n + 1)
             (pos + len (type_and_length 160 m))
             (pos + len (type_and_length 160 m) + 2 * m) fuel 0 [] fuel);
    try assumption; try lia.
  reflexivity.
Qed.

Lemma parses_dict (items : list (pyobj * pyobj)) :
  Z.of_nat (length items) <= 1024 ->
  Forall (fun kv => parses st O (fst kv) /\ parses st O (snd kv)) items ->
  forallb (fun '(k, x) => is_key k) items = true ->
  distinct_keys (map fst items) = true ->
  parses st O (PyDict items).
Proof.
  intros Hlen Hitems Hkeys Hdist n pos fuel Henc Hoff Hpos Hend Hfuel.
  cbn [encode offsets_of size count as_parsed] in *.
  set (m := Z.of_nat (length items)) in *.
  set (step := fun '(k, x) => count k + count x) in *.
  destruct fuel as [|fuel].
  { pose proof (length_le_entry_counts items). fold step in H.
    change (Z.of_nat 0) with 0 in Hfuel. lia. }
  apply sub_at_app in Henc. destruct Henc as [Hh Henc].
  apply sub_at_app in Henc. destruct Henc as [Hk Henc].
  apply sub_at_app in Henc. destruct Henc as [Hv Hb].
  fold (len (type_and_length 208 m)) in Hk, Hv, Hb.
  fold (len (encode_seq (fun i _ => be_bytes 2 i) step items (n + 1))) in Hv, Hb.
  fold (len (encode_seq (fun i '(k, _) => be_bytes 2 (i + count k)) step items (n + 1))) in Hb.
  rewrite encode_seq_refs_len in Hv, Hb.
  rewrite encode_seq_val_refs_len in Hb. fold m in Hv, Hb.
  apply sub_at_cons in Hoff. destruct Hoff as [Hidx Hoffs].
  pose proof (type_and_length_len 0xD0 m) as HT.
  assert (Hm : 0 <= m) by (subst m; lia).
  pose proof (length_le_entry_counts items) as HLC. fold m step in HLC.
  assert (Ss : 0 <= sumZ (map (fun '(k, x) => size k + size x) items)).
  { apply sumZ_nonneg. clear. induction items as [|[k x] r IH]; cbn [map]; constructor;
      [|assumption].
    rewrite <- (encode_len k 0), <- (encode_len x 0).
    pose proof (len_nonneg (encode 0 k)). pose proof (len_nonneg (encode 0 x)). lia. }
  destruct (unpack_length_spec _ _ 0xD0 m ltac:(cbn [In]; lia) ltac:(lia) Hh)
    as (marker & L1 & L2 & L3).
  destruct (parse_object_at fuel n pos marker Hidx ltac:(lia) L1) as (_&_&_&_&_& P &_).
  rewrite (P L2). unfold parse_dict. rewrite L3. cbn [bind]. rewrite Hrefs.
  rewrite (u64_small m) by lia.
  rewrite (u64_small (m * 2 * 2)) by lia.
  rewrite (u64_small (m * 2)) by lia.
  destruct (Z.gtb_spec (pos + len (type_and_length 208 m) + m * 2 * 2) (data_end st));
    [lia|].
  change (parse_dict_loop (parse_plist_object fuel) fuel st 0 m
            (pos + len (type_and_length 208 m))
            (pos + len (type_and_length 208 m) + m * 2) [])
    with (parse_dict_loop (parse_plist_object fuel) fuel st 0
            (0 + Z.of_nat (length items))
            (pos + len (type_and_length 208 m))
            (pos + len (type_and_length 208 m) + m * 2) []).
  replace (pos + len (type_and_length 208 m) + m * 2)
    with (pos + len (type_and_length 208 m) + 2 * m) by lia.
  replace (pos + len (type_and_length 208 m) + 2 * m + 2 * m)
    with (pos + len (type_and_length 208 m) + 4 * m) in Hb by lia.
  rewrite (parse_dict_loop_spec items Hitems (n + 1)
             (pos + len (type_and_length 208 m))
             (pos + len (type_and_length 208 m) + 2 * m)
             (pos + len (type_and_length 208 m) + 4 * m) fuel 0 [] fuel);
    try assumption; try lia.
  - reflexivity.
  - fold step. lia.
  - intros e kv [].
Qed.

Lemma parses_supported v : supported v = true -> parses st O v.
Proof.
  induction v as [v Hv|items IH|items IH] using pyobj_induction; intros S.
  - destruct v; try contradiction; try discriminate S.
    + apply parses_long. exact S.
    + apply parses_uid. exact S.
    + apply parses_float. exact S.
    + apply parses_unicode. exact S.
    + apply parses_bytes. exact S.
  - cbn [supported] in S. apply andb_true_iff in S. destruct S as [S1 S2].
    apply Z.leb_le in S1. apply parses_list; [lia|].
    rewrite forallb_forall in S2. rewrite Forall_forall in *.
    intros x Hx. apply IH; auto.
  - cbn [supported] in S. apply andb_true_iff in S. destruct S as [S S3].
    apply andb_true_iff in S. destruct S as [S1 S2].
    rewrite forallb_forall in S2.
    apply Z.leb_le in S1. apply parses_dict; [lia| | |exact S3].
    + rewrite Forall_forall in *. intros [k x] Hx. cbn [fst snd].
      specialize (S2 _ Hx). cbv beta iota in S2.
      apply andb_true_iff in S2. destruct S2 as [S2 Sx].
      apply andb_true_iff in S2. destruct S2 as [Sk Kk].
      destruct (IH _ Hx) as [Ik Ix]. split; auto.
    + apply forallb_forall. intros [k x] Hx. specialize (S2 _ Hx). cbv beta iota in S2.
      apply andb_true_iff in S2. destruct S2 as [S2 Sx].
      apply andb_true_iff in S2. destruct S2 as [Sk Kk]. exact Kk.
Qed.

End ParseGenerated.

(** *** The whole file *)

Lemma sub_at_self {A} (l : list A) : sub_at l 0 l.
Proof. exists [], []. rewrite app_nil_r. split; reflexivity. Qed.

Lemma encode_seq_in_range {A} (enc : Z -> A -> list Z) (step : A -> Z) items :
  Forall (fun c => 0 <= step c
                   /\ forall q p, In p (enc q c) -> q <= p < q + step c) items ->
  forall q p, In p (encode_seq enc step items q) ->
              q <= p < q + sumZ (map step items).
Proof.
  induction 1 as [|c r [Hc1 Hc2] Hr IH]; intros q p Hin; cbn [encode_seq map] in *.
  - contradiction.
  - change (sumZ (step c :: map step r)) with (step c + sumZ (map step r)).
    assert (0 <= sumZ (map step r)).
    { apply sumZ_nonneg. clear -Hr. induction Hr as [|x l [Hx _] _ IH]; cbn [map];
        constructor; assumption. }
    apply in_app_or in Hin. destruct Hin as [Hin|Hin].
    + specialize (Hc2 _ _ Hin). lia.
    + specialize (IH _ _ Hin). lia.
Qed.

Lemma size_pos v : supported v = true -> 1 <= size v.
Proof.
  intros Hs. rewrite <- (encode_len v 0).
  destruct v as [b|z|n|bits|bits|s|bs|bs|items|items|];
    try discriminate Hs; cbn [encode].
  - pose proof (int_object_len z). lia.
  - pose proof (uid_object_len n). lia.
  - unfold len. cbn [length]. lia.
  - cbn [supported] in Hs. unfold string_object.
    destruct (is_ascii s).
    + rewrite len_app. pose proof (type_and_length_len 0x50 (len s)).
      pose proof (len_nonneg s). lia.
    + destruct (utf16_units s) as [us|].
      * rewrite len_app. pose proof (type_and_length_len 0x60 (len us)).
        pose proof (len_nonneg (flat_map (be_bytes 2) us)). lia.
      * rewrite !andb_false_r in Hs. discriminate Hs.
  - rewrite len_app. pose proof (type_and_length_len 0x40 (len bs)).
    pose proof (len_nonneg bs). lia.
  - rewrite len_app.
    pose proof (type_and_length_len 0xA0 (Z.of_nat (length items))).
    match goal with |- 1 <= _ + len ?x => pose proof (len_nonneg x) end. lia.
  - rewrite len_app.
    pose proof (type_and_length_len 0xD0 (Z.of_nat (length items))).
    match goal with |- 1 <= _ + len ?x => pose proof (len_nonneg x) end. lia.
Qed.

(** Every table entry of a value points into the value's own bytes. *)
Lemma offsets_of_range : forall v, supported v = true ->
  forall pos p, In p (offsets_of pos v) -> pos <= p < pos + size v.
Proof.
  intros v. induction v as [v Hv|items IH|items IH] using pyobj_induction;
    intros Hs pos p Hin.
  - pose proof (size_pos v Hs).
    destruct v; try contradiction; cbn [offsets_of In] in Hin;
      destruct Hin as [<-|[]]; lia.
  - pose proof (size_pos _ Hs) as Hp.
    cbn [offsets_of In size] in *. destruct Hin as [<-|Hin]; [lia|].
    cbn [supported] in Hs. apply andb_true_iff in Hs. destruct Hs as [_ HF].
    rewrite forallb_forall in HF.
    pose proof (type_and_length_len 0xA0 (Z.of_nat (length items))).
    apply encode_seq_in_range in Hin; [lia|].
    rewrite Forall_forall in *. intros c Hc. split.
    + rewrite <- (encode_len c 0). apply len_nonneg.
    + intros q p'. apply IH; auto.
  - pose proof (size_pos _ Hs) as Hp.
    cbn [offsets_of In size] in *. destruct Hin as [<-|Hin]; [lia|].
    cbn [supported] in Hs. apply andb_true_iff in Hs. destruct Hs as [Hs _].
    apply andb_true_iff in Hs. destruct Hs as [_ HF].
    rewrite forallb_forall in HF.
    pose proof (type_and_length_len 0xD0 (Z.of_nat (length items))).
    apply encode_seq_in_range in Hin; [lia|].
    rewrite Forall_forall in *. intros [k x] Hc.
    specialize (HF _ Hc). cbv beta iota in HF.
    apply andb_true_iff in HF. destruct HF as [HF Sx].
    apply andb_true_iff in HF. destruct HF as [Sk _].
    destruct (IH _ Hc) as [Ik Ix]. cbn [fst snd] in Ik, Ix.
    pose proof (size_pos k Sk). pose proof (size_pos x Sx).
    split; [lia|].
    intros q p' Hin'. apply in_app_or in Hin'. destruct Hin' as [Hin'|Hin'].
    + specialize (Ik Sk _ _ Hin'). lia.
    + specialize (Ix Sx _ _ Hin'). lia.
Qed.

(** The object region of a supported value stays within the 4106 bytes
    per object the generator's buffer is sure to hold. *)
Lemma object_region_bound v :
  supported v = true -> count v < 65535 ->
  len (bplist_header ++ encode 0 v) <= 8 + 4106 * count v.
Proof.
  intros Hs Hc.
  set (s0 := {| offsets := []; offsets_len := initial_offset_table_length / 4;
                objects := bplist_header;
                objects_len := initial_objects_buffer_length;
                trailer := {| Trailer.offset_size := 4; Trailer.ref_size := 2;
                              Trailer.num_objects := 0; Trailer.top_object := 0;
                              Trailer.offset_table_offset := 0 |} |}).
  assert (I0 : gen_inv 0 s0).
  { unfold gen_inv. cbv zeta.
    repeat split; vm_compute; try reflexivity; discriminate. }
  destruct (generates_supported v Hs s0 I0) as [GD _].
  change (Trailer.num_objects (trailer s0)) with 0 in GD.
  rewrite Z.add_0_l in GD.
  destruct (GD Hc) as (s1 & _ & G1 & _ & G3 & G4).
  change (objects s0) with bplist_header in G1.
  change (Trailer.num_objects (trailer s0)) with 0 in G1, G3.
  rewrite Z.add_0_l in G3.
  unfold gen_inv in G4. cbv zeta in G4.
  destruct G4 as (_ & _ & _ & _ & _ & Hsz & _).
  unfold current_object in Hsz. rewrite G1, G3 in Hsz. unfold len. lia.
Qed.

Lemma flat_map_be_bytes_len os l :
  Z.of_nat (length (flat_map (be_bytes os) l)) = Z.of_nat os * Z.of_nat (length l).
Proof.
  induction l as [|x r IH]; cbn [flat_map length]; [lia|].
  rewrite length_app, be_bytes_length. lia.
Qed.

(** Entry [idx] of a table written [os] bytes per entry. *)
Lemma table_entry os (offs : list Z) idx p :
  sub_at offs idx [p] ->
  sub_at (flat_map (be_bytes os) offs) (idx * Z.of_nat os) (be_bytes os p).
Proof.
  intros (pre & post & E & L). subst offs.
  rewrite !flat_map_app. cbn [flat_map]. rewrite app_nil_r.
  exists (flat_map (be_bytes os) pre), (flat_map (be_bytes os) post).
  split; [reflexivity|]. rewrite flat_map_be_bytes_len. lia.
Qed.

Lemma sub_at_inside {A} (l : list A) i xs j ys :
  sub_at l i xs -> sub_at xs j ys -> sub_at l (i + j) ys.
Proof.
  intros (pre & post & E & L) (pre' & post' & E' & L'). subst l xs.
  exists (pre ++ pre'), (post' ++ post).
  rewrite length_app, <- !app_assoc. split; [reflexivity|lia].
Qed.

Lemma sub_at_in {A} (l : list A) i x : sub_at l i [x] -> In x l.
Proof.
  intros (pre & post & E & _). subst l. apply in_or_app. right. left. reflexivity.
Qed.

Lemma load_be8 mem p x :
  0 <= x < 2 ^ 64 -> sub_at mem p (be_bytes 8 x) ->
  exists raw, load mem 8 p = Done raw /\ SwapBigToHost64 raw = x.
Proof.
  intros Hx Hs. exists (le_value (be_bytes 8 x)). split.
  - apply sub_at_load; [assumption|apply be_bytes_length].
  - rewrite load_swap64; [|apply be_bytes_is_byte|apply be_bytes_length].
    apply be_value_be_bytes. change (256 ^ Z.of_nat 8) with (2 ^ 64). lia.
Qed.

(** [parse_plist] reads back the file of a supported value. *)
Lemma parse_plist_file v fuel :
  supported v = true -> count v < 65535 -> count v <= Z.of_nat fuel ->
  parse_plist fuel (PyBytes (plist_file v)) = Done (as_parsed v).
Proof.
  intros Hs Hc Hfuel.
  pose proof (object_region_bound v Hs Hc) as HB.
  pose proof (count_pos v) as Hcp.
  pose proof (size_pos v Hs) as Hsp.
  pose proof (offsets_of_len v 8) as HOL.
  unfold parse_plist. cbn [PyBytes_AsStringAndSize bind].
  pose proof (sub_at_self (plist_file v)) as HF.
  unfold plist_file in HF at 2. cbv zeta in HF.
  set (R := bplist_header ++ encode 0 v) in *.
  assert (HR : len R = 8 + size v).
  { subst R. rewrite len_app, encode_len. reflexivity. }
  set (os := if len R <=? 255 then 1 else if len R <=? 65535 then 2 else 4) in *.
  assert (Hos : In os [1; 2; 4] /\ len R < 256 ^ os).
  { subst os. cbn [In]. destruct (Z.leb_spec (len R) 255); [split; [auto|lia]|].
    destruct (Z.leb_spec (len R) 65535); [split; [auto|lia]|]. split; [auto|].
    change (256 ^ 4) with 4294967296. lia. }
  destruct Hos as [Hos Hlt].
  set (T := flat_map (be_bytes (Z.to_nat os)) (offsets_of 8 v)) in *.
  assert (HT : len T = os * count v).
  { subst T. unfold len. rewrite flat_map_be_bytes_len.
    fold (len (offsets_of 8 v)). rewrite HOL.
    cbn [In] in Hos. destruct Hos as [<-|[<-|[<-|[]]]]; reflexivity. }
  assert (Hos' : 1 <= os <= 4) by (cbn [In] in Hos; lia).
  assert (HTp : 1 <= len T) by nia.
  destruct (sub_at_app _ _ _ _ HF) as [FR F1]. fold (len R) in F1.
  rewrite Z.add_0_l in F1.
  destruct (sub_at_app _ _ _ _ F1) as [FT F2]. fold (len T) in F2.
  destruct (sub_at_app _ _ _ _ F2) as [_ F3].
  change (Z.of_nat (length (repeat 0 6))) with 6 in F3.
  destruct (sub_at_cons _ _ _ _ F3) as [Fos F4].
  destruct (sub_at_cons _ _ _ _ F4) as [Frs F5].
  destruct (sub_at_app _ _ _ _ F5) as [Fn F6].
  rewrite be_bytes_length in F6.
  destruct (sub_at_app _ _ _ _ F6) as [Ftop Foto].
  rewrite be_bytes_length in Foto.
  change (Z.of_nat 8) with 8 in *.
  replace (len R + len T + 6 + 1) with (len R + len T + 7) in * by lia.
  replace (len R + len T + 7 + 1) with (len R + len T + 8) in * by lia.
  replace (len R + len T + 8 + 8) with (len R + len T + 16) in * by lia.
  replace (len R + len T + 16 + 8) with (len R + len T + 24) in * by lia.
  pose proof (sub_at_bound _ _ _ Foto) as Hlen.
  rewrite be_bytes_length in Hlen. change (Z.of_nat 8) with 8 in Hlen.
  assert (Hlen' : Z.of_nat (length (plist_file v)) = len R + len T + 32).
  { unfold plist_file. cbv zeta. fold R. fold os. fold T.
    rewrite !length_app.
    rewrite !be_bytes_length. cbn [length repeat]. unfold len. lia. }
  assert (Hhead : firstn 8 (plist_file v) = bplist_header).
  { unfold plist_file. cbv zeta. fold R. subst R. rewrite <- !app_assoc.
    apply (firstn_exact bplist_header). }
  rewrite Hhead.
  destruct (list_eq_dec Z.eq_dec bplist_header bplist_header) as [_|N];
    [|contradiction N; reflexivity].
  cbn [negb].
  change (bplist_header_length + Trailer.sizeof) with 40.
  destruct (Z.ltb_spec (Z.of_nat (length (plist_file v))) 40); [lia|].
  rewrite Hlen'. change Trailer.sizeof with 32.
  replace (0 + (len R + len T + 32) - 32) with (len R + len T) by lia.
  rewrite (sub_at_load _ _ 1%nat _ Fos eq_refl).
  rewrite (sub_at_load _ _ 1%nat _ Frs eq_refl).
  cbn [bind].
  destruct (load_be8 _ _ (count v) ltac:(lia) Fn) as (rn & -> & En).
  destruct (load_be8 _ _ 0 ltac:(lia) Ftop) as (rt & -> & Et).
  destruct (load_be8 _ _ (len R) ltac:(lia) Foto) as (ro & -> & Eo).
  cbn [bind offset_size ref_size offset_table data_end].
  rewrite En, Et, Eo.
  assert (Ev1 : le_value [os] = os).
  { cbn [In] in Hos. destruct Hos as [<-|[<-|[<-|[]]]]; reflexivity. }
  rewrite Ev1. change (le_value [2]) with 2.
  assert (Ew : check_int_width os true = Done tt).
  { cbn [In] in Hos. destruct Hos as [<-|[<-|[<-|[]]]]; reflexivity. }
  rewrite Ew. change (check_int_width 2 false) with (Done tt). cbn [bind].
  rewrite Z.add_0_l.
  destruct (Z.gtb_spec (len R) (len R + len T)); [lia|].
  set (st := {| mem := plist_file v; data := 0; data_end := len R + len T;
                ref_size := 2; offset_size := os; object_count := count v;
                offset_table := len R |}).
  assert (Htab : table_ok st (offsets_of 8 v)); [|
    assert (HlO : Z.of_nat (length (offsets_of 8 v)) <= 65535);
    [|apply (parses_supported st (offsets_of 8 v) eq_refl eq_refl Htab HlO v Hs 0 8)]].
  - intros idx p Hidx. unfold entry_in_window, st.
    cbn [mem offset_size offset_table data data_end].
    pose proof (sub_at_nonneg _ _ _ Hidx) as I0.
    pose proof (sub_at_bound _ _ _ Hidx) as I1.
    fold (len (offsets_of 8 v)) in I1. rewrite HOL in I1.
    change (Z.of_nat (length [p])) with 1 in I1.
    rewrite (u64_small (idx * os)) by nia.
    split.
    + nia.
    + pose proof (offsets_of_range v Hs 8 p (sub_at_in _ _ _ Hidx)) as Hp.
      apply unpack_uint_be.
      * cbn [In] in *. lia.
      * lia.
      * apply (sub_at_inside _ _ _ _ _ FT).
        replace os with (Z.of_nat (Z.to_nat os)) at 1 by lia.
        apply table_entry. exact Hidx.
  - fold (len (offsets_of 8 v)). rewrite HOL. lia.
  - apply (sub_at_inside _ 0 R 8 _ FR). subst R.
    exists bplist_header, []. rewrite app_nil_r. split; reflexivity.
  - apply sub_at_self.
  - lia.
  - unfold st. cbn [data_end]. lia.
  - exact Hfuel.
Qed.

(** ** Round trips *)




(** C7 at its failing inputs.  When the object count reaches [0xFFFF],
    [generate_plist_object] returns 1 and [generate_plist] calls
    [abort()]: the process is terminated, no error is returned to the
    caller. *)
Theorem C7_object_limit_aborts (v : pyobj) :
  supported v = true -> 65535 <= count v ->
  generate_plist v = Abort
  /\ (forall e, generate_plist v <> Raise e)
  /\ is_done (generate_plist v) = false.
Proof.
  intros Hs Hc.
  assert (E : generate_plist v = Abort) by (apply (generate_plist_supported v Hs); exact Hc).
  rewrite E. split; [reflexivity|]. split; [intros e H; discriminate H | reflexivity].
Qed.

(** Thirty-three arrays of two thousand integers: 66034 objects. *)
Lemma C7_object_limit_witness :
  let v := PyList (repeat (PyList (repeat (PyLong 0) 2000)) 33) in
  count v = 66034
  /\ generate_plist v = Abort
  /\ (forall e, generate_plist v <> Raise e)
  /\ is_done (generate_plist v) = false.
Proof.
  intros v. split; [vm_compute; reflexivity|].
  apply (C7_object_limit_aborts v);
    [vm_compute; reflexivity | vm_compute; intros H; discriminate H].
Defined.

Lemma be_bytes_1 x : 0 <= x < 256 -> be_bytes 1 x = [x].
Proof.
  intros H. unfold be_bytes. cbn [le_bytes rev app].
  rewrite Z.mod_small by lia. reflexivity.
Qed.

(** C9: a uid [n] with [1 <= n < 2^64] is written with marker
    [0x80 | (w - 1)], [w] the least width of 1, 2, 4, 8 bytes that holds
    [n], followed by [n] in [w] bytes big-endian; the file parses back to
    the uid [n], whose type is the uid class and not [int]. *)
Theorem C9_uid_round_trip (n : Z) (fuel : nat) :
  1 <= n < 2 ^ 64 ->
  exists w,
    In w [1; 2; 4; 8]
    /\ n < 2 ^ (8 * w)
    /\ (forall w', In w' [1; 2; 4; 8] -> n < 2 ^ (8 * w') -> w <= w')
    /\ let file :=
         bplist_header
         ++ (Z.lor 0x80 (w - 1) :: be_bytes (Z.to_nat w) n)
         ++ [8]
         ++ (repeat 0 6 ++ [1; 2]
             ++ be_bytes 8 1 ++ be_bytes 8 0 ++ be_bytes 8 (9 + w)) in
       generate_plist (PyUid n) = Done (PyBytes file)
       /\ parse_plist (S fuel) (PyBytes file) = Done (PyUid n)
       /\ Py_TYPE (PyUid n) = uid_class
       /\ Py_TYPE (PyUid n) <> PyLong_Type
       /\ PyUid n <> PyLong n.
Proof.
  intros Hn.
  assert (Hs : supported (PyUid n) = true).
  { cbn [supported]. apply andb_true_iff. split; [apply Z.leb_le|apply Z.ltb_lt]; lia. }
  assert (Hc : count (PyUid n) < 65535) by (cbn [count]; lia).
  assert (Hf : count (PyUid n) <= Z.of_nat (S fuel)) by (cbn [count]; lia).
  pose proof (proj1 (generate_plist_supported _ Hs) Hc) as G.
  pose proof (parse_plist_file _ (S fuel) Hs Hc Hf) as P.
  cbn [as_parsed] in P.
  assert (Hfile : forall w,
    uid_object n = Z.lor 0x80 (w - 1) :: be_bytes (Z.to_nat w) n ->
    In w [1; 2; 4; 8] ->
    plist_file (PyUid n)
    = bplist_header
      ++ (Z.lor 0x80 (w - 1) :: be_bytes (Z.to_nat w) n)
      ++ [8]
      ++ (repeat 0 6 ++ [1; 2]
          ++ be_bytes 8 1 ++ be_bytes 8 0 ++ be_bytes 8 (9 + w))).
  { intros w E Hw. unfold plist_file. cbn [encode offsets_of count]. cbv zeta.
    rewrite E.
    assert (L : len (bplist_header ++ Z.lor 128 (w - 1) :: be_bytes (Z.to_nat w) n)
                = 9 + w).
    { unfold len. rewrite length_app. cbn [length]. rewrite be_bytes_length.
      change (length bplist_header) with 8%nat. cbn [In] in Hw. lia. }
    rewrite L.
    destruct (Z.leb_spec (9 + w) 255); [|cbn [In] in Hw; lia].
    rewrite <- app_assoc. reflexivity. }
  assert (Hmin : forall w w', In w' [1; 2; 4; 8] ->
            (w = 1 \/ 2 ^ (8 * (w / 2)) <= n) -> In w [1; 2; 4; 8] ->
            n < 2 ^ (8 * w') -> w <= w').
  { intros w w' Hw' Hlow Hw Hlt. cbn [In] in Hw, Hw'.
    destruct Hlow as [->|Hlow]; [lia|].
    destruct Hw as [<-|[<-|[<-|[<-|[]]]]];
      destruct Hw' as [<-|[<-|[<-|[<-|[]]]]]; try lia;
      simpl in Hlow, Hlt; lia. }
  unfold uid_object in Hfile.
  destruct (Z.ltb_spec n (2 ^ 8)) as [H8|H8];
    [|destruct (Z.ltb_spec n (2 ^ 16)) as [H16|H16];
      [|destruct (Z.ltb_spec n (2 ^ 32)) as [H32|H32]]].
  - exists 1. split; [cbn [In]; auto|]. split; [simpl; lia|].
    split; [intros w' Hw'; apply Hmin; cbn [In]; auto|].
    cbv zeta. rewrite <- (Hfile 1); [|rewrite be_bytes_1 by (simpl in H8; lia); reflexivity
                                     |cbn [In]; auto].
    repeat split; try assumption; discriminate.
  - exists 2. split; [cbn [In]; auto|]. split; [simpl; simpl in H16; lia|].
    split; [intros w' Hw'; apply Hmin; cbn [In]; auto; right; simpl; simpl in H8; lia|].
    cbv zeta. rewrite <- (Hfile 2); [|reflexivity|cbn [In]; auto].
    repeat split; try assumption; discriminate.
  - exists 4. split; [cbn [In]; auto|]. split; [simpl; simpl in H32; lia|].
    split; [intros w' Hw'; apply Hmin; cbn [In]; auto; right; simpl; simpl in H16; lia|].
    cbv zeta. rewrite <- (Hfile 4); [|reflexivity|cbn [In]; auto].
    repeat split; try assumption; discriminate.
  - exists 8. split; [cbn [In]; auto|]. split; [simpl; lia|].
    split; [intros w' Hw'; apply Hmin; cbn [In]; auto; right; simpl; simpl in H32; lia|].
    cbv zeta. rewrite <- (Hfile 8); [|reflexivity|cbn [In]; auto].
    repeat split; try assumption; discriminate.
Qed.

(** The uid [0xDEADBEEF]: marker 0x83 and four bytes. *)
Lemma C9_uid_round_trip_witness :
  exists w,
    In w [1; 2; 4; 8]
    /\ 0xDEADBEEF < 2 ^ (8 * w)
    /\ (forall w', In w' [1; 2; 4; 8] -> 0xDEADBEEF < 2 ^ (8 * w') -> w <= w')
    /\ let file :=
         bplist_header
         ++ (Z.lor 0x80 (w - 1) :: be_bytes (Z.to_nat w) 0xDEADBEEF)
         ++ [8]
         ++ (repeat 0 6 ++ [1; 2]
             ++ be_bytes 8 1 ++ be_bytes 8 0 ++ be_bytes 8 (9 + w)) in
       generate_plist (PyUid 0xDEADBEEF) = Done (PyBytes file)
       /\ parse_plist 1 (PyBytes file) = Done (PyUid 0xDEADBEEF)
       /\ Py_TYPE (PyUid 0xDEADBEEF) = uid_class
       /\ Py_TYPE (PyUid 0xDEADBEEF) <> PyLong_Type
       /\ PyUid 0xDEADBEEF <> PyLong 0xDEADBEEF.
Proof. apply (C9_uid_round_trip 0xDEADBEEF 0). lia. Defined.

(** ** The checks of [parse_plist] *)

Lemma trailer_split (bs : list Z) :
  32 <= Z.of_nat (length bs) ->
  exists pre t, bs = pre ++ t /\ length t = 32%nat
                /\ skipn (length bs - 32) bs = t
                /\ Z.of_nat (length pre) = Z.of_nat (length bs) - 32.
Proof.
  intros H. exists (firstn (length bs - 32) bs), (skipn (length bs - 32) bs).
  split; [symmetry; apply firstn_skipn|].
  split; [rewrite length_skipn; lia|]. split; [reflexivity|].
  rewrite length_firstn. lia.
Qed.

Lemma load_byte mem p b : sub_at mem p [b] -> load mem 1 p = Done b.
Proof.
  intros H. rewrite (sub_at_load mem p 1 [b] H eq_refl).
  cbn [le_value]. f_equal. lia.
Qed.

Lemma load_be64 mem p bs :
  Forall is_byte bs -> length bs = 8%nat -> sub_at mem p bs ->
  exists raw, load mem 8 p = Done raw /\ SwapBigToHost64 raw = be_value bs.
Proof.
  intros Hb Hl Hs. exists (le_value bs). split.
  - apply sub_at_load; assumption.
  - apply load_swap64; assumption.
Qed.

Lemma forallb_is_byte (bs : list Z) :
  forallb (fun b => (0 <=? b) && (b <? 256)) bs = true -> Forall is_byte bs.
Proof.
  intros H. rewrite forallb_forall in H. apply Forall_forall. intros b Hb.
  specialize (H b Hb). apply andb_true_iff in H. unfold is_byte. lia.
Qed.

Lemma Forall_is_byte_app_r (a b : list Z) : Forall is_byte (a ++ b) -> Forall is_byte b.
Proof. intros H. apply Forall_app in H. apply H. Qed.

(** [parse_plist] on a byte string that starts with the magic and has
    room for the trailer: the two width checks, the bound on the offset
    table, and then the top object. *)
Lemma parse_plist_checked (bs : list Z) (fuel : nat) :
  Forall is_byte bs -> firstn 8 bs = bplist_header ->
  40 <= Z.of_nat (length bs) ->
  let t := read_trailer bs in
  parse_plist fuel (PyBytes bs)
  = (_ <- check_int_width (Trailer.offset_size t) true ;;
     _ <- check_int_width (Trailer.ref_size t) false ;;
     if Trailer.offset_table_offset t >? Z.of_nat (length bs) - 32
     then Raise OffsetTableOutOfBounds
     else parse_plist_object fuel
            {| mem := bs; data := 0; data_end := Z.of_nat (length bs) - 32;
               ref_size := Trailer.ref_size t;
               offset_size := Trailer.offset_size t;
               object_count := Trailer.num_objects t;
               offset_table := Trailer.offset_table_offset t |}
            (Trailer.top_object t)).
Proof.
  intros Hb Hh Hl t.
  destruct (trailer_split bs ltac:(lia)) as (pre & tl & E & Ltl & Sk & Lpre).
  assert (Htl : exists p0 p1 p2 p3 p4 p5 os rs n0 n1 n2 n3 n4 n5 n6 n7
                       t0 t1 t2 t3 t4 t5 t6 t7 o0 o1 o2 o3 o4 o5 o6 o7,
             tl = [p0; p1; p2; p3; p4; p5; os; rs]
                  ++ [n0; n1; n2; n3; n4; n5; n6; n7]
                  ++ [t0; t1; t2; t3; t4; t5; t6; t7]
                  ++ [o0; o1; o2; o3; o4; o5; o6; o7]).
  { do 32 (destruct tl as [|? tl]; [discriminate Ltl|]).
    destruct tl; [|discriminate Ltl]. repeat eexists. }
  destruct Htl as (p0 & p1 & p2 & p3 & p4 & p5 & os & rs
                   & n0 & n1 & n2 & n3 & n4 & n5 & n6 & n7
                   & t0 & t1 & t2 & t3 & t4 & t5 & t6 & t7
                   & o0 & o1 & o2 & o3 & o4 & o5 & o6 & o7 & Etl).
  assert (Ht : t = {| Trailer.offset_size := os; Trailer.ref_size := rs;
                      Trailer.num_objects := be_value [n0; n1; n2; n3; n4; n5; n6; n7];
                      Trailer.top_object := be_value [t0; t1; t2; t3; t4; t5; t6; t7];
                      Trailer.offset_table_offset :=
                        be_value [o0; o1; o2; o3; o4; o5; o6; o7] |}).
  { subst t. unfold read_trailer. rewrite Sk, Etl. reflexivity. }
  rewrite Ht. cbn [Trailer.offset_size Trailer.ref_size Trailer.num_objects
                   Trailer.top_object Trailer.offset_table_offset].
  assert (Hbt : Forall is_byte tl) by (rewrite E in Hb; eapply Forall_is_byte_app_r; eassumption).
  rewrite Etl in Hbt.
  apply Forall_app in Hbt. destruct Hbt as [_ Hbt].
  apply Forall_app in Hbt. destruct Hbt as [Bn Hbt].
  apply Forall_app in Hbt. destruct Hbt as [Bt Bo].
  assert (S0 : sub_at bs (Z.of_nat (length bs) - 32) tl).
  { exists pre, []. rewrite app_nil_r. split; [exact E|exact Lpre]. }
  rewrite Etl in S0.
  change ([p0; p1; p2; p3; p4; p5; os; rs]
          ++ [n0; n1; n2; n3; n4; n5; n6; n7]
          ++ [t0; t1; t2; t3; t4; t5; t6; t7] ++ [o0; o1; o2; o3; o4; o5; o6; o7])
    with ([p0; p1; p2; p3; p4; p5] ++ [os] ++ [rs]
          ++ [n0; n1; n2; n3; n4; n5; n6; n7]
          ++ [t0; t1; t2; t3; t4; t5; t6; t7] ++ [o0; o1; o2; o3; o4; o5; o6; o7])
    in S0.
  destruct (sub_at_app _ _ _ _ S0) as [_ S1].
  destruct (sub_at_app _ _ _ _ S1) as [Sos S2].
  destruct (sub_at_app _ _ _ _ S2) as [Srs S3].
  destruct (sub_at_app _ _ _ _ S3) as [Sn S4].
  destruct (sub_at_app _ _ _ _ S4) as [St So].
  cbn [length] in *.
  set (T := Z.of_nat (length bs) - 32) in *.
  replace (T + Z.of_nat 6) with (T + 6) in * by lia.
  replace (T + 6 + Z.of_nat 1) with (T + 7) in * by lia.
  replace (T + 7 + Z.of_nat 1) with (T + 8) in * by lia.
  replace (T + 8 + Z.of_nat 8) with (T + 16) in * by lia.
  replace (T + 16 + Z.of_nat 8) with (T + 24) in * by lia.
  unfold parse_plist. cbn [PyBytes_AsStringAndSize bind].
  rewrite Hh.
  destruct (list_eq_dec Z.eq_dec bplist_header bplist_header) as [_|N];
    [|contradiction N; reflexivity].
  cbn [negb].
  change (bplist_header_length + Trailer.sizeof) with 40.
  destruct (Z.ltb_spec (Z.of_nat (length bs)) 40); [lia|].
  change Trailer.sizeof with 32. rewrite Z.add_0_l. fold T.
  rewrite (load_byte _ _ _ Sos), (load_byte _ _ _ Srs). cbn [bind].
  destruct (load_be64 _ _ _ Bn eq_refl Sn) as (rn & -> & En).
  destruct (load_be64 _ _ _ Bt eq_refl St) as (rt & -> & Et).
  destruct (load_be64 _ _ _ Bo eq_refl So) as (ro & -> & Eo).
  cbn [bind offset_size ref_size offset_table data_end].
  rewrite En, Et, Eo, Z.add_0_l. reflexivity.
Qed.

(** X1: a byte string of fewer than 40 bytes is refused before anything
    but its first eight bytes is looked at: with the header error when
    it does not start with the magic, as too short otherwise. *)
Theorem X1_parse_plist_short_input (bs : list Z) (fuel : nat) :
  Z.of_nat (length bs) < 40 ->
  parse_plist fuel (PyBytes bs)
  = if list_eq_dec Z.eq_dec (firstn 8 bs) bplist_header
    then Raise TooShort else Raise InvalidHeader.
Proof.
  intros H. unfold parse_plist. cbn [PyBytes_AsStringAndSize bind].
  destruct (list_eq_dec Z.eq_dec (firstn 8 bs) bplist_header); cbn [negb];
    [|reflexivity].
  change (bplist_header_length + Trailer.sizeof) with 40.
  destruct (Z.ltb_spec (Z.of_nat (length bs)) 40); [reflexivity|lia].
Qed.

(** The magic alone, and the 39 bytes of a file cut one byte short. *)
Lemma X1_parse_plist_short_input_witness :
  parse_plist 1 (PyBytes bplist_header) = Raise TooShort
  /\ parse_plist 1 (PyBytes (repeat 0 39)) = Raise InvalidHeader.
Proof.
  split.
  - apply (X1_parse_plist_short_input bplist_header 1). vm_compute. reflexivity.
  - apply (X1_parse_plist_short_input (repeat 0 39) 1). vm_compute. reflexivity.
Defined.



(** ** Markers *)

(** [parse_plist_object] up to the marker byte. *)
Lemma parse_plist_object_marker fuel state object_index off marker :
  entry_in_window state object_index ->
  unpack_uint (mem state) (offset_size state)
    (offset_table state + u64 (object_index * offset_size state)) = Done off ->
  data state < data state + off < data_end state ->
  load (mem state) 1 (data state + off) = Done marker ->
  parse_plist_object (S fuel) state object_index
  = (let object := data state + off + 1 in
     let tag := Z.land marker 0xF0 in
     if tag =? plist_type_int then parse_int (mem state) marker object
     else if tag =? plist_type_uid then parse_uid (mem state) marker object
     else if tag =? plist_type_ascii_string then
       parse_ascii_string (mem state) marker object (data_end state)
     else if tag =? plist_type_utf16_string then
       parse_utf16_string (mem state) marker object (data_end state)
     else if tag =? plist_type_data then
       parse_data (mem state) marker object (data_end state)
     else if tag =? plist_type_dict then
       parse_dict (parse_plist_object fuel) fuel state marker object (data_end state)
     else if tag =? plist_type_array then
       parse_array (parse_plist_object fuel) fuel state marker object (data_end state)
     else if tag =? plist_type_primitive then
       if marker =? plist_type_false then Done (PyBool false)
       else if marker =? plist_type_true then Done (PyBool true)
       else Raise (UnknownType marker)
     else if tag =? plist_type_float then
       if marker =? 0x23 then parse_float64 (mem state) object
       else if marker =? 0x22 then parse_float32 (mem state) object
       else Raise (UnknownType marker)
     else if tag =? plist_type_date then parse_date (mem state) object
     else Raise (UnknownType marker)).
Proof.
  intros W U B L. unfold entry_in_window in W.
  cbn [parse_plist_object]. unfold parse_plist_object_body.
  destruct (Z.leb_spec (offset_table state + u64 (object_index * offset_size state))
              (data state)); [lia|].
  destruct (Z.geb_spec (offset_table state + u64 (object_index * offset_size state))
              (data_end state)); [lia|].
  cbn [orb]. rewrite U. cbn [bind].
  destruct (Z.leb_spec (data state + off) (data state)); [lia|].
  destruct (Z.geb_spec (data state + off) (data_end state)); [lia|].
  cbn [orb]. rewrite L. reflexivity.
Qed.

(** X3: the markers [parse_plist_object] has no case for.  With high
    nibble 0 only 0x08 and 0x09 are objects (null 0x00 and fill 0x0F are
    not), with high nibble 2 only 0x22 and 0x23; the high nibbles 7, 9,
    B, C (set), E and F have no case at all: each of these raises the
    unknown-type error with the marker byte.  A date is accepted with
    any low nibble. *)
Theorem X3_unknown_markers fuel state object_index off marker :
  entry_in_window state object_index ->
  unpack_uint (mem state) (offset_size state)
    (offset_table state + u64 (object_index * offset_size state)) = Done off ->
  data state < data state + off < data_end state ->
  load (mem state) 1 (data state + off) = Done marker ->
  let r := parse_plist_object (S fuel) state object_index in
  let tag := Z.land marker 0xF0 in
  (tag = 0x00 ->
   r = if marker =? 0x08 then Done (PyBool false)
       else if marker =? 0x09 then Done (PyBool true)
       else Raise (UnknownType marker))
  /\ (tag = 0x20 -> marker <> 0x22 -> marker <> 0x23 ->
      r = Raise (UnknownType marker))
  /\ (tag = 0x30 -> r = parse_date (mem state) (data state + off + 1))
  /\ (In tag [0x70; 0x90; 0xB0; 0xC0; 0xE0; 0xF0] ->
      r = Raise (UnknownType marker)).
Proof.
  intros W U B L r tag.
  pose proof (parse_plist_object_marker fuel state object_index off marker W U B L) as E.
  cbv zeta in E. fold tag in E. fold r in E.
  split; [|split; [|split]].
  - intros T. rewrite E, T. reflexivity.
  - intros T N2 N3. rewrite E, T. cbn.
    destruct (Z.eqb_spec marker 35); [contradiction|].
    destruct (Z.eqb_spec marker 34); [contradiction|]. reflexivity.
  - intros T. rewrite E, T. reflexivity.
  - intros T. rewrite E. cbn [In] in T.
    destruct T as [<-|[<-|[<-|[<-|[<-|[<-|[]]]]]]]; reflexivity.
Qed.

(** A file whose only object is the null marker 0x00, and one whose only
    object is the set marker 0xC0. *)
Lemma X3_unknown_markers_witness :
  let file m := bplist_header ++ [m] ++ [0x08]
                ++ [0; 0; 0; 0; 0; 0; 1; 2]
                ++ be_bytes 8 1 ++ be_bytes 8 0 ++ be_bytes 8 9 in
  let state m := {| mem := file m; data := 0; data_end := 10; ref_size := 2;
                    offset_size := 1; object_count := 1; offset_table := 9 |} in
  parse_plist_object 1 (state 0x00) 0 = Raise (UnknownType 0x00)
  /\ parse_plist_object 1 (state 0xC0) 0 = Raise (UnknownType 0xC0)
  /\ parse_plist 1 (PyBytes (file 0x00)) = Raise (UnknownType 0x00).
Proof.
  intros file state. split; [|split].
  - destruct (X3_unknown_markers 0 (state 0x00) 0 8 0x00) as [H _];
      [unfold entry_in_window; vm_compute; split; reflexivity | reflexivity
       | vm_compute; split; reflexivity | reflexivity |].
    apply H. reflexivity.
  - destruct (X3_unknown_markers 0 (state 0xC0) 0 8 0xC0) as (_ & _ & _ & H);
      [unfold entry_in_window; vm_compute; split; reflexivity | reflexivity
       | vm_compute; split; reflexivity | reflexivity |].
    apply H. vm_compute. auto.
  - vm_compute. reflexivity.
Defined.

Lemma read_bytes_load mem p n bs :
  read_bytes mem p n = Some bs -> load mem n p = Done (le_value bs).
Proof. intros H. unfold load. rewrite H. reflexivity. Qed.

Lemma read_bytes_none_load {mem p n} :
  read_bytes mem p n = None -> load mem n p = Fault.
Proof. intros H. unfold load. rewrite H. reflexivity. Qed.

(** X4: the width and the sign of an integer object.  Marker 0x10 is one
    byte, 0x11 two, 0x12 four, each taken big-endian and unsigned; every
    other integer marker (0x13, and 0x14 to 0x1F as well) is eight bytes
    taken big-endian as a two's-complement number.  Reading stops nowhere
    short of the buffer's end: bytes missing there are a fault. *)
Theorem X4_parse_int_widths (buf : list Z) (marker object : Z) :
  Forall is_byte buf -> 0x10 <= marker <= 0x1F ->
  let width : nat :=
    if marker =? 0x10 then 1%nat else if marker =? 0x11 then 2%nat
    else if marker =? 0x12 then 4%nat else 8%nat in
  match read_bytes buf object width with
  | Some bs =>
      parse_int buf marker object
      = Done (PyLong (if marker <=? 0x12 then be_value bs else i64 (be_value bs)))
      /\ 0 <= be_value bs < 256 ^ Z.of_nat width
  | None => parse_int buf marker object = Fault
  end.
Proof.
  intros Hb Hm width.
  destruct (read_bytes buf object width) as [bs|] eqn:R.
  - pose proof (read_bytes_is_byte _ _ _ _ Hb R) as Bb.
    pose proof (read_bytes_length _ _ _ _ R) as Lb.
    assert (Bd : 0 <= be_value bs < 256 ^ Z.of_nat width).
    { unfold be_value. pose proof (le_value_bound (rev bs)) as B.
      rewrite length_rev, Lb in B. apply B, Forall_rev, Bb. }
    split; [|exact Bd].
    unfold parse_int, unpack_int.
    unfold plist_type_int32, plist_type_int16, plist_type_int8.
    subst width.
    destruct (Z.eqb_spec marker 16) as [->|N0].
    + cbn [Z.eqb Pos.eqb]. rewrite (read_bytes_load _ _ _ _ R). cbn [bind].
      destruct bs as [|b [|? ?]]; try discriminate Lb.
      unfold be_value in *. cbn [rev app le_value] in *.
      rewrite i64_small by (simpl in Bd; lia). reflexivity.
    + destruct (Z.eqb_spec marker 17) as [->|N1].
      * cbn [Z.eqb Pos.eqb]. rewrite (read_bytes_load _ _ _ _ R). cbn [bind].
        rewrite (load_swap16 bs Bb Lb).
        rewrite i64_small by (simpl in Bd; lia). reflexivity.
      * destruct (Z.eqb_spec marker 18) as [->|N2].
        -- cbn [Z.eqb Pos.eqb]. rewrite (read_bytes_load _ _ _ _ R). cbn [bind].
           rewrite (load_swap32 bs Bb Lb).
           rewrite i64_small by (simpl in Bd; lia). reflexivity.
        -- rewrite (read_bytes_load _ _ _ _ R). cbn [bind].
           rewrite (load_swap64 bs Bb Lb).
           destruct (Z.leb_spec marker 18); [lia|]. reflexivity.
  - unfold parse_int, unpack_int.
    unfold plist_type_int32, plist_type_int16, plist_type_int8.
    subst width.
    destruct (Z.eqb_spec marker 16) as [->|N0];
      [cbn [Z.eqb Pos.eqb] in *; rewrite (read_bytes_none_load R); reflexivity|].
    destruct (Z.eqb_spec marker 17) as [->|N1];
      [cbn [Z.eqb Pos.eqb] in *; rewrite (read_bytes_none_load R); reflexivity|].
    destruct (Z.eqb_spec marker 18) as [->|N2];
      [cbn [Z.eqb Pos.eqb] in *; rewrite (read_bytes_none_load R); reflexivity|].
    rewrite (read_bytes_none_load R). reflexivity.
Qed.

(** Marker 0x12 before [FF FF FF FF] is 4294967295; marker 0x1A before
    eight [FF] bytes is -1. *)
Lemma X4_parse_int_widths_witness :
  parse_int [0xFF; 0xFF; 0xFF; 0xFF] 0x12 0 = Done (PyLong 4294967295)
  /\ parse_int [0xFF; 0xFF; 0xFF; 0xFF; 0xFF; 0xFF; 0xFF; 0xFF] 0x1A 0
     = Done (PyLong (-1)).
Proof.
  split.
  - pose proof (X4_parse_int_widths [0xFF; 0xFF; 0xFF; 0xFF] 0x12 0
                  ltac:(apply forallb_is_byte; reflexivity) ltac:(lia)) as H.
    cbv zeta in H. apply H.
  - pose proof (X4_parse_int_widths [0xFF; 0xFF; 0xFF; 0xFF; 0xFF; 0xFF; 0xFF; 0xFF]
                  0x1A 0 ltac:(apply forallb_is_byte; reflexivity) ltac:(lia)) as H.
    cbv zeta in H. apply H.
Defined.

(** ** What the generator writes, the parser reads *)

Lemma sub_at_end {A} (l xs : list A) : sub_at (l ++ xs) (Z.of_nat (length l)) xs.
Proof. exists l, []. rewrite app_nil_r. split; reflexivity. Qed.

Lemma current_object_emit state bs :
  current_object (set_objects state (objects state ++ bs))
  = current_object state + len bs.
Proof. unfold current_object, len. cbn [objects set_objects]. rewrite length_app. lia. Qed.

(** X5: [pack_int] and [parse_int] are inverse on every 64-bit integer.
    With nine bytes of room [pack_int] returns, the marker it wrote has
    high nibble 1, [parse_int] on the bytes behind it gives the integer
    back, sign included, and the bytes written are the marker and
    [2^(marker & 0xF)] payload bytes. *)
Theorem X5_pack_int_parse_int (state : bplist_generate_state) (z : Z) :
  - 2 ^ 63 <= z < 2 ^ 63 ->
  current_object state + 9 <= objects_len state ->
  exists state' marker,
    pack_int state z = Done state'
    /\ load (objects state') 1 (current_object state) = Done marker
    /\ Z.land marker 0xF0 = plist_type_int
    /\ parse_int (objects state') marker (current_object state + 1) = Done (PyLong z)
    /\ current_object state'
       = current_object state + 1 + Z.shiftl 1 (Z.land marker 0x0F).
Proof.
  intros Hz Hroom.
  pose proof (int_object_len z) as HL.
  rewrite pack_int_int_object, emit_done by lia.
  destruct (unpack_int_int_object (objects state ++ int_object z)
              (current_object state) z Hz (sub_at_end _ _))
    as (marker & L & T & U & P).
  eexists _, marker. split; [reflexivity|].
  cbn [objects set_objects]. split; [exact L|]. split; [exact T|].
  split.
  - unfold parse_int. rewrite U. reflexivity.
  - rewrite current_object_emit. lia.
Qed.

(** The integer [-2] behind the header. *)
Lemma X5_pack_int_parse_int_witness :
  let state := {| offsets := []; offsets_len := 1024;
                  objects := bplist_header; objects_len := 4096;
                  trailer := {| Trailer.offset_size := 4; Trailer.ref_size := 2;
                                Trailer.num_objects := 0; Trailer.top_object := 0;
                                Trailer.offset_table_offset := 0 |} |} in
  exists state' marker,
    pack_int state (-2) = Done state'
    /\ load (objects state') 1 (current_object state) = Done marker
    /\ Z.land marker 0xF0 = plist_type_int
    /\ parse_int (objects state') marker (current_object state + 1)
       = Done (PyLong (-2))
    /\ current_object state'
       = current_object state + 1 + Z.shiftl 1 (Z.land marker 0x0F).
Proof.
  intros state. apply (X5_pack_int_parse_int state (-2)); [lia | vm_compute; discriminate].
Defined.

(** X6: [pack_uint] and [unpack_uint].  For the widths 1, 2, 4 and 8
    [pack_uint] stores exactly [w] bytes and [unpack_uint] reads back the
    value reduced modulo [256^w]: a value that fits is read back as it
    was, a larger one is truncated without notice.  Any other width makes
    [pack_uint] call [abort()]. *)
Theorem X6_pack_uint_unpack_uint (w x : Z) :
  (In w [1; 2; 4; 8] ->
   exists bs, pack_uint w x = Done bs
              /\ Z.of_nat (length bs) = w
              /\ forall buf p, sub_at buf p bs ->
                               unpack_uint buf w p = Done (x mod 256 ^ w))
  /\ (~ In w [1; 2; 4; 8] -> pack_uint w x = Abort).
Proof.
  split.
  - intros Hw. exists (be_bytes (Z.to_nat w) x).
    split; [apply pack_uint_be; exact Hw|].
    split; [rewrite be_bytes_length; cbn [In] in Hw; lia|].
    intros buf p Hs. apply unpack_uint_be; [exact Hw | |].
    + apply Z.mod_pos_bound. cbn [In] in Hw.
      destruct Hw as [<-|[<-|[<-|[<-|[]]]]]; reflexivity.
    + unfold be_bytes in *.
      replace (256 ^ w) with (256 ^ Z.of_nat (Z.to_nat w))
        by (f_equal; cbn [In] in Hw; lia).
      rewrite le_bytes_mod. exact Hs.
  - intros Hw. unfold pack_uint. cbn [In] in Hw.
    destruct (Z.eqb_spec w 1) as [->|]; [exfalso; apply Hw; auto|].
    destruct (Z.eqb_spec w 2) as [->|]; [exfalso; apply Hw; auto|].
    destruct (Z.eqb_spec w 4) as [->|]; [exfalso; apply Hw; auto|].
    destruct (Z.eqb_spec w 8) as [->|]; [exfalso; apply Hw; auto 6|].
    reflexivity.
Qed.

(** The object number 65537 in a two-byte reference reads back as 1, and
    a three-byte width aborts. *)
Lemma X6_pack_uint_unpack_uint_witness :
  (exists bs, pack_uint 2 65537 = Done bs
              /\ Z.of_nat (length bs) = 2
              /\ forall buf p, sub_at buf p bs ->
                               unpack_uint buf 2 p = Done (65537 mod 256 ^ 2))
  /\ pack_uint 3 65537 = Abort.
Proof.
  split.
  - apply (X6_pack_uint_unpack_uint 2 65537). cbn [In]. auto.
  - apply (X6_pack_uint_unpack_uint 3 65537). cbn [In]. intuition discriminate.
Defined.

Lemma emit_inv state bs state' :
  emit state bs = Done state' ->
  state' = set_objects state (objects state ++ bs)
  /\ current_object state + len bs <= objects_len state.
Proof.
  unfold emit.
  destruct (Z.leb_spec (current_object state + len bs) (objects_len state)) as [R|R];
    [|discriminate].
  intros E. injection E as <-. split; [reflexivity|assumption].
Qed.

Lemma pack_type_and_length_done state type n :
  In type [0x40; 0x50; 0x60; 0xA0; 0xD0] -> 0 <= n ->
  current_object state + 10 <= objects_len state ->
  pack_type_and_length state type n
  = Done (set_objects state (objects state ++ type_and_length type n)).
Proof.
  intros Ht Hn Hroom. unfold pack_type_and_length, type_and_length.
  destruct (Z.ltb_spec n 15).
  - rewrite (lor_type_length type n Ht ltac:(lia)).
    rewrite u8_small by (cbn [In] in Ht; lia).
    apply emit_done. change (len [type + n]) with 1. lia.
  - rewrite emit_done by (change (len [Z.lor type 15]) with 1; lia).
    cbn [bind]. rewrite pack_int_int_object.
    pose proof (int_object_len n).
    rewrite emit_done.
    + cbn [objects set_objects]. rewrite <- app_assoc. reflexivity.
    + rewrite current_object_emit. change (len [Z.lor type 15]) with 1.
      cbn [objects_len set_objects]. lia.
Qed.

(** X7: [pack_type_and_length] and [unpack_length] are inverse.  For
    each of the five types with a length and every length below [2^63],
    with ten bytes of room, [pack_type_and_length] returns, the marker it
    wrote has the type as its high nibble, and [unpack_length] behind the
    marker gives the length back and stops exactly where the generator
    stopped writing. *)
Theorem X7_pack_type_and_length_unpack_length
    (state : bplist_generate_state) (type n : Z) :
  In type [plist_type_data; plist_type_ascii_string; plist_type_utf16_string;
           plist_type_array; plist_type_dict] ->
  0 <= n < 2 ^ 63 ->
  current_object state + 10 <= objects_len state ->
  exists state' marker,
    pack_type_and_length state type n = Done state'
    /\ load (objects state') 1 (current_object state) = Done marker
    /\ Z.land marker 0xF0 = type
    /\ unpack_length (objects state') marker (current_object state + 1)
       = Done (n, current_object state').
Proof.
  intros Ht Hn Hroom.
  rewrite (pack_type_and_length_done state type n Ht ltac:(lia) Hroom).
  destruct (unpack_length_spec (objects state ++ type_and_length type n)
              (current_object state) type n Ht Hn (sub_at_end _ _))
    as (marker & L & T & U).
  eexists _, marker. split; [reflexivity|].
  cbn [objects set_objects]. split; [exact L|]. split; [exact T|].
  rewrite U, current_object_emit. reflexivity.
Qed.

(** An array of 300 items: the long form, [AF 11 01 2C]. *)
Lemma X7_pack_type_and_length_unpack_length_witness :
  let state := {| offsets := []; offsets_len := 1024;
                  objects := bplist_header; objects_len := 4096;
                  trailer := {| Trailer.offset_size := 4; Trailer.ref_size := 2;
                                Trailer.num_objects := 0; Trailer.top_object := 0;
                                Trailer.offset_table_offset := 0 |} |} in
  exists state' marker,
    pack_type_and_length state plist_type_array 300 = Done state'
    /\ load (objects state') 1 (current_object state) = Done marker
    /\ Z.land marker 0xF0 = plist_type_array
    /\ unpack_length (objects state') marker (current_object state + 1)
       = Done (300, current_object state').
Proof.
  intros state.
  apply (X7_pack_type_and_length_unpack_length state plist_type_array 300);
    [cbn [In]; auto | lia | vm_compute; discriminate].
Defined.

(** X8: [generate_float] and [parse_float64] are inverse on every bit
    pattern: with nine bytes of room the marker 0x23 and the eight bytes
    of the double are written, big-endian, and [parse_float64] returns
    the float of the same pattern (signed zeros, infinities and NaN
    payloads included). *)
Theorem X8_generate_float_parse_float64 (state : bplist_generate_state) (bits : Z) :
  0 <= bits < 2 ^ 64 ->
  current_object state + 9 <= objects_len state ->
  exists state',
    generate_float state (PyFloat bits) = Done state'
    /\ objects state' = objects state ++ 0x23 :: be_bytes 8 bits
    /\ parse_float64 (objects state') (current_object state + 1)
       = Done (PyFloat bits).
Proof.
  intros Hb Hroom. unfold generate_float. cbn [PyFloat_AsDouble].
  rewrite store_swap64.
  assert (L : len (plist_type_float64 :: be_bytes 8 bits) = 9)
    by (unfold len; cbn [length]; rewrite be_bytes_length; reflexivity).
  rewrite emit_done by lia.
  eexists. split; [reflexivity|]. cbn [objects set_objects].
  split; [reflexivity|].
  pose proof (sub_at_end (objects state) (plist_type_float64 :: be_bytes 8 bits)) as S.
  apply sub_at_cons in S. destruct S as [_ S].
  destruct (load_be64 _ _ _ (be_bytes_is_byte 8 bits) (be_bytes_length 8 bits) S)
    as (raw & Lr & Er).
  change (Z.of_nat (length (objects state))) with (current_object state) in Lr.
  unfold parse_float64. rewrite Lr. cbn [bind].
  rewrite Er, be_value_be_bytes; [reflexivity|].
  change (256 ^ Z.of_nat 8) with (2 ^ 64). exact Hb.
Qed.

(** The bit pattern of negative zero. *)
Lemma X8_generate_float_parse_float64_witness :
  let state := {| offsets := []; offsets_len := 1024;
                  objects := bplist_header; objects_len := 4096;
                  trailer := {| Trailer.offset_size := 4; Trailer.ref_size := 2;
                                Trailer.num_objects := 0; Trailer.top_object := 0;
                                Trailer.offset_table_offset := 0 |} |} in
  exists state',
    generate_float state (PyFloat 0x8000000000000000) = Done state'
    /\ objects state' = objects state ++ 0x23 :: be_bytes 8 0x8000000000000000
    /\ parse_float64 (objects state') (current_object state + 1)
       = Done (PyFloat 0x8000000000000000).
Proof.
  intros state.
  apply (X8_generate_float_parse_float64 state 0x8000000000000000);
    [lia | vm_compute; discriminate].
Defined.

(** ** What every run of the generator keeps *)

Lemma ascending_weaken lo hi hi' l :
  ascending lo hi l -> hi <= hi' -> ascending lo hi' l.
Proof.
  revert lo. induction l as [|c r IH]; intros lo H Hh; cbn [ascending] in *; [exact I|].
  destruct H as [Hc Hr]. split; [lia|]. apply IH; assumption.
Qed.

Lemma ascending_snoc lo b hi l c :
  ascending lo b l -> lo <= c -> b <= c < hi -> ascending lo hi (l ++ [c]).
Proof.
  revert lo. induction l as [|x r IH]; intros lo H Hlo Hc; cbn [ascending app] in *.
  - split; [lia|exact I].
  - destruct H as [Hx Hr]. split; [lia|]. apply IH; [assumption|lia|lia].
Qed.

Lemma ascending_app lo hi a c r :
  ascending lo hi (a ++ c :: r) -> ascending lo hi a /\ ascending (c + 1) hi r /\ lo <= c < hi.
Proof.
  revert lo. induction a as [|x a IH]; intros lo H; cbn [ascending app] in *.
  - destruct H as [Hc Hr]. auto.
  - destruct H as [Hx Ha]. destruct (IH _ Ha) as (A1 & A2 & A3).
    split; [split; assumption|]. split; [assumption|lia].
Qed.

Lemma ascending_Forall lo hi l : ascending lo hi l -> Forall (fun c => lo <= c < hi) l.
Proof.
  revert lo. induction l as [|c r IH]; intros lo H; cbn [ascending] in *; constructor.
  - tauto.
  - destruct H as [Hc Hr]. specialize (IH _ Hr).
    rewrite Forall_forall in *. intros x Hx. specialize (IH x Hx). lia.
Qed.

Lemma advances_refl state : advances 0 state state.
Proof. unfold advances. repeat split; lia. Qed.

Lemma advances_trans a b s1 s2 s3 :
  advances a s1 s2 -> advances b s2 s3 -> advances (a + b) s1 s3.
Proof.
  intros (A1 & A2 & A3 & A4) (B1 & B2 & B3 & B4). unfold advances.
  repeat split; try congruence; lia.
Qed.

Lemma advances_less a b s1 s2 : advances a s1 s2 -> b <= a -> advances b s1 s2.
Proof. intros (A1 & A2 & A3 & A4) H. unfold advances. repeat split; try assumption; lia. Qed.

Lemma firstn_8_app (a b : list Z) :
  8 <= Z.of_nat (length a) -> firstn 8 (a ++ b) = firstn 8 a.
Proof.
  intros H. rewrite firstn_app.
  replace (8 - length a)%nat with 0%nat by lia. cbn [firstn]. apply app_nil_r.
Qed.

Lemma emit_advances state bs state' :
  emit state bs = Done state' -> 8 <= current_object state ->
  advances (len bs) state state'.
Proof.
  intros E H. apply emit_inv in E. destruct E as [-> _].
  unfold advances. cbn [offsets trailer objects set_objects].
  repeat split.
  - apply firstn_8_app. exact H.
  - rewrite current_object_emit. lia.
Qed.

Lemma resize_plist_if_needed_inv state required state' :
  resize_plist_if_needed state required = Done state' ->
  exists n, state' = set_objects_len state n.
Proof.
  unfold resize_plist_if_needed, resize_plist_buffer.
  destruct (_ <? required).
  - destruct (_ <? current_object state); [discriminate|].
    intros E. injection E as <-. eexists. reflexivity.
  - intros E. injection E as <-. exists (objects_len state). destruct state; reflexivity.
Qed.

Lemma resize_plist_if_needed_advances state required state' :
  resize_plist_if_needed state required = Done state' -> advances 0 state state'.
Proof.
  intros E. apply resize_plist_if_needed_inv in E. destruct E as (n & ->).
  unfold advances, current_object. cbn [offsets trailer objects set_objects_len].
  repeat split; lia.
Qed.

Lemma poke_advances state p bs state' :
  poke state p bs = Done state' -> 8 <= p -> advances 0 state state'.
Proof.
  unfold poke. intros E Hp.
  destruct (Z.leb_spec 0 p); [|discriminate E].
  destruct (Z.leb_spec (p + len bs) (current_object state)) as [Hc|]; [|discriminate E].
  cbn [andb] in E. injection E as <-.
  unfold advances, current_object, len in *. cbn [offsets trailer objects set_objects].
  repeat split.
  - rewrite firstn_app, firstn_firstn, length_firstn.
    replace (Init.Nat.min 8 (Z.to_nat p)) with 8%nat by lia.
    replace (8 - Init.Nat.min (Z.to_nat p) (length (objects state)))%nat with 0%nat by lia.
    cbn [firstn]. apply app_nil_r.
  - rewrite !length_app, length_firstn, length_skipn. lia.
Qed.

Lemma pack_int_advances state z state' :
  pack_int state z = Done state' -> 8 <= current_object state ->
  advances 2 state state'.
Proof.
  rewrite pack_int_int_object. intros E H.
  apply (advances_less (len (int_object z))).
  - apply emit_advances; assumption.
  - apply int_object_len.
Qed.

Lemma pack_type_and_length_advances state type n state' :
  pack_type_and_length state type n = Done state' -> 8 <= current_object state ->
  advances 1 state state'.
Proof.
  unfold pack_type_and_length. intros E H. destruct (n <? 15).
  - apply (emit_advances _ _ _ E H).
  - apply bind_done_inv in E. destruct E as (s1 & E1 & E2).
    pose proof (emit_advances _ _ _ E1 H) as A1.
    assert (H1 : 8 <= current_object s1).
    { destruct A1 as (_ & _ & _ & A). pose proof (len_nonneg [Z.lor type 15]). lia. }
    pose proof (pack_int_advances _ _ _ E2 H1) as A2.
    apply (advances_less (len [Z.lor type 15] + 2)); [|change (len [Z.lor type 15]) with 1; lia].
    eapply advances_trans; eassumption.
Qed.

Lemma framed_header cs b state : framed cs b state -> 8 <= current_object state.
Proof.
  intros (H & _). unfold current_object.
  assert (L : length (firstn 8 (objects state)) = 8%nat) by (rewrite H; reflexivity).
  rewrite length_firstn in L. lia.
Qed.

Lemma framed_advances cs b k state state' :
  framed cs b state -> advances k state state' -> framed cs b state'.
Proof.
  intros (F1 & F2 & F3 & F4 & F5 & F6 & F7) (A1 & A2 & A3 & A4).
  unfold framed. rewrite A1, A2, A3. repeat split; assumption.
Qed.

Lemma framed_weaken cs b b' state : framed cs b state -> b <= b' -> framed cs b' state.
Proof.
  intros (F1 & F2 & F3 & F4 & F5 & F6 & F7) H. unfold framed.
  repeat split; try assumption. eapply ascending_weaken; eassumption.
Qed.

(** A store of at least [k] bytes brings the bound back to
    [current_object]. *)
Lemma framed_step cs k state state' :
  framed cs (current_object state + k) state -> advances k state state' ->
  framed cs (current_object state') state'.
Proof.
  intros F A. pose proof A as (_ & _ & _ & A4).
  eapply framed_weaken; [eapply framed_advances; eassumption | lia].
Qed.

(** The prologue: the object's offset is recorded and counted. *)
Lemma prologue_framed cs state state1 :
  framed cs (current_object state) state ->
  generate_plist_object_prologue state = Done state1 ->
  framed (cs ++ [current_object state]) (current_object state + 1) state1
  /\ current_object state1 = current_object state.
Proof.
  intros F E. pose proof (framed_header _ _ _ F) as H8.
  destruct F as (F1 & F2 & F3 & F4 & F5 & F6 & F7).
  unfold generate_plist_object_prologue in E.
  apply bind_done_inv in E. destruct E as (sa & Ea & E).
  apply bind_done_inv in E. destruct E as (sb & Eb & E).
  assert (Sa : objects sa = objects state /\ offsets sa = offsets state
               /\ trailer sa = trailer state).
  { unfold grow_offset_table_buffer_if_needed in Ea.
    destruct (_ >=? _); injection Ea as <-; auto. }
  destruct Sa as (Sa1 & Sa2 & Sa3).
  assert (Sb : sb = set_offsets sa (offsets sa ++ [u32 (current_object sa)])
                      (offsets_len sa)).
  { unfold push_offset in Eb. destruct (_ <? _); [|discriminate Eb].
    injection Eb as <-. reflexivity. }
  subst sb.
  cbn [trailer set_trailer set_offsets set_num_objects Trailer.num_objects] in E.
  rewrite Sa3, F4 in E.
  pose proof (len_nonneg cs) as Hc.
  rewrite (u64_small (len cs + 1)) in E by lia.
  change (Z.shiftl 1 16 - 1) with 65535 in E.
  destruct (Z.eqb_spec (len cs + 1) 65535) as [|Hn]; [discriminate E|].
  apply resize_plist_if_needed_inv in E. destruct E as (n & ->).
  assert (Cur : current_object sa = current_object state)
    by (unfold current_object; rewrite Sa1; reflexivity).
  unfold current_object in *.
  split.
  - unfold framed.
    cbn [offsets trailer objects set_trailer set_offsets set_objects_len
         Trailer.num_objects Trailer.ref_size Trailer.top_object set_num_objects].
    rewrite ?Sa1, ?Sa2, ?Sa3, ?F4, ?F2.
    rewrite ?(u64_small (len cs + 1)) by lia.
    rewrite len_app. change (len [Z.of_nat (length (objects state))]) with 1.
    repeat split; try assumption; try lia.
    + rewrite map_app. cbn [map]. reflexivity.
    + eapply ascending_snoc; [eassumption | lia | lia].
  - cbn [objects set_trailer set_offsets set_objects_len]. rewrite Sa1. reflexivity.
Qed.

Lemma emit_advances_1 state x bs state' :
  emit state (x :: bs) = Done state' -> 8 <= current_object state ->
  advances 1 state state'.
Proof.
  intros E H. apply (advances_less (len (x :: bs))); [apply emit_advances; assumption|].
  unfold len. cbn [length]. lia.
Qed.

Lemma generate_uid_advances state py_obj state' :
  generate_uid state py_obj = Done state' -> 8 <= current_object state ->
  advances 1 state state'.
Proof.
  unfold generate_uid. intros E H.
  repeat match type of E with
         | (if ?c then _ else _) = _ => destruct c
         end; eapply emit_advances_1; eassumption.
Qed.

Lemma pack_data_advances state py_obj type state' :
  pack_data state py_obj type = Done state' -> 8 <= current_object state ->
  advances 1 state state'.
Proof.
  unfold pack_data. intros E H.
  apply bind_done_inv in E. destruct E as (bytes & _ & E).
  apply bind_done_inv in E. destruct E as (s1 & E1 & E).
  apply bind_done_inv in E. destruct E as (s2 & E2 & E3).
  pose proof (pack_type_and_length_advances _ _ _ _ E1 H) as A1.
  pose proof (resize_plist_if_needed_advances _ _ _ E2) as A2.
  pose proof (advances_trans _ _ _ _ _ A1 A2) as A12.
  assert (H2 : 8 <= current_object s2) by (destruct A12 as (_ & _ & _ & A); lia).
  pose proof (emit_advances _ _ _ E3 H2) as A3.
  pose proof (len_nonneg bytes).
  apply (advances_less (1 + 0 + len bytes)); [|lia].
  eapply advances_trans; eassumption.
Qed.

Lemma generate_string_advances state py_obj state' :
  generate_string state py_obj = Done state' -> 8 <= current_object state ->
  advances 1 state state'.
Proof.
  unfold generate_string. intros E H.
  destruct (PyUnicode_KIND py_obj).
  - unfold generate_ascii in E.
    apply bind_done_inv in E. destruct E as (str_bytes & _ & E).
    eapply pack_data_advances; eassumption.
  - unfold generate_utf16 in E.
    apply bind_done_inv in E. destruct E as (str_bytes & _ & E).
    apply bind_done_inv in E. destruct E as (bytes & _ & E).
    apply bind_done_inv in E. destruct E as (s1 & E1 & E).
    apply bind_done_inv in E. destruct E as (s2 & E2 & E3).
    pose proof (pack_type_and_length_advances _ _ _ _ E1 H) as A1.
    pose proof (resize_plist_if_needed_advances _ _ _ E2) as A2.
    pose proof (advances_trans _ _ _ _ _ A1 A2) as A12.
    assert (H2 : 8 <= current_object s2) by (destruct A12 as (_ & _ & _ & A); lia).
    pose proof (emit_advances _ _ _ E3 H2) as A3.
    pose proof (len_nonneg bytes).
    apply (advances_less (1 + 0 + len bytes)); [|lia].
    eapply advances_trans; eassumption.
  - unfold generate_utf16 in E.
    apply bind_done_inv in E. destruct E as (str_bytes & _ & E).
    apply bind_done_inv in E. destruct E as (bytes & _ & E).
    apply bind_done_inv in E. destruct E as (s1 & E1 & E).
    apply bind_done_inv in E. destruct E as (s2 & E2 & E3).
    pose proof (pack_type_and_length_advances _ _ _ _ E1 H) as A1.
    pose proof (resize_plist_if_needed_advances _ _ _ E2) as A2.
    pose proof (advances_trans _ _ _ _ _ A1 A2) as A12.
    assert (H2 : 8 <= current_object s2) by (destruct A12 as (_ & _ & _ & A); lia).
    pose proof (emit_advances _ _ _ E3 H2) as A3.
    pose proof (len_nonneg bytes).
    apply (advances_less (1 + 0 + len bytes)); [|lia].
    eapply advances_trans; eassumption.
Qed.

Lemma generate_date_advances state py_obj state' :
  generate_date state py_obj = Done state' -> 8 <= current_object state ->
  advances 1 state state'.
Proof.
  unfold generate_date. intros E H.
  destruct (F64.to_u64 _); [|discriminate E].
  eapply emit_advances_1; eassumption.
Qed.

Lemma frames_leaf v body :
  (forall state,
     generate_plist_object state v
     = bind (generate_plist_object_prologue state) body) ->
  (forall state1 state',
     body state1 = Done state' -> 8 <= current_object state1 ->
     advances 1 state1 state') ->
  frames v.
Proof.
  intros Hg Hb state state' cs F E. rewrite Hg in E.
  apply bind_done_inv in E. destruct E as (s1 & E1 & E2).
  destruct (prologue_framed _ _ _ F E1) as (F1 & C1).
  pose proof (framed_header _ _ _ F1) as H1.
  pose proof (Hb _ _ E2 H1) as A.
  exists []. split.
  - rewrite <- C1 in F1 at 2. apply (framed_step _ 1 _ _ F1 A).
  - destruct A as (_ & _ & _ & A). lia.
Qed.

Lemma generate_array_loop_framed items :
  Forall frames items ->
  forall state cs ref_sz offset state',
    framed cs (current_object state) state -> 8 <= offset -> 0 <= ref_sz ->
    generate_array_loop generate_plist_object state ref_sz offset items = Done state' ->
    exists rest, framed (cs ++ rest) (current_object state') state'
                 /\ current_object state <= current_object state'.
Proof.
  induction 1 as [|c r Hc Hr IH]; intros state cs ref_sz offset state' F Ho Hr0 E;
    cbn [generate_array_loop] in E.
  - injection E as <-. exists []. rewrite app_nil_r. split; [exact F|lia].
  - apply bind_done_inv in E. destruct E as (bs & _ & E).
    apply bind_done_inv in E. destruct E as (sa & Ea & E).
    apply bind_done_inv in E. destruct E as (sb & Eb & E).
    pose proof (poke_advances _ _ _ _ Ea Ho) as A.
    pose proof (framed_step _ 0 _ _ ltac:(rewrite Z.add_0_r; exact F) A) as Fa.
    destruct (Hc _ _ _ Fa Eb) as (rest1 & Fb & Cb).
    destruct (IH sb _ ref_sz (offset + ref_sz) state' Fb ltac:(lia) Hr0 E)
      as (rest2 & F' & C').
    exists (current_object sa :: rest1 ++ rest2).
    rewrite <- app_assoc in F'. cbn [app] in F'.
    split; [exact F'|]. destruct A as (_ & _ & _ & A). lia.
Qed.

Lemma generate_dict_loop_framed items :
  Forall (fun kv => frames (fst kv) /\ frames (snd kv)) items ->
  forall state cs ref_sz key_offset val_offset state',
    framed cs (current_object state) state ->
    8 <= key_offset -> 8 <= val_offset -> 0 <= ref_sz ->
    generate_dict_loop generate_plist_object state ref_sz key_offset val_offset items
    = Done state' ->
    exists rest, framed (cs ++ rest) (current_object state') state'
                 /\ current_object state <= current_object state'.
Proof.
  induction 1 as [|[k x] r [Hk Hx] Hr IH];
    intros state cs ref_sz key_offset val_offset state' F Hko Hvo Hr0 E;
    cbn [generate_dict_loop] in E.
  - injection E as <-. exists []. rewrite app_nil_r. split; [exact F|lia].
  - cbn [fst snd] in Hk, Hx.
    apply bind_done_inv in E. destruct E as (bs & _ & E).
    apply bind_done_inv in E. destruct E as (sa & Ea & E).
    apply bind_done_inv in E. destruct E as (sb & Eb & E).
    apply bind_done_inv in E. destruct E as (bs' & _ & E).
    apply bind_done_inv in E. destruct E as (sc & Ec & E).
    apply bind_done_inv in E. destruct E as (sd & Ed & E).
    pose proof (poke_advances _ _ _ _ Ea Hko) as A.
    pose proof (framed_step _ 0 _ _ ltac:(rewrite Z.add_0_r; exact F) A) as Fa.
    destruct (Hk _ _ _ Fa Eb) as (rest1 & Fb & Cb).
    pose proof (poke_advances _ _ _ _ Ec Hvo) as Ac.
    pose proof (framed_step _ 0 _ _ ltac:(rewrite Z.add_0_r; exact Fb) Ac) as Fc.
    destruct (Hx _ _ _ Fc Ed) as (rest2 & Fd & Cd).
    destruct (IH sd _ ref_sz (key_offset + ref_sz) (val_offset + ref_sz) state' Fd
                ltac:(lia) ltac:(lia) Hr0 E) as (rest3 & F' & C').
    exists (current_object sa :: rest1 ++ current_object sc :: rest2 ++ rest3).
    repeat (rewrite <- app_assoc in F'; cbn [app] in F').
    split; [exact F'|].
    destruct A as (_ & _ & _ & A). destruct Ac as (_ & _ & _ & Ac). lia.
Qed.

Lemma frames_all : forall v, frames v.
Proof.
  intros v. induction v as [v Hv|items IH|items IH] using pyobj_induction.
  - destruct v as [b|z|n|bits|bits|str|bs|bs|items|items|]; try contradiction.
    + apply (frames_leaf _ (fun s => generate_int s (PyBool b))); [reflexivity|].
      intros s1 s' E H. unfold generate_int in E.
      apply (advances_less 2); [eapply pack_int_advances; eassumption|lia].
    + apply (frames_leaf _ (fun s => generate_int s (PyLong z))); [reflexivity|].
      intros s1 s' E H. unfold generate_int in E.
      apply (advances_less 2); [eapply pack_int_advances; eassumption|lia].
    + apply (frames_leaf _ (fun s => generate_uid s (PyUid n))); [reflexivity|].
      intros s1 s' E H. eapply generate_uid_advances; eassumption.
    + apply (frames_leaf _ (fun s => generate_float s (PyFloat bits))); [reflexivity|].
      intros s1 s' E H. eapply emit_advances_1; eassumption.
    + apply (frames_leaf _ (fun s => generate_date s (PyTimestamp bits))); [reflexivity|].
      intros s1 s' E H. eapply generate_date_advances; eassumption.
    + apply (frames_leaf _ (fun s => generate_string s (PyUnicode str))); [reflexivity|].
      intros s1 s' E H. eapply generate_string_advances; eassumption.
    + apply (frames_leaf _ (fun s => generate_data s (PyBytes bs))); [reflexivity|].
      intros s1 s' E H. eapply pack_data_advances; eassumption.
    + apply (frames_leaf _ (fun _ => Raise UnsupportedObject)); [reflexivity|].
      intros s1 s' E. discriminate E.
    + apply (frames_leaf _ (fun _ => Raise UnsupportedObject)); [reflexivity|].
      intros s1 s' E. discriminate E.
  - intros state state' cs F E.
    assert (G : generate_plist_object state (PyList items)
                = bind (generate_plist_object_prologue state)
                       (fun s1 => generate_array generate_plist_object s1 items))
      by reflexivity.
    rewrite G in E. clear G.
    apply bind_done_inv in E. destruct E as (s1 & E1 & E).
    destruct (prologue_framed _ _ _ F E1) as (F1 & C1).
    pose proof (framed_header _ _ _ F1) as H1.
    unfold generate_array in E.
    apply bind_done_inv in E. destruct E as (s2 & E2 & E).
    apply bind_done_inv in E. destruct E as (s3 & E3 & E).
    apply bind_done_inv in E. destruct E as (s4 & E4 & E).
    pose proof (pack_type_and_length_advances _ _ _ _ E2 H1) as A2.
    pose proof (resize_plist_if_needed_advances _ _ _ E3) as A3.
    pose proof (advances_trans _ _ _ _ _ A2 A3) as A23.
    assert (H3 : 8 <= current_object s3) by (destruct A23 as (_ & _ & _ & A); lia).
    pose proof (emit_advances _ _ _ E4 H3) as A4.
    pose proof (len_nonneg (repeat 0 (Z.to_nat (u64 (Trailer.ref_size (trailer s2)
                                       * Z.of_nat (length items)))))) as Ln.
    pose proof (advances_less _ 0 _ _ A4 Ln) as A4'.
    pose proof (advances_trans _ _ _ _ _ A23 A4') as A24.
    rewrite <- C1 in F1 at 2.
    pose proof (framed_step _ _ _ _ F1 A24) as F4.
    assert (R2 : Trailer.ref_size (trailer s2) = 2).
    { destruct A2 as (_ & -> & _). apply F1. }
    assert (H4 : 8 <= current_object s3).
    { destruct A23 as (_ & _ & _ & A). lia. }
    destruct (generate_array_loop_framed items IH s4 _ (Trailer.ref_size (trailer s2))
                (current_object s3) state' F4 H4 ltac:(rewrite R2; lia) E)
      as (rest & F' & C').
    exists rest. rewrite <- app_assoc in F'. cbn [app] in F'.
    split; [exact F'|].
    destruct A24 as (_ & _ & _ & A). lia.
  - intros state state' cs F E.
    assert (G : generate_plist_object state (PyDict items)
                = bind (generate_plist_object_prologue state)
                       (fun s1 => generate_dict generate_plist_object s1 items))
      by reflexivity.
    rewrite G in E. clear G.
    apply bind_done_inv in E. destruct E as (s1 & E1 & E).
    destruct (prologue_framed _ _ _ F E1) as (F1 & C1).
    pose proof (framed_header _ _ _ F1) as H1.
    unfold generate_dict in E.
    apply bind_done_inv in E. destruct E as (s2 & E2 & E).
    apply bind_done_inv in E. destruct E as (s3 & E3 & E).
    apply bind_done_inv in E. destruct E as (s4 & E4 & E).
    pose proof (pack_type_and_length_advances _ _ _ _ E2 H1) as A2.
    pose proof (resize_plist_if_needed_advances _ _ _ E3) as A3.
    pose proof (advances_trans _ _ _ _ _ A2 A3) as A23.
    assert (H3 : 8 <= current_object s3) by (destruct A23 as (_ & _ & _ & A); lia).
    pose proof (emit_advances _ _ _ E4 H3) as A4.
    match type of A4 with advances (len ?l) _ _ => pose proof (len_nonneg l) as Ln end.
    pose proof (advances_less _ 0 _ _ A4 Ln) as A4'.
    pose proof (advances_trans _ _ _ _ _ A23 A4') as A24.
    rewrite <- C1 in F1 at 2.
    pose proof (framed_step _ _ _ _ F1 A24) as F4.
    assert (R2 : Trailer.ref_size (trailer s2) = 2).
    { destruct A2 as (_ & -> & _). apply F1. }
    assert (U : 0 <= u64 (Trailer.ref_size (trailer s2) * Z.of_nat (length items)))
      by (unfold u64; apply Z.mod_pos_bound; lia).
    assert (H4 : 8 <= current_object s3).
    { destruct A23 as (_ & _ & _ & A). lia. }
    destruct (generate_dict_loop_framed items IH s4 _ (Trailer.ref_size (trailer s2))
                (current_object s3)
                (current_object s3
                 + u64 (Trailer.ref_size (trailer s2) * Z.of_nat (length items)))
                state' F4 H4 ltac:(lia) ltac:(rewrite R2; lia) E)
      as (rest & F' & C').
    exists rest. rewrite <- app_assoc in F'. cbn [app] in F'.
    split; [exact F'|].
    destruct A24 as (_ & _ & _ & A). lia.
Qed.

Lemma map_u32_small (cs : list Z) b :
  Forall (fun c => 8 <= c < b) cs -> b <= 2 ^ 32 -> map u32 cs = cs.
Proof.
  intros H Hb. induction H as [|c r Hc Hr IH]; cbn [map]; [reflexivity|].
  rewrite IH, u32_small by lia. reflexivity.
Qed.

(** The layout of every file [generate_plist] returns: the object
    region [objs], which starts with the header, the table of the
    offsets [cs] at which the objects were begun, and the trailer. *)
Lemma generate_plist_layout v r :
  generate_plist v = Done r ->
  exists objs rest os,
    let cs := 8 :: rest in
    r = PyBytes (objs ++ flat_map (be_bytes (Z.to_nat os)) cs
                 ++ (repeat 0 6 ++ [os; 2]
                     ++ be_bytes 8 (len cs) ++ be_bytes 8 0 ++ be_bytes 8 (len objs)))
    /\ firstn 8 objs = bplist_header
    /\ ascending 8 (len objs) cs
    /\ len cs < 65535
    /\ len objs <= 0xFFFFFFFF
    /\ os = (if len objs <=? 0xFF then 1 else if len objs <=? 0xFFFF then 2 else 4).
Proof.
  unfold generate_plist.
  set (s0 := {| offsets := []; offsets_len := initial_offset_table_length / 4;
                objects := bplist_header;
                objects_len := initial_objects_buffer_length;
                trailer := {| Trailer.offset_size := 4; Trailer.ref_size := 2;
                              Trailer.num_objects := 0; Trailer.top_object := 0;
                              Trailer.offset_table_offset := 0 |} |}).
  match goal with
  | |- context [emit ?s bplist_header] =>
      change (emit s bplist_header) with (Done s0)
  end.
  cbn [bind]. intros E.
  destruct (generate_plist_object s0 v) as [s1| | | | |] eqn:G; try discriminate E.
  apply bind_done_inv in E. destruct E as (s2 & E2 & E). injection E as <-.
  assert (F0 : framed [] (current_object s0) s0).
  { unfold framed. repeat split; try reflexivity. }
  destruct (frames_all v s0 s1 [] F0 G) as (rest & F1 & C1).
  cbn [app] in F1. change (current_object s0) with 8 in F1, C1.
  destruct F1 as (H1 & H2 & H3 & H4 & H5 & H6 & H7).
  set (cs := 8 :: rest) in *.
  assert (HL : current_object s1 <= 0xFFFFFFFF).
  { destruct (Z.leb_spec (current_object s1) 0xFFFFFFFF) as [|Hbig]; [assumption|].
    exfalso. unfold generate_plist_offset_table_and_trailer in E2.
    destruct (Z.leb_spec (current_object s1) 255); [lia|].
    destruct (Z.leb_spec (current_object s1) 65535); [lia|].
    destruct (Z.leb_spec (current_object s1) 4294967295); [lia|].
    discriminate E2. }
  pose proof (len_nonneg cs) as Hc0.
  rewrite (finalizer_done s1 _ ltac:(rewrite H4; lia) HL eq_refl) in E2.
  injection E2 as <-. cbn [objects].
  exists (objects s1), rest.
  eexists. cbv zeta. fold cs. split; [|split; [exact H1|split; [exact H3|split;
    [exact H5|split; [exact HL|reflexivity]]]]].
  change (len (objects s1)) with (current_object s1).
  f_equal. f_equal. f_equal.
  - rewrite H2, H4. rewrite (map_u32_small cs (current_object s1));
      [|apply ascending_Forall; exact H3|lia].
    f_equal. apply firstn_all2. unfold len. lia.
  - unfold trailer_bytes, final_trailer.
    cbn [Trailer.offset_size Trailer.ref_size Trailer.num_objects
         Trailer.top_object Trailer.offset_table_offset].
    unfold SwapHostToBig64. rewrite !store_swap64, H6, H7, H4.
    assert (Hos : forall c, u8 (if c <=? 255 then 1 else if c <=? 65535 then 2 else 4)
                            = if c <=? 255 then 1 else if c <=? 65535 then 2 else 4).
    { intros c. destruct (c <=? 255); [reflexivity|]. destruct (c <=? 65535); reflexivity. }
    rewrite Hos. reflexivity.
Qed.

Lemma read_trailer_app pre os rs n t o :
  0 <= n < 2 ^ 64 -> 0 <= t < 2 ^ 64 -> 0 <= o < 2 ^ 64 ->
  read_trailer (pre ++ repeat 0 6 ++ [os; rs]
                ++ be_bytes 8 n ++ be_bytes 8 t ++ be_bytes 8 o)
  = {| Trailer.offset_size := os; Trailer.ref_size := rs;
       Trailer.num_objects := n; Trailer.top_object := t;
       Trailer.offset_table_offset := o |}.
Proof.
  intros Hn Ht Ho.
  rewrite <- (be_value_be_bytes 8 n) at 2 by (change (256 ^ Z.of_nat 8) with (2 ^ 64); lia).
  rewrite <- (be_value_be_bytes 8 t) at 2 by (change (256 ^ Z.of_nat 8) with (2 ^ 64); lia).
  rewrite <- (be_value_be_bytes 8 o) at 2 by (change (256 ^ Z.of_nat 8) with (2 ^ 64); lia).
  pose proof (be_bytes_length 8 n) as Ln. destruct (be_bytes 8 n) as [|n0 N]; [discriminate Ln|].
  do 7 (destruct N as [|? N]; [discriminate Ln|]). destruct N; [|discriminate Ln].
  pose proof (be_bytes_length 8 t) as Lt. destruct (be_bytes 8 t) as [|t0 N]; [discriminate Lt|].
  do 7 (destruct N as [|? N]; [discriminate Lt|]). destruct N; [|discriminate Lt].
  pose proof (be_bytes_length 8 o) as Lo. destruct (be_bytes 8 o) as [|o0 N]; [discriminate Lo|].
  do 7 (destruct N as [|? N]; [discriminate Lo|]). destruct N; [|discriminate Lo].
  unfold read_trailer.
  match goal with
  | |- context [pre ++ ?T] =>
      replace (length (pre ++ T) - 32)%nat with (length pre)
        by (rewrite length_app; cbn [repeat app length]; lia);
      rewrite (skipn_exact pre T)
  end.
  reflexivity.
Qed.


(** X9: the frame of every file [generate] returns, for a value of any
    type, shape and size.  It starts with the magic; its trailer has
    [ref_size] 2, top object 0, an [offset_size] of 1, 2 or 4, between 1
    and [0xFFFE] objects, and an offset table that starts behind at least
    one byte of objects; and the file is exactly the object region, the
    table and the 32 bytes of the trailer. *)
Theorem X9_generated_file_frame (v r : pyobj) :
  generate_plist v = Done r ->
  exists file,
    r = PyBytes file
    /\ firstn 8 file = bplist_header
    /\ let t := read_trailer file in
       In (Trailer.offset_size t) [1; 2; 4]
       /\ Trailer.ref_size t = 2
       /\ Trailer.top_object t = 0
       /\ 1 <= Trailer.num_objects t < 65535
       /\ 8 < Trailer.offset_table_offset t <= 0xFFFFFFFF
       /\ Z.of_nat (length file)
          = Trailer.offset_table_offset t
            + Trailer.num_objects t * Trailer.offset_size t + 32.
Proof.
  intros E. destruct (generate_plist_layout v r E) as (objs & rest & os & L).
  cbv zeta in L. destruct L as (-> & H1 & H3 & H5 & HL & Hos).
  set (cs := 8 :: rest) in *.
  assert (Hcs : 1 <= len cs) by (unfold len, cs; cbn [length]; lia).
  assert (Ho : 8 < len objs) by (unfold cs in H3; cbn [ascending] in H3; lia).
  assert (Los : In os [1; 2; 4]).
  { subst os. destruct (len objs <=? 255); [cbn [In]; auto|].
    destruct (len objs <=? 65535); cbn [In]; auto. }
  eexists. split; [reflexivity|]. split.
  - rewrite firstn_8_app by (unfold len in Ho; lia). exact H1.
  - rewrite (app_assoc objs). rewrite read_trailer_app by lia.
    cbn [Trailer.offset_size Trailer.ref_size Trailer.num_objects
         Trailer.top_object Trailer.offset_table_offset].
    split; [exact Los|]. split; [reflexivity|]. split; [reflexivity|].
    split; [lia|]. split; [lia|].
    rewrite !length_app, !Nat2Z.inj_add, flat_map_be_bytes_len, !be_bytes_length.
    cbn [length repeat]. unfold len in *. cbn [In] in Los. lia.
Qed.

(** A list of a bool, an integer and a string. *)
Lemma X9_generated_file_frame_witness :
  let v := PyList [PyBool true; PyLong 300; PyUnicode [0x68; 0x69]] in
  exists file,
    PyBytes (plist_file v) = PyBytes file
    /\ firstn 8 file = bplist_header
    /\ let t := read_trailer file in
       In (Trailer.offset_size t) [1; 2; 4]
       /\ Trailer.ref_size t = 2
       /\ Trailer.top_object t = 0
       /\ 1 <= Trailer.num_objects t < 65535
       /\ 8 < Trailer.offset_table_offset t <= 0xFFFFFFFF
       /\ Z.of_nat (length file)
          = Trailer.offset_table_offset t
            + Trailer.num_objects t * Trailer.offset_size t + 32.
Proof.
  intros v. apply (X9_generated_file_frame v (PyBytes (plist_file v))).
  vm_compute. reflexivity.
Defined.



(** *** Values without a branch *)

Lemma generate_array_loop_serializable items :
  Forall serializes items ->
  forall state ref_sz offset state',
    generate_array_loop generate_plist_object state ref_sz offset items = Done state' ->
    forallb serializable items = true.
Proof.
  induction 1 as [|c r Hc Hr IH]; intros state ref_sz offset state' E;
    cbn [generate_array_loop forallb] in *; [reflexivity|].
  apply bind_done_inv in E. destruct E as (bs & _ & E).
  apply bind_done_inv in E. destruct E as (sa & _ & E).
  apply bind_done_inv in E. destruct E as (sb & Eb & E).
  rewrite (Hc _ _ Eb), (IH _ _ _ _ E). reflexivity.
Qed.

Lemma generate_dict_loop_serializable items :
  Forall (fun kv => serializes (fst kv) /\ serializes (snd kv)) items ->
  forall state ref_sz key_offset val_offset state',
    generate_dict_loop generate_plist_object state ref_sz key_offset val_offset items
    = Done state' ->
    forallb (fun '(k, x) => serializable k && serializable x) items = true.
Proof.
  induction 1 as [|[k x] r [Hk Hx] Hr IH];
    intros state ref_sz key_offset val_offset state' E;
    cbn [generate_dict_loop forallb] in *; [reflexivity|].
  cbn [fst snd] in Hk, Hx.
  apply bind_done_inv in E. destruct E as (bs & _ & E).
  apply bind_done_inv in E. destruct E as (sa & _ & E).
  apply bind_done_inv in E. destruct E as (sb & Eb & E).
  apply bind_done_inv in E. destruct E as (bs' & _ & E).
  apply bind_done_inv in E. destruct E as (sc & _ & E).
  apply bind_done_inv in E. destruct E as (sd & Ed & E).
  rewrite (Hk _ _ Eb), (Hx _ _ Ed), (IH _ _ _ _ _ E). reflexivity.
Qed.

Lemma serializes_all : forall v, serializes v.
Proof.
  intros v. induction v as [v Hv|items IH|items IH] using pyobj_induction.
  - intros state state' E.
    destruct v as [b|z|n|bits|bits|str|bs|bs|items|items|]; try contradiction;
      try reflexivity.
    + assert (G : generate_plist_object state (PyByteArray bs)
                  = bind (generate_plist_object_prologue state)
                         (fun _ => Raise UnsupportedObject)) by reflexivity.
      rewrite G in E. apply bind_done_inv in E. destruct E as (s1 & _ & E).
      discriminate E.
    + assert (G : generate_plist_object state PyNone
                  = bind (generate_plist_object_prologue state)
                         (fun _ => Raise UnsupportedObject)) by reflexivity.
      rewrite G in E. apply bind_done_inv in E. destruct E as (s1 & _ & E).
      discriminate E.
  - intros state state' E.
    assert (G : generate_plist_object state (PyList items)
                = bind (generate_plist_object_prologue state)
                       (fun s1 => generate_array generate_plist_object s1 items))
      by reflexivity.
    rewrite G in E. clear G.
    apply bind_done_inv in E. destruct E as (s1 & _ & E).
    unfold generate_array in E.
    apply bind_done_inv in E. destruct E as (s2 & _ & E).
    apply bind_done_inv in E. destruct E as (s3 & _ & E).
    apply bind_done_inv in E. destruct E as (s4 & _ & E).
    cbn [serializable].
    eapply generate_array_loop_serializable; eassumption.
  - intros state state' E.
    assert (G : generate_plist_object state (PyDict items)
                = bind (generate_plist_object_prologue state)
                       (fun s1 => generate_dict generate_plist_object s1 items))
      by reflexivity.
    rewrite G in E. clear G.
    apply bind_done_inv in E. destruct E as (s1 & _ & E).
    unfold generate_dict in E.
    apply bind_done_inv in E. destruct E as (s2 & _ & E).
    apply bind_done_inv in E. destruct E as (s3 & _ & E).
    apply bind_done_inv in E. destruct E as (s4 & _ & E).
    cbn [serializable].
    eapply generate_dict_loop_serializable; eassumption.
Qed.

(** X11: values of a type [generate_plist_object] has no branch for.
    At the top they are refused with the not-supported error; anywhere
    below, [generate] does not return a file: no such value is ever
    skipped or written as something else. *)
Theorem X11_unsupported_values_are_refused (v : pyobj) :
  (Py_TYPE v = PyNone_Type \/ Py_TYPE v = PyByteArray_Type ->
   generate_plist v = Raise UnsupportedObject)
  /\ (serializable v = false -> is_done (generate_plist v) = false).
Proof.
  split.
  - intros [T|T]; destruct v; try discriminate T; reflexivity.
  - intros Hs. unfold generate_plist.
    match goal with
    | |- context [emit ?s bplist_header] =>
        destruct (emit s bplist_header) as [s0| | | | |]; try reflexivity
    end.
    cbn [bind].
    destruct (generate_plist_object s0 v) as [s1| | | | |] eqn:G; try reflexivity.
    rewrite (serializes_all v _ _ G) in Hs. discriminate Hs.
Qed.

(** [None] at the top, and inside a dict inside a list. *)
Lemma X11_unsupported_values_are_refused_witness :
  generate_plist PyNone = Raise UnsupportedObject
  /\ is_done (generate_plist
                (PyList [PyLong 1; PyDict [(PyUnicode [0x6B], PyNone)]])) = false.
Proof.
  split.
  - apply (X11_unsupported_values_are_refused PyNone). left. reflexivity.
  - apply (X11_unsupported_values_are_refused
             (PyList [PyLong 1; PyDict [(PyUnicode [0x6B], PyNone)]])).
    reflexivity.
Defined.

(** ** The size of a payload *)

Lemma type_and_length_len_exact type n :
  0 <= n ->
  len (type_and_length type n)
  = if n <? 15 then 1 else if n <=? 255 then 3 else if n <=? 65535 then 4
    else len (type_and_length type n).
Proof.
  intros Hn. unfold type_and_length.
  destruct (Z.ltb_spec n 15); [reflexivity|].
  destruct (Z.leb_spec n 255).
  - unfold int_object. rewrite (u64_small n) by lia.
    rewrite Z.shiftr_div_pow2 by lia. rewrite Z.div_small by lia.
    cbn [Z.eqb]. destruct (Z.leb_spec n 255); [|lia].
    unfold len. cbn [length]. rewrite be_bytes_length. reflexivity.
  - destruct (Z.leb_spec n 65535); [|reflexivity].
    unfold int_object. rewrite (u64_small n) by lia.
    rewrite Z.shiftr_div_pow2 by lia. rewrite Z.div_small by lia.
    cbn [Z.eqb]. destruct (Z.leb_spec n 255); [lia|].
    destruct (Z.leb_spec n 65535); [|lia].
    unfold len. cbn [length]. rewrite be_bytes_length. reflexivity.
Qed.

(** The marker, the length and the payload of the top object: the state
    is the one the prologue leaves behind the header, [n] the length
    that is written (bytes, or UTF-16 code units). *)
Lemma payload_top type n payload :
  In type [0x40; 0x50; 0x60] ->
  0 <= n <= len payload -> (8180 < len payload -> 255 < n) ->
  let state1 := {| offsets := [8]; offsets_len := 1024;
                   objects := bplist_header; objects_len := 4096;
                   trailer := {| Trailer.offset_size := 4; Trailer.ref_size := 2;
                                 Trailer.num_objects := 1; Trailer.top_object := 0;
                                 Trailer.offset_table_offset := 0 |} |} in
  let run := (s2 <- pack_type_and_length state1 type n ;;
              s3 <- resize_plist_if_needed s2 (len payload) ;;
              emit s3 payload) in
  (len payload <= 8180 ->
   exists m,
     run = Done {| offsets := [8]; offsets_len := 1024;
                   objects := bplist_header ++ type_and_length type n ++ payload;
                   objects_len := m;
                   trailer := trailer state1 |})
  /\ (8180 < len payload -> run = Fault).
Proof.
  intros Ht Hn Hbig state1 run. subst run.
  assert (Ht' : In type [0x40; 0x50; 0x60; 0xA0; 0xD0]) by (cbn [In] in *; tauto).
  pose proof (type_and_length_len type n) as HT.
  pose proof (type_and_length_len_exact type n ltac:(lia)) as HX.
  rewrite (pack_type_and_length_done state1 type n Ht' ltac:(lia))
    by (vm_compute; discriminate).
  cbn [bind].
  set (T := len (type_and_length type n)) in *.
  set (s2 := set_objects state1 (objects state1 ++ type_and_length type n)).
  assert (C2 : current_object s2 = 8 + T)
    by (unfold s2; rewrite current_object_emit; reflexivity).
  assert (L2 : objects_len s2 = 4096) by reflexivity.
  assert (C3 : forall k, current_object (set_objects_len s2 k) = 8 + T)
    by (intros; exact C2).
  unfold resize_plist_if_needed, resize_plist_buffer. rewrite C2, L2.
  rewrite (u64_small (4096 - (8 + T))) by lia.
  change (u64 (4096 * 2)) with 8192.
  split; intros Hl.
  - assert (HT' : 8 + T + len payload <= 8192).
    { destruct (Z.ltb_spec n 15); [lia|].
      destruct (Z.leb_spec n 255); [lia|].
      destruct (Z.leb_spec n 65535); lia. }
    destruct (Z.ltb_spec (4096 - (8 + T)) (len payload)).
    + destruct (Z.ltb_spec 8192 (8 + T)); [lia|]. cbn [bind].
      rewrite emit_done by (rewrite C3; cbn [objects_len set_objects_len]; lia).
      exists 8192. unfold set_objects, set_objects_len, s2, set_objects.
      cbn [offsets offsets_len objects objects_len trailer].
      rewrite <- app_assoc. reflexivity.
    + cbn [bind]. rewrite emit_done by (rewrite C2, L2; lia).
      exists 4096. unfold set_objects, s2, set_objects.
      cbn [offsets offsets_len objects objects_len trailer].
      rewrite <- app_assoc. reflexivity.
  - assert (HT' : 8192 < 8 + T + len payload).
    { specialize (Hbig Hl).
      destruct (Z.ltb_spec n 15); [lia|].
      destruct (Z.leb_spec n 255); [lia|].
      destruct (Z.leb_spec n 65535); lia. }
    destruct (Z.ltb_spec (4096 - (8 + T)) (len payload)); [|lia].
    destruct (Z.ltb_spec 8192 (8 + T)); [reflexivity|]. cbn [bind].
    unfold emit. rewrite C3. cbn [objects_len set_objects_len].
    destruct (Z.leb_spec (8 + T + len payload) 8192); [lia|reflexivity].
Qed.

(** The finalizer on a state that holds one object. *)
Lemma finalizer_single body n :
  len (bplist_header ++ body) <= 0xFFFFFFFF ->
  let objs := bplist_header ++ body in
  let os := if len objs <=? 0xFF then 1 else if len objs <=? 0xFFFF then 2 else 4 in
  (state <- generate_plist_offset_table_and_trailer
              {| offsets := [8]; offsets_len := 1024;
                 objects := objs; objects_len := n;
                 trailer := {| Trailer.offset_size := 4; Trailer.ref_size := 2;
                               Trailer.num_objects := 1; Trailer.top_object := 0;
                               Trailer.offset_table_offset := 0 |} |} ;;
   Done (PyBytes (objects state)))
  = Done (PyBytes (objs ++ flat_map (be_bytes (Z.to_nat os)) [8]
                   ++ (repeat 0 6 ++ [os; 2]
                       ++ be_bytes 8 1 ++ be_bytes 8 0 ++ be_bytes 8 (len objs)))).
Proof.
  intros HL objs os.
  rewrite (finalizer_done _ os); [|cbn; lia|exact HL|reflexivity].
  cbn [bind objects offsets trailer Trailer.num_objects]. do 2 f_equal.
  f_equal. unfold trailer_bytes, final_trailer.
  cbn [Trailer.offset_size Trailer.ref_size Trailer.num_objects
       Trailer.top_object Trailer.offset_table_offset trailer].
  unfold SwapHostToBig64. rewrite !store_swap64.
  assert (Hos : u8 os = os).
  { subst os. destruct (len objs <=? 255); [reflexivity|].
    destruct (len objs <=? 65535); reflexivity. }
  rewrite Hos. reflexivity.
Qed.

(** [generate_plist] on a string: the prologue of the top object is
    evaluated. *)
Lemma generate_plist_string s :
  generate_plist (PyUnicode s)
  = match generate_string
            {| offsets := [8]; offsets_len := 1024;
               objects := bplist_header; objects_len := 4096;
               trailer := {| Trailer.offset_size := 4; Trailer.ref_size := 2;
                             Trailer.num_objects := 1; Trailer.top_object := 0;
                             Trailer.offset_table_offset := 0 |} |}
            (PyUnicode s) with
    | Done state =>
        state <- generate_plist_offset_table_and_trailer state ;;
        Done (PyBytes (objects state))
    | Retry => Abort
    | Raise e => Raise e
    | Abort => Abort
    | Fault => Fault
    | Starved => Starved
    end.
Proof. reflexivity. Qed.

(** X12: how large a top-level payload can be.  The output buffer starts
    at 4096 bytes and [resize_plist_if_needed] doubles it once, whatever
    is asked for; the payload is then copied.  So a [bytes] object, an
    ASCII string or a UTF-16 string whose payload has up to 8180 bytes
    is written in full, and any longer one makes [memcpy] run past the
    end of the buffer. *)
Theorem X12_top_level_payload_limit (payload : list Z) (v : pyobj) :
  v = PyBytes payload
  \/ (v = PyUnicode payload /\ is_ascii payload = true)
  \/ (exists s us, v = PyUnicode s /\ 256 <= max_code_point s
                   /\ utf16_units s = Some us
                   /\ payload = flat_map (be_bytes 2) us) ->
  (len payload <= 8180 -> generate_plist v = Done (PyBytes (plist_file v)))
  /\ (8180 < len payload -> generate_plist v = Fault).
Proof.
  intros Hv.
  set (state1 := {| offsets := [8]; offsets_len := 1024;
                    objects := bplist_header; objects_len := 4096;
                    trailer := {| Trailer.offset_size := 4; Trailer.ref_size := 2;
                                  Trailer.num_objects := 1; Trailer.top_object := 0;
                                  Trailer.offset_table_offset := 0 |} |}).
  assert (exists type n,
             In type [0x40; 0x50; 0x60]
             /\ 0 <= n <= len payload /\ (8180 < len payload -> 255 < n)
             /\ generate_plist v
                = match (s2 <- pack_type_and_length state1 type n ;;
                         s3 <- resize_plist_if_needed s2 (len payload) ;;
                         emit s3 payload) with
                  | Done state =>
                      state <- generate_plist_offset_table_and_trailer state ;;
                      Done (PyBytes (objects state))
                  | Retry => Abort
                  | Raise e => Raise e
                  | Abort => Abort
                  | Fault => Fault
                  | Starved => Starved
                  end
             /\ encode 0 v = type_and_length type n ++ payload
             /\ offsets_of 8 v = [8] /\ count v = 1)
    as (type & n & Ht & Hn & Hbig & G & En & Of & Cn).
  { pose proof (len_nonneg payload) as Hp.
    destruct Hv as [->|[[-> A]|(s & us & -> & M & U & ->)]].
    - exists 0x40, (len payload). split; [cbn [In]; auto|]. split; [lia|].
      split; [lia|]. split; [reflexivity|]. split; [reflexivity|]. split; reflexivity.
    - exists 0x50, (len payload). split; [cbn [In]; auto|]. split; [lia|].
      split; [lia|]. split; [|split; [|split; reflexivity]].
      + rewrite generate_plist_string. fold state1.
        unfold generate_string. cbn [PyUnicode_KIND].
        pose proof (is_ascii_max payload A).
        destruct (Z.ltb_spec (max_code_point payload) 256); [|lia].
        unfold generate_ascii. cbn [PyUnicode_AsASCIIString].
        rewrite (is_ascii_strict payload A). reflexivity.
      + cbn [encode]. unfold string_object. rewrite A. reflexivity.
    - pose proof (flat_map_be2_len us) as Lu. pose proof (len_nonneg us) as Hu.
      exists 0x60, (len us). split; [cbn [In]; auto|]. split; [lia|].
      split; [lia|]. split; [|split; [|split; reflexivity]].
      + rewrite generate_plist_string. fold state1.
        unfold generate_string. cbn [PyUnicode_KIND].
        assert (G : generate_utf16 state1 (PyUnicode s)
                    = (s2 <- pack_type_and_length state1 0x60 (len us) ;;
                       s3 <- resize_plist_if_needed s2 (len (flat_map (be_bytes 2) us)) ;;
                       emit s3 (flat_map (be_bytes 2) us))).
        { unfold generate_utf16. cbn [utf16be_encode]. rewrite U.
          cbn [bind PyBytes_AsStringAndSize]. rewrite Lu.
          replace (2 * len us / 2) with (len us)
            by (rewrite Z.mul_comm, Z.div_mul by lia; reflexivity).
          reflexivity. }
        destruct (Z.ltb_spec (max_code_point s) 256); [lia|].
        destruct (max_code_point s <? 65536); rewrite G; reflexivity.
      + cbn [encode]. unfold string_object.
        destruct (is_ascii s) eqn:A; [pose proof (is_ascii_max s A); lia|].
        rewrite U. reflexivity. }
  rewrite G. destruct (payload_top type n payload Ht Hn Hbig) as [PD PF].
  fold state1 in PD, PF.
  split; intros Hl.
  - destruct (PD Hl) as (m & ->).
    pose proof (type_and_length_len type n) as HT.
    assert (HL : len (bplist_header ++ type_and_length type n ++ payload)
                 <= 0xFFFFFFFF).
    { rewrite !len_app. change (len bplist_header) with 8. lia. }
    pose proof (finalizer_single _ m HL) as F. cbv zeta in F.
    change (trailer state1)
      with {| Trailer.offset_size := 4; Trailer.ref_size := 2;
              Trailer.num_objects := 1; Trailer.top_object := 0;
              Trailer.offset_table_offset := 0 |}.
    rewrite F. unfold plist_file. cbv zeta. rewrite En, Of, Cn. reflexivity.
  - rewrite (PF Hl). reflexivity.
Qed.

(** 8180 bytes of data are written; 8181 are not. *)
Lemma X12_top_level_payload_limit_witness :
  generate_plist (PyBytes (repeat 0 (Z.to_nat 8180)))
  = Done (PyBytes (plist_file (PyBytes (repeat 0 (Z.to_nat 8180)))))
  /\ generate_plist (PyBytes (repeat 0 (Z.to_nat 8181))) = Fault.
Proof.
  split.
  - apply (X12_top_level_payload_limit (repeat 0 (Z.to_nat 8180))
             (PyBytes (repeat 0 (Z.to_nat 8180))));
      [left; reflexivity | vm_compute; discriminate].
  - apply (X12_top_level_payload_limit (repeat 0 (Z.to_nat 8181))
             (PyBytes (repeat 0 (Z.to_nat 8181))));
      [left; reflexivity | vm_compute; reflexivity].
Defined.

(** ** Reads of the parser *)

Lemma no_fault_bind {A B} (m : outcome A) (f : A -> outcome B) :
  no_fault m -> (forall a, m = Done a -> no_fault (f a)) -> no_fault (bind m f).
Proof.
  unfold no_fault. intros Hm Hf. destruct m; cbn [bind]; try discriminate.
  - apply Hf. reflexivity.
  - contradiction.
Qed.

Lemma read_bytes_inside buf n : forall p,
  0 <= p -> p + Z.of_nat n <= Z.of_nat (length buf) ->
  exists bs, read_bytes buf p n = Some bs.
Proof.
  induction n as [|n IH]; intros p Hp Hl; cbn [read_bytes].
  - eexists. reflexivity.
  - unfold byte_at. destruct (Z.ltb_spec p 0); [lia|].
    destruct (nth_error buf (Z.to_nat p)) as [b|] eqn:N.
    + destruct (IH (p + 1)) as (bs & ->); [lia|lia|]. eexists. reflexivity.
    + apply nth_error_None in N. lia.
Qed.

Lemma load_inside buf n p :
  0 <= p -> p + Z.of_nat n <= Z.of_nat (length buf) ->
  exists x, load buf n p = Done x.
Proof.
  intros Hp Hl. destruct (read_bytes_inside buf n p Hp Hl) as (bs & R).
  unfold load. rewrite R. eexists. reflexivity.
Qed.

Lemma load_byte_in buf p b : load buf 1 p = Done b -> In b buf.
Proof.
  unfold load. cbn [read_bytes]. unfold byte_at.
  destruct (p <? 0); [discriminate|].
  destruct (nth_error buf (Z.to_nat p)) as [x|] eqn:N; [|discriminate].
  intros E. assert (Hb : b = x) by (cbn [le_value] in E; injection E; lia).
  subst b. eapply nth_error_In. exact N.
Qed.

Lemma unpack_uint_inside buf w p :
  0 <= p -> p + 8 <= Z.of_nat (length buf) ->
  exists x, unpack_uint buf w p = Done x /\ 0 <= x < 2 ^ 64.
Proof.
  intros Hp Hl. unfold unpack_uint.
  assert (U : forall y, 0 <= u64 y < 2 ^ 64) by (intros; unfold u64; apply Z.mod_pos_bound; lia).
  destruct (w =? 4); [|destruct (w =? 2); [|destruct (w =? 1)]].
  - destruct (load_inside buf 4 p Hp ltac:(lia)) as (x & ->). eexists. split; [reflexivity|apply U].
  - destruct (load_inside buf 2 p Hp ltac:(lia)) as (x & ->). eexists. split; [reflexivity|apply U].
  - destruct (load_inside buf 1 p Hp ltac:(lia)) as (x & ->). eexists. split; [reflexivity|apply U].
  - destruct (load_inside buf 8 p Hp ltac:(lia)) as (x & ->). eexists. split; [reflexivity|apply U].
Qed.

Lemma unpack_uint_inside_exact buf w p :
  In w [1; 2; 4; 8] -> 0 <= p -> p + w <= Z.of_nat (length buf) ->
  exists x, unpack_uint buf w p = Done x.
Proof.
  intros Hw Hp Hl. unfold unpack_uint. cbn [In] in Hw.
  destruct Hw as [<-|[<-|[<-|[<-|[]]]]]; cbn [Z.eqb Pos.eqb].
  - destruct (load_inside buf 1 p Hp ltac:(lia)) as (x & ->). eexists. reflexivity.
  - destruct (load_inside buf 2 p Hp ltac:(lia)) as (x & ->). eexists. reflexivity.
  - destruct (load_inside buf 4 p Hp ltac:(lia)) as (x & ->). eexists. reflexivity.
  - destruct (load_inside buf 8 p Hp ltac:(lia)) as (x & ->). eexists. reflexivity.
Qed.

Lemma unpack_int_inside buf t p :
  0 <= p -> p + 8 <= Z.of_nat (length buf) ->
  exists x, unpack_int buf t p = Done x.
Proof.
  intros Hp Hl. unfold unpack_int.
  destruct (t =? plist_type_int32); [|destruct (t =? plist_type_int16);
    [|destruct (t =? plist_type_int8)]].
  - destruct (load_inside buf 4 p Hp ltac:(lia)) as (x & ->). eexists. reflexivity.
  - destruct (load_inside buf 2 p Hp ltac:(lia)) as (x & ->). eexists. reflexivity.
  - destruct (load_inside buf 1 p Hp ltac:(lia)) as (x & ->). eexists. reflexivity.
  - destruct (load_inside buf 8 p Hp ltac:(lia)) as (x & ->). eexists. reflexivity.
Qed.

Lemma unpack_length_inside buf type p :
  0 <= p -> p + 9 <= Z.of_nat (length buf) ->
  exists l q, unpack_length buf type p = Done (l, q) /\ p <= q.
Proof.
  intros Hp Hl. unfold unpack_length.
  destruct (Z.land type 15 =? 15).
  - destruct (load_inside buf 1 p Hp ltac:(lia)) as (t & ->). cbn [bind].
    destruct (unpack_int_inside buf t (p + 1) ltac:(lia) ltac:(lia)) as (x & ->).
    cbn [bind]. eexists _, _. split; [reflexivity|].
    pose proof (Z.shiftl_nonneg 1 (Z.land t 15)). lia.
  - eexists _, _. split; [reflexivity|lia].
Qed.

Lemma read_span_inside buf p size :
  0 <= p -> p + size <= Z.of_nat (length buf) -> no_fault (read_span buf p size).
Proof.
  intros Hp Hl. unfold read_span, no_fault. destruct (Z.ltb_spec size 0); [discriminate|].
  destruct (read_bytes_inside buf (Z.to_nat size) p Hp ltac:(lia)) as (bs & ->).
  discriminate.
Qed.

Section ParserReads.

Variable st : bplist_parse_state.
Hypothesis Hdata : data st = 0.
Hypothesis Hend : 0 <= data_end st.
Hypothesis Hroom : data_end st + 32 <= Z.of_nat (length (mem st)).
Hypothesis Href : In (ref_size st) [1; 2; 4; 8].
Hypothesis Hnodict : Forall (fun b => Z.land b 0xF0 <> 0xD0) (mem st).

Lemma parse_leaf_inside (leaf : Z -> Z -> Z -> outcome pyobj) marker object :
  0 <= object <= data_end st ->
  (leaf = (fun m o _ => parse_int (mem st) m o)
   \/ leaf = (fun m o _ => parse_uid (mem st) m o)
   \/ leaf = (fun _ o _ => parse_float64 (mem st) o)
   \/ leaf = (fun _ o _ => parse_float32 (mem st) o)
   \/ leaf = (fun _ o _ => parse_date (mem st) o)
   \/ leaf = parse_data (mem st)
   \/ leaf = parse_ascii_string (mem st)
   \/ leaf = parse_utf16_string (mem st)) ->
  no_fault (leaf marker object (data_end st)).
Proof.
  intros Ho [->|[->|[->|[->|[->|[->|[->| ->]]]]]]]; unfold no_fault.
  - unfold parse_int.
    destruct (unpack_int_inside (mem st) marker object ltac:(lia) ltac:(lia)) as (x & ->).
    discriminate.
  - unfold parse_uid.
    destruct (unpack_uint_inside (mem st) (Z.land marker 15 + 1) object
                ltac:(lia) ltac:(lia)) as (x & -> & _).
    discriminate.
  - unfold parse_float64.
    destruct (load_inside (mem st) 8 object ltac:(lia) ltac:(lia)) as (x & ->).
    discriminate.
  - unfold parse_float32.
    destruct (load_inside (mem st) 4 object ltac:(lia) ltac:(lia)) as (x & ->).
    discriminate.
  - unfold parse_date.
    destruct (load_inside (mem st) 8 object ltac:(lia) ltac:(lia)) as (x & ->).
    discriminate.
  - unfold parse_data.
    destruct (unpack_length_inside (mem st) marker object ltac:(lia) ltac:(lia))
      as (l & q & -> & Hq).
    cbn [bind]. destruct (Z.ltb_spec (q + l) (data_end st)); [|discriminate].
    unfold PyByteArray_FromStringAndSize. apply no_fault_bind; [|discriminate].
    apply read_span_inside; lia.
  - unfold parse_ascii_string.
    destruct (unpack_length_inside (mem st) marker object ltac:(lia) ltac:(lia))
      as (l & q & -> & Hq).
    cbn [bind]. destruct (Z.ltb_spec (q + l) (data_end st)); [|discriminate].
    unfold PyUnicode_DecodeASCII. apply no_fault_bind.
    + apply read_span_inside; lia.
    + intros bs _. destruct (forallb _ bs); discriminate.
  - unfold parse_utf16_string.
    destruct (unpack_length_inside (mem st) marker object ltac:(lia) ltac:(lia))
      as (l & q & -> & Hq).
    cbn [bind]. destruct (Z.ltb_spec (q + i64 (l * 2)) (data_end st)); [|discriminate].
    unfold PyUnicode_DecodeUTF16. apply no_fault_bind.
    + apply read_span_inside; lia.
    + intros bs _. destruct (utf16_code_points _); discriminate.
Qed.

Lemma parse_array_loop_inside (callee : bplist_parse_state -> Z -> outcome pyobj) :
  (forall idx, no_fault (callee st idx)) ->
  forall n i length object lst,
    0 <= object -> 0 <= i ->
    (i < length -> object + (length - i) * ref_size st <= data_end st) ->
    no_fault (parse_array_loop callee n st i length object lst).
Proof.
  intros Hc. induction n as [|n IH]; intros i length object lst Ho Hi Hb;
    cbn [parse_array_loop]; destruct (Z.ltb_spec i length); try discriminate.
  specialize (Hb ltac:(lia)).
  assert (R : 1 <= ref_size st <= 8) by (cbn [In] in Href; lia).
  destruct (unpack_uint_inside_exact (mem st) (ref_size st) object Href Ho ltac:(nia))
    as (x & ->).
  cbn [bind]. apply no_fault_bind; [apply Hc|].
  intros a _. apply IH; [lia|lia|]. intros Hlt. nia.
Qed.

Lemma parse_plist_object_inside fuel : forall object_index,
  no_fault (parse_plist_object fuel st object_index).
Proof.
  induction fuel as [|fuel IH]; intros object_index; [discriminate|].
  cbn [parse_plist_object]. unfold parse_plist_object_body.
  rewrite Hdata.
  set (object_ref := offset_table st + u64 (object_index * offset_size st)).
  destruct (Z.leb_spec object_ref 0); [discriminate|].
  destruct (Z.geb_spec object_ref (data_end st)); [discriminate|].
  cbn [orb].
  destruct (unpack_uint_inside (mem st) (offset_size st) object_ref ltac:(lia) ltac:(lia))
    as (off & -> & Hoff).
  cbn [bind]. rewrite Z.add_0_l.
  destruct (Z.leb_spec off 0); [discriminate|].
  destruct (Z.geb_spec off (data_end st)); [discriminate|].
  cbn [orb].
  destruct (load_inside (mem st) 1 off ltac:(lia) ltac:(lia)) as (marker & L).
  rewrite L. cbn [bind].
  assert (Ho : 0 <= off + 1 <= data_end st) by lia.
  assert (Leaf := fun leaf H => parse_leaf_inside leaf marker (off + 1) Ho H).
  destruct (Z.land marker 240 =? plist_type_int);
    [apply (Leaf (fun m o _ => parse_int (mem st) m o)); auto|].
  destruct (Z.land marker 240 =? plist_type_uid);
    [apply (Leaf (fun m o _ => parse_uid (mem st) m o)); auto|].
  destruct (Z.land marker 240 =? plist_type_ascii_string);
    [apply (Leaf (parse_ascii_string (mem st))); auto 8|].
  destruct (Z.land marker 240 =? plist_type_utf16_string);
    [apply (Leaf (parse_utf16_string (mem st))); auto 9|].
  destruct (Z.land marker 240 =? plist_type_data);
    [apply (Leaf (parse_data (mem st))); auto 8|].
  destruct (Z.eqb_spec (Z.land marker 240) plist_type_dict) as [D|_].
  { exfalso. rewrite Forall_forall in Hnodict.
    apply (Hnodict marker (load_byte_in _ _ _ L)). exact D. }
  destruct (Z.land marker 240 =? plist_type_array).
  { unfold parse_array.
    destruct (unpack_length_inside (mem st) marker (off + 1) ltac:(lia) ltac:(lia))
      as (l & q & -> & Hq).
    cbn [bind].
    destruct (Z.gtb_spec (q + u64 (l * ref_size st)) (data_end st)); [discriminate|].
    unfold PyList_New. destruct (Z.ltb_spec l 0); [discriminate|].
    change (PY_SSIZE_T_MAX / 8) with 1152921504606846975.
    destruct (Z.gtb_spec l 1152921504606846975); [discriminate|].
    cbn [bind].
    assert (R : 1 <= ref_size st <= 8) by (cbn [In] in Href; lia).
    rewrite (u64_small (l * ref_size st)) in * by nia.
    rewrite (u64_small l) by lia.
    apply no_fault_bind; [|discriminate].
    apply parse_array_loop_inside; [exact IH|lia|lia|]. intros _. lia. }
  destruct (Z.land marker 240 =? plist_type_primitive).
  { destruct (marker =? plist_type_false); [discriminate|].
    destruct (marker =? plist_type_true); discriminate. }
  destruct (Z.land marker 240 =? plist_type_float).
  { destruct (marker =? 35);
      [apply (Leaf (fun _ o _ => parse_float64 (mem st) o)); auto|].
    destruct (marker =? 34);
      [apply (Leaf (fun _ o _ => parse_float32 (mem st) o)); auto 6|].
    discriminate. }
  destruct (Z.land marker 240 =? plist_type_date);
    [apply (Leaf (fun _ o _ => parse_date (mem st) o)); auto 7|].
  discriminate.
Qed.

End ParserReads.

(** X13: reads of the parser stay inside the input.  On a byte string
    in which no byte has high nibble D (so that no dict is met), [parse]
    never reads outside the input, whatever the offsets, lengths and
    references say: every such read is refused first, or lands in the 32
    bytes of the trailer. *)
Theorem X13_parse_reads_inside_input (bs : list Z) (fuel : nat) :
  Forall is_byte bs ->
  Forall (fun b => Z.land b 0xF0 <> 0xD0) bs ->
  parse_plist fuel (PyBytes bs) <> Fault.
Proof.
  intros Hb Hd.
  destruct (list_eq_dec Z.eq_dec (firstn 8 bs) bplist_header) as [Hh|Hh].
  2:{ unfold parse_plist. cbn [PyBytes_AsStringAndSize bind].
      destruct (list_eq_dec Z.eq_dec (firstn 8 bs) bplist_header); [contradiction|].
      discriminate. }
  destruct (Z.ltb_spec (Z.of_nat (length bs)) 40) as [Hs|Hl].
  { unfold parse_plist. cbn [PyBytes_AsStringAndSize bind].
    destruct (list_eq_dec Z.eq_dec (firstn 8 bs) bplist_header); [|discriminate].
    cbn [negb]. change (bplist_header_length + Trailer.sizeof) with 40.
    destruct (Z.ltb_spec (Z.of_nat (length bs)) 40); [discriminate|lia]. }
  rewrite (parse_plist_checked bs fuel Hb Hh Hl). cbv zeta.
  unfold check_int_width.
  destruct (negb _ && _ && _ && _) eqn:W1; [discriminate|]. cbn [bind].
  destruct (negb (Trailer.ref_size (read_trailer bs) =? 1) && _ && _ && _) eqn:W2;
    [discriminate|].
  cbn [bind].
  destruct (_ >? _); [discriminate|].
  match goal with
  | |- parse_plist_object _ ?s _ <> Fault => apply (parse_plist_object_inside s)
  end; cbn [data data_end mem ref_size]; try lia; try assumption.
  revert W2.
  destruct (Z.eqb_spec (Trailer.ref_size (read_trailer bs)) 1) as [->|];
    [cbn [In]; auto|].
  destruct (Z.eqb_spec (Trailer.ref_size (read_trailer bs)) 2) as [->|];
    [cbn [In]; auto|].
  destruct (Z.eqb_spec (Trailer.ref_size (read_trailer bs)) 4) as [->|];
    [cbn [In]; auto|].
  destruct (Z.eqb_spec (Trailer.ref_size (read_trailer bs)) 8) as [->|];
    [cbn [In]; auto 6|].
  discriminate.
Qed.

Lemma forallb_no_dict (bs : list Z) :
  forallb (fun b => negb (Z.land b 0xF0 =? 0xD0)) bs = true ->
  Forall (fun b => Z.land b 0xF0 <> 0xD0) bs.
Proof.
  intros H. rewrite forallb_forall in H. apply Forall_forall. intros b Hb.
  specialize (H b Hb). destruct (Z.eqb_spec (Z.land b 240) 208); [discriminate H|assumption].
Qed.

(** A file whose only object is an array that claims [2^60] items: the
    reference list would end far behind the input, and the array is
    refused. *)
Lemma X13_parse_reads_inside_input_witness :
  let file := bplist_header
              ++ [0xAF; 0x13; 0x10; 0; 0; 0; 0; 0; 0; 0]
              ++ [0x08]
              ++ [0; 0; 0; 0; 0; 0; 1; 2]
              ++ be_bytes 8 1 ++ be_bytes 8 0 ++ be_bytes 8 18 in
  parse_plist 2 (PyBytes file) <> Fault
  /\ parse_plist 2 (PyBytes file) = Raise (InvalidArrayLength (2 ^ 60)).
Proof.
  intros file. split.
  - apply (X13_parse_reads_inside_input file 2);
      [apply forallb_is_byte; reflexivity | apply forallb_no_dict; reflexivity].
  - vm_compute. reflexivity.
Defined.

(** ** Reference cycles *)

(** X14: the parser has no guard against reference cycles.  When the
    first reference of an array is the array's own object number, each
    call of [parse_plist_object] makes another one with the same
    argument: the C recursion never returns (here: every amount of fuel
    runs out). *)
Theorem X14_self_reference_never_returns
    (state : bplist_parse_state) (object_index off marker l q : Z) :
  entry_in_window state object_index ->
  unpack_uint (mem state) (offset_size state)
    (offset_table state + u64 (object_index * offset_size state)) = Done off ->
  data state < data state + off < data_end state ->
  load (mem state) 1 (data state + off) = Done marker ->
  Z.land marker 0xF0 = plist_type_array ->
  unpack_length (mem state) marker (data state + off + 1) = Done (l, q) ->
  0 < l <= PY_SSIZE_T_MAX / 8 ->
  q + u64 (l * ref_size state) <= data_end state ->
  unpack_uint (mem state) (ref_size state) q = Done object_index ->
  forall fuel, parse_plist_object fuel state object_index = Starved.
Proof.
  intros W U B L T UL Hl Hc R fuel.
  induction fuel as [|fuel IH]; [reflexivity|].
  rewrite (parse_plist_object_marker fuel state object_index off marker W U B L).
  cbv zeta. rewrite T. cbn [Z.eqb Pos.eqb plist_type_array plist_type_int plist_type_uid
    plist_type_ascii_string plist_type_utf16_string plist_type_data plist_type_dict].
  unfold parse_array. rewrite UL. cbn [bind].
  destruct (Z.gtb_spec (q + u64 (l * ref_size state)) (data_end state)); [lia|].
  unfold PyList_New. destruct (Z.ltb_spec l 0); [lia|].
  destruct (Z.gtb_spec l (PY_SSIZE_T_MAX / 8)); [lia|].
  cbn [bind].
  assert (Hl' : l < 2 ^ 64).
  { change (PY_SSIZE_T_MAX / 8) with 1152921504606846975 in Hl. lia. }
  rewrite (u64_small l) by lia.
  destruct fuel as [|fuel]; cbn [parse_array_loop];
    destruct (Z.ltb_spec 0 l); try lia; [reflexivity|].
  rewrite R. cbn [bind]. rewrite IH. reflexivity.
Qed.

(** The file [A1 00 00]: an array of one item, which is object 0. *)
Lemma X14_self_reference_never_returns_witness :
  let file := bplist_header ++ [0xA1; 0x00; 0x00] ++ [0x08]
              ++ [0; 0; 0; 0; 0; 0; 1; 2]
              ++ be_bytes 8 1 ++ be_bytes 8 0 ++ be_bytes 8 11 in
  let state := {| mem := file; data := 0; data_end := 12; ref_size := 2;
                  offset_size := 1; object_count := 1; offset_table := 11 |} in
  parse_plist_object 1000 state 0 = Starved.
Proof.
  intros file state.
  apply (X14_self_reference_never_returns state 0 8 0xA1 1 9);
    try reflexivity; try (vm_compute; split; (reflexivity || discriminate)).
  vm_compute. discriminate.
Defined.

(** ** The size of a container *)





(** ** The length check of a dict *)

Lemma load_outside buf n p :
  Z.of_nat (length buf) <= p -> load buf (S n) p = Fault.
Proof.
  intros H. unfold load. cbn [read_bytes]. unfold byte_at.
  destruct (Z.ltb_spec p 0); [reflexivity|].
  destruct (nth_error buf (Z.to_nat p)) eqn:N; [|reflexivity].
  assert (nth_error buf (Z.to_nat p) <> None) by congruence.
  apply nth_error_Some in H1. lia.
Qed.

Lemma unpack_uint_outside buf w p :
  Z.of_nat (length buf) <= p -> unpack_uint buf w p = Fault.
Proof.
  intros H. unfold unpack_uint.
  destruct (w =? 4); [|destruct (w =? 2); [|destruct (w =? 1)]];
    rewrite load_outside by assumption; reflexivity.
Qed.

(** X16: the length check of [parse_dict] is made on
    [length * ref_size * 2] reduced modulo [2^64].  A length for which
    that product is small passes it although the value references,
    [length * ref_size] bytes behind the key references, lie outside the
    input; the first of them is then read from there. *)
Theorem X16_parse_dict_length_check_wraps
    (callee : bplist_parse_state -> Z -> outcome pyobj) (n : nat)
    (state : bplist_parse_state) (marker object object_end l q key : Z) :
  unpack_length (mem state) marker object = Done (l, q) ->
  0 < u64 l ->
  q + u64 (u64 l * ref_size state * 2) <= object_end ->
  unpack_uint (mem state) (ref_size state) q = Done key ->
  Z.of_nat (length (mem state)) <= q + u64 (u64 l * ref_size state) ->
  parse_dict callee (S n) state marker object object_end = Fault.
Proof.
  intros UL Hl Hc K Ho. unfold parse_dict. rewrite UL. cbn [bind].
  destruct (Z.gtb_spec (q + u64 (u64 l * ref_size state * 2)) object_end); [lia|].
  cbn [parse_dict_loop]. destruct (Z.ltb_spec 0 (u64 l)); [|lia].
  rewrite K. cbn [bind]. rewrite unpack_uint_outside by assumption. reflexivity.
Qed.

(** A dict that claims [2^62] entries with two-byte references:
    [2^62 * 2 * 2] is 0 modulo [2^64], and the first value reference is
    read [2^63] bytes behind the first key reference. *)
Lemma X16_parse_dict_length_check_wraps_witness :
  let file := bplist_header
              ++ [0xDF; 0x13; 0x40; 0; 0; 0; 0; 0; 0; 0]
              ++ [0x00; 0x00]
              ++ [0x08]
              ++ [0; 0; 0; 0; 0; 0; 1; 2]
              ++ be_bytes 8 1 ++ be_bytes 8 0 ++ be_bytes 8 20 in
  let state := {| mem := file; data := 0; data_end := 21; ref_size := 2;
                  offset_size := 1; object_count := 1; offset_table := 20 |} in
  parse_dict (parse_plist_object 1) 1 state 0xDF 9 21 = Fault.
Proof.
  intros file state.
  apply (X16_parse_dict_length_check_wraps (parse_plist_object 1) 0 state
           0xDF 9 21 (2 ^ 62) 18 0);
    [reflexivity | reflexivity | vm_compute; discriminate | reflexivity
     | vm_compute; discriminate].
Defined.

(** ** Fixed-width objects *)

Lemma prologue_fits state :
  0 < offsets_len state < 2 ^ 62 ->
  current_offset state <= offsets_len state ->
  32 <= objects_len state < 2 ^ 62 ->
  current_object state <= objects_len state ->
  Trailer.offset_size (trailer state) = 4 ->
  generate_plist_object_prologue state = Retry
  \/ exists state1,
       generate_plist_object_prologue state = Done state1
       /\ offsets_len state <= offsets_len state1 <= 2 * offsets_len state
       /\ current_offset state1 <= offsets_len state1
       /\ objects_len state <= objects_len state1 <= 2 * objects_len state
       /\ current_object state1 + 32 <= objects_len state1
       /\ Trailer.offset_size (trailer state1) = 4.
Proof.
  destruct state as [ofs ofl obj obl tr].
  unfold current_offset, current_object.
  cbn [offsets offsets_len objects objects_len trailer].
  intros Hofl Hofc Hobl Hobc Hos.
  unfold generate_plist_object_prologue, grow_offset_table_buffer_if_needed,
    push_offset, current_offset, current_object.
  cbn [offsets offsets_len objects objects_len trailer].
  rewrite Hos, (u64_small (ofl - Z.of_nat (length ofs))) by lia.
  assert (Fin : forall ofs' ofl',
            ofl <= ofl' <= 2 * ofl -> Z.of_nat (length ofs') <= ofl' ->
            (let state :=
               set_trailer (set_offsets {| offsets := ofs; offsets_len := ofl;
                                           objects := obj; objects_len := obl;
                                           trailer := tr |} ofs' ofl')
                 (set_num_objects tr (u64 (Trailer.num_objects tr + 1))) in
             if Trailer.num_objects (trailer state) =? Z.shiftl 1 16 - 1 then Retry
             else resize_plist_if_needed state 32) = Retry
            \/ exists state1,
                 (let state :=
                    set_trailer (set_offsets {| offsets := ofs; offsets_len := ofl;
                                                objects := obj; objects_len := obl;
                                                trailer := tr |} ofs' ofl')
                      (set_num_objects tr (u64 (Trailer.num_objects tr + 1))) in
                  if Trailer.num_objects (trailer state) =? Z.shiftl 1 16 - 1 then Retry
                  else resize_plist_if_needed state 32) = Done state1
                 /\ ofl <= offsets_len state1 <= 2 * ofl
                 /\ Z.of_nat (length (offsets state1)) <= offsets_len state1
                 /\ obl <= objects_len state1 <= 2 * obl
                 /\ Z.of_nat (length (objects state1)) + 32 <= objects_len state1
                 /\ Trailer.offset_size (trailer state1) = 4).
  { intros ofs' ofl' Hl' Hc'. cbv zeta.
    cbn [trailer set_trailer set_offsets set_num_objects Trailer.num_objects].
    destruct (_ =? _); [left; reflexivity|right].
    unfold resize_plist_if_needed, resize_plist_buffer, current_object.
    cbn [objects objects_len set_trailer set_offsets].
    rewrite (u64_small (obl - Z.of_nat (length obj))) by lia.
    rewrite (u64_small (obl * 2)) by lia.
    destruct (Z.ltb_spec (obl - Z.of_nat (length obj)) 32).
    - destruct (Z.ltb_spec (obl * 2) (Z.of_nat (length obj))); [lia|].
      eexists. split; [reflexivity|].
      cbn [offsets offsets_len objects objects_len trailer set_objects_len set_trailer
           set_offsets set_num_objects Trailer.offset_size].
      repeat split; try lia; assumption.
    - eexists. split; [reflexivity|].
      cbn [offsets offsets_len objects objects_len trailer set_trailer
           set_offsets set_num_objects Trailer.offset_size].
      repeat split; try lia; assumption. }
  destruct (Z.geb_spec (ofl - Z.of_nat (length ofs)) 4).
  - cbn [bind offsets offsets_len].
    destruct (Z.ltb_spec (Z.of_nat (length ofs)) ofl); [|lia]. cbn [bind].
    apply Fin; [lia|]. rewrite length_app. cbn [length]. lia.
  - cbn [bind offsets offsets_len set_offsets].
    rewrite (u64_small (ofl * 2)) by lia.
    destruct (Z.ltb_spec (Z.of_nat (length ofs)) (ofl * 2)); [|lia]. cbn [bind].
    cbn [set_offsets offsets offsets_len objects objects_len trailer].
    apply Fin; [lia|]. rewrite length_app. cbn [length]. lia.
Qed.

Lemma generate_uid_short state py_obj :
  exists bs, generate_uid state py_obj = emit state bs /\ len bs <= 9.
Proof.
  unfold generate_uid.
  repeat match goal with
         | |- context [if ?c then _ else _] => destruct c
         end;
    eexists; (split; [reflexivity|]);
    unfold len; cbn [length]; rewrite ?le_bytes_length; lia.
Qed.

(** X17: a fixed-width object never overruns a buffer.  From every state
    in which both buffers hold what was written so far (and the object
    buffer has at least 32 bytes), the prologue of
    [generate_plist_object] grows the offset table in time and leaves 32
    bytes of room, so a bool, an integer, a uid or a float is written
    without a store outside either buffer, and the state it leaves is
    again such a state.  Overruns come only from payloads and reference
    lists. *)
Theorem X17_fixed_width_objects_fit
    (state : bplist_generate_state) (v : pyobj) :
  match v with
  | PyBool _ | PyLong _ | PyUid _ | PyFloat _ => True
  | _ => False
  end ->
  0 < offsets_len state < 2 ^ 62 ->
  current_offset state <= offsets_len state ->
  32 <= objects_len state < 2 ^ 62 ->
  current_object state <= objects_len state ->
  Trailer.offset_size (trailer state) = 4 ->
  generate_plist_object state v = Retry
  \/ exists state',
       generate_plist_object state v = Done state'
       /\ offsets_len state <= offsets_len state' <= 2 * offsets_len state
       /\ current_offset state' <= offsets_len state'
       /\ objects_len state <= objects_len state' <= 2 * objects_len state
       /\ current_object state' <= objects_len state'
       /\ Trailer.offset_size (trailer state') = 4.
Proof.
  intros Hv Hofl Hofc Hobl Hobc Hos.
  assert (exists body : bplist_generate_state -> outcome bplist_generate_state,
             (forall s, generate_plist_object s v
                        = bind (generate_plist_object_prologue s) body)
             /\ forall s, exists bs, body s = emit s bs /\ len bs <= 9)
    as (body & G & B).
  { destruct v as [b|z|n|bits|bits|str|bs|bs|items|items|]; try contradiction.
    - exists (fun s => generate_int s (PyBool b)). split; [reflexivity|].
      intros s. unfold generate_int. rewrite pack_int_int_object.
      eexists. split; [reflexivity|apply int_object_len].
    - exists (fun s => generate_int s (PyLong z)). split; [reflexivity|].
      intros s. unfold generate_int. rewrite pack_int_int_object.
      eexists. split; [reflexivity|apply int_object_len].
    - exists (fun s => generate_uid s (PyUid n)). split; [reflexivity|].
      intros s. apply generate_uid_short.
    - exists (fun s => generate_float s (PyFloat bits)). split; [reflexivity|].
      intros s. unfold generate_float. eexists. split; [reflexivity|].
      unfold len. cbn [length]. rewrite le_bytes_length. lia. }
  rewrite G.
  destruct (prologue_fits state Hofl Hofc Hobl Hobc Hos)
    as [->|(s1 & -> & P1 & P2 & P3 & P4 & P5)]; [left; reflexivity|right].
  cbn [bind]. destruct (B s1) as (bs & -> & Lb).
  pose proof (len_nonneg bs).
  rewrite emit_done by lia. eexists. split; [reflexivity|].
  rewrite current_object_emit.
  unfold current_offset in *.
  cbn [offsets offsets_len objects_len trailer set_objects].
  repeat split; try lia; assumption.
Qed.

(** An integer written when the object buffer is full to the last byte
    and the offset table has no free entry. *)
Lemma X17_fixed_width_objects_fit_witness :
  let state := {| offsets := [8; 10; 12; 14]; offsets_len := 4;
                  objects := bplist_header ++ repeat 0 24; objects_len := 32;
                  trailer := {| Trailer.offset_size := 4; Trailer.ref_size := 2;
                                Trailer.num_objects := 4; Trailer.top_object := 0;
                                Trailer.offset_table_offset := 0 |} |} in
  generate_plist_object state (PyLong (-1)) = Retry
  \/ exists state',
       generate_plist_object state (PyLong (-1)) = Done state'
       /\ offsets_len state <= offsets_len state' <= 2 * offsets_len state
       /\ current_offset state' <= offsets_len state'
       /\ objects_len state <= objects_len state' <= 2 * objects_len state
       /\ current_object state' <= objects_len state'
       /\ Trailer.offset_size (trailer state') = 4.
Proof.
  intros state.
  apply (X17_fixed_width_objects_fit state (PyLong (-1)));
    [exact I | vm_compute; split; reflexivity | vm_compute; discriminate
     | vm_compute; split; [discriminate|reflexivity] | vm_compute; discriminate
     | reflexivity].
Defined.

(** ** What the generator has written when it returns *)

Lemma appended_trans s1 s2 s3 a b :
  appended s1 s2 a -> appended s2 s3 b -> appended s1 s3 (a ++ b).
Proof.
  intros (A1 & A2 & A3) (B1 & B2 & B3). unfold appended.
  rewrite B1, B2, B3, A1, A2, A3, app_assoc. auto.
Qed.

Lemma emit_appended s bs s' : emit s bs = Done s' -> appended s s' bs.
Proof.
  intros E. apply emit_inv in E. destruct E as (-> & _).
  unfold appended. cbn [objects offsets trailer set_objects]. auto.
Qed.

Lemma resize_appended s required s' :
  resize_plist_if_needed s required = Done s' -> appended s s' [].
Proof.
  intros E. apply resize_plist_if_needed_inv in E. destruct E as (n & ->).
  unfold appended. cbn [objects offsets trailer set_objects_len].
  rewrite app_nil_r. auto.
Qed.

Lemma pack_type_and_length_appended s type n s' :
  In type [0x40; 0x50; 0x60; 0xA0; 0xD0] -> 0 <= n ->
  pack_type_and_length s type n = Done s' ->
  appended s s' (type_and_length type n).
Proof.
  intros Ht Hn E. unfold pack_type_and_length, type_and_length in *.
  destruct (Z.ltb_spec n 15).
  - rewrite u8_small in E.
    + apply emit_appended. exact E.
    + rewrite lor_type_length by (assumption || lia).
      cbn [In] in Ht. lia.
  - apply bind_done_inv in E. destruct E as (s1 & E1 & E2).
    rewrite pack_int_int_object in E2.
    apply (appended_trans s s1 s' [Z.lor type 15] (int_object n));
      apply emit_appended; assumption.
Qed.

Lemma payload_appended s type n payload required s' :
  In type [0x40; 0x50; 0x60; 0xA0; 0xD0] -> 0 <= n ->
  (s2 <- pack_type_and_length s type n ;;
   s3 <- resize_plist_if_needed s2 required ;;
   emit s3 payload) = Done s' ->
  appended s s' (type_and_length type n ++ payload).
Proof.
  intros Ht Hn E.
  apply bind_done_inv in E. destruct E as (s2 & E2 & E).
  apply bind_done_inv in E. destruct E as (s3 & E3 & E4).
  pose proof (pack_type_and_length_appended _ _ _ _ Ht Hn E2) as A2.
  pose proof (resize_appended _ _ _ E3) as A3.
  pose proof (emit_appended _ _ _ E4) as A4.
  pose proof (appended_trans _ _ _ _ _ A2 A3) as A23. rewrite app_nil_r in A23.
  exact (appended_trans _ _ _ _ _ A23 A4).
Qed.

(** The prologue, whenever it returns: the offset is recorded and the
    object counted, and the count stays below [0xFFFF]. *)
Lemma prologue_inv state state1 :
  0 <= Trailer.num_objects (trailer state) < 65535 ->
  generate_plist_object_prologue state = Done state1 ->
  objects state1 = objects state
  /\ offsets state1 = offsets state ++ [u32 (current_object state)]
  /\ trailer state1
     = set_num_objects (trailer state) (Trailer.num_objects (trailer state) + 1)
  /\ Trailer.num_objects (trailer state) + 1 < 65535.
Proof.
  intros Hn E. unfold generate_plist_object_prologue in E.
  apply bind_done_inv in E. destruct E as (sa & Ea & E).
  apply bind_done_inv in E. destruct E as (sb & Eb & E).
  assert (Sa : objects sa = objects state /\ offsets sa = offsets state
               /\ trailer sa = trailer state).
  { unfold grow_offset_table_buffer_if_needed in Ea.
    destruct (_ >=? _); injection Ea as <-; auto. }
  destruct Sa as (Sa1 & Sa2 & Sa3).
  assert (Sb : sb = set_offsets sa (offsets sa ++ [u32 (current_object sa)])
                      (offsets_len sa)).
  { unfold push_offset in Eb. destruct (_ <? _); [|discriminate Eb].
    injection Eb as <-. reflexivity. }
  subst sb.
  cbn [trailer set_trailer set_offsets set_num_objects Trailer.num_objects] in E.
  rewrite Sa3 in E.
  rewrite (u64_small (Trailer.num_objects (trailer state) + 1)) in E by lia.
  change (Z.shiftl 1 16 - 1) with 65535 in E.
  destruct (Z.eqb_spec (Trailer.num_objects (trailer state) + 1) 65535) as [|Hne];
    [discriminate E|].
  apply resize_plist_if_needed_inv in E. destruct E as (k & ->).
  cbn [objects offsets trailer set_trailer set_offsets set_objects_len].
  unfold current_object. rewrite Sa1, Sa2.
  repeat split; try reflexivity. lia.
Qed.

Lemma writes_leaf v body bs :
  count v = 1 ->
  (forall pos, offsets_of pos v = [pos]) ->
  (forall n, encode n v = bs) ->
  (forall state,
     generate_plist_object state v
     = bind (generate_plist_object_prologue state) body) ->
  (forall state1 state', body state1 = Done state' -> appended state1 state' bs) ->
  writes v.
Proof.
  intros Hc Ho He Hg Hb state state' Hn Hr E. rewrite Hg in E.
  apply bind_done_inv in E. destruct E as (s1 & E1 & E2).
  destruct (prologue_inv _ _ Hn E1) as (P1 & P2 & P3 & P4).
  destruct (Hb _ _ E2) as (A1 & A2 & A3).
  unfold written. cbv zeta. rewrite He, Ho, Hc, A1, A2, A3, P1, P2, P3.
  cbn [map]. repeat split; try reflexivity. exact P4.
Qed.

Lemma writes_long z : exchangeable (PyLong z) = true -> writes (PyLong z).
Proof.
  cbn [exchangeable]. intros Hz. apply andb_true_iff in Hz. destruct Hz as [Z1 Z2].
  apply Z.leb_le in Z1. apply Z.ltb_lt in Z2.
  apply (writes_leaf _ (fun s => generate_int s (PyLong z)) (int_object z));
    try reflexivity.
  intros s1 s' E. unfold generate_int, PyLong_AsSsize_t in E. cbn [long_value] in E.
  destruct (Z.leb_spec (- 2 ^ 63) z); [|lia]. destruct (Z.ltb_spec z (2 ^ 63)); [|lia].
  cbn [andb] in E. rewrite pack_int_int_object in E.
  apply emit_appended. exact E.
Qed.

Lemma writes_uid u : exchangeable (PyUid u) = true -> writes (PyUid u).
Proof.
  cbn [exchangeable]. intros Hz. apply andb_true_iff in Hz. destruct Hz as [Z1 Z2].
  apply Z.leb_le in Z1. apply Z.ltb_lt in Z2.
  apply (writes_leaf _ (fun s => generate_uid s (PyUid u)) (uid_object u));
    try reflexivity.
  intros s1 s' E. rewrite generate_uid_uid_object in E by lia.
  apply emit_appended. exact E.
Qed.

Lemma writes_float b : writes (PyFloat b).
Proof.
  apply (writes_leaf _ (fun s => generate_float s (PyFloat b))
           (0x23 :: be_bytes 8 b)); try reflexivity.
  intros s1 s' E. unfold generate_float in E. cbn [PyFloat_AsDouble] in E.
  rewrite store_swap64 in E. apply emit_appended. exact E.
Qed.

Lemma writes_bytes bs : writes (PyBytes bs).
Proof.
  apply (writes_leaf _ (fun s => generate_data s (PyBytes bs))
           (type_and_length 0x40 (len bs) ++ bs)); try reflexivity.
  intros s1 s' E. unfold generate_data, pack_data in E.
  cbn [PyBytes_AsStringAndSize bind] in E.
  eapply payload_appended; [| |exact E]; [simpl; auto | apply len_nonneg].
Qed.

Lemma writes_unicode s : exchangeable (PyUnicode s) = true -> writes (PyUnicode s).
Proof.
  cbn [exchangeable]. intros H.
  apply (writes_leaf _ (fun st => generate_string st (PyUnicode s))
           (string_object s)); try reflexivity.
  intros s1 s' E. unfold generate_string, string_object in *.
  cbn [PyUnicode_KIND] in E.
  destruct (is_ascii s) eqn:A.
  - pose proof (is_ascii_max s A).
    destruct (Z.ltb_spec (max_code_point s) 256); [|lia].
    unfold generate_ascii in E. cbn [PyUnicode_AsASCIIString] in E.
    rewrite (is_ascii_strict s A) in E. cbn [bind] in E.
    unfold pack_data in E. cbn [PyBytes_AsStringAndSize bind] in E.
    eapply payload_appended; [| |exact E]; [simpl; auto | apply len_nonneg].
  - apply andb_true_iff in H. destruct H as [H Hu].
    apply andb_true_iff in H. destruct H as [Hm _]. apply Z.leb_le in Hm.
    destruct (utf16_units s) as [us|] eqn:U; [|discriminate].
    assert (G : generate_utf16 s1 (PyUnicode s)
                = (s2 <- pack_type_and_length s1 0x60 (len us) ;;
                   s3 <- resize_plist_if_needed s2 (len (flat_map (be_bytes 2) us)) ;;
                   emit s3 (flat_map (be_bytes 2) us))).
    { unfold generate_utf16. cbn [utf16be_encode]. rewrite U.
      cbn [bind PyBytes_AsStringAndSize]. rewrite flat_map_be2_len.
      replace (2 * len us / 2) with (len us)
        by (rewrite Z.mul_comm, Z.div_mul by lia; reflexivity).
      reflexivity. }
    destruct (Z.ltb_spec (max_code_point s) 256); [lia|].
    destruct (max_code_point s <? 65536); rewrite G in E;
      (eapply payload_appended; [| |exact E]; [simpl; auto | apply len_nonneg]).
Qed.

Lemma poke_inv s pre x rest y s' :
  objects s = pre ++ x ++ rest -> length x = length y ->
  poke s (len pre) y = Done s' ->
  objects s' = pre ++ y ++ rest
  /\ offsets s' = offsets s
  /\ trailer s' = trailer s.
Proof.
  intros Hobj Hlen E. unfold poke in E.
  destruct ((0 <=? len pre) && (len pre + len y <=? current_object s));
    [|discriminate E].
  injection E as <-. cbn [objects offsets trailer set_objects].
  split; [|auto].
  unfold len. rewrite Nat2Z.id, Hobj, firstn_exact.
  assert (S1 : skipn (length pre + length y) (pre ++ x ++ rest) = rest).
  { rewrite <- Hlen, <- length_app, app_assoc. apply skipn_exact. }
  rewrite S1. reflexivity.
Qed.

Lemma poke_trailer s p y s' : poke s p y = Done s' -> trailer s' = trailer s.
Proof.
  unfold poke. destruct (_ && _); [|discriminate].
  intros E. injection E as <-. reflexivity.
Qed.

Lemma written_current s s' v :
  written s s' v -> current_object s' = current_object s + size v.
Proof.
  intros (W1 & _). change (current_object s') with (len (objects s')).
  rewrite W1, len_app, encode_len. reflexivity.
Qed.

Lemma set_num_objects_twice t a b :
  set_num_objects (set_num_objects t a) b = set_num_objects t b.
Proof. reflexivity. Qed.

(** A loop that returns has counted every item. *)
Lemma generate_array_loop_counts items :
  Forall writes items ->
  forall s p s',
    0 <= Trailer.num_objects (trailer s) < 65535 ->
    Trailer.ref_size (trailer s) = 2 ->
    generate_array_loop generate_plist_object s 2 p items = Done s' ->
    Trailer.num_objects (trailer s) + sumZ (map count items) < 65535.
Proof.
  induction 1 as [|c r Hc Hr IH]; intros s p s' Hn Hrs E;
    cbn [generate_array_loop map] in *.
  - change (sumZ []) with 0. lia.
  - apply bind_done_inv in E. destruct E as (bs & _ & E).
    apply bind_done_inv in E. destruct E as (sa & Ea & E).
    apply bind_done_inv in E. destruct E as (sb & Eb & E).
    pose proof (poke_trailer _ _ _ _ Ea) as Ta.
    destruct (Hc sa sb ltac:(rewrite Ta; exact Hn) ltac:(rewrite Ta; exact Hrs) Eb)
      as (_ & _ & W3 & W4).
    cbv zeta in W3, W4. rewrite Ta in W3, W4.
    pose proof (count_pos c) as Cc.
    specialize (IH sb (p + 2) s').
    rewrite W3 in IH. cbn [set_num_objects Trailer.num_objects Trailer.ref_size] in IH.
    specialize (IH ltac:(lia) Hrs E).
    change (sumZ (count c :: map count r)) with (count c + sumZ (map count r)). lia.
Qed.

Lemma generate_array_loop_written items :
  Forall writes items ->
  forall s pre post s',
    objects s = pre ++ repeat 0 (2 * length items) ++ post ->
    0 <= Trailer.num_objects (trailer s) < 65535 ->
    Trailer.ref_size (trailer s) = 2 ->
    generate_array_loop generate_plist_object s 2 (len pre) items = Done s' ->
    let n := Trailer.num_objects (trailer s) in
    objects s'
    = pre ++ encode_seq (fun i _ => be_bytes 2 i) count items n
      ++ post ++ encode_seq encode count items n
    /\ offsets s'
       = offsets s ++ map u32 (encode_seq offsets_of size items (current_object s))
    /\ trailer s' = set_num_objects (trailer s) (n + sumZ (map count items))
    /\ n + sumZ (map count items) < 65535.
Proof.
  induction 1 as [|c r Hc Hr IH]; intros s pre post s' Hobj Hn Hrs E n.
  - cbn [generate_array_loop encode_seq map] in *.
    cbn [length Nat.mul repeat app] in Hobj.
    injection E as <-. change (sumZ []) with 0.
    rewrite !app_nil_r, Z.add_0_r. subst n.
    repeat split; try assumption; try lia.
    destruct (trailer s); reflexivity.
  - cbn [generate_array_loop encode_seq map] in *. cbn [length] in Hobj.
    rewrite repeat_two_more, <- app_assoc in Hobj.
    rewrite pack_uint_be in E by (simpl; auto). cbn [bind] in E. fold n in E.
    change (Z.to_nat 2) with 2%nat in E.
    apply bind_done_inv in E. destruct E as (s1 & E1 & E).
    apply bind_done_inv in E. destruct E as (s2 & E2 & E).
    destruct (poke_inv s pre [0; 0] (repeat 0 (2 * length r) ++ post)
                (be_bytes 2 n) s1 Hobj ltac:(rewrite be_bytes_length; reflexivity) E1)
      as (O1 & F1 & T1).
    assert (C1 : current_object s1 = current_object s).
    { unfold current_object. rewrite O1, Hobj, !length_app, be_bytes_length.
      reflexivity. }
    pose proof (Hc s1 s2 ltac:(rewrite T1; exact Hn) ltac:(rewrite T1; exact Hrs) E2)
      as W.
    pose proof (written_current _ _ _ W) as Cur2.
    destruct W as (G1 & G2 & G3 & G4). cbv zeta in G1, G2, G3, G4.
    rewrite T1 in G1, G3, G4. fold n in G1, G3, G4.
    pose proof (count_pos c) as Cc.
    assert (Lp : len pre + 2 = len (pre ++ be_bytes 2 n)).
    { rewrite len_app. unfold len. rewrite be_bytes_length. lia. }
    rewrite Lp in E.
    specialize (IH s2 (pre ++ be_bytes 2 n) (post ++ encode n c) s').
    rewrite G1, O1 in IH. rewrite <- !app_assoc in IH.
    specialize (IH eq_refl). rewrite G3 in IH.
    cbn [set_num_objects Trailer.num_objects Trailer.ref_size] in IH.
    specialize (IH ltac:(lia) Hrs E). cbv zeta in IH.
    destruct IH as (P1 & P2 & P3 & P4).
    change (sumZ (count c :: map count r)) with (count c + sumZ (map count r)).
    rewrite P1, P2, G2, F1, Cur2, C1, map_app, <- !app_assoc.
    split; [reflexivity|]. split; [reflexivity|]. split; [|lia].
    rewrite P3. unfold set_num_objects.
    cbn [Trailer.offset_size Trailer.ref_size Trailer.num_objects
         Trailer.top_object Trailer.offset_table_offset].
    f_equal. lia.
Qed.

Lemma entry_counts_nonneg (items : list (pyobj * pyobj)) :
  0 <= sumZ (map (fun '(k, x) => count k + count x) items).
Proof.
  apply sumZ_nonneg. induction items as [|[a b] r IH]; cbn [map];
    constructor; [|assumption].
  pose proof (count_pos a). pose proof (count_pos b). lia.
Qed.

Lemma generate_dict_loop_counts items :
  Forall (fun kv => writes (fst kv) /\ writes (snd kv)) items ->
  forall s p q s',
    0 <= Trailer.num_objects (trailer s) < 65535 ->
    Trailer.ref_size (trailer s) = 2 ->
    generate_dict_loop generate_plist_object s 2 p q items = Done s' ->
    Trailer.num_objects (trailer s)
    + sumZ (map (fun '(k, x) => count k + count x) items) < 65535.
Proof.
  induction 1 as [|[k x] r [Hk Hx] Hr IH]; intros s p q s' Hn Hrs E;
    cbn [generate_dict_loop map] in *.
  - change (sumZ []) with 0. lia.
  - cbn [fst snd] in Hk, Hx.
    apply bind_done_inv in E. destruct E as (bs & _ & E).
    apply bind_done_inv in E. destruct E as (sa & Ea & E).
    apply bind_done_inv in E. destruct E as (sb & Eb & E).
    apply bind_done_inv in E. destruct E as (bs' & _ & E).
    apply bind_done_inv in E. destruct E as (sc & Ec & E).
    apply bind_done_inv in E. destruct E as (sd & Ed & E).
    pose proof (poke_trailer _ _ _ _ Ea) as Ta.
    destruct (Hk sa sb ltac:(rewrite Ta; exact Hn) ltac:(rewrite Ta; exact Hrs) Eb)
      as (_ & _ & W3 & W4).
    cbv zeta in W3, W4. rewrite Ta in W3, W4.
    pose proof (poke_trailer _ _ _ _ Ec) as Tc.
    pose proof (count_pos k) as Ck. pose proof (count_pos x) as Cx.
    assert (Nc : Trailer.num_objects (trailer sc)
                 = Trailer.num_objects (trailer s) + count k)
      by (rewrite Tc, W3; reflexivity).
    assert (Rc : Trailer.ref_size (trailer sc) = 2)
      by (rewrite Tc, W3; exact Hrs).
    destruct (Hx sc sd ltac:(lia) Rc Ed) as (_ & _ & V3 & V4).
    cbv zeta in V3, V4. rewrite Nc in V3, V4.
    specialize (IH sd (p + 2) (q + 2) s').
    rewrite V3 in IH. cbn [set_num_objects Trailer.num_objects Trailer.ref_size] in IH.
    rewrite Tc, W3 in IH. cbn [set_num_objects Trailer.ref_size] in IH.
    specialize (IH ltac:(lia) Hrs E).
    change (sumZ (count k + count x :: map (fun '(k, x) => count k + count x) r))
      with (count k + count x + sumZ (map (fun '(k, x) => count k + count x) r)).
    lia.
Qed.

Lemma generate_dict_loop_written items :
  Forall (fun kv => writes (fst kv) /\ writes (snd kv)) items ->
  forall s pre mid post s',
    objects s = pre ++ repeat 0 (2 * length items) ++ mid
                ++ repeat 0 (2 * length items) ++ post ->
    0 <= Trailer.num_objects (trailer s) < 65535 ->
    Trailer.ref_size (trailer s) = 2 ->
    generate_dict_loop generate_plist_object s 2 (len pre)
      (len pre + 2 * Z.of_nat (length items) + len mid) items = Done s' ->
    let n := Trailer.num_objects (trailer s) in
    let total := sumZ (map (fun '(k, x) => count k + count x) items) in
    objects s'
    = pre
      ++ encode_seq (fun i _ => be_bytes 2 i)
           (fun '(k, x) => count k + count x) items n
      ++ mid
      ++ encode_seq (fun i '(k, _) => be_bytes 2 (i + count k))
           (fun '(k, x) => count k + count x) items n
      ++ post
      ++ encode_seq (fun i '(k, x) => encode i k ++ encode (i + count k) x)
           (fun '(k, x) => count k + count x) items n
    /\ offsets s'
       = offsets s
         ++ map u32
              (encode_seq (fun p '(k, x) => offsets_of p k ++ offsets_of (p + size k) x)
                 (fun '(k, x) => size k + size x) items (current_object s))
    /\ trailer s' = set_num_objects (trailer s) (n + total)
    /\ n + total < 65535.
Proof.
  induction 1 as [|[k x] r [Hk Hx] Hr IH]; intros s pre mid post s' Hobj Hn Hrs E n total.
  - subst total. cbn [generate_dict_loop encode_seq map] in *.
    cbn [length Nat.mul repeat app] in Hobj.
    injection E as <-. change (sumZ []) with 0.
    rewrite !app_nil_r, Z.add_0_r. subst n.
    repeat split; try assumption; try lia.
    destruct (trailer s); reflexivity.
  - cbn [fst snd] in Hk, Hx.
    assert (Tot : total = count k + count x
                          + sumZ (map (fun '(k, x) => count k + count x) r)).
    { subst total. unfold sumZ. cbn [map fold_right]. lia. }
    pose proof (entry_counts_nonneg r) as Rest.
    pose proof (count_pos k) as Ck. pose proof (count_pos x) as Cx.
    rewrite Tot. clear Tot total.
    cbn [generate_dict_loop encode_seq length] in *. cbv beta iota.
    rewrite !repeat_two_more, <- !app_assoc in Hobj.
    rewrite pack_uint_be in E by (simpl; auto). cbn [bind] in E. fold n in E.
    change (Z.to_nat 2) with 2%nat in E.
    apply bind_done_inv in E. destruct E as (s1 & E1 & E).
    apply bind_done_inv in E. destruct E as (s2 & E2 & E).
    destruct (poke_inv s pre [0; 0]
                (repeat 0 (2 * length r) ++ mid ++ [0; 0]
                 ++ repeat 0 (2 * length r) ++ post)
                (be_bytes 2 n) s1 Hobj ltac:(rewrite be_bytes_length; reflexivity) E1)
      as (O1 & F1 & T1).
    assert (C1 : current_object s1 = current_object s).
    { unfold current_object. rewrite O1, Hobj, !length_app, be_bytes_length.
      reflexivity. }
    pose proof (Hk s1 s2 ltac:(rewrite T1; exact Hn) ltac:(rewrite T1; exact Hrs) E2)
      as W.
    pose proof (written_current _ _ _ W) as Cur2.
    destruct W as (G1 & G2 & G3 & G4). cbv zeta in G1, G2, G3, G4.
    rewrite T1 in G1, G3, G4. fold n in G1, G3, G4.
    rewrite pack_uint_be in E by (simpl; auto). cbn [bind] in E.
    rewrite G3 in E. cbn [set_num_objects Trailer.num_objects] in E.
    change (Z.to_nat 2) with 2%nat in E.
    apply bind_done_inv in E. destruct E as (s3 & E3 & E).
    apply bind_done_inv in E. destruct E as (s4 & E4 & E).
    assert (O2 : objects s2
                 = (pre ++ be_bytes 2 n ++ repeat 0 (2 * length r) ++ mid)
                   ++ [0; 0]
                   ++ (repeat 0 (2 * length r) ++ post ++ encode n k)).
    { rewrite G1, O1, <- !app_assoc. reflexivity. }
    assert (Lv : len pre + 2 * Z.of_nat (S (length r)) + len mid
                 = len (pre ++ be_bytes 2 n ++ repeat 0 (2 * length r) ++ mid)).
    { rewrite !len_app, len_be_bytes, len_repeat. lia. }
    rewrite Lv in E3.
    destruct (poke_inv s2 _ [0; 0] _ (be_bytes 2 (n + count k)) s3 O2
                ltac:(rewrite be_bytes_length; reflexivity) E3)
      as (O3 & F3 & T3).
    assert (C3 : current_object s3 = current_object s2).
    { unfold current_object. rewrite O3, O2, !length_app, !be_bytes_length.
      reflexivity. }
    assert (N3 : Trailer.num_objects (trailer s3) = n + count k)
      by (rewrite T3, G3; reflexivity).
    assert (R3 : Trailer.ref_size (trailer s3) = 2)
      by (rewrite T3, G3; exact Hrs).
    pose proof (Hx s3 s4 ltac:(lia) R3 E4) as W'.
    pose proof (written_current _ _ _ W') as Cur4.
    destruct W' as (G1' & G2' & G3' & G4'). cbv zeta in G1', G2', G3', G4'.
    rewrite N3 in G1', G3', G4'.
    rewrite T3, G3, set_num_objects_twice in G3'.
    specialize (IH s4 (pre ++ be_bytes 2 n) (mid ++ be_bytes 2 (n + count k))
                  (post ++ encode n k ++ encode (n + count k) x) s').
    rewrite G1', O3 in IH. rewrite <- !app_assoc in IH.
    specialize (IH eq_refl). rewrite G3' in IH.
    cbn [set_num_objects Trailer.num_objects Trailer.ref_size] in IH.
    replace (len (pre ++ be_bytes 2 n)) with (len pre + 2) in IH
      by (rewrite len_app, len_be_bytes; lia).
    replace (len pre + 2 + 2 * Z.of_nat (length r)
             + len (mid ++ be_bytes 2 (n + count k)))
      with (len (pre ++ be_bytes 2 n ++ repeat 0 (2 * length r) ++ mid) + 2) in IH
      by (rewrite !len_app, !len_be_bytes, len_repeat; lia).
    replace (len pre + 2 * Z.of_nat (S (length r)) + len mid + 2)
      with (len (pre ++ be_bytes 2 n ++ repeat 0 (2 * length r) ++ mid) + 2) in E
      by (rewrite !len_app, !len_be_bytes, len_repeat; lia).
    specialize (IH ltac:(lia) Hrs E). cbv zeta in IH.
    destruct IH as (P1 & P2 & P3 & P4).
    rewrite P1, P2, G2', F3, G2, F1, Cur4, !C3, !Cur2, !C1.
    rewrite !map_app, <- !app_assoc.
    replace (n + count k + count x) with (n + (count k + count x)) by lia.
    replace (current_object s + size k + size x)
      with (current_object s + (size k + size x)) by lia.
    split; [reflexivity|]. split; [reflexivity|]. split; [|lia].
    rewrite P3. unfold set_num_objects.
    cbn [Trailer.offset_size Trailer.ref_size Trailer.num_objects
         Trailer.top_object Trailer.offset_table_offset].
    f_equal. lia.
Qed.

Lemma writes_list items : Forall writes items -> writes (PyList items).
Proof.
  intros Hitems s s' Hn Hrs E.
  set (n := Trailer.num_objects (trailer s)) in *.
  set (m := Z.of_nat (length items)) in *.
  assert (Hm : 0 <= m) by (subst m; lia).
  assert (G : generate_plist_object s (PyList items)
              = bind (generate_plist_object_prologue s)
                     (fun s1 => generate_array generate_plist_object s1 items))
    by reflexivity.
  rewrite G in E. clear G.
  apply bind_done_inv in E. destruct E as (s1 & E1 & E).
  destruct (prologue_inv _ _ Hn E1) as (O1 & F1 & T1 & N1). fold n in T1, N1.
  unfold generate_array, plist_type_array in E. fold m in E.
  apply bind_done_inv in E. destruct E as (s2 & E2 & E).
  apply bind_done_inv in E. destruct E as (s3 & E3 & E).
  apply bind_done_inv in E. destruct E as (s4 & E4 & E).
  pose proof (pack_type_and_length_appended s1 0xA0 m s2
                ltac:(cbn [In]; lia) Hm E2) as A2.
  pose proof (resize_appended _ _ _ E3) as A3.
  pose proof (appended_trans _ _ _ _ _ A2 A3) as A23. rewrite app_nil_r in A23.
  pose proof (emit_appended _ _ _ E4) as A4.
  pose proof (appended_trans _ _ _ _ _ A23 A4) as A24.
  assert (RS : Trailer.ref_size (trailer s2) = 2).
  { destruct A2 as (_ & _ & ->). rewrite T1. exact Hrs. }
  rewrite RS in *.
  destruct A24 as (B1 & B2 & B3).
  assert (N4 : Trailer.num_objects (trailer s4) = n + 1)
    by (rewrite B3, T1; reflexivity).
  assert (R4 : Trailer.ref_size (trailer s4) = 2)
    by (rewrite B3, T1; exact Hrs).
  pose proof (generate_array_loop_counts items Hitems s4 _ s'
                ltac:(rewrite N4; lia) R4 E) as Cn.
  rewrite N4 in Cn.
  pose proof (length_le_counts [] items) as HLC. fold m in HLC.
  rewrite (u64_small (2 * m)) in * by lia.
  assert (Obj4 : objects s4
                 = (objects s ++ type_and_length 0xA0 m)
                   ++ repeat 0 (2 * length items) ++ []).
  { rewrite B1, O1, app_nil_r, <- app_assoc. do 3 f_equal. subst m. lia. }
  assert (Off : current_object s3 = len (objects s ++ type_and_length 0xA0 m)).
  { unfold current_object, len. destruct A23 as (-> & _). rewrite O1. reflexivity. }
  rewrite Off in E.
  destruct (generate_array_loop_written items Hitems s4 _ _ s' Obj4
              ltac:(rewrite N4; lia) R4 E) as (P1 & P2 & P3 & P4).
  rewrite N4 in P1, P3, P4.
  unfold written. cbv zeta. fold n. cbn [encode offsets_of count map]. fold m.
  assert (Cur4 : current_object s4
                 = current_object s + len (type_and_length 160 m) + 2 * m).
  { unfold current_object. rewrite Obj4, !length_app, repeat_length.
    unfold len. cbn [length]. lia. }
  rewrite P1, P2, P3, B2, F1, Cur4, B3, T1.
  rewrite <- !app_assoc. cbn [app].
  split; [reflexivity|]. split; [reflexivity|]. split; [|lia].
  unfold set_num_objects.
  cbn [Trailer.offset_size Trailer.ref_size Trailer.num_objects
       Trailer.top_object Trailer.offset_table_offset].
  f_equal. lia.
Qed.

Lemma writes_dict items :
  Forall (fun kv => writes (fst kv) /\ writes (snd kv)) items ->
  writes (PyDict items).
Proof.
  intros Hitems s s' Hn Hrs E.
  set (n := Trailer.num_objects (trailer s)) in *.
  set (m := Z.of_nat (length items)) in *.
  assert (Hm : 0 <= m) by (subst m; lia).
  assert (G : generate_plist_object s (PyDict items)
              = bind (generate_plist_object_prologue s)
                     (fun s1 => generate_dict generate_plist_object s1 items))
    by reflexivity.
  rewrite G in E. clear G.
  apply bind_done_inv in E. destruct E as (s1 & E1 & E).
  destruct (prologue_inv _ _ Hn E1) as (O1 & F1 & T1 & N1). fold n in T1, N1.
  unfold generate_dict, plist_type_dict in E. fold m in E.
  apply bind_done_inv in E. destruct E as (s2 & E2 & E).
  apply bind_done_inv in E. destruct E as (s3 & E3 & E).
  apply bind_done_inv in E. destruct E as (s4 & E4 & E).
  pose proof (pack_type_and_length_appended s1 0xD0 m s2
                ltac:(cbn [In]; lia) Hm E2) as A2.
  pose proof (resize_appended _ _ _ E3) as A3.
  pose proof (appended_trans _ _ _ _ _ A2 A3) as A23. rewrite app_nil_r in A23.
  pose proof (emit_appended _ _ _ E4) as A4.
  pose proof (appended_trans _ _ _ _ _ A23 A4) as A24.
  assert (RS : Trailer.ref_size (trailer s2) = 2).
  { destruct A2 as (_ & _ & ->). rewrite T1. exact Hrs. }
  rewrite RS in *.
  destruct A24 as (B1 & B2 & B3).
  assert (N4 : Trailer.num_objects (trailer s4) = n + 1)
    by (rewrite B3, T1; reflexivity).
  assert (R4 : Trailer.ref_size (trailer s4) = 2)
    by (rewrite B3, T1; exact Hrs).
  pose proof (generate_dict_loop_counts items Hitems s4 _ _ s'
                ltac:(rewrite N4; lia) R4 E) as Cn.
  rewrite N4 in Cn.
  pose proof (length_le_entry_counts [] items) as HLC. fold m in HLC.
  rewrite (u64_small (2 * m)) in * by lia.
  rewrite (u64_small (2 * m * 2)) in * by lia.
  assert (Obj4 : objects s4
                 = (objects s ++ type_and_length 0xD0 m)
                   ++ repeat 0 (2 * length items) ++ []
                   ++ repeat 0 (2 * length items) ++ []).
  { rewrite B1, O1, app_nil_r, <- app_assoc. cbn [app]. do 2 f_equal.
    rewrite <- repeat_app. f_equal. subst m. lia. }
  assert (Off : current_object s3 = len (objects s ++ type_and_length 0xD0 m)).
  { unfold current_object, len. destruct A23 as (-> & _). rewrite O1. reflexivity. }
  rewrite Off in E.
  replace (len (objects s ++ type_and_length 208 m) + 2 * m)
    with (len (objects s ++ type_and_length 208 m)
          + 2 * Z.of_nat (length items) + len []) in E
    by (change (len []) with 0; subst m; lia).
  destruct (generate_dict_loop_written items Hitems s4 _ _ _ s' Obj4
              ltac:(rewrite N4; lia) R4 E) as (P1 & P2 & P3 & P4).
  cbv zeta in P1, P2, P3, P4. rewrite N4 in P1, P3, P4.
  unfold written. cbv zeta. fold n. cbn [encode offsets_of count map]. fold m.
  assert (Cur4 : current_object s4
                 = current_object s + len (type_and_length 208 m) + 4 * m).
  { unfold current_object. rewrite Obj4, !length_app, !repeat_length.
    unfold len. cbn [length]. lia. }
  rewrite P1, P2, P3, B2, F1, Cur4, B3, T1.
  rewrite <- !app_assoc. cbn [app].
  split; [reflexivity|]. split; [reflexivity|]. split; [|lia].
  unfold set_num_objects.
  cbn [Trailer.offset_size Trailer.ref_size Trailer.num_objects
       Trailer.top_object Trailer.offset_table_offset].
  f_equal. lia.
Qed.

(** Whenever [generate_plist_object] returns for an exchangeable value,
    it has written the value's encoding, its table entries and its
    count. *)
Lemma writes_exchangeable : forall v, exchangeable v = true -> writes v.
Proof.
  intros v. induction v as [v Hv|items IH|items IH] using pyobj_induction;
    intros Hs.
  - destruct v; try contradiction; try discriminate Hs.
    + apply writes_long; assumption.
    + apply writes_uid; assumption.
    + apply writes_float.
    + apply writes_unicode; assumption.
    + apply writes_bytes.
  - cbn [exchangeable] in Hs. apply writes_list.
    rewrite forallb_forall in Hs. rewrite Forall_forall in *.
    intros c Hc. apply IH; auto.
  - cbn [exchangeable] in Hs. apply andb_true_iff in Hs. destruct Hs as [HF _].
    apply writes_dict.
    rewrite forallb_forall in HF. rewrite Forall_forall in *.
    intros [k x] Hkx. specialize (IH _ Hkx). specialize (HF _ Hkx).
    cbn [fst snd] in *. cbv beta iota in HF.
    apply andb_true_iff in HF. destruct HF as [HF Hx].
    apply andb_true_iff in HF. destruct HF as [Hk _].
    destruct IH as [IHk IHx]. split; auto.
Qed.

Lemma size_pos_any v : exchangeable v = true -> 1 <= size v.
Proof.
  intros Hs. rewrite <- (encode_len v 0).
  destruct v as [b|z|n|bits|bits|s|bs|bs|items|items|];
    try discriminate Hs; cbn [encode].
  - pose proof (int_object_len z). lia.
  - pose proof (uid_object_len n). lia.
  - unfold len. cbn [length]. lia.
  - cbn [exchangeable] in Hs. unfold string_object.
    destruct (is_ascii s).
    + rewrite len_app. pose proof (type_and_length_len 0x50 (len s)).
      pose proof (len_nonneg s). lia.
    + destruct (utf16_units s) as [us|].
      * rewrite len_app. pose proof (type_and_length_len 0x60 (len us)).
        pose proof (len_nonneg (flat_map (be_bytes 2) us)). lia.
      * rewrite !andb_false_r in Hs. discriminate Hs.
  - rewrite len_app. pose proof (type_and_length_len 0x40 (len bs)).
    pose proof (len_nonneg bs). lia.
  - rewrite len_app.
    pose proof (type_and_length_len 0xA0 (Z.of_nat (length items))).
    match goal with |- 1 <= _ + len ?x => pose proof (len_nonneg x) end. lia.
  - rewrite len_app.
    pose proof (type_and_length_len 0xD0 (Z.of_nat (length items))).
    match goal with |- 1 <= _ + len ?x => pose proof (len_nonneg x) end. lia.
Qed.

(** Every table entry of a value points into the value's own bytes. *)
Lemma offsets_of_range_any : forall v, exchangeable v = true ->
  forall pos p, In p (offsets_of pos v) -> pos <= p < pos + size v.
Proof.
  intros v. induction v as [v Hv|items IH|items IH] using pyobj_induction;
    intros Hs pos p Hin.
  - pose proof (size_pos_any v Hs).
    destruct v; try contradiction; cbn [offsets_of In] in Hin;
      destruct Hin as [<-|[]]; lia.
  - pose proof (size_pos_any _ Hs) as Hp.
    cbn [offsets_of In size] in *. destruct Hin as [<-|Hin]; [lia|].
    cbn [exchangeable] in Hs. rewrite forallb_forall in Hs.
    pose proof (type_and_length_len 0xA0 (Z.of_nat (length items))).
    apply encode_seq_in_range in Hin; [lia|].
    rewrite Forall_forall in *. intros c Hc. split.
    + rewrite <- (encode_len c 0). apply len_nonneg.
    + intros q p'. apply IH; auto.
  - pose proof (size_pos_any _ Hs) as Hp.
    cbn [offsets_of In size] in *. destruct Hin as [<-|Hin]; [lia|].
    cbn [exchangeable] in Hs. apply andb_true_iff in Hs. destruct Hs as [HF _].
    rewrite forallb_forall in HF.
    pose proof (type_and_length_len 0xD0 (Z.of_nat (length items))).
    apply encode_seq_in_range in Hin; [lia|].
    rewrite Forall_forall in *. intros [k x] Hc.
    specialize (HF _ Hc). cbv beta iota in HF.
    apply andb_true_iff in HF. destruct HF as [HF Sx].
    apply andb_true_iff in HF. destruct HF as [Sk _].
    destruct (IH _ Hc) as [Ik Ix]. cbn [fst snd] in Ik, Ix.
    pose proof (size_pos_any k Sk). pose proof (size_pos_any x Sx).
    split; [lia|].
    intros q p' Hin'. apply in_app_or in Hin'. destruct Hin' as [Hin'|Hin'].
    + specialize (Ik Sk _ _ Hin'). lia.
    + specialize (Ix Sx _ _ Hin'). lia.
Qed.

(** Whenever [generate_plist] returns for an exchangeable value, what it
    returns is the file of the specification; the value then has fewer
    than [0xFFFF] objects and an object region that four-byte offsets
    address. *)
Lemma generate_plist_exchangeable v r :
  exchangeable v = true -> generate_plist v = Done r ->
  r = PyBytes (plist_file v) /\ count v < 65535 /\ 8 + size v <= 0xFFFFFFFF.
Proof.
  intros Hs. unfold generate_plist.
  set (s0 := {| offsets := []; offsets_len := initial_offset_table_length / 4;
                objects := bplist_header;
                objects_len := initial_objects_buffer_length;
                trailer := {| Trailer.offset_size := 4; Trailer.ref_size := 2;
                              Trailer.num_objects := 0; Trailer.top_object := 0;
                              Trailer.offset_table_offset := 0 |} |}).
  match goal with
  | |- context [emit ?s bplist_header] =>
      change (emit s bplist_header) with (Done s0)
  end.
  cbn [bind]. intros E.
  destruct (generate_plist_object s0 v) as [s1| | | | |] eqn:G; try discriminate E.
  apply bind_done_inv in E. destruct E as (s2 & E2 & E). injection E as <-.
  destruct (writes_exchangeable v Hs s0 s1 ltac:(cbn; lia) eq_refl G)
    as (G1 & G2 & G3 & G4).
  cbv zeta in G1, G2, G3, G4.
  change (objects s0) with bplist_header in G1.
  change (offsets s0) with (@nil Z) in G2. cbn [app] in G2.
  change (current_object s0) with 8 in G2.
  change (Trailer.num_objects (trailer s0)) with 0 in G1, G3, G4.
  rewrite Z.add_0_l in G3, G4.
  assert (Hcur1 : current_object s1 = len (bplist_header ++ encode 0 v)).
  { unfold current_object, len. rewrite G1. reflexivity. }
  assert (Hsz : current_object s1 = 8 + size v).
  { rewrite Hcur1, len_app, encode_len. reflexivity. }
  assert (HL : current_object s1 <= 0xFFFFFFFF).
  { destruct (Z.leb_spec (current_object s1) 0xFFFFFFFF) as [|Hbig]; [assumption|].
    exfalso. unfold generate_plist_offset_table_and_trailer in E2.
    destruct (Z.leb_spec (current_object s1) 255); [lia|].
    destruct (Z.leb_spec (current_object s1) 65535); [lia|].
    destruct (Z.leb_spec (current_object s1) 4294967295); [lia|].
    discriminate E2. }
  pose proof (count_pos v) as Hc.
  assert (N1 : Trailer.num_objects (trailer s1) = count v) by (rewrite G3; reflexivity).
  rewrite (finalizer_done s1 _ ltac:(rewrite N1; lia) HL eq_refl) in E2.
  injection E2 as <-. cbn [objects].
  split; [|split; [exact G4|lia]].
  f_equal. unfold plist_file. cbv zeta. rewrite <- Hcur1, G1.
  set (os := if current_object s1 <=? 255 then 1
             else if current_object s1 <=? 65535 then 2 else 4).
  assert (Hoff : map u32 (offsets_of 8 v) = offsets_of 8 v).
  { apply (map_u32_small _ (8 + size v)); [|lia].
    apply Forall_forall. intros p Hp.
    apply (offsets_of_range_any v Hs 8 p Hp). }
  f_equal. f_equal.
  - rewrite G2, Hoff, N1. f_equal. apply firstn_all2.
    pose proof (offsets_of_len v 8) as HOL. unfold len in HOL. lia.
  - unfold trailer_bytes, final_trailer.
    cbn [Trailer.offset_size Trailer.ref_size Trailer.num_objects
         Trailer.top_object Trailer.offset_table_offset].
    unfold SwapHostToBig64. rewrite !store_swap64, G3.
    cbn [set_num_objects Trailer.ref_size Trailer.top_object Trailer.num_objects].
    assert (Hos : u8 os = os).
    { subst os. destruct (current_object s1 <=? 255); [reflexivity|].
      destruct (current_object s1 <=? 65535); reflexivity. }
    rewrite Hos. reflexivity.
Qed.

(** ** Reading a file of any size *)

Section ParseAnySize.

Variable st : bplist_parse_state.
Variable O : list Z.
Hypothesis Hdata : data st = 0.
Hypothesis Hrefs : ref_size st = 2.
Hypothesis Htable : table_ok st O.
Hypothesis HlenO : Z.of_nat (length O) <= 65535.
Hypothesis Hsmall : data_end st < 2 ^ 40.

Lemma parses_bytes_any bs : parses st O (PyBytes bs).
Proof.
  intros n pos fuel Henc Hoff Hpos Hend Hfuel.
  cbn [encode offsets_of size count as_parsed] in *.
  destruct fuel as [|fuel]; [change (Z.of_nat 0) with 0 in Hfuel; lia|].
  apply sub_at_app in Henc. destruct Henc as [Hh Hp].
  fold (len (type_and_length 64 (len bs))) in Hp.
  pose proof (type_and_length_len 0x40 (len bs)) as HT.
  pose proof (len_nonneg bs) as HB.
  destruct (unpack_length_spec _ _ 0x40 (len bs) ltac:(cbn [In]; lia) ltac:(lia) Hh)
    as (marker & L1 & L2 & L3).
  destruct (parse_object_at st O Hdata Htable fuel n pos marker Hoff ltac:(lia) L1)
    as (_&_&_&_& P &_).
  rewrite (P L2). unfold parse_data. rewrite L3. cbn [bind].
  destruct (Z.ltb_spec (pos + len (type_and_length 64 (len bs)) + len bs)
                       (data_end st)); [|lia].
  unfold PyByteArray_FromStringAndSize. rewrite (read_span_sub O _ _ _ Hp).
  reflexivity.
Qed.

Lemma parses_unicode_any s :
  exchangeable (PyUnicode s) = true -> parses st O (PyUnicode s).
Proof.
  cbn [exchangeable]. intros H.
  intros n pos fuel Henc Hoff Hpos Hend Hfuel.
  cbn [encode offsets_of size count as_parsed] in *.
  destruct fuel as [|fuel]; [change (Z.of_nat 0) with 0 in Hfuel; lia|].
  unfold string_object in *.
  destruct (is_ascii s) eqn:A.
  - apply sub_at_app in Henc. destruct Henc as [Hh Hp].
    fold (len (type_and_length 80 (len s))) in Hp.
    rewrite len_app in Hend.
    pose proof (type_and_length_len 0x50 (len s)) as HT.
    pose proof (len_nonneg s) as HB.
    destruct (unpack_length_spec _ _ 0x50 (len s) ltac:(cbn [In]; lia) ltac:(lia) Hh)
      as (marker & L1 & L2 & L3).
    destruct (parse_object_at st O Hdata Htable fuel n pos marker Hoff ltac:(lia) L1)
      as (_&_& P &_).
    rewrite (P L2). unfold parse_ascii_string. rewrite L3. cbn [bind].
    destruct (Z.ltb_spec (pos + len (type_and_length 80 (len s)) + len s)
                         (data_end st)); [|lia].
    unfold PyUnicode_DecodeASCII. rewrite (read_span_sub O _ _ _ Hp). cbn [bind].
    rewrite (is_ascii_strict s A). reflexivity.
  - apply andb_true_iff in H. destruct H as [H Hu].
    apply andb_true_iff in H. destruct H as [_ Hcp].
    destruct (utf16_units s) as [us|] eqn:U; [|discriminate].
    destruct (utf16_round_trip s us Hcp U) as [RT RU].
    apply sub_at_app in Henc. destruct Henc as [Hh Hp].
    fold (len (type_and_length 96 (len us))) in Hp.
    rewrite len_app, flat_map_be2_len in Hend.
    pose proof (type_and_length_len 0x60 (len us)) as HT.
    pose proof (len_nonneg us) as HB.
    destruct (unpack_length_spec _ _ 0x60 (len us) ltac:(cbn [In]; lia) ltac:(lia) Hh)
      as (marker & L1 & L2 & L3).
    destruct (parse_object_at st O Hdata Htable fuel n pos marker Hoff ltac:(lia) L1)
      as (_&_&_& P &_).
    rewrite (P L2). unfold parse_utf16_string. rewrite L3. cbn [bind].
    rewrite i64_small by lia.
    destruct (Z.ltb_spec (pos + len (type_and_length 96 (len us)) + len us * 2)
                         (data_end st)); [|lia].
    unfold PyUnicode_DecodeUTF16.
    replace (len us * 2) with (len (flat_map (be_bytes 2) us))
      by (rewrite flat_map_be2_len; lia).
    rewrite (read_span_sub O _ _ _ Hp). cbn [bind].
    rewrite be_units_flat_map, RT by assumption. reflexivity.
Qed.

Lemma parses_list_any items :
  Forall (parses st O) items -> parses st O (PyList items).
Proof.
  intros Hitems n pos fuel Henc Hoff Hpos Hend Hfuel.
  cbn [encode offsets_of size count as_parsed] in *.
  set (m := Z.of_nat (length items)) in *.
  destruct fuel as [|fuel].
  { pose proof (sumZ_nonneg_counts items). change (Z.of_nat 0) with 0 in Hfuel. lia. }
  apply sub_at_app in Henc. destruct Henc as [Hh Henc].
  apply sub_at_app in Henc. destruct Henc as [Hr Hb].
  fold (len (type_and_length 160 m)) in Hr, Hb.
  fold (len (encode_seq (fun i _ => be_bytes 2 i) count items (n + 1))) in Hb.
  rewrite encode_seq_refs_len in Hb. fold m in Hb.
  apply sub_at_cons in Hoff. destruct Hoff as [Hidx Hoffs].
  pose proof (type_and_length_len 0xA0 m) as HT.
  assert (Hm : 0 <= m) by (subst m; lia).
  pose proof (length_le_counts O items) as HLC. fold m in HLC.
  assert (Ss : 0 <= sumZ (map size items)).
  { apply sumZ_nonneg. clear. induction items; cbn [map]; constructor; [|assumption].
    rewrite <- (encode_len a 0). apply len_nonneg. }
  destruct (unpack_length_spec _ _ 0xA0 m ltac:(cbn [In]; lia) ltac:(lia) Hh)
    as (marker & L1 & L2 & L3).
  destruct (parse_object_at st O Hdata Htable fuel n pos marker Hidx ltac:(lia) L1)
    as (_&_&_&_&_&_& P &_).
  rewrite (P L2). unfold parse_array. rewrite L3. cbn [bind]. rewrite Hrefs.
  rewrite (u64_small (m * 2)) by lia.
  destruct (Z.gtb_spec (pos + len (type_and_length 160 m) + m * 2) (data_end st));
    [lia|].
  unfold PyList_New.
  destruct (Z.ltb_spec m 0); [lia|].
  change (PY_SSIZE_T_MAX / 8) with 1152921504606846975.
  destruct (Z.gtb_spec m 1152921504606846975); [lia|].
  cbn [bind]. rewrite (u64_small m) by lia.
  change (parse_array_loop (parse_plist_object fuel) fuel st 0 m
            (pos + len (type_and_length 160 m)) [])
    with (parse_array_loop (parse_plist_object fuel) fuel st 0
            (0 + Z.of_nat (length items))
            (pos + len (type_and_length 160 m)) []).
  rewrite (parse_array_loop_spec st O Hrefs HlenO items Hitems (n + 1)
             (pos + len (type_and_length 160 m))
             (pos + len (type_and_length 160 m) + 2 * m) fuel 0 [] fuel);
    try assumption; try lia.
  reflexivity.
Qed.

Lemma parses_dict_any (items : list (pyobj * pyobj)) :
  Forall (fun kv => parses st O (fst kv) /\ parses st O (snd kv)) items ->
  forallb (fun '(k, x) => is_key k) items = true ->
  distinct_keys (map fst items) = true ->
  parses st O (PyDict items).
Proof.
  intros Hitems Hkeys Hdist n pos fuel Henc Hoff Hpos Hend Hfuel.
  cbn [encode offsets_of size count as_parsed] in *.
  set (m := Z.of_nat (length items)) in *.
  set (step := fun '(k, x) => count k + count x) in *.
  destruct fuel as [|fuel].
  { pose proof (length_le_entry_counts O items). fold step in H.
    change (Z.of_nat 0) with 0 in Hfuel. lia. }
  apply sub_at_app in Henc. destruct Henc as [Hh Henc].
  apply sub_at_app in Henc. destruct Henc as [Hk Henc].
  apply sub_at_app in Henc. destruct Henc as [Hv Hb].
  fold (len (type_and_length 208 m)) in Hk, Hv, Hb.
  fold (len (encode_seq (fun i _ => be_bytes 2 i) step items (n + 1))) in Hv, Hb.
  fold (len (encode_seq (fun i '(k, _) => be_bytes 2 (i + count k)) step items (n + 1))) in Hb.
  rewrite encode_seq_refs_len in Hv, Hb.
  rewrite encode_seq_val_refs_len in Hb. fold m in Hv, Hb.
  apply sub_at_cons in Hoff. destruct Hoff as [Hidx Hoffs].
  pose proof (type_and_length_len 0xD0 m) as HT.
  assert (Hm : 0 <= m) by (subst m; lia).
  pose proof (length_le_entry_counts O items) as HLC. fold m step in HLC.
  assert (Ss : 0 <= sumZ (map (fun '(k, x) => size k + size x) items)).
  { apply sumZ_nonneg. clear. induction items as [|[k x] r IH]; cbn [map]; constructor;
      [|assumption].
    rewrite <- (encode_len k 0), <- (encode_len x 0).
    pose proof (len_nonneg (encode 0 k)). pose proof (len_nonneg (encode 0 x)). lia. }
  destruct (unpack_length_spec _ _ 0xD0 m ltac:(cbn [In]; lia) ltac:(lia) Hh)
    as (marker & L1 & L2 & L3).
  destruct (parse_object_at st O Hdata Htable fuel n pos marker Hidx ltac:(lia) L1)
    as (_&_&_&_&_& P &_).
  rewrite (P L2). unfold parse_dict. rewrite L3. cbn [bind]. rewrite Hrefs.
  rewrite (u64_small m) by lia.
  rewrite (u64_small (m * 2 * 2)) by lia.
  rewrite (u64_small (m * 2)) by lia.
  destruct (Z.gtb_spec (pos + len (type_and_length 208 m) + m * 2 * 2) (data_end st));
    [lia|].
  change (parse_dict_loop (parse_plist_object fuel) fuel st 0 m
            (pos + len (type_and_length 208 m))
            (pos + len (type_and_length 208 m) + m * 2) [])
    with (parse_dict_loop (parse_plist_object fuel) fuel st 0
            (0 + Z.of_nat (length items))
            (pos + len (type_and_length 208 m))
            (pos + len (type_and_length 208 m) + m * 2) []).
  replace (pos + len (type_and_length 208 m) + m * 2)
    with (pos + len (type_and_length 208 m) + 2 * m) by lia.
  replace (pos + len (type_and_length 208 m) + 2 * m + 2 * m)
    with (pos + len (type_and_length 208 m) + 4 * m) in Hb by lia.
  rewrite (parse_dict_loop_spec st O Hrefs HlenO items Hitems (n + 1)
             (pos + len (type_and_length 208 m))
             (pos + len (type_and_length 208 m) + 2 * m)
             (pos + len (type_and_length 208 m) + 4 * m) fuel 0 [] fuel);
    try assumption; try lia.
  - reflexivity.
  - fold step. lia.
  - intros e kv [].
Qed.

(** The parser reads back every exchangeable value, wherever its
    encoding and its table entries are found. *)
Lemma parses_exchangeable v : exchangeable v = true -> parses st O v.
Proof.
  induction v as [v Hv|items IH|items IH] using pyobj_induction; intros S.
  - destruct v; try contradiction; try discriminate S.
    + apply (parses_long st O Hdata Htable). exact S.
    + apply (parses_uid st O Hdata Htable). exact S.
    + apply (parses_float st O Hdata Htable). exact S.
    + apply parses_unicode_any. exact S.
    + apply parses_bytes_any.
  - cbn [exchangeable] in S. apply parses_list_any.
    rewrite forallb_forall in S. rewrite Forall_forall in *.
    intros x Hx. apply IH; auto.
  - cbn [exchangeable] in S. apply andb_true_iff in S. destruct S as [S2 S3].
    rewrite forallb_forall in S2.
    apply parses_dict_any; [| |exact S3].
    + rewrite Forall_forall in *. intros [k x] Hx. cbn [fst snd].
      specialize (S2 _ Hx). cbv beta iota in S2.
      apply andb_true_iff in S2. destruct S2 as [S2 Sx].
      apply andb_true_iff in S2. destruct S2 as [Sk Kk].
      destruct (IH _ Hx) as [Ik Ix]. split; auto.
    + apply forallb_forall. intros [k x] Hx. specialize (S2 _ Hx). cbv beta iota in S2.
      apply andb_true_iff in S2. destruct S2 as [S2 Sx].
      apply andb_true_iff in S2. destruct S2 as [Sk Kk]. exact Kk.
Qed.

End ParseAnySize.

(** [parse_plist] reads back the file of an exchangeable value of any
    size that four-byte offsets and two-byte references can address. *)
Lemma parse_plist_file_any v fuel :
  exchangeable v = true -> count v < 65535 -> 8 + size v <= 0xFFFFFFFF ->
  count v <= Z.of_nat fuel ->
  parse_plist fuel (PyBytes (plist_file v)) = Done (as_parsed v).
Proof.
  intros Hs Hc HB Hfuel.
  pose proof (count_pos v) as Hcp.
  pose proof (size_pos_any v Hs) as Hsp.
  pose proof (offsets_of_len v 8) as HOL.
  unfold parse_plist. cbn [PyBytes_AsStringAndSize bind].
  pose proof (sub_at_self (plist_file v)) as HF.
  unfold plist_file in HF at 2. cbv zeta in HF.
  set (R := bplist_header ++ encode 0 v) in *.
  assert (HR : len R = 8 + size v).
  { subst R. rewrite len_app, encode_len. reflexivity. }
  set (os := if len R <=? 255 then 1 else if len R <=? 65535 then 2 else 4) in *.
  assert (Hos : In os [1; 2; 4] /\ len R < 256 ^ os).
  { subst os. cbn [In]. destruct (Z.leb_spec (len R) 255); [split; [auto|lia]|].
    destruct (Z.leb_spec (len R) 65535); [split; [auto|lia]|]. split; [auto|].
    change (256 ^ 4) with 4294967296. lia. }
  destruct Hos as [Hos Hlt].
  set (T := flat_map (be_bytes (Z.to_nat os)) (offsets_of 8 v)) in *.
  assert (HT : len T = os * count v).
  { subst T. unfold len. rewrite flat_map_be_bytes_len.
    fold (len (offsets_of 8 v)). rewrite HOL.
    cbn [In] in Hos. destruct Hos as [<-|[<-|[<-|[]]]]; reflexivity. }
  assert (Hos' : 1 <= os <= 4) by (cbn [In] in Hos; lia).
  assert (HTp : 1 <= len T) by nia.
  assert (HTq : len T <= 4 * 65535) by nia.
  destruct (sub_at_app _ _ _ _ HF) as [FR F1]. fold (len R) in F1.
  rewrite Z.add_0_l in F1.
  destruct (sub_at_app _ _ _ _ F1) as [FT F2]. fold (len T) in F2.
  destruct (sub_at_app _ _ _ _ F2) as [_ F3].
  change (Z.of_nat (length (repeat 0 6))) with 6 in F3.
  destruct (sub_at_cons _ _ _ _ F3) as [Fos F4].
  destruct (sub_at_cons _ _ _ _ F4) as [Frs F5].
  destruct (sub_at_app _ _ _ _ F5) as [Fn F6].
  rewrite be_bytes_length in F6.
  destruct (sub_at_app _ _ _ _ F6) as [Ftop Foto].
  rewrite be_bytes_length in Foto.
  change (Z.of_nat 8) with 8 in *.
  replace (len R + len T + 6 + 1) with (len R + len T + 7) in * by lia.
  replace (len R + len T + 7 + 1) with (len R + len T + 8) in * by lia.
  replace (len R + len T + 8 + 8) with (len R + len T + 16) in * by lia.
  replace (len R + len T + 16 + 8) with (len R + len T + 24) in * by lia.
  pose proof (sub_at_bound _ _ _ Foto) as Hlen.
  rewrite be_bytes_length in Hlen. change (Z.of_nat 8) with 8 in Hlen.
  assert (Hlen' : Z.of_nat (length (plist_file v)) = len R + len T + 32).
  { unfold plist_file. cbv zeta. fold R. fold os. fold T.
    rewrite !length_app.
    rewrite !be_bytes_length. cbn [length repeat]. unfold len. lia. }
  assert (Hhead : firstn 8 (plist_file v) = bplist_header).
  { unfold plist_file. cbv zeta. fold R. subst R. rewrite <- !app_assoc.
    apply (firstn_exact bplist_header). }
  rewrite Hhead.
  destruct (list_eq_dec Z.eq_dec bplist_header bplist_header) as [_|N];
    [|contradiction N; reflexivity].
  cbn [negb].
  change (bplist_header_length + Trailer.sizeof) with 40.
  destruct (Z.ltb_spec (Z.of_nat (length (plist_file v))) 40); [lia|].
  rewrite Hlen'. change Trailer.sizeof with 32.
  replace (0 + (len R + len T + 32) - 32) with (len R + len T) by lia.
  rewrite (sub_at_load _ _ 1%nat _ Fos eq_refl).
  rewrite (sub_at_load _ _ 1%nat _ Frs eq_refl).
  cbn [bind].
  destruct (load_be8 _ _ (count v) ltac:(lia) Fn) as (rn & -> & En).
  destruct (load_be8 _ _ 0 ltac:(lia) Ftop) as (rt & -> & Et).
  destruct (load_be8 _ _ (len R) ltac:(lia) Foto) as (ro & -> & Eo).
  cbn [bind offset_size ref_size offset_table data_end].
  rewrite En, Et, Eo.
  assert (Ev1 : le_value [os] = os).
  { cbn [In] in Hos. destruct Hos as [<-|[<-|[<-|[]]]]; reflexivity. }
  rewrite Ev1. change (le_value [2]) with 2.
  assert (Ew : check_int_width os true = Done tt).
  { cbn [In] in Hos. destruct Hos as [<-|[<-|[<-|[]]]]; reflexivity. }
  rewrite Ew. change (check_int_width 2 false) with (Done tt). cbn [bind].
  rewrite Z.add_0_l.
  destruct (Z.gtb_spec (len R) (len R + len T)); [lia|].
  set (st := {| mem := plist_file v; data := 0; data_end := len R + len T;
                ref_size := 2; offset_size := os; object_count := count v;
                offset_table := len R |}).
  assert (Hsm : data_end st < 2 ^ 40) by (unfold st; cbn [data_end]; lia).
  assert (Htab : table_ok st (offsets_of 8 v)); [|
    assert (HlO : Z.of_nat (length (offsets_of 8 v)) <= 65535);
    [|apply (parses_exchangeable st (offsets_of 8 v) eq_refl eq_refl Htab HlO Hsm
               v Hs 0 8)]].
  - intros idx p Hidx. unfold entry_in_window, st.
    cbn [mem offset_size offset_table data data_end].
    pose proof (sub_at_nonneg _ _ _ Hidx) as I0.
    pose proof (sub_at_bound _ _ _ Hidx) as I1.
    fold (len (offsets_of 8 v)) in I1. rewrite HOL in I1.
    change (Z.of_nat (length [p])) with 1 in I1.
    rewrite (u64_small (idx * os)) by nia.
    split.
    + nia.
    + pose proof (offsets_of_range_any v Hs 8 p (sub_at_in _ _ _ Hidx)) as Hp.
      apply unpack_uint_be.
      * cbn [In] in *. lia.
      * lia.
      * apply (sub_at_inside _ _ _ _ _ FT).
        replace os with (Z.of_nat (Z.to_nat os)) at 1 by lia.
        apply table_entry. exact Hidx.
  - fold (len (offsets_of 8 v)). rewrite HOL. lia.
  - apply (sub_at_inside _ 0 R 8 _ FR). subst R.
    exists bplist_header, []. rewrite app_nil_r. split; reflexivity.
  - apply sub_at_self.
  - lia.
  - unfold st. cbn [data_end]. lia.
  - exact Hfuel.
Qed.

(** X18.  The round trip without the size limits of C1: whenever
    [generate] returns for a value of the types and ranges both
    directions agree on (however long its payloads and containers are),
    what it returns is the file of the specification, and [parse] reads
    that file back as the value, a [bytes] object coming back as the
    [bytearray] of the same content.  So a value that is too large is
    never written wrongly: either a buffer is overrun or the object
    limit is hit, or the file is right. *)
Theorem X18_round_trip_whenever_generate_returns (v out : pyobj) (fuel : nat) :
  exchangeable v = true ->
  generate_plist v = Done out ->
  count v <= Z.of_nat fuel ->
  out = PyBytes (plist_file v) /\ parse_plist fuel out = Done (as_parsed v).
Proof.
  intros Hs E Hfuel.
  destruct (generate_plist_exchangeable v out Hs E) as (-> & Hc & Hsz).
  split; [reflexivity|].
  apply parse_plist_file_any; assumption.
Qed.

(** A list holding a data object of 5000 bytes, more than [supported]
    allows: the buffer is doubled once, which is enough. *)
Lemma X18_round_trip_whenever_generate_returns_witness :
  let v := PyList [PyBytes (repeat 7 (Z.to_nat 5000)); PyLong (-1)] in
  supported v = false
  /\ generate_plist v = Done (PyBytes (plist_file v))
  /\ parse_plist 3 (PyBytes (plist_file v)) = Done (as_parsed v).
Proof.
  intros v. split; [vm_compute; reflexivity|].
  split; [vm_compute; reflexivity|].
  apply (X18_round_trip_whenever_generate_returns v (PyBytes (plist_file v)) 3);
    [vm_compute; reflexivity | vm_compute; reflexivity
     | vm_compute; intros H; discriminate H].
Defined.

(** X19.  The parser has no size limit of its own: the file of the
    specification for any value of the agreed types and ranges, with
    fewer than [0xFFFF] objects and an object region of less than 4 GiB,
    is read back as the value, whether or not [generate] is able to
    write that file. *)
Theorem X19_parse_plist_reads_files_of_any_size (v : pyobj) (fuel : nat) :
  exchangeable v = true -> count v < 65535 -> 8 + size v <= 0xFFFFFFFF ->
  count v <= Z.of_nat fuel ->
  parse_plist fuel (PyBytes (plist_file v)) = Done (as_parsed v).
Proof. apply parse_plist_file_any. Qed.

(** A data object of 9000 bytes, which [generate] cannot write (its
    buffer of 4096 bytes is doubled only once). *)
Lemma X19_parse_plist_reads_files_of_any_size_witness :
  let v := PyBytes (repeat 1 (Z.to_nat 9000)) in
  generate_plist v = Fault
  /\ parse_plist 1 (PyBytes (plist_file v)) = Done (as_parsed v).
Proof.
  intros v. split; [vm_compute; reflexivity|].
  apply (X19_parse_plist_reads_files_of_any_size v 1);
    vm_compute; try reflexivity; intros H; discriminate H.
Defined.

(** ** Strings without an encoding *)

Lemma forallb_ascii_max s :
  forallb (fun c => c <? 128) s = true -> max_code_point s < 128.
Proof.
  unfold max_code_point. induction s as [|c r IH]; cbn [forallb fold_right].
  - lia.
  - intros H. apply andb_true_iff in H. destruct H as [Hc Hr].
    apply Z.ltb_lt in Hc. specialize (IH Hr). lia.
Qed.

Lemma utf16_units_no_surrogate s us :
  utf16_units s = Some us -> has_surrogate s = false.
Proof.
  unfold has_surrogate. revert us.
  induction s as [|c r IH]; intros us H; cbn [utf16_units existsb] in *;
    [reflexivity|].
  destruct (utf16_units r) as [us'|]; [|discriminate H].
  destruct (is_high_surrogate c || is_low_surrogate c); [discriminate H|].
  rewrite (IH us' eq_refl). reflexivity.
Qed.

(** What [generate_string] does with a string that has no encoding. *)
Lemma generate_string_refused state s :
  refused_string s = true ->
  generate_string state (PyUnicode s) = Raise UnicodeEncodeError.
Proof.
  unfold refused_string, generate_string. cbn [PyUnicode_KIND]. intros H.
  apply orb_true_iff in H. destruct H as [H|H];
    apply andb_true_iff in H; destruct H as [H1 H2]; apply Z.leb_le in H1.
  - apply Z.leb_le in H2.
    destruct (Z.ltb_spec (max_code_point s) 256); [|lia].
    unfold generate_ascii. cbn [PyUnicode_AsASCIIString].
    destruct (forallb (fun c => c <? 128) s) eqn:A; [|reflexivity].
    pose proof (forallb_ascii_max s A). lia.
  - destruct (Z.ltb_spec (max_code_point s) 256); [lia|].
    assert (U : utf16_units s = None).
    { destruct (utf16_units s) as [us|] eqn:U; [|reflexivity].
      rewrite (utf16_units_no_surrogate s us U) in H2. discriminate H2. }
    destruct (max_code_point s <? 65536);
      unfold generate_utf16; cbn [utf16be_encode]; rewrite U; reflexivity.
Qed.

Lemma generate_array_loop_encodes items :
  Forall encodes_strings items ->
  forall state ref_sz offset state',
    generate_array_loop generate_plist_object state ref_sz offset items = Done state' ->
    existsb holds_refused_string items = false.
Proof.
  induction 1 as [|c r Hc Hr IH]; intros state ref_sz offset state' E;
    cbn [generate_array_loop existsb] in *; [reflexivity|].
  apply bind_done_inv in E. destruct E as (bs & _ & E).
  apply bind_done_inv in E. destruct E as (sa & _ & E).
  apply bind_done_inv in E. destruct E as (sb & Eb & E).
  rewrite (Hc _ _ Eb), (IH _ _ _ _ E). reflexivity.
Qed.

Lemma generate_dict_loop_encodes items :
  Forall (fun kv => encodes_strings (fst kv) /\ encodes_strings (snd kv)) items ->
  forall state ref_sz key_offset val_offset state',
    generate_dict_loop generate_plist_object state ref_sz key_offset val_offset items
    = Done state' ->
    existsb (fun '(k, x) => holds_refused_string k || holds_refused_string x) items
    = false.
Proof.
  induction 1 as [|[k x] r [Hk Hx] Hr IH];
    intros state ref_sz key_offset val_offset state' E;
    cbn [generate_dict_loop existsb] in *; [reflexivity|].
  cbn [fst snd] in Hk, Hx.
  apply bind_done_inv in E. destruct E as (bs & _ & E).
  apply bind_done_inv in E. destruct E as (sa & _ & E).
  apply bind_done_inv in E. destruct E as (sb & Eb & E).
  apply bind_done_inv in E. destruct E as (bs' & _ & E).
  apply bind_done_inv in E. destruct E as (sc & _ & E).
  apply bind_done_inv in E. destruct E as (sd & Ed & E).
  rewrite (Hk _ _ Eb), (Hx _ _ Ed), (IH _ _ _ _ _ E). reflexivity.
Qed.

Lemma encodes_strings_all : forall v, encodes_strings v.
Proof.
  intros v. induction v as [v Hv|items IH|items IH] using pyobj_induction.
  - intros state state' E.
    destruct v as [b|z|n|bits|bits|str|bs|bs|items|items|]; try contradiction;
      try reflexivity.
    assert (G : generate_plist_object state (PyUnicode str)
                = bind (generate_plist_object_prologue state)
                       (fun s1 => generate_string s1 (PyUnicode str))) by reflexivity.
    rewrite G in E. apply bind_done_inv in E. destruct E as (s1 & _ & E).
    cbn [holds_refused_string].
    destruct (refused_string str) eqn:R; [|reflexivity].
    rewrite (generate_string_refused s1 str R) in E. discriminate E.
  - intros state state' E.
    assert (G : generate_plist_object state (PyList items)
                = bind (generate_plist_object_prologue state)
                       (fun s1 => generate_array generate_plist_object s1 items))
      by reflexivity.
    rewrite G in E. clear G.
    apply bind_done_inv in E. destruct E as (s1 & _ & E).
    unfold generate_array in E.
    apply bind_done_inv in E. destruct E as (s2 & _ & E).
    apply bind_done_inv in E. destruct E as (s3 & _ & E).
    apply bind_done_inv in E. destruct E as (s4 & _ & E).
    cbn [holds_refused_string].
    eapply generate_array_loop_encodes; eassumption.
  - intros state state' E.
    assert (G : generate_plist_object state (PyDict items)
                = bind (generate_plist_object_prologue state)
                       (fun s1 => generate_dict generate_plist_object s1 items))
      by reflexivity.
    rewrite G in E. clear G.
    apply bind_done_inv in E. destruct E as (s1 & _ & E).
    unfold generate_dict in E.
    apply bind_done_inv in E. destruct E as (s2 & _ & E).
    apply bind_done_inv in E. destruct E as (s3 & _ & E).
    apply bind_done_inv in E. destruct E as (s4 & _ & E).
    cbn [holds_refused_string].
    eapply generate_dict_loop_encodes; eassumption.
Qed.

(** X20: strings [generate] cannot write.  A string whose highest code
    point is in 0x80-0xFF (any text with Latin-1 letters and nothing
    beyond them) has the one-byte kind and goes to the strict ASCII
    encoder; a string of a wider kind with a surrogate code point goes
    to the strict UTF-16 encoder.  At the top both raise
    [UnicodeEncodeError]; with such a string anywhere inside lists and
    dicts, [generate] returns no file. *)
Theorem X20_strings_without_encoding (s : list Z) (v : pyobj) :
  (refused_string s = true ->
   generate_plist (PyUnicode s) = Raise UnicodeEncodeError)
  /\ (holds_refused_string v = true -> is_done (generate_plist v) = false).
Proof.
  split.
  - intros R. unfold generate_plist.
    match goal with
    | |- context [emit ?s bplist_header] =>
        set (e := emit s bplist_header); vm_compute in e; subst e
    end.
    cbn [bind].
    match goal with
    | |- context [generate_plist_object ?s0 (PyUnicode s)] =>
        change (generate_plist_object s0 (PyUnicode s))
          with (bind (generate_plist_object_prologue s0)
                     (fun s1 => generate_string s1 (PyUnicode s)));
        set (p := generate_plist_object_prologue s0); vm_compute in p; subst p
    end.
    cbn [bind]. rewrite (generate_string_refused _ s R). reflexivity.
  - intros Hs. unfold generate_plist.
    match goal with
    | |- context [emit ?s bplist_header] =>
        destruct (emit s bplist_header) as [s0| | | | |]; try reflexivity
    end.
    cbn [bind].
    destruct (generate_plist_object s0 v) as [s1| | | | |] eqn:G; try reflexivity.
    rewrite (encodes_strings_all v _ _ G) in Hs. discriminate Hs.
Qed.

(** The string [café] at the top, a lone surrogate next to a code point
    above [0xFF], and [café] as a dict key inside a list. *)
Lemma X20_strings_without_encoding_witness :
  generate_plist (PyUnicode [0x63; 0x61; 0x66; 0xE9]) = Raise UnicodeEncodeError
  /\ generate_plist (PyUnicode [0x107; 0xD800]) = Raise UnicodeEncodeError
  /\ is_done (generate_plist
                (PyList [PyLong 1;
                         PyDict [(PyUnicode [0x63; 0x61; 0x66; 0xE9], PyLong 2)]]))
     = false.
Proof.
  split; [|split].
  - apply (X20_strings_without_encoding [0x63; 0x61; 0x66; 0xE9] PyNone).
    reflexivity.
  - apply (X20_strings_without_encoding [0x107; 0xD800] PyNone). reflexivity.
  - apply (X20_strings_without_encoding []
             (PyList [PyLong 1;
                      PyDict [(PyUnicode [0x63; 0x61; 0x66; 0xE9], PyLong 2)]])).
    reflexivity.
Defined.

(** ** What the parser can build *)

Lemma shaped_bind {A} (m : outcome A) (f : A -> outcome pyobj) :
  (forall a, m = Done a -> shaped (f a)) -> shaped (bind m f).
Proof.
  intros H v E. apply bind_done_inv in E. destruct E as (a & Ea & E).
  exact (H a Ea v E).
Qed.

Lemma shaped_done v : parse_result v = true -> shaped (Done v).
Proof. intros H w E. injection E as <-. exact H. Qed.

Lemma shaped_raise e : shaped (Raise e).
Proof. intros v E. discriminate E. Qed.

Lemma i64_range x : - 2 ^ 63 <= i64 x < 2 ^ 63.
Proof.
  unfold i64. pose proof (Z.mod_pos_bound x (2 ^ 64) ltac:(lia)).
  cbv zeta. destruct (Z.ltb_spec (x mod 2 ^ 64) (2 ^ 63)); lia.
Qed.

Lemma u64_range x : 0 <= u64 x < 2 ^ 64.
Proof. unfold u64. apply Z.mod_pos_bound. lia. Qed.

Lemma unpack_int_range mem w p x :
  unpack_int mem w p = Done x -> - 2 ^ 63 <= x < 2 ^ 63.
Proof.
  unfold unpack_int. intros E.
  repeat match type of E with
         | (if ?c then _ else _) = _ => destruct c
         end;
    apply bind_done_inv in E; destruct E as (y & _ & E); injection E as <-;
    apply i64_range.
Qed.

Lemma unpack_uint_range mem w p x :
  unpack_uint mem w p = Done x -> 0 <= x < 2 ^ 64.
Proof.
  unfold unpack_uint. intros E.
  repeat match type of E with
         | (if ?c then _ else _) = _ => destruct c
         end;
    apply bind_done_inv in E; destruct E as (y & _ & E); injection E as <-;
    apply u64_range.
Qed.

Lemma parse_int_shaped mem type object : shaped (parse_int mem type object).
Proof.
  unfold parse_int. apply shaped_bind. intros x Ex. apply shaped_done.
  pose proof (unpack_int_range _ _ _ _ Ex). cbn [parse_result].
  apply andb_true_iff. split; [apply Z.leb_le|apply Z.ltb_lt]; lia.
Qed.

Lemma parse_uid_shaped mem type object : shaped (parse_uid mem type object).
Proof.
  unfold parse_uid. apply shaped_bind. intros x Ex. apply shaped_done.
  pose proof (unpack_uint_range _ _ _ _ Ex). cbn [parse_result].
  apply andb_true_iff. split; [apply Z.leb_le|apply Z.ltb_lt]; lia.
Qed.

Lemma parse_string_shaped mem type object object_end :
  shaped (parse_ascii_string mem type object object_end)
  /\ shaped (parse_utf16_string mem type object object_end)
  /\ shaped (parse_data mem type object object_end).
Proof.
  split; [|split].
  - unfold parse_ascii_string. apply shaped_bind. intros [l q] _.
    destruct (_ <? _); [|apply shaped_raise].
    unfold PyUnicode_DecodeASCII. apply shaped_bind. intros bs _.
    destruct (forallb _ bs); [apply shaped_done; reflexivity|apply shaped_raise].
  - unfold parse_utf16_string. apply shaped_bind. intros [l q] _. cbv zeta.
    destruct (_ <? _); [|apply shaped_raise].
    unfold PyUnicode_DecodeUTF16. apply shaped_bind. intros bs _.
    destruct (utf16_code_points _); [apply shaped_done; reflexivity|apply shaped_raise].
  - unfold parse_data. apply shaped_bind. intros [l q] _.
    destruct (_ <? _); [|apply shaped_raise].
    unfold PyByteArray_FromStringAndSize. apply shaped_bind. intros bs _.
    apply shaped_done. reflexivity.
Qed.

Lemma parse_array_loop_shaped (callee : bplist_parse_state -> Z -> outcome pyobj) st :
  (forall idx, shaped (callee st idx)) ->
  forall n i length object lst res,
    forallb parse_result lst = true ->
    parse_array_loop callee n st i length object lst = Done res ->
    forallb parse_result res = true.
Proof.
  intros Hc. induction n as [|n IH]; intros i length object lst res Hl E;
    cbn [parse_array_loop] in E; destruct (i <? length).
  - discriminate E.
  - injection E as <-. exact Hl.
  - apply bind_done_inv in E. destruct E as (idx & _ & E).
    apply bind_done_inv in E. destruct E as (item & Ei & E).
    assert (Hl' : forallb parse_result (lst ++ [item]) = true).
    { rewrite forallb_app, Hl. cbn [forallb]. rewrite (Hc _ _ Ei). reflexivity. }
    exact (IH _ _ _ _ _ Hl' E).
  - injection E as <-. exact Hl.
Qed.

Lemma dict_set_shaped d k v :
  forallb (fun '(k, x) => hashable k && parse_result k && parse_result x) d = true ->
  hashable k = true -> parse_result k = true -> parse_result v = true ->
  forallb (fun '(k, x) => hashable k && parse_result k && parse_result x)
    (dict_set d k v) = true.
Proof.
  intros Hd Hh Hk Hv. induction d as [|[k' x] r IH]; cbn [dict_set forallb] in *.
  - rewrite Hh, Hk, Hv. reflexivity.
  - apply andb_true_iff in Hd. destruct Hd as [H1 H2].
    apply andb_true_iff in H1. destruct H1 as [H1 Hx].
    destruct (key_eqb k' k); cbn [forallb].
    + rewrite H1, Hv, H2. reflexivity.
    + rewrite H1, Hx, (IH H2). reflexivity.
Qed.

Lemma parse_dict_loop_shaped (callee : bplist_parse_state -> Z -> outcome pyobj) st :
  (forall idx, shaped (callee st idx)) ->
  forall n i length key_object val_object dict res,
    forallb (fun '(k, x) => hashable k && parse_result k && parse_result x) dict = true ->
    parse_dict_loop callee n st i length key_object val_object dict = Done res ->
    forallb (fun '(k, x) => hashable k && parse_result k && parse_result x) res = true.
Proof.
  intros Hc. induction n as [|n IH];
    intros i length key_object val_object dict res Hd E;
    cbn [parse_dict_loop] in E; destruct (i <? length).
  - discriminate E.
  - injection E as <-. exact Hd.
  - apply bind_done_inv in E. destruct E as (kidx & _ & E).
    apply bind_done_inv in E. destruct E as (vidx & _ & E).
    destruct (callee st kidx) as [key_obj|e| | | |] eqn:Ek; try discriminate E.
    + apply bind_done_inv in E. destruct E as (val_obj & Ev & E).
      apply bind_done_inv in E. destruct E as (dict' & Es & E).
      unfold PyDict_SetItem in Es.
      destruct (hashable key_obj) eqn:Hh; [|discriminate Es].
      injection Es as <-.
      apply (IH _ _ _ _ _ _
               (dict_set_shaped dict key_obj val_obj Hd Hh (Hc _ _ Ek) (Hc _ _ Ev)) E).
    + apply bind_done_inv in E. destruct E as (x & _ & E). discriminate E.
  - injection E as <-. exact Hd.
Qed.

Lemma parse_plist_object_shaped fuel : forall state object_index,
  shaped (parse_plist_object fuel state object_index).
Proof.
  induction fuel as [|fuel IH]; intros state object_index;
    [intros v E; discriminate E|].
  cbn [parse_plist_object]. unfold parse_plist_object_body. cbv zeta.
  destruct (_ || _); [apply shaped_raise|].
  apply shaped_bind. intros off _.
  destruct (_ || _); [apply shaped_raise|].
  apply shaped_bind. intros marker _.
  destruct (parse_string_shaped (mem state) marker (data state + off + 1)
              (data_end state)) as (Sa & Su & Sd).
  destruct (_ =? plist_type_int); [apply parse_int_shaped|].
  destruct (_ =? plist_type_uid); [apply parse_uid_shaped|].
  destruct (_ =? plist_type_ascii_string); [exact Sa|].
  destruct (_ =? plist_type_utf16_string); [exact Su|].
  destruct (_ =? plist_type_data); [exact Sd|].
  destruct (_ =? plist_type_dict).
  { unfold parse_dict. apply shaped_bind. intros [l q] _. cbv zeta.
    destruct (_ >? _); [apply shaped_raise|].
    apply shaped_bind. intros d Ed. apply shaped_done. cbn [parse_result].
    exact (parse_dict_loop_shaped (parse_plist_object fuel) state
             (fun idx => IH state idx) _ _ _ _ _ [] d eq_refl Ed). }
  destruct (_ =? plist_type_array).
  { unfold parse_array. apply shaped_bind. intros [l q] _. cbv zeta.
    destruct (_ >? _); [apply shaped_raise|].
    apply shaped_bind. intros l0 E0.
    apply shaped_bind. intros lst El. apply shaped_done. cbn [parse_result].
    assert (l0 = []) as ->.
    { unfold PyList_New in E0. destruct (_ <? _); [discriminate E0|].
      destruct (_ >? _); [discriminate E0|]. injection E0 as <-. reflexivity. }
    exact (parse_array_loop_shaped (parse_plist_object fuel) state
             (fun idx => IH state idx) _ _ _ _ [] lst eq_refl El). }
  destruct (_ =? plist_type_primitive).
  { destruct (_ =? plist_type_false); [apply shaped_done; reflexivity|].
    destruct (_ =? plist_type_true); [apply shaped_done; reflexivity|].
    apply shaped_raise. }
  destruct (_ =? plist_type_float).
  { destruct (_ =? 35).
    { unfold parse_float64. apply shaped_bind. intros x _.
      apply shaped_done. reflexivity. }
    destruct (_ =? 34).
    { unfold parse_float32. apply shaped_bind. intros x _.
      apply shaped_done. reflexivity. }
    apply shaped_raise. }
  destruct (_ =? plist_type_date).
  { unfold parse_date. apply shaped_bind. intros x _. cbv zeta.
    apply shaped_done. reflexivity. }
  apply shaped_raise.
Qed.

(** X21: what [parse] can return.  Whatever the input, a value [parse]
    returns is built from [bool], 64-bit signed [int], 64-bit unsigned
    [uid], [float], [timestamp], [str], [bytearray], [list] and [dict]
    with hashable keys: a data object never comes back as [bytes] (so it
    can never be a dict key), and nothing comes back as [None]. *)
Theorem X21_parse_results (fuel : nat) (plist_data v : pyobj) :
  parse_plist fuel plist_data = Done v -> parse_result v = true.
Proof.
  unfold parse_plist. intros E.
  apply bind_done_inv in E. destruct E as (signed_data & _ & E).
  destruct (negb _); [discriminate E|].
  destruct (_ <? _); [discriminate E|].
  cbv zeta in E.
  apply bind_done_inv in E. destruct E as (t1 & _ & E).
  apply bind_done_inv in E. destruct E as (t2 & _ & E).
  apply bind_done_inv in E. destruct E as (t3 & _ & E).
  apply bind_done_inv in E. destruct E as (t4 & _ & E).
  apply bind_done_inv in E. destruct E as (t5 & _ & E).
  apply bind_done_inv in E. destruct E as (u1 & _ & E).
  apply bind_done_inv in E. destruct E as (u2 & _ & E).
  destruct (_ >? _); [discriminate E|].
  exact (parse_plist_object_shaped _ _ _ _ E).
Qed.

(** A file with a dict whose key is a string and whose value is a data
    object: the data comes back as a [bytearray]. *)
Lemma X21_parse_results_witness :
  let file := bplist_header
              ++ [0xD1; 0; 1; 0; 2; 0x51; 0x6B; 0x42; 1; 2]
              ++ [8; 13; 15]
              ++ [0; 0; 0; 0; 0; 0; 1; 2]
              ++ be_bytes 8 3 ++ be_bytes 8 0 ++ be_bytes 8 18 in
  parse_plist 2 (PyBytes file) = Done (PyDict [(PyUnicode [0x6B], PyByteArray [1; 2])])
  /\ parse_result (PyDict [(PyUnicode [0x6B], PyByteArray [1; 2])]) = true.
Proof.
  intros file.
  assert (E : parse_plist 2 (PyBytes file)
              = Done (PyDict [(PyUnicode [0x6B], PyByteArray [1; 2])]))
    by (vm_compute; reflexivity).
  split; [exact E|].
  exact (X21_parse_results 2 (PyBytes file) _ E).
Defined.
